(** * Kanrikaikei_System: the financial projection engine of [src/utils.ts]

    A shallow embedding of the revenue, cost and cash-flow functions of
    [src/utils.ts] (with the entity shapes of [src/types.ts]) and the
    properties of its specification.

    Modelling conventions.
    - A number of the program is an IEEE 754 double.  It is kept as the
      rational it denotes ([Q]); what an arithmetic operation of the code
      returns on fractions is the exact result rounded to the nearest double,
      ties to even ([round64], which agrees with the binary64 operations of
      the kernel on the samples of [round64_agrees_with_binary64]).
      Overflow to an infinity, [NaN] and the sign of zero are outside the
      model: magnitudes stay below [2^1024].
    - Money amounts (JPY) are whole numbers; they are kept as integers ([Z])
      and their sums, differences, integer quotients and remainders are
      computed on integers, which is what the doubles yield up to
      [Number.MAX_SAFE_INTEGER] ([round64_Z], [floor_fdiv_exact]).  Rates
      and hours, which the forms can make fractional, are doubles.
    - A JavaScript [Date] is a calendar day plus a time of day; it is kept
      as the month index [getFullYear*12 + getMonth], the day of the month
      and the milliseconds since local midnight.  Comparing two dates
      compares these lexicographically, which is the order of their time
      stamps (the dates that the code compares are a day or more apart or
      in the same day, and the offset from UTC varies by less than a day).
      The difference of two time stamps ([getTime]) does depend on the
      offset from UTC: [getTimezoneOffset] is a variable of the section of
      the durations.  The [Date] constructor's remapping of the years 0..99
      to 1900..1999 is outside the model.
    - A ["YYYY-MM-DD"] string is kept as the three numbers that
      [split('-').map(Number)] yields, a ["YYYY-MM"] string as two; the
      empty (falsy) string is [None].
    - The wall clock read by [new Date()] is the section variable [now].

    Beside the engine, the development covers the pure parts of the
    components that call it: the period selection and the breakdown of the
    dashboard, the metrics of the project analysis, the monthly tables of the
    employee and project editors, the number input, the state updates of
    [src/context/AppContext.tsx] and the weeks of a term.
    - An array is a list; a [for] or [forEach] loop is a fold over its
      indices or elements; a [while] loop takes fuel and returns [None] when
      it runs out, and is proved to end with the fuel it is given.
    - [Array.prototype.sort] is a stable sort; [generateId] is random, and
      the identifier it draws is an argument.
    - A string that is scanned by code unit is the list of its UTF-16 code
      units.
    - [toISOString] reads the time zone; its offset from UTC is a variable,
      constant over a term (no daylight saving time). *)

From stdpp Require Import base strings gmap list pretty.
From Stdlib Require Import ZArith QArith Qround Qabs Qpower Qreduction.
From Stdlib Require Import Lia Lqa Sorted.
From Stdlib Require Qcanon.
From Corelib Require PrimFloat FloatOps SpecFloat.

Local Open Scope Z_scope.

(* ===================================================================== *)
(** ** JavaScript numbers *)
(* ===================================================================== *)

(** The nearest integer, a tie going to the even one. *)
Definition roundEven (x : Q) : Z :=
  let f := Qfloor x in
  match (x - inject_Z f ?= 1 # 2)%Q with
  | Lt => f
  | Gt => f + 1
  | Eq => if Z.even f then f else f + 1
  end.

(** [floor(log2 |x|)] of a number that is not zero. *)
Definition ilog2 (x : Q) : Z :=
  let e0 := Z.log2 (Z.abs (Qnum x)) - Z.log2 (Zpos (Qden x)) in
  if Qle_bool (2 ^ e0) (Qabs x) then e0 else e0 - 1.

(** The rounding of IEEE 754 binary64, to nearest with ties to even: the
    number is scaled to 53 significant bits (to the fixed exponent -1074 in
    the subnormal range), rounded to an integer and scaled back.  The result
    is in lowest terms. *)
Definition round64 (x : Q) : Q :=
  let x := Qred x in
  if Qeq_bool x 0 then 0%Q
  else
    let e := Z.max (ilog2 x - 52) (-1074) in
    Qred (inject_Z (roundEven (x / 2 ^ e)) * 2 ^ e).

(** [x + y], [x - y], [x * y] and [x / y] on numbers. *)
Definition fadd (x y : Q) : Q := round64 (x + y).
Definition fsub (x y : Q) : Q := round64 (x - y).
Definition fmul (x y : Q) : Q := round64 (x * y).
Definition fdiv (x y : Q) : Q := round64 (x / y).

(** [Number.MAX_SAFE_INTEGER]. *)
Definition Number_MAX_SAFE_INTEGER : Z := 2 ^ 53 - 1.

(** The binary64 numbers of the kernel, against which [round64] is
    checked. *)
Module Binary64.

Definition of_Z (n : Z) : PrimFloat.float :=
  match n with
  | Z0 => FloatOps.SF2Prim (SpecFloat.S754_zero false)
  | Zpos m => FloatOps.SF2Prim (SpecFloat.S754_finite false m 0)
  | Zneg m => FloatOps.SF2Prim (SpecFloat.S754_finite true m 0)
  end.

Definition to_Q (f : PrimFloat.float) : option Q :=
  match FloatOps.Prim2SF f with
  | SpecFloat.S754_zero _ => Some 0%Q
  | SpecFloat.S754_finite s m e =>
      Some (Qred ((if s then -1 else 1) * inject_Z (Zpos m) * 2 ^ e))%Q
  | _ => None
  end.

(** [a * (b / c)], [a / b * c], [a + b / c] and [a - b / c] on integers
    [a], [b] and [c] of at most 53 bits, which are doubles, by the kernel
    and by [round64]. *)
Definition kernel (abc : Z * Z * Z) : list (option Q) :=
  let '(a, b, c) := abc in
  let x := of_Z a in
  let y := of_Z b in
  let z := of_Z c in
  [ to_Q (PrimFloat.mul x (PrimFloat.div y z));
    to_Q (PrimFloat.mul (PrimFloat.div x y) z);
    to_Q (PrimFloat.add x (PrimFloat.div y z));
    to_Q (PrimFloat.sub x (PrimFloat.div y z)) ].

Definition model (abc : Z * Z * Z) : list (option Q) :=
  let '(a, b, c) := abc in
  let x := inject_Z a in
  let y := inject_Z b in
  let z := inject_Z c in
  [ Some (fmul x (fdiv y z));
    Some (fmul (fdiv x y) z);
    Some (fadd x (fdiv y z));
    Some (fsub x (fdiv y z)) ].

End Binary64.

(** [Math.floor]. *)
Definition Math_floor (x : Q) : Z := Qfloor x.

(** [x || d] on an optional number: [undefined] and [0] are falsy. *)
Definition or_default (x : option Z) (d : Z) : Z :=
  match x with
  | Some v => if v =? 0 then d else v
  | None => d
  end.

(** [x || d] on an optional fractional number. *)
Definition or_defaultQ (x : option Q) (d : Q) : Q :=
  match x with
  | Some v => if Qeq_bool v 0 then d else v
  | None => d
  end.

(** [x === 99] on an optional number. *)
Definition is99 (x : option Z) : bool :=
  match x with
  | Some v => v =? 99
  | None => false
  end.

(** [a > b] on fractional numbers. *)
Definition Qgtb (a b : Q) : bool := negb (Qle_bool a b).

(** Truthiness of an optional string. *)
Definition truthy {A : Type} (s : option A) : bool :=
  match s with Some _ => true | None => false end.

(* ===================================================================== *)
(** ** Dates *)
(* ===================================================================== *)

Definition isLeapYear (y : Z) : bool :=
  (y mod 4 =? 0) && (negb (y mod 100 =? 0) || (y mod 400 =? 0)).

(** Length of the month with index [k = year*12 + month]. *)
Definition daysInMonthIndex (k : Z) : Z :=
  let y := k / 12 in
  let m := k mod 12 in
  if m =? 1 then (if isLeapYear y then 29 else 28)
  else if (m =? 3) || (m =? 5) || (m =? 8) || (m =? 10) then 30
  else 31.

Record Date : Type := mkDate {
  monthIndex : Z;   (* getFullYear() * 12 + getMonth() *)
  dayOfMonth : Z;   (* getDate() *)
  timeOfDay : Z     (* milliseconds since local midnight *)
}.

Definition getFullYear (d : Date) : Z := monthIndex d / 12.
Definition getMonth (d : Date) : Z := monthIndex d mod 12.
Definition getDate (d : Date) : Z := dayOfMonth d.

(** Day overflow of the [Date] constructor and of [setDate]: a day below 1
    borrows from the previous months, a day past the end of the month
    carries into the next ones. *)
Fixpoint rollDays (fuel : nat) (k d : Z) : Z * Z :=
  match fuel with
  | O => (k, d)
  | S fuel' =>
      if d <? 1 then rollDays fuel' (k - 1) (d + daysInMonthIndex (k - 1))
      else if daysInMonthIndex k <? d
           then rollDays fuel' (k + 1) (d - daysInMonthIndex k)
           else (k, d)
  end.

Definition rollFuel (d : Z) : nat := S (Z.to_nat (Z.abs d)).

(** [new Date(year, month, day)]: local midnight. *)
Definition newDate (year month day : Z) : Date :=
  let kd := rollDays (rollFuel day) (year * 12 + month) day in
  mkDate (fst kd) (snd kd) 0.

(** [d.setDate(day)]: the time of day is kept. *)
Definition setDate (d : Date) (day : Z) : Date :=
  let kd := rollDays (rollFuel day) (monthIndex d) day in
  mkDate (fst kd) (snd kd) (timeOfDay d).

(** [a < b], [a <= b], [a > b], [a >= b] on dates. *)
Definition Date_ltb (a b : Date) : bool :=
  (monthIndex a <? monthIndex b)
  || ((monthIndex a =? monthIndex b)
      && ((dayOfMonth a <? dayOfMonth b)
          || ((dayOfMonth a =? dayOfMonth b) && (timeOfDay a <? timeOfDay b)))).

Definition Date_leb (a b : Date) : bool := negb (Date_ltb b a).
Definition Date_gtb (a b : Date) : bool := Date_ltb b a.
Definition Date_geb (a b : Date) : bool := negb (Date_ltb a b).

(** A well-formed date: a real day of its month, a time within the day. *)
Definition validDate (d : Date) : Prop :=
  1 <= dayOfMonth d <= daysInMonthIndex (monthIndex d)
  /\ 0 <= timeOfDay d < 86400000.

Definition DateStr : Type := Z * Z * Z.     (* "YYYY-MM-DD" *)
Definition YearMonthStr : Type := Z * Z.    (* "YYYY-MM" *)

(** The zero-padded month key: year-month with a two digit month. *)
Definition padStart2 (s : string) : string :=
  if (String.length s <? 2)%nat then "0" +:+ s else s.

Definition monthKey (year month : Z) : string :=
  pretty year +:+ "-" +:+ padStart2 (pretty (month + 1)).

(* ===================================================================== *)
(** ** Entities ([src/types.ts]) *)
(* ===================================================================== *)

Inductive ContractType : Type := FullTime | Contractor.
Inductive ProjectType : Type := Dev | Consulting | Seminar | BPO.
Inductive ProjectStatus : Type := PreOrder | Ordered | Delivered | Lost.
Inductive RevenueRecognitionMethod : Type := Duration | Milestone.
Inductive CashFlowCategory : Type :=
  OperatingExpense | Tax | LoanRepayment | LoanIn | Investment | Other.

Record CashFlowItem : Type := {
  item_id : string;
  item_name : string;
  category : CashFlowCategory;
  amount : Z;
  isRecurring : bool;
  periodStart : option YearMonthStr;
  periodEnd : option YearMonthStr;
  payDay : option Z;
  paymentDate : option DateStr;
  targetMonth : option YearMonthStr
}.

Record MonthlyEmployeeData : Type := {
  md_cost : Z;
  md_monthlyHours : Q
}.

Record Employee : Type := {
  emp_id : string;
  emp_name : string;
  contractType : ContractType;
  defaultMonthlyCost : Z;
  defaultMonthlyHours : Q;
  monthlyData : gmap string MonthlyEmployeeData
}.

Record Assignment : Type := {
  employeeId : string;
  utilizationRate : Q
}.

Record ProjectTask : Type := {
  task_id : string;
  task_name : string
}.

Record WorkLog : Type := {
  log_id : string;
  projectId : string;
  taskId : option string;
  log_employeeId : string;
  weekStartDate : option DateStr;
  actualHours : Q
}.

Record BillingConfig : Type := {
  flowSplit : bool;
  flowStartRatio : option Q;
  flowStartDelay : option Z;
  flowStartPayDay : option Z;
  flowEndDelay : option Z;
  flowEndPayDay : option Z;
  stockDelay : option Z;
  stockPayDay : option Z
}.

Record Project : Type := {
  proj_id : string;
  clientName : string;
  projectName : string;
  projectType : ProjectType;
  status : ProjectStatus;
  leadSourceCategory : option string;
  leadSourceDetail : option string;
  useFlow : bool;
  useStock : bool;
  useTimeCharge : bool;
  revenueMethod : option RevenueRecognitionMethod;
  flowAmount : Z;
  flowStartDate : option DateStr;
  flowEndDate : option DateStr;
  stockAmount : Z;
  stockStartDate : option DateStr;
  timeChargePrices : option (gmap string Z);
  projectTasks : list ProjectTask;
  billingConfig : BillingConfig;
  assignments : list Assignment;
  isArchived : bool
}.

Record AppSettings : Type := {
  targetLaborShareMin : Q;
  targetLaborShareMax : Q;
  salesTargets : gmap string Z;
  monthlySalesTarget : option Z;
  initialCashBalance : Z;
  cashFlowItems : list CashFlowItem;
  leadSourceOptions : option (gmap string (list string))
}.

(** One element of the array returned by [generateProjections]. *)
Record Projection : Type := {
  month : string;
  date : Date;
  revenue : Z;
  target : Z;
  confirmedRevenue : Z;
  potentialRevenue : Z;
  flowRevenue : Z;
  stockRevenue : Z;
  cost : Z;
  sga : Z;
  taxRepayment : Z;
  investment : Z;
  cashIn : Z;
  financialIn : Z;
  totalCashIn : Z;
  totalCashOut : Z;
  cashBalance : Z;
  cashBalanceChange : Z
}.

(** One element of the array returned by [generateDailyCashFlow]. *)
Record DailyCash : Type := {
  day : Z;
  change : Z;
  balance : Z
}.

(* ===================================================================== *)
(** ** The engine ([src/utils.ts]) *)
(* ===================================================================== *)

Section Engine.

(** The instant returned by [new Date()]. *)
Variable now : Date.

(** [parseLocalDate]: the empty string parses to the current instant. *)
Definition parseLocalDate (dateStr : option DateStr) : Date :=
  match dateStr with
  | None => now
  | Some (y, m, d) => newDate y (m - 1) d
  end.

(** [parseLocalDate(`${ym}-01`)]. *)
Definition parseYearMonth (ym : YearMonthStr) : Date :=
  parseLocalDate (Some (fst ym, snd ym, 1)).

Definition getTermDateRange (termYear : Z) : Date * Date :=
  (newDate (termYear - 1) 11 1, newDate termYear 10 30).

Definition getTotalDays (year month : Z) : Z :=
  getDate (newDate year (month + 1) 0).

Definition getEmployeeMonthlyData (employee : Employee) (year month : Z)
  : MonthlyEmployeeData :=
  let key := monthKey year month in
  let data := monthlyData employee !! key in
  {| md_cost := match data with
                | Some d => md_cost d
                | None => defaultMonthlyCost employee
                end;
     md_monthlyHours := match data with
                        | Some d => md_monthlyHours d
                        | None => defaultMonthlyHours employee
                        end |}.

(** [employees.find(e => e.id === id)]. *)
Definition findEmployee (employees : list Employee) (id : string)
  : option Employee :=
  List.find (fun e => String.eqb (emp_id e) id) employees.

(** Body of the [forEach] over the assignments of [getProjectMonthlyCost]. *)
Definition addAssignmentCost (employees : list Employee) (year month : Z)
  (cost : Q) (assign : Assignment) : Q :=
  match findEmployee employees (employeeId assign) with
  | Some emp =>
      let empCost := md_cost (getEmployeeMonthlyData emp year month) in
      fadd cost (fmul (inject_Z empCost) (fdiv (utilizationRate assign) 100))
  | None => cost
  end.

Definition getProjectMonthlyCost (project : Project)
  (employees : list Employee) (year month : Z) : Z :=
  let mStart := newDate year month 1 in
  let mEnd := newDate year (month + 1) 0 in
  let planned :=
    Math_floor
      (fold_left (addAssignmentCost employees year month)
         (assignments project) 0%Q) in
  if useFlow project && truthy (flowStartDate project)
     && truthy (flowEndDate project)
  then
    let s := parseLocalDate (flowStartDate project) in
    let e := parseLocalDate (flowEndDate project) in
    if Date_ltb mEnd s || Date_gtb mStart e then 0 else planned
  else if negb (useFlow project) && useStock project
          && truthy (stockStartDate project)
  then
    let s := parseLocalDate (stockStartDate project) in
    if Date_ltb mEnd s then 0 else planned
  else if negb (useFlow project) && negb (useStock project)
          && negb (useTimeCharge project)
  then 0
  else planned.

(** Predicate of the [filter] over the work logs of [getProjectActualCost]. *)
Definition isTargetLog (project : Project) (year month : Z) (l : WorkLog)
  : bool :=
  if negb (String.eqb (projectId l) (proj_id project)) then false
  else
    let d := parseLocalDate (weekStartDate l) in
    (getFullYear d =? year) && (getMonth d =? month).

(** Body of the [forEach] over the target logs of [getProjectActualCost]. *)
Definition addLogCost (employees : list Employee) (year month : Z)
  (cost : Q) (log : WorkLog) : Q :=
  match findEmployee employees (log_employeeId log) with
  | Some emp =>
      let md := getEmployeeMonthlyData emp year month in
      let hourlyRate :=
        if Qgtb (md_monthlyHours md) 0
        then fdiv (inject_Z (md_cost md)) (md_monthlyHours md)
        else 0%Q in
      fadd cost (fmul (actualHours log) hourlyRate)
  | None => cost
  end.

Definition getProjectActualCost (project : Project)
  (employees : list Employee) (workLogs : list WorkLog) (year month : Z) : Z :=
  let targetLogs := List.filter (isTargetLog project year month) workLogs in
  Math_floor (fold_left (addLogCost employees year month) targetLogs 0%Q).

(** [Math.floor(project.flowAmount * (ratio / 100))]. *)
Definition flowStartAmount (project : Project) : Z :=
  let ratio := or_defaultQ (flowStartRatio (billingConfig project)) 0 in
  Math_floor (fmul (inject_Z (flowAmount project)) (fdiv ratio 100)).

(** Section "1. Flow Revenue" of [getMonthlyRevenue], Milestone branch. *)
Definition milestoneRevenue (project : Project) (s e : Date) (year month : Z)
  : Z :=
  let startPortion :=
    if (getFullYear s =? year) && (getMonth s =? month)
    then (if flowSplit (billingConfig project)
          then flowStartAmount project else 0)
    else 0 in
  let endPortion :=
    if (getFullYear e =? year) && (getMonth e =? month)
    then (if flowSplit (billingConfig project)
          then flowAmount project - flowStartAmount project
          else flowAmount project)
    else 0 in
  startPortion + endPortion.

(** Section "1. Flow Revenue" of [getMonthlyRevenue], Duration branch. *)
Definition durationRevenue (project : Project) (s e : Date) (year month : Z)
  : Z :=
  let startMonthIndex := getFullYear s * 12 + getMonth s in
  let endMonthIndex := getFullYear e * 12 + getMonth e in
  let currentMonthIndex := year * 12 + month in
  if (currentMonthIndex >=? startMonthIndex)
     && (currentMonthIndex <=? endMonthIndex)
  then
    let totalMonths := endMonthIndex - startMonthIndex + 1 in
    if totalMonths >? 0 then
      let baseAmount := flowAmount project / totalMonths in
      let remainder := Z.rem (flowAmount project) totalMonths in
      if currentMonthIndex =? endMonthIndex
      then baseAmount + remainder
      else baseAmount
    else 0
  else 0.

(** Section "1. Flow Revenue" of [getMonthlyRevenue]. *)
Definition flowRevenueOf (project : Project) (year month : Z) : Z :=
  if useFlow project && truthy (flowStartDate project)
     && truthy (flowEndDate project)
  then
    let s := parseLocalDate (flowStartDate project) in
    let e := parseLocalDate (flowEndDate project) in
    match revenueMethod project with
    | Some Milestone => milestoneRevenue project s e year month
    | _ => durationRevenue project s e year month
    end
  else 0.

(** Section "2. Stock Revenue" of [getMonthlyRevenue]. *)
Definition stockRevenueOf (project : Project) (year month : Z) : Z :=
  let mEnd := newDate year (month + 1) 0 in
  if useStock project && truthy (stockStartDate project)
  then
    let s := parseLocalDate (stockStartDate project) in
    if Date_leb s mEnd then stockAmount project else 0
  else 0.

(** Section "3. Time Charge" of [getMonthlyRevenue]. *)
Definition timeChargeOf (project : Project) (year month : Z) : Z :=
  let monthKey := monthKey year month in
  match timeChargePrices project with
  | Some prices =>
      if useTimeCharge project
      then match prices !! monthKey with
           | Some amount => amount
           | None => 0
           end
      else 0
  | None => 0
  end.

(** [getMonthlyRevenue]: the three contributions are integers, so the
    closing [Math.floor] leaves their sum as it is. *)
Definition getMonthlyRevenue (project : Project) (date : Date) : Z :=
  let year := getFullYear date in
  let month := getMonth date in
  flowRevenueOf project year month
  + stockRevenueOf project year month
  + timeChargeOf project year month.

Definition getPaymentDate (year month delay day : Z) : Date :=
  let targetDate := newDate year (month + delay) 1 in
  if day =? 99
  then newDate (getFullYear targetDate) (getMonth targetDate + 1) 0
  else setDate targetDate day.

(** The profit-and-loss accumulators of one iteration of
    [generateProjections]. *)
Record ProfitLoss : Type := {
  pl_revenue : Z;
  pl_confirmedRevenue : Z;
  pl_potentialRevenue : Z;
  pl_flowRevenue : Z;
  pl_stockRevenue : Z;
  pl_cost : Z
}.

Definition emptyProfitLoss : ProfitLoss :=
  {| pl_revenue := 0; pl_confirmedRevenue := 0; pl_potentialRevenue := 0;
     pl_flowRevenue := 0; pl_stockRevenue := 0; pl_cost := 0 |}.

(** The stock share [sPart] of a project's revenue [rev] ("Approximate
    Flow/Stock Split"). *)
Definition stockPart (p : Project) (year month rev : Z) : Z :=
  let sPart := if useStock p then stockAmount p else 0 in
  let sPart := if rev <? sPart then rev else sPart in
  if useStock p && negb (useFlow p) then rev
  else if useStock p && useFlow p then
    let s := parseLocalDate (stockStartDate p) in
    let mEnd := newDate year (month + 1) 0 in
    if Date_leb s mEnd then stockAmount p else 0
  else sPart.

(** The labor cost of one project for one month: actual when the month is
    past, planned otherwise. *)
Definition projectLaborCost (employees : list Employee)
  (workLogs : list WorkLog) (isPast : bool) (year month : Z) (p : Project)
  : Z :=
  if isPast then getProjectActualCost p employees workLogs year month
  else getProjectMonthlyCost p employees year month.

(** Body of the first [projects.forEach] of [generateProjections]. *)
Definition profitLossStep (employees : list Employee)
  (workLogs : list WorkLog) (d : Date) (isPast : bool) (acc : ProfitLoss)
  (p : Project) : ProfitLoss :=
  let year := getFullYear d in
  let month := getMonth d in
  let rev := getMonthlyRevenue p d in
  let sPart := stockPart p year month rev in
  {| pl_revenue := pl_revenue acc + rev;
     pl_confirmedRevenue :=
       match status p with
       | Ordered | Delivered => pl_confirmedRevenue acc + rev
       | _ => pl_confirmedRevenue acc
       end;
     pl_potentialRevenue :=
       match status p with
       | PreOrder => pl_potentialRevenue acc + rev
       | _ => pl_potentialRevenue acc
       end;
     pl_flowRevenue := pl_flowRevenue acc + (rev - sPart);
     pl_stockRevenue := pl_stockRevenue acc + sPart;
     pl_cost :=
       pl_cost acc + projectLaborCost employees workLogs isPast year month p
  |}.

(** Body of the second [projects.forEach] of [generateProjections]: the cash
    received from one project in the month, before tax. *)
Definition cashInStep (year month : Z) (cashIn : Q) (p : Project) : Q :=
  let bc := billingConfig p in
  let cashIn :=
    if useFlow p then
      let cashIn :=
        if truthy (flowStartDate p) then
          let s := parseLocalDate (flowStartDate p) in
          let sPayDate :=
            getPaymentDate (getFullYear s) (getMonth s)
              (or_default (flowStartDelay bc) 0)
              (or_default (flowStartPayDay bc) 99) in
          if (getFullYear sPayDate =? year) && (getMonth sPayDate =? month)
          then
            let ratio :=
              if flowSplit bc
              then fdiv (or_defaultQ (flowStartRatio bc) 0) 100 else 0%Q in
            if flowSplit bc
            then fadd cashIn (fmul (inject_Z (flowAmount p)) ratio)
            else cashIn
          else cashIn
        else cashIn in
      if truthy (flowEndDate p) then
        let e := parseLocalDate (flowEndDate p) in
        let ePayDate :=
          getPaymentDate (getFullYear e) (getMonth e)
            (or_default (flowEndDelay bc) 0)
            (or_default (flowEndPayDay bc) 99) in
        if (getFullYear ePayDate =? year) && (getMonth ePayDate =? month)
        then
          if flowSplit bc then
            let ratio :=
              fdiv (fsub 100 (or_defaultQ (flowStartRatio bc) 0)) 100 in
            fadd cashIn (fmul (inject_Z (flowAmount p)) ratio)
          else fadd cashIn (inject_Z (flowAmount p))
        else cashIn
      else cashIn
    else cashIn in
  if (useStock p && truthy (stockStartDate p)) || useTimeCharge p then
    let delay := or_default (stockDelay bc) 0 in
    let targetRevenueMonth := newDate year (month - delay) 1 in
    let rev := getMonthlyRevenue p targetRevenueMonth in
    if rev >? 0 then fadd cashIn (inject_Z rev) else cashIn
  else cashIn.

(** The date of a one-time ledger item: [paymentDate], else the first of
    the legacy [targetMonth], else [null]. *)
Definition itemPaymentDate (item : CashFlowItem) : option Date :=
  match paymentDate item with
  | Some s => Some (parseLocalDate (Some s))
  | None =>
      match targetMonth item with
      | Some tm => Some (parseYearMonth tm)
      | None => None
      end
  end.

(** Whether a ledger item occurs in the month starting at [d]. *)
Definition itemOccurs (item : CashFlowItem) (d : Date) (year month : Z)
  : bool :=
  if isRecurring item then
    match periodStart item with
    | Some ps =>
        let start := parseYearMonth ps in
        let end_ := match periodEnd item with
                    | Some pe => parseYearMonth pe
                    | None => newDate 9999 11 31
                    end in
        Date_geb d start && Date_leb d end_
    | None => false
    end
  else
    match itemPaymentDate item with
    | Some pDate => (getFullYear pDate =? year) && (getMonth pDate =? month)
    | None => false
    end.

(** The ledger accumulators of one iteration of [generateProjections]. *)
Record Ledger : Type := {
  lg_sga : Z;
  lg_taxRepayment : Z;
  lg_investment : Z;
  lg_financialIn : Z
}.

Definition emptyLedger : Ledger :=
  {| lg_sga := 0; lg_taxRepayment := 0; lg_investment := 0;
     lg_financialIn := 0 |}.

(** Body of [settings.cashFlowItems.forEach] of [generateProjections]. *)
Definition ledgerStep (d : Date) (year month : Z) (acc : Ledger)
  (item : CashFlowItem) : Ledger :=
  if itemOccurs item d year month then
    match category item with
    | OperatingExpense =>
        {| lg_sga := lg_sga acc + amount item;
           lg_taxRepayment := lg_taxRepayment acc;
           lg_investment := lg_investment acc;
           lg_financialIn := lg_financialIn acc |}
    | Tax | LoanRepayment =>
        {| lg_sga := lg_sga acc;
           lg_taxRepayment := lg_taxRepayment acc + amount item;
           lg_investment := lg_investment acc;
           lg_financialIn := lg_financialIn acc |}
    | Investment =>
        {| lg_sga := lg_sga acc;
           lg_taxRepayment := lg_taxRepayment acc;
           lg_investment := lg_investment acc + amount item;
           lg_financialIn := lg_financialIn acc |}
    | LoanIn =>
        {| lg_sga := lg_sga acc;
           lg_taxRepayment := lg_taxRepayment acc;
           lg_investment := lg_investment acc;
           lg_financialIn := lg_financialIn acc + amount item |}
    | Other =>
        {| lg_sga := lg_sga acc + amount item;
           lg_taxRepayment := lg_taxRepayment acc;
           lg_investment := lg_investment acc;
           lg_financialIn := lg_financialIn acc |}
    end
  else acc.

(** The month start [d] of iteration [i]. *)
Definition projectionDate (termStart : Date) (i : Z) : Date :=
  newDate (getFullYear termStart) (getMonth termStart + i) 1.

(** [currentMonthStart]: the first day of the month of [new Date()]. *)
Definition currentMonthStart : Date :=
  newDate (getFullYear now) (getMonth now) 1.

(** The profit-and-loss accumulators after the first [projects.forEach]. *)
Definition monthProfitLoss (projects : list Project)
  (employees : list Employee) (workLogs : list WorkLog) (d : Date)
  : ProfitLoss :=
  let isPast := Date_ltb d currentMonthStart in
  fold_left (profitLossStep employees workLogs d isPast) projects
    emptyProfitLoss.

(** [cashIn] after the second [projects.forEach] and the tax markup. *)
Definition monthCashIn (projects : list Project) (year month : Z) : Z :=
  let cashIn := fold_left (cashInStep year month) projects 0%Q in
  Math_floor (fmul cashIn (round64 (11 # 10))).

(** [paidCost]: the labor cost of the previous month. *)
Definition monthPaidCost (projects : list Project)
  (employees : list Employee) (workLogs : list WorkLog) (year month : Z)
  : Z :=
  let prevMonth := newDate year (month - 1) 1 in
  let isPrevPast := Date_ltb prevMonth currentMonthStart in
  fold_left
    (fun totalLaborCostPrevMonth p =>
       totalLaborCostPrevMonth
       + projectLaborCost employees workLogs isPrevPast
           (getFullYear prevMonth) (getMonth prevMonth) p)
    projects 0.

(** The record pushed by iteration [i] of [generateProjections], given the
    running balance [currentCash] before it. *)
Definition monthProjection (projects : list Project)
  (employees : list Employee) (workLogs : list WorkLog) (termStart : Date)
  (settings : AppSettings) (currentCash : Z) (i : Z) : Projection :=
  let d := projectionDate termStart i in
  let year := getFullYear d in
  let month := getMonth d in
  let monthKey := monthKey year month in
  let pl := monthProfitLoss projects employees workLogs d in
  let target :=
    or_default (salesTargets settings !! monthKey)
      (or_default (monthlySalesTarget settings) 0) in
  let cashIn := monthCashIn projects year month in
  let paidCost := monthPaidCost projects employees workLogs year month in
  let lg := fold_left (ledgerStep d year month) (cashFlowItems settings)
              emptyLedger in
  let totalCashIn := cashIn + lg_financialIn lg in
  let totalCashOut :=
    paidCost + lg_sga lg + lg_taxRepayment lg + lg_investment lg in
  let cashBalanceChange := totalCashIn - totalCashOut in
  {| month := pretty (month + 1) +:+ "月";
     date := d;
     revenue := pl_revenue pl;
     target := target;
     confirmedRevenue := pl_confirmedRevenue pl;
     potentialRevenue := pl_potentialRevenue pl;
     flowRevenue := pl_flowRevenue pl;
     stockRevenue := pl_stockRevenue pl;
     cost := paidCost;
     sga := lg_sga lg;
     taxRepayment := lg_taxRepayment lg;
     investment := lg_investment lg;
     cashIn := cashIn;
     financialIn := lg_financialIn lg;
     totalCashIn := totalCashIn;
     totalCashOut := totalCashOut;
     cashBalance := currentCash + cashBalanceChange;
     cashBalanceChange := cashBalanceChange |}.

(** The [for] loop of [generateProjections] over the indices [idxs], threading
    the running balance. *)
Fixpoint projectionLoop (projects : list Project) (employees : list Employee)
  (workLogs : list WorkLog) (termStart : Date) (settings : AppSettings)
  (idxs : list Z) (currentCash : Z) : list Projection :=
  match idxs with
  | [] => []
  | i :: rest =>
      let r := monthProjection projects employees workLogs termStart settings
                 currentCash i in
      r :: projectionLoop projects employees workLogs termStart settings rest
             (cashBalance r)
  end.

Definition generateProjections (projects : list Project)
  (employees : list Employee) (workLogs : list WorkLog) (termStart : Date)
  (settings : AppSettings) : list Projection :=
  projectionLoop projects employees workLogs termStart settings (seqZ 0 12)
    (initialCashBalance settings).

(** [dailyChanges[day] = (dailyChanges[day] || 0) + amount]. *)
Definition addDailyChange (dailyChanges : gmap Z Z) (day amount : Z)
  : gmap Z Z :=
  <[day := default 0 (dailyChanges !! day) + amount]> dailyChanges.

(** Body of [projects.forEach] of [generateDailyCashFlow]. *)
Definition dailyProjectStep (year month : Z) (dailyChanges : gmap Z Z)
  (p : Project) : gmap Z Z :=
  let bc := billingConfig p in
  let dailyChanges :=
    if useFlow p then
      let dailyChanges :=
        if truthy (flowStartDate p) then
          let s := parseLocalDate (flowStartDate p) in
          let sPayDate :=
            getPaymentDate (getFullYear s) (getMonth s)
              (or_default (flowStartDelay bc) 0)
              (or_default (flowStartPayDay bc) 99) in
          if (getFullYear sPayDate =? year) && (getMonth sPayDate =? month)
          then
            let amt :=
              if flowSplit bc
              then fmul (inject_Z (flowAmount p))
                     (fdiv (or_defaultQ (flowStartRatio bc) 0) 100)
              else 0%Q in
            if Qgtb amt 0
            then addDailyChange dailyChanges (getDate sPayDate)
                   (Math_floor (fmul amt (round64 (11 # 10))))
            else dailyChanges
          else dailyChanges
        else dailyChanges in
      if truthy (flowEndDate p) then
        let e := parseLocalDate (flowEndDate p) in
        let ePayDate :=
          getPaymentDate (getFullYear e) (getMonth e)
            (or_default (flowEndDelay bc) 0)
            (or_default (flowEndPayDay bc) 99) in
        if (getFullYear ePayDate =? year) && (getMonth ePayDate =? month)
        then
          let amt :=
            if flowSplit bc
            then fmul (inject_Z (flowAmount p))
                   (fdiv (fsub 100 (or_defaultQ (flowStartRatio bc) 0)) 100)
            else inject_Z (flowAmount p) in
          if Qgtb amt 0
          then addDailyChange dailyChanges (getDate ePayDate)
                 (Math_floor (fmul amt (round64 (11 # 10))))
          else dailyChanges
        else dailyChanges
      else dailyChanges
    else dailyChanges in
  if (useStock p && truthy (stockStartDate p)) || useTimeCharge p then
    let delay := or_default (stockDelay bc) 0 in
    let payDay := or_default (stockPayDay bc) 99 in
    let targetRevMonth := newDate year (month - delay) 1 in
    let rev := getMonthlyRevenue p targetRevMonth in
    if rev >? 0 then
      let d := getPaymentDate (getFullYear targetRevMonth)
                 (getMonth targetRevMonth) delay payDay in
      if (getFullYear d =? year) && (getMonth d =? month)
      then addDailyChange dailyChanges (getDate d)
             (Math_floor (fmul (inject_Z rev) (round64 (11 # 10))))
      else dailyChanges
    else dailyChanges
  else dailyChanges.

(** The day on which a ledger item falls in the month, when it occurs. *)
Definition itemDay (item : CashFlowItem) (year month daysInMonth : Z)
  : option Z :=
  if isRecurring item then
    match periodStart item with
    | Some ps =>
        let start := parseYearMonth ps in
        let end_ := match periodEnd item with
                    | Some pe => parseYearMonth pe
                    | None => newDate 9999 11 31
                    end in
        let d := newDate year month 1 in
        if Date_geb d start && Date_leb d end_
        then Some (if is99 (payDay item) then daysInMonth
                   else or_default (payDay item) 25)
        else None
    | None => None
    end
  else
    match itemPaymentDate item with
    | Some pDate =>
        if (getFullYear pDate =? year) && (getMonth pDate =? month)
        then Some (getDate pDate) else None
    | None => None
    end.

(** Body of [settings.cashFlowItems.forEach] of [generateDailyCashFlow]. *)
Definition dailyItemStep (year month daysInMonth : Z)
  (dailyChanges : gmap Z Z) (item : CashFlowItem) : gmap Z Z :=
  match itemDay item year month daysInMonth with
  | Some day =>
      let sign := match category item with LoanIn => 1 | _ => -1 end in
      addDailyChange dailyChanges day (amount item * sign)
  | None => dailyChanges
  end.

(** The closing [for] loop of [generateDailyCashFlow] over the days. *)
Fixpoint dailyLoop (dailyChanges : gmap Z Z) (days : list Z)
  (currentBalance : Z) : list DailyCash :=
  match days with
  | [] => []
  | d :: rest =>
      let change := default 0 (dailyChanges !! d) in
      {| day := d; change := change; balance := currentBalance + change |}
      :: dailyLoop dailyChanges rest (currentBalance + change)
  end.

(** [dailyChanges] after both [forEach] loops of [generateDailyCashFlow]. *)
Definition dailyChangesOf (date : Date) (projects : list Project)
  (settings : AppSettings) : gmap Z Z :=
  let year := getFullYear date in
  let month := getMonth date in
  let daysInMonth := getTotalDays year month in
  let dailyChanges := fold_left (dailyProjectStep year month) projects ∅ in
  fold_left (dailyItemStep year month daysInMonth) (cashFlowItems settings)
    dailyChanges.

Definition generateDailyCashFlow (date : Date) (projects : list Project)
  (settings : AppSettings) (initialBalance : Z) : list DailyCash :=
  let year := getFullYear date in
  let month := getMonth date in
  let daysInMonth := getTotalDays year month in
  dailyLoop (dailyChangesOf date projects settings) (seqZ 1 daysInMonth)
    initialBalance.

End Engine.

(* ===================================================================== *)
(** ** Time stamps and durations ([src/utils.ts]) *)
(* ===================================================================== *)

(** [Math.ceil] and [Math.round] (halves round up).  [Math.ceil] is only
    applied to the quotient of a number of milliseconds by those of a day,
    which the rounding of the division leaves on the same side of every
    integer. *)
Definition Math_ceil (x : Q) : Z := Qceiling x.
Definition Math_round (x : Q) : Z := Qfloor (x + (1 # 2))%Q.

(** The leap days of the years before [y]. *)
Definition leapDaysBefore (y : Z) : Z :=
  (y + 3) / 4 - (y + 99) / 100 + (y + 399) / 400.

(** The days of a common year before its month [m]. *)
Definition daysBeforeMonthOfYear (m : Z) : Z :=
  if m =? 0 then 0 else if m =? 1 then 31 else if m =? 2 then 59
  else if m =? 3 then 90 else if m =? 4 then 120 else if m =? 5 then 151
  else if m =? 6 then 181 else if m =? 7 then 212 else if m =? 8 then 243
  else if m =? 9 then 273 else if m =? 10 then 304 else 334.

(** The days from 1 January 1970 to the first day of the month with index
    [k]. *)
Definition daysBeforeMonth (k : Z) : Z :=
  let y := k / 12 in
  let m := k mod 12 in
  365 * y + leapDaysBefore y + daysBeforeMonthOfYear m
  + (if isLeapYear y && (2 <=? m) then 1 else 0) - 719528.

(** The days from 1 January 1970 to the day of [d]. *)
Definition dayNumber (d : Date) : Z :=
  daysBeforeMonth (monthIndex d) + dayOfMonth d - 1.

(** The milliseconds of the local calendar from 1 January 1970, 00:00, to
    [d], every day having 24 hours. *)
Definition localTime (d : Date) : Z := dayNumber d * 86400000 + timeOfDay d.

(** The offset of Central European Time in 2025, as [getTimezoneOffset]
    gives it: daylight saving time from 30 March, 2:00, to 26 October,
    3:00. *)
Definition centralEurope2025 (d : Date) : Z :=
  if (localTime (mkDate (2025 * 12 + 2) 30 7200000) <=? localTime d)
     && (localTime d <? localTime (mkDate (2025 * 12 + 9) 26 10800000))
  then -120 else -60.

Section Durations.

Variable now : Date.

(** [d.getTimezoneOffset()]: the minutes from the local time of [d] to UTC
    (-540 all year in Japan; where daylight saving time is observed it
    depends on the date). *)
Variable getTimezoneOffset : Date -> Z.

(** [d.getTime()]: the milliseconds from 1 January 1970, 00:00 UTC. *)
Definition getTime (d : Date) : Z :=
  localTime d + getTimezoneOffset d * 60000.

Definition calculateExactMonths (startStr endStr : option DateStr) : Q :=
  if negb (truthy startStr) || negb (truthy endStr) then 0%Q
  else
    let start := parseLocalDate now startStr in
    let end_ := parseLocalDate now endStr in
    if Date_gtb start end_ then 0%Q
    else
      let diffTime := Z.abs (getTime end_ - getTime start) in
      let diffDays := Math_ceil (inject_Z diffTime / 86400000)%Q in
      let months := fdiv (inject_Z diffDays) (round64 (3044 # 100)) in
      fdiv (inject_Z (Math_round (fmul months 10))) 10.

Definition getDurationMonths (startStr endStr : option DateStr) : Q :=
  calculateExactMonths startStr endStr.

Definition getMonthOverlapDays (targetYear targetMonth : Z)
  (rangeStartStr rangeEndStr : option DateStr) : Z :=
  let rangeStart := parseLocalDate now rangeStartStr in
  let rangeEnd := parseLocalDate now rangeEndStr in
  let monthStart := newDate targetYear targetMonth 1 in
  let monthEnd := newDate targetYear (targetMonth + 1) 0 in
  let overlapStart :=
    if Date_gtb rangeStart monthStart then rangeStart else monthStart in
  let overlapEnd :=
    if Date_ltb rangeEnd monthEnd then rangeEnd else monthEnd in
  if Date_gtb overlapStart overlapEnd then 0
  else
    let diffTime := Z.abs (getTime overlapEnd - getTime overlapStart) in
    let diffDays := Math_ceil (inject_Z diffTime / 86400000)%Q + 1 in
    diffDays.

End Durations.

(* ===================================================================== *)
(** ** The employee editor ([src/unnamed/part_001], component EmployeeMaster) *)
(* ===================================================================== *)

(** [onChange] of the base monthly cost:
    [{...editingEmp, defaultMonthlyCost: val}]. *)
Definition setDefaultMonthlyCost (editingEmp : Employee) (val : Z)
  : Employee :=
  {| emp_id := emp_id editingEmp; emp_name := emp_name editingEmp;
     contractType := contractType editingEmp;
     defaultMonthlyCost := val;
     defaultMonthlyHours := defaultMonthlyHours editingEmp;
     monthlyData := monthlyData editingEmp |}.

(** [onChange] of the base monthly hours:
    [{...editingEmp, defaultMonthlyHours: val}]. *)
Definition setDefaultMonthlyHours (editingEmp : Employee) (val : Q)
  : Employee :=
  {| emp_id := emp_id editingEmp; emp_name := emp_name editingEmp;
     contractType := contractType editingEmp;
     defaultMonthlyCost := defaultMonthlyCost editingEmp;
     defaultMonthlyHours := val;
     monthlyData := monthlyData editingEmp |}.

(** [onChange] of the cost cell of the row of month [year]-[month] in the
    monthly table: the entry of the month is replaced by the new cost and
    the hours the row displays. *)
Definition overrideMonthlyCost (editingEmp : Employee) (year month : Z)
  (val : Z) : Employee :=
  let key := monthKey year month in
  let data := monthlyData editingEmp !! key in
  let hoursOverride := md_monthlyHours <$> data in
  let newData :=
    <[key := {| md_cost := val;
                md_monthlyHours :=
                  default (defaultMonthlyHours editingEmp) hoursOverride |}]>
      (monthlyData editingEmp) in
  {| emp_id := emp_id editingEmp; emp_name := emp_name editingEmp;
     contractType := contractType editingEmp;
     defaultMonthlyCost := defaultMonthlyCost editingEmp;
     defaultMonthlyHours := defaultMonthlyHours editingEmp;
     monthlyData := newData |}.

(** [onChange] of the hours cell of the same row. *)
Definition overrideMonthlyHours (editingEmp : Employee) (year month : Z)
  (val : Q) : Employee :=
  let key := monthKey year month in
  let data := monthlyData editingEmp !! key in
  let costOverride := md_cost <$> data in
  let newData :=
    <[key := {| md_cost :=
                  default (defaultMonthlyCost editingEmp) costOverride;
                md_monthlyHours := val |}]>
      (monthlyData editingEmp) in
  {| emp_id := emp_id editingEmp; emp_name := emp_name editingEmp;
     contractType := contractType editingEmp;
     defaultMonthlyCost := defaultMonthlyCost editingEmp;
     defaultMonthlyHours := defaultMonthlyHours editingEmp;
     monthlyData := newData |}.

(* ===================================================================== *)
(** ** Arrays *)
(* ===================================================================== *)

(** A relative index of [Array.prototype.slice]: a negative index counts
    from the end, and the result is clamped to the array. *)
Definition sliceIndex (len i : Z) : Z :=
  if i <? 0 then Z.max (len + i) 0 else Z.min i len.

(** [l.slice(s, e)]. *)
Definition slice {A : Type} (l : list A) (s e : Z) : list A :=
  let len := Z.of_nat (length l) in
  let k := sliceIndex len s in
  let final := sliceIndex len e in
  take (Z.to_nat (final - k)) (drop (Z.to_nat k) l).

(** [l.findIndex(f)]: the first index at which [f] holds, [-1] without
    one. *)
Fixpoint findIndex {A : Type} (f : A -> bool) (l : list A) : Z :=
  match l with
  | [] => -1
  | x :: l' =>
      if f x then 0
      else let i := findIndex f l' in if i <? 0 then -1 else i + 1
  end.

(** [Array.prototype.sort] with a comparator is a stable sort: [x] goes
    after [y] only when the comparator is positive on them, [after x y].
    Every stable sort returns the same array; this one inserts from the
    right. *)
Fixpoint insertWith {A : Type} (after : A -> A -> bool) (x : A) (l : list A)
  : list A :=
  match l with
  | [] => [x]
  | y :: l' => if after x y then y :: insertWith after x l' else x :: l
  end.

Definition sortWith {A : Type} (after : A -> A -> bool) (l : list A)
  : list A :=
  foldr (insertWith after) [] l.

(** [l.sort(cmp)] for a comparator with whole values, and with fractional
    ones. *)
Definition sortBy {A : Type} (cmp : A -> A -> Z) (l : list A) : list A :=
  sortWith (fun a b => cmp a b >? 0) l.

Definition sortByQ {A : Type} (cmp : A -> A -> Q) (l : list A) : list A :=
  sortWith (fun a b => Qgtb (cmp a b) 0) l.

(* ===================================================================== *)
(** ** The dashboard ([src/unnamed/part_002], component Dashboard) *)
(* ===================================================================== *)

(** One element of the array returned by [getBreakdownData]: the project
    with its [periodRevenue]. *)
Record BreakdownRow : Type := {
  br_project : Project;
  periodRevenue : Z
}.

(** [{...settings, salesTargets}]. *)
Definition withSalesTargets (settings : AppSettings)
  (targets : gmap string Z) : AppSettings :=
  {| targetLaborShareMin := targetLaborShareMin settings;
     targetLaborShareMax := targetLaborShareMax settings;
     salesTargets := targets;
     monthlySalesTarget := monthlySalesTarget settings;
     initialCashBalance := initialCashBalance settings;
     cashFlowItems := cashFlowItems settings;
     leadSourceOptions := leadSourceOptions settings |}.

Module Dashboard.
Section Dashboard.

Variable now : Date.
Variable projects : list Project.
Variable employees : list Employee.
Variable workLogs : list WorkLog.
Variable settings : AppSettings.
Variable currentTerm : Z.

Definition start : Date := fst (getTermDateRange currentTerm).

Definition data : list Projection :=
  generateProjections now projects employees workLogs start settings.

Definition annualRevenue : Z :=
  fold_left (fun acc curr => acc + revenue curr) data 0.

Definition annualTarget : Z :=
  fold_left (fun acc curr => acc + target curr) data 0.

Definition annualDiff : Z := annualRevenue - annualTarget.

Definition revenueAchievement : Q :=
  if annualTarget >? 0
  then fmul (fdiv (inject_Z annualRevenue) (inject_Z annualTarget)) 100
  else 0%Q.

(** The index of today's month within the term, clamped to the term. *)
Definition currentMonthIndex : Z :=
  let currentMonthIndex :=
    (getFullYear now - getFullYear start) * 12
    + (getMonth now - getMonth start) in
  let currentMonthIndex :=
    if currentMonthIndex <? 0 then 0 else currentMonthIndex in
  if currentMonthIndex >? 11 then 11 else currentMonthIndex.

(** The half-year, the four-month period and the quarter of today. *)
Definition hIndex : Z := Math_floor (fdiv (inject_Z currentMonthIndex) 6).
Definition hStart : Z := hIndex * 6.
Definition hEnd : Z := hStart + 6.
Definition hData : list Projection := slice data hStart hEnd.
Definition hRevenue : Z := fold_left (fun acc c => acc + revenue c) hData 0.
Definition hTarget : Z := fold_left (fun acc c => acc + target c) hData 0.

Definition tIndex : Z := Math_floor (fdiv (inject_Z currentMonthIndex) 4).
Definition tStart : Z := tIndex * 4.
Definition tEnd : Z := tStart + 4.
Definition tData : list Projection := slice data tStart tEnd.
Definition tRevenue : Z := fold_left (fun acc c => acc + revenue c) tData 0.
Definition tTarget : Z := fold_left (fun acc c => acc + target c) tData 0.

Definition qIndex : Z := Math_floor (fdiv (inject_Z currentMonthIndex) 3).
Definition qStart : Z := qIndex * 3.
Definition qEnd : Z := qStart + 3.
Definition qData : list Projection := slice data qStart qEnd.
Definition qRevenue : Z := fold_left (fun acc c => acc + revenue c) qData 0.
Definition qTarget : Z := fold_left (fun acc c => acc + target c) qData 0.

(** [getBreakdownData]: the revenue of each project over the months
    [startIdx .. actualEndIdx - 1] of the term, the projects without
    positive revenue left out, by decreasing revenue. *)
Definition getBreakdownData (startIdx endIdx : Z) : list BreakdownRow :=
  let actualEndIdx := if endIdx <=? startIdx then startIdx + 1 else endIdx in
  let breakdown :=
    map (fun p =>
           let periodRevenue :=
             fold_left
               (fun periodRevenue i =>
                  let d := newDate (getFullYear start) (getMonth start + i) 1
                  in
                  periodRevenue + getMonthlyRevenue now p d)
               (seqZ startIdx (actualEndIdx - startIdx)) 0 in
           {| br_project := p; periodRevenue := periodRevenue |})
      projects in
  sortBy (fun a b => periodRevenue b - periodRevenue a)
    (List.filter (fun p => periodRevenue p >? 0) breakdown).

(** The total the breakdown modal shows under its rows. *)
Definition breakdownTotal (startIdx endIdx : Z) : Z :=
  fold_left (fun sum p => sum + periodRevenue p)
    (getBreakdownData startIdx endIdx) 0.

(** [initModal]: the targets that the modal of the monthly sales targets
    opens with, one for each month of the projection. *)
Definition initModal : gmap string Z :=
  fold_left
    (fun targets d =>
       let key := monthKey (getFullYear (date d)) (getMonth (date d)) in
       <[key := or_default (salesTargets settings !! key) 0]> targets)
    data ∅.

(** [onChange] of the field of the month of [key] in the modal. *)
Definition setMonthlyTarget (monthlyTargets : gmap string Z) (key : string)
  (val : Z) : gmap string Z :=
  <[key := val]> monthlyTargets.

(** [handleSaveTargets]: the targets of the modal are written over those of
    the settings. *)
Definition handleSaveTargets (monthlyTargets : gmap string Z)
  : AppSettings :=
  withSalesTargets settings (monthlyTargets ∪ salesTargets settings).

End Dashboard.
End Dashboard.

(* ===================================================================== *)
(** ** The project analysis ([src/components/Analytics.tsx]) *)
(* ===================================================================== *)

(** One element of [projectMetrics]: the project with its figures of the
    term. *)
Record ProjectMetric : Type := {
  pm_project : Project;
  totalRevenue : Z;
  totalCost : Z;
  profit : Z;
  profitMargin : Q;
  laborShare : Q
}.

Module Analytics.
Section Analytics.

Variable now : Date.
Variable projects : list Project.
Variable employees : list Employee.
Variable workLogs : list WorkLog.
Variable currentTerm : Z.

(** Body of the [for] loop over the twelve months of the term. *)
Definition metricStep (p : Project) (startYear : Z) (acc : Z * Z) (i : Z)
  : Z * Z :=
  let '(totalRevenue, totalCost) := acc in
  let d := newDate startYear (11 + i) 1 in
  let totalRevenue := totalRevenue + getMonthlyRevenue now p d in
  let totalCost :=
    if Date_ltb d (currentMonthStart now)
    then totalCost
         + getProjectActualCost now p employees workLogs (getFullYear d)
             (getMonth d)
    else totalCost
         + getProjectMonthlyCost now p employees (getFullYear d)
             (getMonth d) in
  (totalRevenue, totalCost).

(** Body of [projects.map] of [projectMetrics]. *)
Definition projectMetric (p : Project) : ProjectMetric :=
  let startYear := currentTerm - 1 in
  let '(totalRevenue, totalCost) :=
    fold_left (metricStep p startYear) (seqZ 0 12) (0, 0) in
  let profit := totalRevenue - totalCost in
  let profitMargin :=
    if totalRevenue >? 0
    then fmul (fdiv (inject_Z profit) (inject_Z totalRevenue)) 100
    else 0%Q in
  let laborShare :=
    if totalRevenue >? 0
    then fmul (fdiv (inject_Z totalCost) (inject_Z totalRevenue)) 100
    else 0%Q in
  {| pm_project := p; totalRevenue := totalRevenue; totalCost := totalCost;
     profit := profit; profitMargin := profitMargin;
     laborShare := laborShare |}.

Definition projectMetrics : list ProjectMetric :=
  sortBy (fun a b => totalRevenue b - totalRevenue a)
    (map projectMetric projects).

Variable settings : AppSettings.

(** The target band of the profit margin, from that of the labor share. *)
Definition targetMarginMin : Q := fsub 100 (targetLaborShareMax settings).
Definition targetMarginMax : Q := fsub 100 (targetLaborShareMin settings).

(** Predicate of the [filter] of the list of projects in deficit or with a
    low margin: [p.profit < 0 || p.profitMargin < targetMarginMin]. *)
Definition isProblemProject (p : ProjectMetric) : bool :=
  (profit p <? 0) || Qgtb targetMarginMin (profitMargin p).

(** Predicate of the [filter] of the list of high-profit projects:
    [p.profit > 0 && p.profitMargin >= targetMarginMin]. *)
Definition isHighProfitProject (p : ProjectMetric) : bool :=
  (profit p >? 0) && negb (Qgtb targetMarginMin (profitMargin p)).

Definition problemProjects : list ProjectMetric :=
  List.filter isProblemProject projectMetrics.

Definition highProfitProjects : list ProjectMetric :=
  slice
    (sortByQ (fun a b => fsub (profitMargin b) (profitMargin a))
       (List.filter isHighProfitProject projectMetrics))
    0 5.

End Analytics.
End Analytics.

(* ===================================================================== *)
(** ** The project editor ([src/components/NumberInput.tsx], ProjectMaster) *)
(* ===================================================================== *)

(** [{...form, timeChargePrices: newPrices}]. *)
Definition withTimeChargePrices (form : Project) (newPrices : gmap string Z)
  : Project :=
  {| proj_id := proj_id form; clientName := clientName form;
     projectName := projectName form; projectType := projectType form;
     status := status form; leadSourceCategory := leadSourceCategory form;
     leadSourceDetail := leadSourceDetail form;
     useFlow := useFlow form; useStock := useStock form;
     useTimeCharge := useTimeCharge form;
     revenueMethod := revenueMethod form;
     flowAmount := flowAmount form; flowStartDate := flowStartDate form;
     flowEndDate := flowEndDate form; stockAmount := stockAmount form;
     stockStartDate := stockStartDate form;
     timeChargePrices := Some newPrices;
     projectTasks := projectTasks form; billingConfig := billingConfig form;
     assignments := assignments form; isArchived := isArchived form |}.

(** [onChange] of the cell of month [year]-[month] in the grid of the
    time-charge amounts: an amount of 0 removes the entry of the month. *)
Definition setTimeChargePrice (form : Project) (year month : Z) (val : Z)
  : Project :=
  let key := monthKey year month in
  let newPrices := default ∅ (timeChargePrices form) in
  let newPrices :=
    if val =? 0 then delete key newPrices else <[key := val]> newPrices in
  withTimeChargePrices form newPrices.

(* ===================================================================== *)
(** ** The number input ([src/components/NumberInput.tsx]) *)
(* ===================================================================== *)

(** A string is kept as the list of its UTF-16 code units, which is what
    indexing and a regular expression without the [u] flag see. *)
Definition CodeUnit : Type := Z.

(** [/[0-9]/.test(c)]. *)
Definition isDigit (c : CodeUnit) : bool := (48 <=? c) && (c <=? 57).

Definition comma : CodeUnit := 44.

(** [/[0-9]/.test(rawVal[i])]: beyond the end the unit is [undefined], which
    is no digit. *)
Definition digitAt (rawVal : list CodeUnit) (i : Z) : bool :=
  match rawVal !! Z.to_nat i with
  | Some c => isDigit c
  | None => false
  end.

(** [cleanDigits.replace(/\B(?=(\d{3})+(?!\d))/g, ',')] on a string of
    digits: the pattern matches the empty string between two digits when
    the digits that follow are a positive multiple of three, so a comma
    goes after a digit when such a number of digits remains. *)
Fixpoint addCommas (cleanDigits : list CodeUnit) : list CodeUnit :=
  match cleanDigits with
  | [] => []
  | c :: rest =>
      let n := Z.of_nat (length rest) in
      if (0 <? n) && (n mod 3 =? 0)
      then c :: comma :: addCommas rest
      else c :: addCommas rest
  end.

(** The scan of the formatted string for the new cursor position, from
    index [i] with [digitsSeen] digits seen: the position found (0 when the
    loop ends without a [break]) and the digits seen. *)
Fixpoint scanCursor (formatted : list CodeUnit) (i digitsSeen : Z)
  (digitsBeforeCursor : Z) : Z * Z :=
  match formatted with
  | [] => (0, digitsSeen)
  | c :: rest =>
      let digitsSeen := if isDigit c then digitsSeen + 1 else digitsSeen in
      if digitsSeen =? digitsBeforeCursor then (i + 1, digitsSeen)
      else scanCursor rest (i + 1) digitsSeen digitsBeforeCursor
  end.

(** The decimal value of a string of digits. *)
Definition decimalValue (cleanDigits : list CodeUnit) : Z :=
  fold_left (fun acc c => acc * 10 + (c - 48)) cleanDigits 0.

(** [Number(cleanDigits)] on a string of digits: the double nearest to its
    decimal value.  It is a whole number and is kept as an integer (a string
    of more than 308 digits, which gives [Infinity], is outside the
    model). *)
Definition Number_of_digits (cleanDigits : list CodeUnit) : Z :=
  Qfloor (round64 (inject_Z (decimalValue cleanDigits))).

(** What [processInput] leaves behind: the text shown, the cursor position,
    and the number passed to [onChange], if it is called. *)
Record InputState : Type := {
  localVal : list CodeUnit;
  cursor : Z;
  changed : option Z
}.

Definition processInput (value : Z) (rawVal : list CodeUnit)
  (selectionStart : option Z) : InputState :=
  let effectiveSelectionStart := or_default selectionStart 0 in
  let digitsBeforeCursor :=
    fold_left
      (fun digitsBeforeCursor i =>
         if digitAt rawVal i then digitsBeforeCursor + 1
         else digitsBeforeCursor)
      (seqZ 0 effectiveSelectionStart) 0 in
  let cleanDigits := List.filter isDigit rawVal in
  let formatted := addCommas cleanDigits in
  let '(newCursorPos, digitsSeen) :=
    scanCursor formatted 0 0 digitsBeforeCursor in
  let newCursorPos := if digitsBeforeCursor =? 0 then 0 else newCursorPos in
  let newCursorPos :=
    if digitsSeen <? digitsBeforeCursor
    then Z.of_nat (length formatted) else newCursorPos in
  let numVal :=
    match cleanDigits with [] => 0 | _ => Number_of_digits cleanDigits end in
  {| localVal := formatted;
     cursor := newCursorPos;
     changed := if numVal =? value then None else Some numVal |}.

(* ===================================================================== *)
(** ** The weeks of a term ([src/utils.ts]) *)
(* ===================================================================== *)

(** [d.getDay()]: 0 is Sunday; 1 January 1970 was a Thursday. *)
Definition getDay (d : Date) : Z := (dayNumber d + 4) mod 7.

(** [d.setMonth(month)]: the day of the month is kept and overflows like
    that of the constructor. *)
Definition setMonth (d : Date) (month : Z) : Date :=
  let kd := rollDays (rollFuel (dayOfMonth d))
              (getFullYear d * 12 + month) (dayOfMonth d) in
  mkDate (fst kd) (snd kd) (timeOfDay d).

(** One week of a month of [getTermMonthsWithWeeks]. *)
Record Week : Type := {
  wk_label : string;
  startDate : DateStr;
  weekNum : Z
}.

(** One month of [getTermMonthsWithWeeks]. *)
Record TermMonth : Type := {
  dateObj : Date;
  tm_label : string;
  yearMonth : string;
  weeks : list Week
}.

Section Weeks.

(** [getTimezoneOffset()]: the minutes from local time to UTC (-540 in
    Japan), taken as constant over the term; daylight saving time is
    outside the model. *)
Variable timezoneOffset : Z.

(** [d.toISOString().split('T')[0]]: the calendar day of the instant in
    UTC, for the years 0..9999. *)
Definition toISODate (d : Date) : DateStr :=
  let utcTime := timeOfDay d + timezoneOffset * 60000 in
  let utc := setDate d (dayOfMonth d + utcTime / 86400000) in
  (getFullYear utc, getMonth utc + 1, getDate utc).

(** The first [while] loop of [getTermMonthsWithWeeks]; [None] when the
    fuel runs out before the loop ends. *)
Fixpoint monthsLoop (fuel : nat) (currentMonthStart end_ : Date)
  : option (list TermMonth) :=
  match fuel with
  | O => None
  | S fuel' =>
      if Date_leb currentMonthStart end_ then
        let monthLabel := pretty (getMonth currentMonthStart + 1) +:+ "月" in
        let yearMonth :=
          monthKey (getFullYear currentMonthStart)
            (getMonth currentMonthStart) in
        let nextMonth :=
          setMonth currentMonthStart (getMonth currentMonthStart + 1) in
        match monthsLoop fuel' nextMonth end_ with
        | Some months =>
            Some ({| dateObj := currentMonthStart; tm_label := monthLabel;
                     yearMonth := yearMonth; weeks := [] |} :: months)
        | None => None
        end
      else Some []
  end.

(** The values that [current] takes at the iterations of the second
    [while] loop. *)
Fixpoint weekStarts (fuel : nat) (current end_ : Date)
  : option (list Date) :=
  match fuel with
  | O => None
  | S fuel' =>
      if Date_leb current end_ then
        match weekStarts fuel' (setDate current (getDate current + 7)) end_
        with
        | Some l => Some (current :: l)
        | None => None
        end
      else Some []
  end.

(** [targetMonth.weeks.push({...})]. *)
Definition pushWeek (weekStart weekEnd : Date) (targetMonth : TermMonth)
  : TermMonth :=
  {| dateObj := dateObj targetMonth; tm_label := tm_label targetMonth;
     yearMonth := yearMonth targetMonth;
     weeks :=
       weeks targetMonth
       ++ [{| wk_label :=
                pretty (getMonth weekStart + 1) +:+ "/"
                +:+ pretty (getDate weekStart) +:+ "~"
                +:+ pretty (getDate weekEnd);
              startDate := toISODate weekStart;
              weekNum := Z.of_nat (length (weeks targetMonth)) + 1 |}] |}.

(** The index of the month under which the week that starts at
    [weekStart] is filed: the month of that key, else the first month for a
    week that starts before the term. *)
Definition targetMonthIndex (months : list TermMonth) (start : Date)
  (weekStart : Date) : option nat :=
  let monthKey := monthKey (getFullYear weekStart) (getMonth weekStart) in
  let found := findIndex (fun m => String.eqb (yearMonth m) monthKey) months in
  if found >=? 0 then Some (Z.to_nat found)
  else if Date_ltb weekStart start
       then match months with [] => None | _ => Some 0%nat end
       else None.

(** Body of the second [while] loop. *)
Definition fileWeek (start : Date) (months : list TermMonth)
  (weekStart : Date) : list TermMonth :=
  let weekEnd := setDate weekStart (getDate weekStart + 4) in
  if Date_geb weekEnd start then
    match targetMonthIndex months start weekStart with
    | Some i => alter (pushWeek weekStart weekEnd) i months
    | None => months
    end
  else months.

(** The Monday from which the second loop starts. *)
Definition firstMonday (start : Date) : Date :=
  let day := getDay start in
  let diff := getDate start - day + (if day =? 0 then -6 else 1) in
  setDate start diff.

Definition getTermMonthsWithWeeks (fuel : nat) (termYear : Z)
  : option (list TermMonth) :=
  let '(start, end_) := getTermDateRange termYear in
  match monthsLoop fuel start end_ with
  | Some months =>
      match weekStarts fuel (firstMonday start) end_ with
      | Some starts => Some (fold_left (fileWeek start) starts months)
      | None => None
      end
  | None => None
  end.

End Weeks.

(* ===================================================================== *)
(** ** Vocabulary of the properties *)
(* ===================================================================== *)

Definition sumZ (l : list Z) : Z := foldr Z.add 0 l.

(** Any date of the calendar month with index [k] will do as the [date]
    argument of [getMonthlyRevenue]; this is its first day. *)
Definition firstOfMonth (k : Z) : Date := mkDate k 1 0.

(** The month indices from [first] to [last], both included. *)
Definition monthsFromTo (first last : Z) : list Z :=
  seqZ first (last - first + 1).

(** The flow contribution to [getMonthlyRevenue now p date]. *)
Definition flowContribution (now : Date) (p : Project) (date : Date) : Z :=
  flowRevenueOf now p (getFullYear date) (getMonth date).

(** A project is flow-only when neither stock nor time charge is active. *)
Definition flowOnly (p : Project) : Prop :=
  useFlow p = true /\ useStock p = false /\ useTimeCharge p = false.

(** Sample data: a flow project with no assignments. *)
Definition sampleBilling (split : bool) (ratio : option Q) : BillingConfig :=
  {| flowSplit := split; flowStartRatio := ratio;
     flowStartDelay := Some 1; flowStartPayDay := Some 99;
     flowEndDelay := Some 1; flowEndPayDay := Some 99;
     stockDelay := Some 1; stockPayDay := Some 99 |}.

Definition sampleFlowProject (st : ProjectStatus)
  (method : option RevenueRecognitionMethod) (amount : Z)
  (startDate endDate : option DateStr) (bc : BillingConfig)
  (assigns : list Assignment) : Project :=
  {| proj_id := "p1"; clientName := "client"; projectName := "project";
     projectType := Consulting; status := st;
     leadSourceCategory := None; leadSourceDetail := None;
     useFlow := true; useStock := false; useTimeCharge := false;
     revenueMethod := method;
     flowAmount := amount;
     flowStartDate := startDate; flowEndDate := endDate;
     stockAmount := 0; stockStartDate := None;
     timeChargePrices := None; projectTasks := [];
     billingConfig := bc; assignments := assigns; isArchived := false |}.

(** The instant used in the examples: 15 March 2025, 09:00. *)
Definition sampleNow : Date := mkDate (2025 * 12 + 2) 15 32400000.

(** [d] is a calendar day (at local midnight) of the month [year], [month]. *)
Definition calendarDayOf (d : Date) (year month : Z) : Prop :=
  monthIndex d = year * 12 + month
  /\ 1 <= dayOfMonth d <= daysInMonthIndex (year * 12 + month)
  /\ timeOfDay d = 0.

(** The month lies strictly outside the range from [s] to [e]: each of its
    days is before [s], or each of its days is after [e].  When [s] is not
    after [e] this says that no day of the month lies within the range
    ([outside_iff_no_common_day]). *)
Definition monthOutside (year month : Z) (s e : Date) : Prop :=
  (forall d, calendarDayOf d year month -> Date_ltb d s = true)
  \/ (forall d, calendarDayOf d year month -> Date_ltb e d = true).

(** [employees] holds an employee with this id. *)
Definition knownEmployee (employees : list Employee) (id : string) : bool :=
  existsb (fun e => String.eqb (emp_id e) id) employees.

(** The project with its assignments replaced. *)
Definition withAssignments (p : Project) (l : list Assignment) : Project :=
  {| proj_id := proj_id p; clientName := clientName p;
     projectName := projectName p; projectType := projectType p;
     status := status p; leadSourceCategory := leadSourceCategory p;
     leadSourceDetail := leadSourceDetail p;
     useFlow := useFlow p; useStock := useStock p;
     useTimeCharge := useTimeCharge p; revenueMethod := revenueMethod p;
     flowAmount := flowAmount p; flowStartDate := flowStartDate p;
     flowEndDate := flowEndDate p; stockAmount := stockAmount p;
     stockStartDate := stockStartDate p;
     timeChargePrices := timeChargePrices p;
     projectTasks := projectTasks p; billingConfig := billingConfig p;
     assignments := l; isArchived := isArchived p |}.

(** The project without the assignments whose employee is unknown. *)
Definition pruneAssignments (employees : list Employee) (p : Project)
  : Project :=
  withAssignments p
    (List.filter (fun a => knownEmployee employees (employeeId a))
       (assignments p)).

(** The work logs without those whose employee is unknown. *)
Definition pruneWorkLogs (employees : list Employee)
  (workLogs : list WorkLog) : list WorkLog :=
  List.filter (fun l => knownEmployee employees (log_employeeId l)) workLogs.

Definition sampleEmployee (id : string) (monthlyCost : Z) : Employee :=
  {| emp_id := id; emp_name := "employee"; contractType := FullTime;
     defaultMonthlyCost := monthlyCost; defaultMonthlyHours := 160;
     monthlyData := ∅ |}.

(** The net cash change of a monthly record. *)
Definition netCashChange (r : Projection) : Z :=
  totalCashIn r - totalCashOut r.

(** The labor cost that iteration [j] of [generateProjections] computes for
    its own month (the local [cost] after the first [projects.forEach]). *)
Definition monthLaborCost (now : Date) (projects : list Project)
  (employees : list Employee) (workLogs : list WorkLog) (termStart : Date)
  (j : Z) : Z :=
  pl_cost (monthProfitLoss now projects employees workLogs
             (projectionDate termStart j)).

Definition sampleSettings (initial : Z) (items : list CashFlowItem)
  : AppSettings :=
  {| targetLaborShareMin := 30; targetLaborShareMax := 50;
     salesTargets := ∅; monthlySalesTarget := Some 1000000;
     initialCashBalance := initial; cashFlowItems := items;
     leadSourceOptions := None |}.

(** A recurring monthly ledger item that starts in [from]. *)
Definition sampleRecurring (cat : CashFlowCategory) (amt : Z)
  (from : YearMonthStr) (pay : option Z) : CashFlowItem :=
  {| item_id := "cf"; item_name := "item"; category := cat; amount := amt;
     isRecurring := true; periodStart := Some from; periodEnd := None;
     payDay := pay; paymentDate := None; targetMonth := None |}.

(** The sample data set of the examples: a flow project of 6,000,000
    (Milestone, split 50/50, January to June 2025) with one employee
    assigned at 50%, a monthly rent of 200,000 and an opening balance of
    1,000,000; the term starts in December 2024. *)
Definition sampleProjects : list Project :=
  [ sampleFlowProject Ordered (Some Milestone) 6000000
      (Some (2025, 1, 1)) (Some (2025, 6, 30))
      (sampleBilling true (Some 50%Q))
      [ {| employeeId := "e1"; utilizationRate := 50 |} ] ].

Definition sampleEmployees : list Employee := [sampleEmployee "e1" 800000].

Definition sampleWorkLogs : list WorkLog :=
  [ {| log_id := "l1"; projectId := "p1"; taskId := None;
       log_employeeId := "e1"; weekStartDate := Some (2025, 2, 3);
       actualHours := 40 |} ].

Definition sampleTermStart : Date := fst (getTermDateRange 2025).

Definition sampleLedger : AppSettings :=
  sampleSettings 1000000
    [sampleRecurring OperatingExpense 200000 (2024, 12) (Some 25)].

(** A project combining Flow and Stock. *)
Definition sampleHybridProject (st : ProjectStatus)
  (method : option RevenueRecognitionMethod) (amount : Z)
  (startDate endDate : option DateStr) (stockAmt : Z)
  (stockStart : option DateStr) (bc : BillingConfig) : Project :=
  {| proj_id := "p2"; clientName := "client"; projectName := "hybrid";
     projectType := Dev; status := st;
     leadSourceCategory := None; leadSourceDetail := None;
     useFlow := true; useStock := true; useTimeCharge := false;
     revenueMethod := method;
     flowAmount := amount;
     flowStartDate := startDate; flowEndDate := endDate;
     stockAmount := stockAmt; stockStartDate := stockStart;
     timeChargePrices := None; projectTasks := [];
     billingConfig := bc; assignments := []; isArchived := false |}.

(** The stock share of a project in the month of [d], and what is left for
    flow, as the first [projects.forEach] of [generateProjections] adds them
    to [stockRevenue] and [flowRevenue]. *)
Definition stockShare (now : Date) (p : Project) (d : Date) : Z :=
  stockPart now p (getFullYear d) (getMonth d) (getMonthlyRevenue now p d).

Definition flowShare (now : Date) (p : Project) (d : Date) : Z :=
  getMonthlyRevenue now p d - stockShare now p d.

(** The condition under which the split of a project combining Stock and
    Flow is sound in the month of [d]: the stock start date is present and
    the flow and time-charge revenue of the month is not negative. *)
Definition splitSound (now : Date) (p : Project) (d : Date) : Prop :=
  useStock p = true -> useFlow p = true ->
  stockStartDate p <> None
  /\ 0 <= flowRevenueOf now p (getFullYear d) (getMonth d)
          + timeChargeOf p (getFullYear d) (getMonth d).

(** Amounts are not negative, the flow fee is a whole number that a number
    of the program holds exactly, and the start ratio is a percentage. *)
Definition nonNegativeAmounts (p : Project) : Prop :=
  0 <= flowAmount p <= Number_MAX_SAFE_INTEGER
  /\ 0 <= stockAmount p
  /\ (0 <= or_defaultQ (flowStartRatio (billingConfig p)) 0 <= 100)%Q
  /\ (forall prices key v,
        timeChargePrices p = Some prices -> prices !! key = Some v -> 0 <= v).

Definition isLost (p : Project) : bool :=
  match status p with Lost => true | _ => false end.

(** The recognized revenue of the Lost projects in the month of [d]. *)
Definition lostRevenue (now : Date) (projects : list Project) (d : Date)
  : Z :=
  sumZ (map (fun p => getMonthlyRevenue now p d)
          (List.filter isLost projects)).


(** The sum of the daily changes of the rows of [generateDailyCashFlow]. *)
Definition dailyTotal (rows : list DailyCash) : Z := sumZ (map change rows).

(** The sum over the days [1..n] of the changes recorded in
    [dailyChanges]. *)
Definition changesTotal (dailyChanges : gmap Z Z) (n : Z) : Z :=
  sumZ (map (fun d => default 0 (dailyChanges !! d)) (seqZ 1 n)).

(** The payments a project makes in a month, each with its date and its
    amount before tax: the start payment of a split flow fee, the end
    payment of the flow fee, and the stock and time-charge revenue of
    [stockDelay] months before.  Both cash paths derive these; see
    [cashInStep_payments] and [dailyProjectStep_payments]. *)
Definition projectPayments (now : Date) (p : Project) (year month : Z)
  : list (Date * Q) :=
  let bc := billingConfig p in
  let startPayment :=
    if useFlow p && truthy (flowStartDate p) then
      let s := parseLocalDate now (flowStartDate p) in
      let sPayDate :=
        getPaymentDate (getFullYear s) (getMonth s)
          (or_default (flowStartDelay bc) 0)
          (or_default (flowStartPayDay bc) 99) in
      if (getFullYear sPayDate =? year) && (getMonth sPayDate =? month)
      then
        if flowSplit bc
        then [(sPayDate,
               fmul (inject_Z (flowAmount p))
                 (fdiv (or_defaultQ (flowStartRatio bc) 0) 100))]
        else []
      else []
    else [] in
  let endPayment :=
    if useFlow p && truthy (flowEndDate p) then
      let e := parseLocalDate now (flowEndDate p) in
      let ePayDate :=
        getPaymentDate (getFullYear e) (getMonth e)
          (or_default (flowEndDelay bc) 0)
          (or_default (flowEndPayDay bc) 99) in
      if (getFullYear ePayDate =? year) && (getMonth ePayDate =? month)
      then [(ePayDate,
             if flowSplit bc
             then fmul (inject_Z (flowAmount p))
                    (fdiv (fsub 100 (or_defaultQ (flowStartRatio bc) 0)) 100)
             else inject_Z (flowAmount p))]
      else []
    else [] in
  let stockPayment :=
    if (useStock p && truthy (stockStartDate p)) || useTimeCharge p then
      let delay := or_default (stockDelay bc) 0 in
      let payDay := or_default (stockPayDay bc) 99 in
      let targetRevMonth := newDate year (month - delay) 1 in
      let rev := getMonthlyRevenue now p targetRevMonth in
      if rev >? 0
      then [(getPaymentDate (getFullYear targetRevMonth)
               (getMonth targetRevMonth) delay payDay, inject_Z rev)]
      else []
    else [] in
  startPayment ++ endPayment ++ stockPayment.

(** The payments of all projects in a month, in the order of the
    projects. *)
Definition monthPayments (now : Date) (projects : list Project)
  (year month : Z) : list (Date * Q) :=
  List.flat_map (fun p => projectPayments now p year month) projects.

(** What [generateDailyCashFlow] does with one payment. *)
Definition dailyPaymentStep (year month : Z) (dailyChanges : gmap Z Z)
  (payment : Date * Q) : gmap Z Z :=
  if Qgtb (snd payment) 0
     && ((getFullYear (fst payment) =? year)
         && (getMonth (fst payment) =? month))
  then addDailyChange dailyChanges (getDate (fst payment))
         (Math_floor (fmul (snd payment) (round64 (11 # 10))))
  else dailyChanges.

(** A payment that both cash paths book in the month: it falls in the month
    and is not negative. *)
Definition paymentWithin (year month : Z) (payment : Date * Q) : Prop :=
  monthIndex (fst payment) = year * 12 + month
  /\ (0 <= snd payment)%Q.

(** The amounts with the 10% tax as the daily path floors them, one by one,
    and as the monthly path does, on their sum. *)
Definition taxedOneByOne (amounts : list Q) : Z :=
  sumZ (map (fun amt => Math_floor (fmul amt (round64 (11 # 10)))) amounts).

Definition taxedTogether (amounts : list Q) : Z :=
  Math_floor (fmul (fold_left fadd amounts 0%Q) (round64 (11 # 10))).

(** A recurring ledger item whose pay day the daily path can place: 99 (the
    last day), or a day of the month once [payDay || 25] is applied. *)
Definition payDayWithin (daysInMonth : Z) (item : CashFlowItem) : Prop :=
  isRecurring item = true ->
  payDay item = Some 99 \/ 1 <= or_default (payDay item) 25 <= daysInMonth.

(** C3 as the specification words it, for every input. *)
Definition daily_matches_monthly_for_every_input : Prop :=
  forall (now : Date) (projects : list Project) (employees : list Employee)
    (workLogs : list WorkLog) (termStart : Date) (settings : AppSettings)
    (initialBalance : Z) (i : nat) (r : Projection),
    generateProjections now projects employees workLogs termStart settings
      !! i = Some r ->
    dailyTotal
      (generateDailyCashFlow now (date r) projects settings initialBalance)
    = totalCashIn r - totalCashOut r.

(** The signed cash effect of a ledger item: loan-in is an inflow, every
    other category an outflow. *)
Definition signedAmount (item : CashFlowItem) : Z :=
  amount item * match category item with LoanIn => 1 | _ => -1 end.

(** The net effect of the ledger accumulators on the cash balance. *)
Definition ledgerNet (lg : Ledger) : Z :=
  lg_financialIn lg - lg_sga lg - lg_taxRepayment lg - lg_investment lg.

(* ===================================================================== *)
(** ** Vocabulary of the further properties *)
(* ===================================================================== *)

(** A zone without daylight saving time: the offset from UTC is the same
    all year. *)
Definition fixedOffset (getTimezoneOffset : Date -> Z) : Prop :=
  forall d d' : Date, getTimezoneOffset d = getTimezoneOffset d'.

(** Japan Standard Time, nine hours ahead of UTC. *)
Definition japan (d : Date) : Z := -540.

(** Day [d] of the month with index [k] lies within the range from [s] to
    [e], both included. *)
Definition dayInRange (s e : Date) (k d : Z) : bool :=
  Date_leb s (mkDate k d 0) && Date_leb (mkDate k d 0) e.

(** The month index of a ["YYYY-MM"] string. *)
Definition ymIndex (ym : YearMonthStr) : Z := fst ym * 12 + snd ym - 1.

(** Whether a ledger item falls in the month with index [k], in month
    arithmetic: a recurring item from the month of [periodStart] to the month
    of [periodEnd] (to December 9999 without one), a one-time item in the
    month of its [paymentDate], else of its legacy [targetMonth]. *)
Definition occursInMonth (item : CashFlowItem) (k : Z) : bool :=
  if isRecurring item then
    match periodStart item with
    | Some ps =>
        (ymIndex ps <=? k)
        && (k <=? match periodEnd item with
                  | Some pe => ymIndex pe
                  | None => 9999 * 12 + 11
                  end)
    | None => false
    end
  else
    match paymentDate item with
    | Some (y, m, d) => monthIndex (newDate y (m - 1) d) =? k
    | None =>
        match targetMonth item with
        | Some tm => ymIndex tm =? k
        | None => false
        end
    end.

(** The four ledger accumulators of a monthly record. *)
Inductive LedgerBucket : Type :=
  BucketSga | BucketTaxRepayment | BucketInvestment | BucketFinancialIn.

Definition bucketOf (c : CashFlowCategory) : LedgerBucket :=
  match c with
  | OperatingExpense | Other => BucketSga
  | Tax | LoanRepayment => BucketTaxRepayment
  | Investment => BucketInvestment
  | LoanIn => BucketFinancialIn
  end.

Definition LedgerBucket_eqb (a b : LedgerBucket) : bool :=
  match a, b with
  | BucketSga, BucketSga
  | BucketTaxRepayment, BucketTaxRepayment
  | BucketInvestment, BucketInvestment
  | BucketFinancialIn, BucketFinancialIn => true
  | _, _ => false
  end.

(** The amounts of the items of bucket [b] that fall in month [k]. *)
Definition bucketTotal (b : LedgerBucket) (items : list CashFlowItem)
  (k : Z) : Z :=
  sumZ (map (fun item =>
               if occursInMonth item k
                  && LedgerBucket_eqb (bucketOf (category item)) b
               then amount item else 0) items).

(** The revenue of project [p] in month [i] of the term that starts at
    [termStart]. *)
Definition termMonthRevenue (now : Date) (termStart : Date) (p : Project)
  (i : Z) : Z :=
  getMonthlyRevenue now p (projectionDate termStart i).

(* ===================================================================== *)
(** ** The application state ([src/context/AppContext.tsx]) *)
(* ===================================================================== *)

(** [{...l, actualHours: h}] and [{...l, id}]. *)
Definition withActualHours (l : WorkLog) (h : Q) : WorkLog :=
  {| log_id := log_id l; projectId := projectId l; taskId := taskId l;
     log_employeeId := log_employeeId l; weekStartDate := weekStartDate l;
     actualHours := h |}.

Definition withLogId (l : WorkLog) (id : string) : WorkLog :=
  {| log_id := id; projectId := projectId l; taskId := taskId l;
     log_employeeId := log_employeeId l; weekStartDate := weekStartDate l;
     actualHours := actualHours l |}.

(** [{...emp, id}] and [{...proj, id}]. *)
Definition withEmployeeId (e : Employee) (id : string) : Employee :=
  {| emp_id := id; emp_name := emp_name e; contractType := contractType e;
     defaultMonthlyCost := defaultMonthlyCost e;
     defaultMonthlyHours := defaultMonthlyHours e;
     monthlyData := monthlyData e |}.

Module AppContext.

(** The identifiers that [generateId] draws are passed as [newId]. *)
Definition addEmployee (employees : list Employee) (emp : Employee)
  (newId : string) : list Employee :=
  employees ++ [withEmployeeId emp newId].

Definition updateEmployee (employees : list Employee) (emp : Employee)
  : list Employee :=
  map (fun e => if String.eqb (emp_id e) (emp_id emp) then emp else e)
    employees.

(** [deleteEmployee] sets the employees and the projects. *)
Definition deleteEmployee (employees : list Employee)
  (projects : list Project) (id : string)
  : list Employee * list Project :=
  (List.filter (fun e => negb (String.eqb (emp_id e) id)) employees,
   map (fun p =>
          withAssignments p
            (List.filter (fun a => negb (String.eqb (employeeId a) id))
               (assignments p)))
     projects).

Definition updateProject (projects : list Project) (proj : Project)
  : list Project :=
  map (fun p => if String.eqb (proj_id p) (proj_id proj) then proj else p)
    projects.

Definition deleteProject (projects : list Project) (id : string)
  : list Project :=
  List.filter (fun p => negb (String.eqb (proj_id p) id)) projects.

(** The test of the [findIndex] of [updateWorkLog]: same project, task,
    employee and week.  The week strings are in the zero-padded form the
    application writes, so that equal strings are equal dates. *)
Definition sameLog (log l : WorkLog) : bool :=
  String.eqb (projectId l) (projectId log)
  && bool_decide (taskId l = taskId log)
  && String.eqb (log_employeeId l) (log_employeeId log)
  && bool_decide (weekStartDate l = weekStartDate log).

Definition updateWorkLog (workLogs : list WorkLog) (log : WorkLog)
  (newId : string) : list WorkLog :=
  let existingIndex := findIndex (sameLog log) workLogs in
  if existingIndex >=? 0 then
    alter (fun l => withActualHours l (actualHours log))
      (Z.to_nat existingIndex) workLogs
  else workLogs ++ [withLogId log newId].

End AppContext.

(** What identifies a work log for [updateWorkLog]. *)
Definition logKey (l : WorkLog)
  : string * option string * string * option DateStr :=
  (projectId l, taskId l, log_employeeId l, weekStartDate l).

(** Every assignment of every project names a known employee. *)
Definition assignmentsResolved (employees : list Employee)
  (projects : list Project) : Prop :=
  Forall (fun p =>
            Forall (fun a => knownEmployee employees (employeeId a) = true)
              (assignments p)) projects.

(** The cash that the second [projects.forEach] of [generateProjections]
    adds for project [p] in the month with index [k], before tax. *)
Definition projectCashIn (now : Date) (p : Project) (k : Z) : Q :=
  cashInStep now (k / 12) (k mod 12) 0%Q p.

(** The dates on which the start and the end payment of the flow fee of a
    project fall. *)
Definition flowStartPayDate (now : Date) (p : Project) : Date :=
  let s := parseLocalDate now (flowStartDate p) in
  getPaymentDate (getFullYear s) (getMonth s)
    (or_default (flowStartDelay (billingConfig p)) 0)
    (or_default (flowStartPayDay (billingConfig p)) 99).

Definition flowEndPayDate (now : Date) (p : Project) : Date :=
  let e := parseLocalDate now (flowEndDate p) in
  getPaymentDate (getFullYear e) (getMonth e)
    (or_default (flowEndDelay (billingConfig p)) 0)
    (or_default (flowEndPayDay (billingConfig p)) 99).

(** Costs, utilization rates and logged hours that are not negative. *)
Definition nonNegativeEmployee (e : Employee) : Prop :=
  0 <= defaultMonthlyCost e
  /\ (forall key d, monthlyData e !! key = Some d -> 0 <= md_cost d).

Definition nonNegativeLabor (employees : list Employee)
  (projects : list Project) (workLogs : list WorkLog) : Prop :=
  Forall nonNegativeEmployee employees
  /\ Forall (fun p => Forall (fun a => (0 <= utilizationRate a)%Q)
                        (assignments p)) projects
  /\ Forall (fun l => (0 <= actualHours l)%Q) workLogs.

(** The number of digits of a string, and of its first [k] units. *)
Definition countDigits (l : list CodeUnit) : Z :=
  Z.of_nat (length (List.filter isDigit l)).

Definition digitsBefore (l : list CodeUnit) (k : Z) : Z :=
  countDigits (take (Z.to_nat k) l).

(** The calendar day with day number [n], at local midnight. *)
Definition dateOfDay (n : Z) : Date := setDate (mkDate (1970 * 12) 1 0) (n + 1).

(** The week that starts at [weekStart], as [getTermMonthsWithWeeks] files
    it under the number [n]. *)
Definition weekOf (timezoneOffset : Z) (weekStart : Date) (n : Z) : Week :=
  {| wk_label :=
       pretty (getMonth weekStart + 1) +:+ "/"
       +:+ pretty (getDate weekStart) +:+ "~"
       +:+ pretty (getDate (setDate weekStart (getDate weekStart + 4)));
     startDate := toISODate timezoneOffset weekStart;
     weekNum := n |}.

(** Weeks numbered from 1 in their order. *)
Definition numberWeeks (timezoneOffset : Z) (l : list Date) : list Week :=
  imap (fun j w => weekOf timezoneOffset w (Z.of_nat j + 1)) l.

(** Whether the week that starts at [w] is filed under month [i] of the term
    that starts at [start]: its Friday is not before the term, and its
    Monday lies in month [i], or before the term for the first month. *)
Definition filedUnder (start : Date) (i : Z) (w : Date) : bool :=
  Date_geb (setDate w (getDate w + 4)) start
  && (if monthIndex w <? monthIndex start then i =? 0
      else monthIndex w =? monthIndex start + i).

(** Month [i] of a term with the weeks of [starts] filed under it. *)
Definition termMonth (timezoneOffset : Z) (start : Date)
  (starts : list Date) (i : Z) : TermMonth :=
  let k := monthIndex start + i in
  {| dateObj := firstOfMonth k;
     tm_label := pretty (k mod 12 + 1) +:+ "月";
     yearMonth := monthKey (k / 12) (k mod 12);
     weeks := numberWeeks timezoneOffset
                (List.filter (filedUnder start i) starts) |}.

(** The Mondays from the one on or before the start of the term to the last
    one not after its end. *)
Definition termMondays (termYear : Z) : list Date :=
  let start := fst (getTermDateRange termYear) in
  let end_ := snd (getTermDateRange termYear) in
  let first := dayNumber start - (getDay start + 6) mod 7 in
  map (fun j => dateOfDay (first + 7 * j))
    (seqZ 0 ((dayNumber end_ - first) / 7 + 1)).

(** The Friday of the week that starts at [w] is not before [start]. *)
Definition fridayInTerm (start : Date) (w : Date) : bool :=
  Date_geb (setDate w (getDate w + 4)) start.

(* ===================================================================== *)
(** ** Numbers of the program *)
(* ===================================================================== *)

Lemma roundEven_bounds (x : Q) :
  (x - (1 # 2) <= inject_Z (roundEven x) <= x + (1 # 2))%Q.
Proof.
  unfold roundEven.
  pose proof (Qfloor_le x) as Hlo. pose proof (Qlt_floor x) as Hhi.
  rewrite inject_Z_plus in Hhi. change (inject_Z 1) with 1%Q in Hhi.
  destruct (Qcompare_spec (x - inject_Z (Qfloor x)) (1 # 2)) as [H|H|H].
  - destruct (Z.even (Qfloor x)); rewrite ?inject_Z_plus;
      change (inject_Z 1) with 1%Q; lra.
  - lra.
  - rewrite inject_Z_plus. change (inject_Z 1) with 1%Q. lra.
Qed.

Lemma roundEven_le_Z (x : Q) (n : Z) :
  (x <= inject_Z n)%Q -> roundEven x <= n.
Proof.
  intros Hx. unfold roundEven.
  pose proof (Qfloor_le x) as Hlo.
  assert (Hf : Qfloor x <= n).
  { rewrite <- (Qfloor_Z n). apply Qfloor_resp_le. exact Hx. }
  destruct (Z.eq_dec (Qfloor x) n) as [Heq|Hne].
  - assert (Hz : (x - inject_Z (Qfloor x) <= 0)%Q) by (rewrite Heq; lra).
    destruct (Qcompare_spec (x - inject_Z (Qfloor x)) (1 # 2)) as [H|H|H];
      try lra. lia.
  - destruct (x - inject_Z (Qfloor x) ?= 1 # 2)%Q; [destruct (Z.even _)| |];
      lia.
Qed.

Lemma roundEven_ge_Z (x : Q) (n : Z) :
  (inject_Z n <= x)%Q -> n <= roundEven x.
Proof.
  intros Hx. unfold roundEven.
  assert (Hf : n <= Qfloor x).
  { rewrite <- (Qfloor_Z n). apply Qfloor_resp_le. exact Hx. }
  destruct (x - inject_Z (Qfloor x) ?= 1 # 2)%Q; [destruct (Z.even _)| |];
    lia.
Qed.

Lemma roundEven_comp (x y : Q) : (x == y)%Q -> roundEven x = roundEven y.
Proof.
  intros H. unfold roundEven. rewrite (Qfloor_comp _ _ H).
  assert (Hc : (x - inject_Z (Qfloor y) ?= 1 # 2)%Q
               = (y - inject_Z (Qfloor y) ?= 1 # 2)%Q)
    by (apply Qcompare_comp; [rewrite H; reflexivity|reflexivity]).
  rewrite Hc. reflexivity.
Qed.

Lemma Qpower2_pos (e : Z) : (0 < 2 ^ e)%Q.
Proof. apply Qpower_0_lt. reflexivity. Qed.

Lemma Qpower2_le (a b : Z) : a <= b -> (2 ^ a <= 2 ^ b)%Q.
Proof. intros H. apply Qpower_le_compat_l; [exact H|discriminate]. Qed.

Lemma Qpower2_succ (e : Z) : (2 ^ (e + 1) == 2 ^ e * 2)%Q.
Proof. rewrite Qpower_plus by discriminate. reflexivity. Qed.

(** [2 ^ ilog2 x] is not above [|x|]. *)
Lemma ilog2_le (x : Q) : ~ (x == 0)%Q -> (2 ^ ilog2 x <= Qabs x)%Q.
Proof.
  intros Hx. unfold ilog2.
  set (a := Z.abs (Qnum x)). set (b := Zpos (Qden x)).
  destruct (Qle_bool (2 ^ (Z.log2 a - Z.log2 b)) (Qabs x)) eqn:E.
  - apply Qle_bool_iff. exact E.
  - assert (Ha : 0 < a).
    { unfold a. destruct x as [n d]. unfold Qeq in Hx. cbn in *. lia. }
    assert (Hb : 0 < b) by (unfold b; lia).
    destruct (Z.log2_spec a Ha) as [Ha1 _].
    destruct (Z.log2_spec b Hb) as [_ Hb2].
    pose proof (Z.log2_nonneg a) as Hla. pose proof (Z.log2_nonneg b) as Hlb.
    assert (Habs : (Qabs x == inject_Z a / inject_Z b)%Q).
    { destruct x as [n d]. unfold a, b. cbn [Qnum Qden Qabs].
      unfold Qdiv, Qmult, Qinv, Qeq, inject_Z. cbn. lia. }
    rewrite Habs.
    replace (Z.log2 a - Z.log2 b - 1) with (Z.log2 a - Z.succ (Z.log2 b))
      by lia.
    rewrite Qpower_minus by discriminate.
    assert (Hp1 : (2 ^ Z.log2 a == inject_Z (2 ^ Z.log2 a))%Q)
      by (symmetry; apply (Zpower_Qpower 2); lia).
    assert (Hp2 : (2 ^ Z.succ (Z.log2 b)
                   == inject_Z (2 ^ Z.succ (Z.log2 b)))%Q)
      by (symmetry; apply (Zpower_Qpower 2); lia).
    rewrite Hp1, Hp2. clear Hp1 Hp2.
    assert (H1 : (inject_Z (2 ^ Z.log2 a) <= inject_Z a)%Q)
      by (rewrite <- Zle_Qle; exact Ha1).
    assert (H2 : (inject_Z b <= inject_Z (2 ^ Z.succ (Z.log2 b)))%Q)
      by (rewrite <- Zle_Qle; lia).
    assert (H3 : (0 < inject_Z b)%Q)
      by (change 0%Q with (inject_Z 0); rewrite <- Zlt_Qlt; exact Hb).
    assert (H4 : (0 < inject_Z (2 ^ Z.log2 a))%Q).
    { change 0%Q with (inject_Z 0). rewrite <- Zlt_Qlt.
      apply Z.pow_pos_nonneg; lia. }
    set (qu := inject_Z (2 ^ Z.succ (Z.log2 b))) in *.
    set (ql := inject_Z (2 ^ Z.log2 a)) in *.
    set (qa := inject_Z a) in *. set (qb := inject_Z b) in *.
    clearbody qu ql qa qb. clear - H1 H2 H3 H4.
    apply Qle_shift_div_l; [exact H3|].
    assert (Hu : (0 < qu)%Q) by lra.
    assert (Hdiv : (ql / qu * qb == ql * (qb / qu))%Q) by (field; lra).
    rewrite Hdiv.
    assert (qb / qu <= 1)%Q by (apply Qle_shift_div_r; lra).
    nra.
Qed.

Lemma round64_comp (x y : Q) : (x == y)%Q -> round64 x = round64 y.
Proof.
  intros H. unfold round64. rewrite (Qred_complete _ _ H). reflexivity.
Qed.

Lemma round64_zero (x : Q) : (x == 0)%Q -> round64 x = 0%Q.
Proof. intros H. rewrite (round64_comp _ _ H). reflexivity. Qed.

(** The scaling exponent of a number that is not zero. *)
Lemma round64_scaled (x : Q) :
  ~ (x == 0)%Q ->
  exists e : Z,
    (e = -1074 \/ (2 ^ (e + 52) <= Qabs x)%Q)
    /\ (round64 x == inject_Z (roundEven (x / 2 ^ e)) * 2 ^ e)%Q.
Proof.
  intros Hx. unfold round64.
  assert (Hr : ~ (Qred x == 0)%Q).
  { intros H. apply Hx. transitivity (Qred x);
      [symmetry; apply Qred_correct|exact H]. }
  destruct (Qeq_bool (Qred x) 0) eqn:E;
    [apply Qeq_bool_iff in E; contradiction|].
  exists (Z.max (ilog2 (Qred x) - 52) (-1074)). split.
  - destruct (Z.max_spec (ilog2 (Qred x) - 52) (-1074)) as [[_ ->]|[_ ->]];
      [left; reflexivity|right].
    replace (ilog2 (Qred x) - 52 + 52) with (ilog2 (Qred x)) by lia.
    apply Qle_trans with (Qabs (Qred x)); [apply ilog2_le; exact Hr|].
    assert (Ha : (Qabs (Qred x) == Qabs x)%Q)
      by (apply Qabs_wd, Qred_correct).
    rewrite Ha. apply Qle_refl.
  - cbv zeta. etransitivity; [apply Qred_correct|].
    rewrite (roundEven_comp (Qred x / 2 ^ Z.max (ilog2 (Qred x) - 52) (-1074))
               (x / 2 ^ Z.max (ilog2 (Qred x) - 52) (-1074)));
      [reflexivity|].
    apply Qmult_comp; [apply Qred_correct|reflexivity].
Qed.

Lemma round64_nonneg (x : Q) : (0 <= x)%Q -> (0 <= round64 x)%Q.
Proof.
  intros Hx. destruct (Qeq_dec x 0) as [Hz|Hz].
  - rewrite (round64_zero x Hz). apply Qle_refl.
  - destruct (round64_scaled x Hz) as (e & _ & ->).
    pose proof (Qpower2_pos e) as Hp.
    apply Qmult_le_0_compat; [|lra].
    change 0%Q with (inject_Z 0). rewrite <- Zle_Qle.
    apply roundEven_ge_Z. change (inject_Z 0) with 0%Q.
    apply Qle_shift_div_l; [exact Hp|]. lra.
Qed.

Lemma round64_nonpos (x : Q) : (x <= 0)%Q -> (round64 x <= 0)%Q.
Proof.
  intros Hx. destruct (Qeq_dec x 0) as [Hz|Hz].
  - rewrite (round64_zero x Hz). apply Qle_refl.
  - destruct (round64_scaled x Hz) as (e & _ & ->).
    pose proof (Qpower2_pos e) as Hp.
    assert (Hn : (inject_Z (roundEven (x / 2 ^ e)) <= 0)%Q).
    { change 0%Q with (inject_Z 0). rewrite <- Zle_Qle.
      apply roundEven_le_Z. change (inject_Z 0) with 0%Q.
      apply Qle_shift_div_r; [exact Hp|]. lra. }
    nra.
Qed.

Lemma Qpower2_lt_inv (a b : Z) : (2 ^ a < 2 ^ b)%Q -> a < b.
Proof. intros H. apply (Qpower_lt_compat_l_inv 2 a b H). reflexivity. Qed.

Lemma Qpower2_53 : (2 ^ 53 == inject_Z (2 ^ 53))%Q.
Proof. reflexivity. Qed.

(** Scaling by a power of two with an exponent that is not positive is a
    multiplication by an integer. *)
Lemma Qdiv_pow2_nonpos (x : Q) (e : Z) :
  e <= 0 -> (x / 2 ^ e == x * inject_Z (2 ^ (- e)))%Q.
Proof.
  intros He. rewrite (Zpower_Qpower 2) by lia.
  change (inject_Z 2) with 2%Q. rewrite Qpower_opp.
  pose proof (Qpower2_pos e). field. lra.
Qed.

(** A safe integer above the argument is above the result. *)
Lemma round64_le_Z (x : Q) (n : Z) :
  0 <= n < 2 ^ 53 -> (x <= inject_Z n)%Q -> (round64 x <= inject_Z n)%Q.
Proof.
  intros Hn Hx.
  assert (Hn0 : (0 <= inject_Z n)%Q)
    by (change 0%Q with (inject_Z 0); rewrite <- Zle_Qle; lia).
  destruct (Qlt_le_dec 0 x) as [Hpos|Hneg];
    [|pose proof (round64_nonpos x Hneg); lra].
  assert (Hz : ~ (x == 0)%Q) by lra.
  destruct (round64_scaled x Hz) as (e & He & ->).
  assert (Hle : e <= 0).
  { destruct He as [->|He]; [lia|].
    rewrite Qabs_pos in He by lra.
    assert (Hlt : (2 ^ (e + 52) < 2 ^ 53)%Q).
    { rewrite Qpower2_53. eapply Qle_lt_trans; [exact He|].
      eapply Qle_lt_trans; [exact Hx|]. rewrite <- Zlt_Qlt. lia. }
    apply Qpower2_lt_inv in Hlt. lia. }
  pose proof (Qpower2_pos e) as Hp.
  assert (Hk : (0 <= inject_Z (2 ^ (- e)))%Q).
  { change 0%Q with (inject_Z 0). rewrite <- Zle_Qle.
    apply Z.pow_nonneg. lia. }
  assert (Hr : roundEven (x / 2 ^ e) <= n * 2 ^ (- e)).
  { apply roundEven_le_Z. rewrite Qdiv_pow2_nonpos by exact Hle.
    rewrite inject_Z_mult. nra. }
  rewrite Zle_Qle in Hr. rewrite inject_Z_mult in Hr.
  assert (Hs : (inject_Z n == inject_Z n * inject_Z (2 ^ (- e)) * 2 ^ e)%Q).
  { rewrite (Zpower_Qpower 2) by lia. change (inject_Z 2) with 2%Q.
    rewrite Qpower_opp. field. lra. }
  rewrite Hs. nra.
Qed.

(** A safe integer below the argument is below the result. *)
Lemma round64_ge_Z (x : Q) (n : Z) :
  0 <= n < 2 ^ 53 -> (inject_Z n <= x)%Q -> (inject_Z n <= round64 x)%Q.
Proof.
  intros Hn Hx.
  assert (Hn0 : (0 <= inject_Z n)%Q)
    by (change 0%Q with (inject_Z 0); rewrite <- Zle_Qle; lia).
  destruct (Qeq_dec x 0) as [Hz|Hz].
  - rewrite (round64_zero x Hz). lra.
  - destruct (round64_scaled x Hz) as (e & He & ->).
    pose proof (Qpower2_pos e) as Hp.
    destruct (Z_le_gt_dec e 0) as [Hle|Hgt].
    + assert (Hk : (0 <= inject_Z (2 ^ (- e)))%Q).
      { change 0%Q with (inject_Z 0). rewrite <- Zle_Qle.
        apply Z.pow_nonneg. lia. }
      assert (Hr : n * 2 ^ (- e) <= roundEven (x / 2 ^ e)).
      { apply roundEven_ge_Z. rewrite Qdiv_pow2_nonpos by exact Hle.
        rewrite inject_Z_mult. nra. }
      rewrite Zle_Qle in Hr. rewrite inject_Z_mult in Hr.
      assert (Hs : (inject_Z n == inject_Z n * inject_Z (2 ^ (- e)) * 2 ^ e)%Q).
      { rewrite (Zpower_Qpower 2) by lia. change (inject_Z 2) with 2%Q.
        rewrite Qpower_opp. field. lra. }
      rewrite Hs. nra.
    + destruct He as [->|He]; [lia|].
      rewrite Qabs_pos in He by lra.
      rewrite Qpower_plus in He by discriminate.
      assert (Hr : 2 ^ 52 <= roundEven (x / 2 ^ e)).
      { apply roundEven_ge_Z. apply Qle_shift_div_l; [exact Hp|].
        change (inject_Z (2 ^ 52)) with (2 ^ 52)%Q. lra. }
      rewrite Zle_Qle in Hr.
      assert (H1 : (2 ^ 1 <= 2 ^ e)%Q) by (apply Qpower2_le; lia).
      change (2 ^ 1)%Q with 2%Q in H1.
      assert (Hn53 : (inject_Z n <= inject_Z (2 ^ 53))%Q)
        by (rewrite <- Zle_Qle; lia).
      change (inject_Z (2 ^ 53)) with (inject_Z (2 ^ 52) * 2)%Q in Hn53.
      set (r := inject_Z (roundEven (x / 2 ^ e))) in *.
      set (c := inject_Z (2 ^ 52)) in *.
      assert (0 <= c)%Q by (unfold c; discriminate).
      clearbody r c. nra.
Qed.

Lemma round64_reduced (x : Q) : Qred (round64 x) = round64 x.
Proof.
  unfold round64. destruct (Qeq_bool (Qred x) 0); [reflexivity|].
  apply Qcanon.Qred_involutive.
Qed.

(** Safe integers are numbers of the program. *)
Lemma round64_Z (n : Z) :
  0 <= n < 2 ^ 53 -> round64 (inject_Z n) = inject_Z n.
Proof.
  intros Hn. rewrite <- round64_reduced.
  assert (Hq : (round64 (inject_Z n) == inject_Z n)%Q).
  { apply Qle_antisym; [apply round64_le_Z|apply round64_ge_Z];
      try exact Hn; apply Qle_refl. }
  rewrite (Qred_complete _ _ Hq). apply Qcanon.Qred_identity.
  cbn. apply Z.gcd_1_r.
Qed.

(** The rounding error: half a unit in the last place. *)
Lemma round64_error (x : Q) :
  (Qabs (round64 x - x) <= Qabs x * (1 # 2 ^ 53) + 2 ^ (-1075))%Q.
Proof.
  assert (Hs : (0 < 2 ^ (-1075))%Q) by apply Qpower2_pos.
  destruct (Qeq_dec x 0) as [Hz|Hz].
  - rewrite (round64_zero x Hz).
    assert (Hd : (0 - x == 0)%Q) by lra.
    pose proof (Qabs_wd _ _ Hd) as Hq. change (Qabs 0) with 0%Q in Hq.
    pose proof (Qabs_nonneg x) as Ha.
    assert (Hv : (0 <= Qabs x * (1 # 2 ^ 53))%Q)
      by (apply Qmult_le_0_compat; [exact Ha|discriminate]).
    set (u := Qabs (0 - x)) in *. set (v := (Qabs x * (1 # 2 ^ 53))%Q) in *.
    set (s := (2 ^ (-1075))%Q) in *. clearbody u v s. lra.
  - destruct (round64_scaled x Hz) as (e & He & ->).
    pose proof (Qpower2_pos e) as Hp.
    pose proof (roundEven_bounds (x / 2 ^ e)) as [Hlo Hhi].
    assert (Hx : (x == x / 2 ^ e * 2 ^ e)%Q) by (field; lra).
    set (m := (x / 2 ^ e)%Q) in *. set (r := inject_Z (roundEven m)) in *.
    assert (Herr : (Qabs (r * 2 ^ e - x) <= 2 ^ e * (1 # 2))%Q).
    { apply Qabs_Qle_condition. set (p := (2 ^ e)%Q) in *.
      clearbody r m p. split; nra. }
    eapply Qle_trans; [exact Herr|].
    pose proof (Qabs_nonneg x) as Ha.
    destruct He as [->|He].
    + assert (Hc : (2 ^ (-1074) * (1 # 2) == 2 ^ (-1075))%Q) by reflexivity.
      rewrite Hc.
      assert (Hv : (0 <= Qabs x * (1 # 2 ^ 53))%Q)
        by (apply Qmult_le_0_compat; [exact Ha|discriminate]).
      set (v := (Qabs x * (1 # 2 ^ 53))%Q) in *.
      set (s := (2 ^ (-1075))%Q) in *. clearbody v s. lra.
    + rewrite Qpower_plus in He by discriminate.
      assert (Hc : (2 ^ 52 == inject_Z (2 ^ 52))%Q) by reflexivity.
      rewrite Hc in He.
      assert (Hc2 : ((1 # 2 ^ 53) == (1 # 2) / inject_Z (2 ^ 52))%Q)
        by reflexivity.
      rewrite Hc2.
      set (c := inject_Z (2 ^ 52)) in *.
      assert (Hcpos : (0 < c)%Q) by reflexivity.
      assert (Hd : (Qabs x * ((1 # 2) / c) == Qabs x / c * (1 # 2))%Q)
        by (field; lra).
      rewrite Hd.
      assert (2 ^ e <= Qabs x / c)%Q by (apply Qle_shift_div_l; lra).
      set (s := (2 ^ (-1075))%Q) in *. set (p := (2 ^ e)%Q) in *.
      set (w := (Qabs x / c)%Q) in *. clearbody c s p w. lra.
Qed.

Lemma Qfloor_unique (x : Q) (n : Z) :
  (inject_Z n <= x)%Q -> (x < inject_Z n + 1)%Q -> Qfloor x = n.
Proof.
  intros Hlo Hhi.
  assert (H1 : n <= Qfloor x)
    by (rewrite <- (Qfloor_Z n); apply Qfloor_resp_le; exact Hlo).
  pose proof (Qfloor_le x) as H2.
  assert (H3 : (inject_Z (Qfloor x) < inject_Z (n + 1))%Q)
    by (rewrite inject_Z_plus; change (inject_Z 1) with 1%Q; lra).
  rewrite <- Zlt_Qlt in H3. lia.
Qed.

(** The quotient of two safe integers, floored at once, is the integer
    quotient: the rounding of the division cannot reach the next integer. *)
Lemma floor_fdiv_exact (a b : Z) :
  0 <= a -> 0 < b -> a + b <= 2 ^ 53 ->
  Qfloor (round64 (inject_Z a / inject_Z b)) = a / b.
Proof.
  intros Ha Hb Hab.
  pose proof (Z.div_mod a b ltac:(lia)) as Hdm.
  pose proof (Z.mod_pos_bound a b Hb) as Hm.
  pose proof (Z.div_pos a b Ha Hb) as Hq0.
  assert (Hqa : a / b <= a) by (apply Z.div_le_upper_bound; nia).
  set (q := a / b) in *.
  set (x := (inject_Z a / inject_Z b)%Q).
  assert (HB : (0 < inject_Z b)%Q)
    by (change 0%Q with (inject_Z 0); rewrite <- Zlt_Qlt; exact Hb).
  assert (HA : (0 <= inject_Z a)%Q)
    by (change 0%Q with (inject_Z 0); rewrite <- Zle_Qle; exact Ha).
  assert (Hlo : (inject_Z b * inject_Z q <= inject_Z a)%Q)
    by (rewrite <- inject_Z_mult, <- Zle_Qle; lia).
  assert (Hhi : (inject_Z a <= inject_Z b * inject_Z q + inject_Z b - 1)%Q).
  { change 1%Q with (inject_Z 1).
    unfold Qminus. rewrite <- inject_Z_opp, <- inject_Z_mult, <- !inject_Z_plus.
    rewrite <- Zle_Qle. lia. }
  assert (Hsafe : (inject_Z a + inject_Z b <= inject_Z (2 ^ 53))%Q)
    by (rewrite <- inject_Z_plus, <- Zle_Qle; exact Hab).
  assert (Hx : (x * inject_Z b == inject_Z a)%Q) by (unfold x; field; lra).
  assert (Hx0 : (0 <= x)%Q) by (apply Qle_shift_div_l; lra).
  apply Qfloor_unique.
  - apply round64_ge_Z; [lia|]. apply Qle_shift_div_l; [exact HB|]. lra.
  - pose proof (round64_error x) as Herr.
    apply Qabs_Qle_condition in Herr. destruct Herr as [_ Herr].
    rewrite Qabs_pos in Herr by exact Hx0.
    assert (Hs : (2 ^ (-1075) <= (1 # 2 ^ 53) * (1 # 2))%Q)
      by (vm_compute; discriminate).
    set (s := (2 ^ (-1075))%Q) in *.
    change (inject_Z (2 ^ 53)) with (/ (1 # 2 ^ 53))%Q in Hsafe.
    set (c := (1 # 2 ^ 53)%Q) in *.
    assert (Hc : (0 < c)%Q) by reflexivity.
    assert (Hsc : (inject_Z a * c + inject_Z b * c <= 1)%Q).
    { assert (Hi : (/ c * c == 1)%Q) by (field; lra).
      assert ((inject_Z a + inject_Z b) * c <= / c * c)%Q
        by (apply Qmult_le_compat_r; lra).
      lra. }
    set (r := round64 x) in *.
    set (A := inject_Z a) in *. set (B := inject_Z b) in *.
    set (Q' := inject_Z q) in *.
    apply Qmult_lt_r with (z := B); [exact HB|].
    clearbody r A B Q' s c x. clear - Herr Hs Hc Hsc Hx Hx0 HB HA Hlo Hhi.
    assert (H1 : (r * B <= A + A * c + s * B)%Q) by nra.
    assert (H2 : (s * B <= c * (1 # 2) * B)%Q) by nra.
    nra.
Qed.

(** [|x|] is below [2 ^ (ilog2 x + 1)]. *)
Lemma ilog2_lt (x : Q) : ~ (x == 0)%Q -> (Qabs x < 2 ^ (ilog2 x + 1))%Q.
Proof.
  intros Hx. unfold ilog2.
  set (a := Z.abs (Qnum x)). set (b := Zpos (Qden x)).
  destruct (Qle_bool (2 ^ (Z.log2 a - Z.log2 b)) (Qabs x)) eqn:E.
  - assert (Ha : 0 < a).
    { unfold a. destruct x as [n d]. unfold Qeq in Hx. cbn in *. lia. }
    assert (Hb : 0 < b) by (unfold b; lia).
    destruct (Z.log2_spec a Ha) as [_ Ha2].
    destruct (Z.log2_spec b Hb) as [Hb1 _].
    pose proof (Z.log2_nonneg a) as Hla. pose proof (Z.log2_nonneg b) as Hlb.
    assert (Habs : (Qabs x == inject_Z a / inject_Z b)%Q).
    { destruct x as [n d]. unfold a, b. cbn [Qnum Qden Qabs].
      unfold Qdiv, Qmult, Qinv, Qeq, inject_Z. cbn. lia. }
    rewrite Habs.
    replace (Z.log2 a - Z.log2 b + 1) with (Z.succ (Z.log2 a) - Z.log2 b)
      by lia.
    rewrite Qpower_minus by discriminate.
    assert (Hp1 : (2 ^ Z.succ (Z.log2 a) == inject_Z (2 ^ Z.succ (Z.log2 a)))%Q)
      by (symmetry; apply (Zpower_Qpower 2); lia).
    assert (Hp2 : (2 ^ Z.log2 b == inject_Z (2 ^ Z.log2 b))%Q)
      by (symmetry; apply (Zpower_Qpower 2); lia).
    rewrite Hp1, Hp2. clear Hp1 Hp2.
    assert (H1 : (inject_Z a < inject_Z (2 ^ Z.succ (Z.log2 a)))%Q)
      by (rewrite <- Zlt_Qlt; exact Ha2).
    assert (H2 : (inject_Z (2 ^ Z.log2 b) <= inject_Z b)%Q)
      by (rewrite <- Zle_Qle; exact Hb1).
    assert (H3 : (0 < inject_Z (2 ^ Z.log2 b))%Q).
    { change 0%Q with (inject_Z 0). rewrite <- Zlt_Qlt.
      apply Z.pow_pos_nonneg; lia. }
    assert (H4 : (0 < inject_Z a)%Q)
      by (change 0%Q with (inject_Z 0); rewrite <- Zlt_Qlt; exact Ha).
    set (qu := inject_Z (2 ^ Z.succ (Z.log2 a))) in *.
    set (ql := inject_Z (2 ^ Z.log2 b)) in *.
    set (qa := inject_Z a) in *. set (qb := inject_Z b) in *.
    clearbody qu ql qa qb. clear - H1 H2 H3 H4.
    apply Qlt_shift_div_r; [lra|].
    assert (Hdiv : (qu / ql * qb == qu * (qb / ql))%Q) by (field; lra).
    rewrite Hdiv.
    assert (1 <= qb / ql)%Q by (apply Qle_shift_div_l; lra).
    nra.
  - replace (Z.log2 a - Z.log2 b - 1 + 1) with (Z.log2 a - Z.log2 b) by lia.
    apply Qnot_le_lt. intros Hle. apply Qle_bool_iff in Hle. congruence.
Qed.

(** A number scaled by its exponent has at most 53 bits. *)
Lemma round64_mantissa (x : Q) (e : Z) :
  ~ (x == 0)%Q -> ilog2 x - 52 <= e ->
  Z.abs (roundEven (x / 2 ^ e)) <= 2 ^ 53.
Proof.
  intros Hx He.
  pose proof (ilog2_lt x Hx) as Hlt.
  pose proof (Qpower2_pos e) as Hp.
  assert (Hpe : (2 ^ (ilog2 x + 1) <= 2 ^ (e + 53))%Q)
    by (apply Qpower2_le; lia).
  rewrite (Qpower_plus 2 e 53) in Hpe by discriminate.
  change (2 ^ 53)%Q with (inject_Z (2 ^ 53)) in Hpe.
  pose proof (Qle_Qabs x) as Hx1.
  pose proof (Qle_Qabs (- x)) as Hx2.
  assert (Ho : (Qabs (- x) == Qabs x)%Q) by apply Qabs_opp.
  set (c := inject_Z (2 ^ 53)) in *.
  assert (Hup : roundEven (x / 2 ^ e) <= 2 ^ 53).
  { apply roundEven_le_Z. fold c. apply Qle_shift_div_r; [exact Hp|].
    set (p := (2 ^ e)%Q) in *. set (u := (2 ^ (ilog2 x + 1))%Q) in *.
    set (ax := Qabs x) in *. clearbody c p u ax. lra. }
  assert (Hdn : - 2 ^ 53 <= roundEven (x / 2 ^ e)).
  { apply roundEven_ge_Z. rewrite inject_Z_opp. fold c.
    apply Qle_shift_div_l; [exact Hp|].
    set (p := (2 ^ e)%Q) in *. set (u := (2 ^ (ilog2 x + 1))%Q) in *.
    set (ax := Qabs x) in *. set (anx := Qabs (- x)) in *.
    clearbody c p u ax anx. lra. }
  lia.
Qed.

(** A result of [round64] is a number of the program: rounding it again
    gives it back. *)
Lemma round64_idem (x : Q) : round64 (round64 x) = round64 x.
Proof.
  destruct (Qeq_dec x 0) as [Hz|Hz].
  { rewrite (round64_zero x Hz). reflexivity. }
  assert (Hr : ~ (Qred x == 0)%Q).
  { intros H. apply Hz. transitivity (Qred x);
      [symmetry; apply Qred_correct|exact H]. }
  set (e := Z.max (ilog2 (Qred x) - 52) (-1074)).
  set (n := roundEven (Qred x / 2 ^ e)).
  set (y := Qred (inject_Z n * 2 ^ e)).
  assert (Hxy : round64 x = y).
  { unfold round64.
    destruct (Qeq_bool (Qred x) 0) eqn:E;
      [apply Qeq_bool_iff in E; contradiction|reflexivity]. }
  rewrite Hxy.
  etransitivity; [symmetry; apply round64_reduced|].
  transitivity (Qred y); [|apply Qcanon.Qred_involutive].
  apply Qred_complete.
  assert (Hn : Z.abs n <= 2 ^ 53)
    by (apply round64_mantissa; [exact Hr|unfold e; lia]).
  assert (Hy : (y == inject_Z n * 2 ^ e)%Q) by apply Qred_correct.
  pose proof (Qpower2_pos e) as Hp.
  destruct (Qeq_dec y 0) as [Hy0|Hy0].
  { rewrite (round64_zero y Hy0). symmetry. exact Hy0. }
  destruct (round64_scaled y Hy0) as (e' & He' & ->).
  pose proof (Qpower2_pos e') as Hp'.
  (* the scaled value is a whole number *)
  assert (Hwhole : exists k : Z, (y / 2 ^ e' == inject_Z k)%Q).
  { destruct (Z_le_gt_dec e' e) as [Hle|Hgt].
    - exists (n * 2 ^ (e - e')). rewrite inject_Z_mult.
      rewrite (Zpower_Qpower 2) by lia. change (inject_Z 2) with 2%Q.
      rewrite Qpower_minus by discriminate. rewrite Hy. field. lra.
    - destruct He' as [->|He']; [unfold e in Hgt; lia|].
      assert (Habs : (Qabs y == inject_Z (Z.abs n) * 2 ^ e)%Q).
      { rewrite (Qabs_wd _ _ Hy), Qabs_Qmult.
        rewrite (Qabs_pos (2 ^ e)) by lra.
        apply Qmult_comp; [|reflexivity].
        unfold inject_Z. rewrite <- Zabs_Qabs. reflexivity. }
      rewrite Habs in He'.
      assert (Hn' : (inject_Z (Z.abs n) <= inject_Z (2 ^ 53))%Q)
        by (rewrite <- Zle_Qle; exact Hn).
      assert (He1 : e' = e + 1).
      { assert (Hlt : (2 ^ (e' + 52) < 2 ^ (e + 54))%Q).
        { eapply Qle_lt_trans; [exact He'|].
          rewrite (Qpower_plus 2 e 54) by discriminate.
          change (2 ^ 54)%Q with (inject_Z (2 ^ 53) * 2)%Q.
          set (a := inject_Z (Z.abs n)) in *.
          set (c := inject_Z (2 ^ 53)) in *.
          assert (0 < c)%Q by reflexivity.
          set (p := (2 ^ e)%Q) in *. clearbody a c p. nra. }
        apply Qpower2_lt_inv in Hlt. lia. }
      subst e'.
      replace (e + 1 + 52) with (e + 53) in He' by lia.
      rewrite (Qpower_plus 2 e 53) in He' by discriminate.
      change (2 ^ 53)%Q with (inject_Z (2 ^ 53)) in He'.
      assert (Hn2 : (inject_Z (2 ^ 53) <= inject_Z (Z.abs n))%Q).
      { set (a := inject_Z (Z.abs n)) in *.
        set (c := inject_Z (2 ^ 53)) in *.
        set (p := (2 ^ e)%Q) in *. clearbody a c p. nra. }
      rewrite <- Zle_Qle in Hn2.
      assert (Hn3 : Z.abs n = 2 ^ 53) by lia.
      exists (n / 2).
      assert (Hdiv : n = 2 * (n / 2)).
      { destruct (Z.abs_eq_or_opp n) as [Ha|Ha]; rewrite Ha in Hn3.
        - rewrite Hn3. reflexivity.
        - assert (n = - 2 ^ 53) as -> by lia. reflexivity. }
      rewrite Hy, Qpower_plus by discriminate.
      rewrite Hdiv at 1. rewrite inject_Z_mult.
      change (inject_Z 2) with 2%Q. change (2 ^ 1)%Q with 2%Q. field. lra. }
  destruct Hwhole as [k Hk].
  assert (Hrk : roundEven (y / 2 ^ e') = k).
  { rewrite (roundEven_comp _ _ Hk).
    apply Z.le_antisymm; [apply roundEven_le_Z|apply roundEven_ge_Z];
      apply Qle_refl. }
  rewrite Hrk, <- Hk. field. lra.
Qed.

(** The sign of the results of the operations. *)
Lemma fadd_nonneg (x y : Q) : (0 <= x)%Q -> (0 <= y)%Q -> (0 <= fadd x y)%Q.
Proof. intros Hx Hy. apply round64_nonneg. lra. Qed.

Lemma fmul_nonneg (x y : Q) : (0 <= x)%Q -> (0 <= y)%Q -> (0 <= fmul x y)%Q.
Proof.
  intros Hx Hy. apply round64_nonneg. apply Qmult_le_0_compat; assumption.
Qed.

Lemma fdiv_nonneg (x y : Q) : (0 <= x)%Q -> (0 < y)%Q -> (0 <= fdiv x y)%Q.
Proof.
  intros Hx Hy. apply round64_nonneg. apply Qle_shift_div_l; [exact Hy|].
  lra.
Qed.

Lemma fmul_nonpos (x y : Q) : (x <= 0)%Q -> (0 <= y)%Q -> (fmul x y <= 0)%Q.
Proof. intros Hx Hy. apply round64_nonpos. nra. Qed.

Lemma fdiv_nonpos (x y : Q) : (x <= 0)%Q -> (0 < y)%Q -> (fdiv x y <= 0)%Q.
Proof.
  intros Hx Hy. apply round64_nonpos. apply Qle_shift_div_r; [exact Hy|].
  lra.
Qed.

Lemma inject_Z_nonneg (n : Z) : 0 <= n -> (0 <= inject_Z n)%Q.
Proof. intros H. change 0%Q with (inject_Z 0). rewrite <- Zle_Qle. exact H. Qed.

(** A share of a hundredth of a percentage within [0,100] lies within
    [0,1], and so does the share left. *)
Lemma percentage_share (r : Q) :
  (0 <= r <= 100)%Q ->
  (0 <= fdiv r 100 <= 1)%Q /\ (0 <= fdiv (fsub 100 r) 100 <= 1)%Q.
Proof.
  intros [H0 H1].
  assert (Hd : (0 <= fsub 100 r <= 100)%Q).
  { split; [apply round64_nonneg; lra|].
    apply (round64_le_Z _ 100); [vm_compute; split; [discriminate|reflexivity]|].
    change (inject_Z 100) with 100%Q. lra. }
  split; split.
  - apply fdiv_nonneg; [exact H0|reflexivity].
  - apply (round64_le_Z _ 1); [vm_compute; split; [discriminate|reflexivity]|].
    apply Qle_shift_div_r; [reflexivity|]. change (inject_Z 1) with 1%Q. lra.
  - apply fdiv_nonneg; [apply Hd|reflexivity].
  - apply (round64_le_Z _ 1); [vm_compute; split; [discriminate|reflexivity]|].
    apply Qle_shift_div_r; [reflexivity|]. change (inject_Z 1) with 1%Q.
    destruct Hd. lra.
Qed.

(** A share of a safe integer is not above it. *)
Lemma fmul_share (n : Z) (q : Q) :
  0 <= n <= Number_MAX_SAFE_INTEGER -> (0 <= q <= 1)%Q ->
  (0 <= fmul (inject_Z n) q <= inject_Z n)%Q.
Proof.
  intros Hn [Hq0 Hq1]. pose proof (inject_Z_nonneg n ltac:(lia)) as Hn0.
  split; [apply fmul_nonneg; assumption|].
  apply round64_le_Z; [unfold Number_MAX_SAFE_INTEGER in Hn; lia|]. nra.
Qed.

(** Adding to zero changes nothing. *)
Lemma fadd_0_l (x : Q) : fadd 0 (round64 x) = round64 x.
Proof.
  unfold fadd. rewrite <- (round64_idem x) at 2. apply round64_comp. lra.
Qed.

(** On these samples, among them the products and sums in which the rounding
    shows, [round64] gives what the binary64 operations of the kernel
    give. *)
Example round64_agrees_with_binary64 :
  map Binary64.model
    [ (6000000, 29, 100); (10000, 57, 100); (10000, 43, 100);
      (123456, 3, 100); (5700, 11, 10); (4300, 11, 10); (1, 1, 3);
      (9007199254740992, 1, 3); (-7, 2, 3); (1761228, 6368887, 100);
      (4607659, 6368887, 100); (0, 1, 10); (1, 2, 10); (180, 3044, 100);
      (2, 1, 9007199254740992) ]
  = map Binary64.kernel
      [ (6000000, 29, 100); (10000, 57, 100); (10000, 43, 100);
        (123456, 3, 100); (5700, 11, 10); (4300, 11, 10); (1, 1, 3);
        (9007199254740992, 1, 3); (-7, 2, 3); (1761228, 6368887, 100);
        (4607659, 6368887, 100); (0, 1, 10); (1, 2, 10); (180, 3044, 100);
        (2, 1, 9007199254740992) ].
Proof. vm_compute. reflexivity. Qed.

(** The sums that do not come out even: [0.1 + 0.2], and a share of 3% with
    the remaining 97% of 123,456. *)
Example rounding_shows :
  fadd (fdiv 1 10) (fdiv 2 10) = (1351079888211149 # 4503599627370496)%Q
  /\ (3 # 10 < fadd (fdiv 1 10) (fdiv 2 10))%Q
  /\ (fadd (fmul 123456 (fdiv 3 100)) (fmul 123456 (fdiv (fsub 100 3) 100))
      < 123456)%Q.
Proof. vm_compute. repeat split; reflexivity. Qed.

(* ===================================================================== *)
(** ** Calendar facts *)
(* ===================================================================== *)

Lemma daysInMonthIndex_bounds (k : Z) : 28 <= daysInMonthIndex k <= 31.
Proof.
  unfold daysInMonthIndex.
  repeat match goal with |- context [if ?b then _ else _] => destruct b end;
    lia.
Qed.

Lemma year_month_index (k : Z) : k / 12 * 12 + k mod 12 = k.
Proof. pose proof (Z.div_mod k 12). lia. Qed.

Lemma rollDays_valid_day (fuel : nat) (k d : Z) :
  1 <= d <= daysInMonthIndex k -> rollDays fuel k d = (k, d).
Proof.
  intros Hd. destruct fuel as [|fuel]; simpl; [reflexivity|].
  destruct (Z.ltb_spec d 1); [lia|].
  destruct (Z.ltb_spec (daysInMonthIndex k) d); [lia|reflexivity].
Qed.

(** With enough fuel a borrow or a carry ends on a real day of a month. *)
Lemma rollDays_borrow (fuel : nat) : forall k d,
  d < 1 -> 1 - d <= 28 * Z.of_nat fuel ->
  1 <= snd (rollDays fuel k d) <= daysInMonthIndex (fst (rollDays fuel k d))
  /\ fst (rollDays fuel k d) < k.
Proof.
  induction fuel as [|fuel IH]; intros k d Hd Hf; [lia|].
  simpl rollDays. destruct (Z.ltb_spec d 1); [|lia].
  pose proof (daysInMonthIndex_bounds (k - 1)) as Hb.
  destruct (Z_lt_le_dec (d + daysInMonthIndex (k - 1)) 1) as [Hlt|Hge].
  - destruct (IH (k - 1) (d + daysInMonthIndex (k - 1)) Hlt) as [H1 H2];
      [lia|]. split; [exact H1|lia].
  - rewrite rollDays_valid_day by lia. simpl. lia.
Qed.

Lemma rollDays_carry (fuel : nat) : forall k d,
  daysInMonthIndex k < d -> d - 1 <= 28 * Z.of_nat fuel ->
  1 <= snd (rollDays fuel k d) <= daysInMonthIndex (fst (rollDays fuel k d))
  /\ k < fst (rollDays fuel k d).
Proof.
  induction fuel as [|fuel IH]; intros k d Hd Hf.
  - pose proof (daysInMonthIndex_bounds k). lia.
  - simpl rollDays. pose proof (daysInMonthIndex_bounds k) as Hb.
    destruct (Z.ltb_spec d 1); [lia|].
    destruct (Z.ltb_spec (daysInMonthIndex k) d); [|lia].
    destruct (Z_lt_le_dec (daysInMonthIndex (k + 1)) (d - daysInMonthIndex k))
      as [Hlt|Hge].
    + destruct (IH (k + 1) (d - daysInMonthIndex k) Hlt) as [H1 H2]; [lia|].
      split; [exact H1|lia].
    + rewrite rollDays_valid_day by lia. simpl. lia.
Qed.

Lemma rollFuel_enough (d : Z) :
  1 - d <= 28 * Z.of_nat (rollFuel d) /\ d - 1 <= 28 * Z.of_nat (rollFuel d).
Proof. unfold rollFuel. lia. Qed.

Lemma rollDays_normal (k d : Z) :
  1 <= snd (rollDays (rollFuel d) k d)
    <= daysInMonthIndex (fst (rollDays (rollFuel d) k d)).
Proof.
  destruct (rollFuel_enough d) as [Hb Hc].
  destruct (Z_lt_le_dec d 1) as [H1|H1].
  - apply rollDays_borrow; assumption.
  - destruct (Z_lt_le_dec (daysInMonthIndex k) d) as [H2|H2].
    + apply rollDays_carry; assumption.
    + rewrite rollDays_valid_day by lia. simpl. lia.
Qed.

(** The [Date] constructor always yields a real calendar day. *)
Lemma newDate_valid (y m d : Z) : validDate (newDate y m d).
Proof.
  unfold validDate, newDate; simpl. split; [apply rollDays_normal|lia].
Qed.

Lemma newDate_in_month (y m d : Z) :
  1 <= d <= daysInMonthIndex (y * 12 + m) ->
  newDate y m d = mkDate (y * 12 + m) d 0.
Proof.
  intros Hd. unfold newDate. rewrite rollDays_valid_day by exact Hd.
  reflexivity.
Qed.

(** [new Date(y, m, 1)] is the first day of month [y*12 + m]. *)
Lemma newDate_first (y m : Z) : newDate y m 1 = mkDate (y * 12 + m) 1 0.
Proof.
  apply newDate_in_month. pose proof (daysInMonthIndex_bounds (y * 12 + m)).
  lia.
Qed.

(** [new Date(y, m + 1, 0)] is the last day of month [y*12 + m]. *)
Lemma newDate_last (y m : Z) :
  newDate y (m + 1) 0
  = mkDate (y * 12 + m) (daysInMonthIndex (y * 12 + m)) 0.
Proof.
  unfold newDate, rollFuel. simpl rollDays.
  replace (y * 12 + (m + 1) - 1) with (y * 12 + m) by lia.
  reflexivity.
Qed.

Lemma getTotalDays_eq (y m : Z) :
  getTotalDays y m = daysInMonthIndex (y * 12 + m).
Proof. unfold getTotalDays. rewrite newDate_last. reflexivity. Qed.

Lemma Date_ltb_lt (a b : Date) :
  Date_ltb a b = true <->
  monthIndex a < monthIndex b
  \/ (monthIndex a = monthIndex b
      /\ (dayOfMonth a < dayOfMonth b
          \/ (dayOfMonth a = dayOfMonth b /\ timeOfDay a < timeOfDay b))).
Proof.
  unfold Date_ltb.
  rewrite !orb_true_iff, !andb_true_iff, !orb_true_iff, !andb_true_iff.
  rewrite !Z.ltb_lt, !Z.eqb_eq. reflexivity.
Qed.

Lemma Date_ltb_irrefl (a : Date) : Date_ltb a a = false.
Proof.
  destruct (Date_ltb a a) eqn:E; [|reflexivity].
  apply Date_ltb_lt in E. lia.
Qed.

Lemma same_month_iff (a : Date) (year month : Z) :
  0 <= month < 12 ->
  (getFullYear a =? year) && (getMonth a =? month) = true
  <-> monthIndex a = year * 12 + month.
Proof.
  intros Hm. unfold getFullYear, getMonth.
  rewrite andb_true_iff, !Z.eqb_eq. split.
  - intros [<- <-]. symmetry. apply year_month_index.
  - intros ->. split.
    + rewrite Z.add_comm, Z.div_add by lia. rewrite Z.div_small by lia. lia.
    + rewrite Z.add_comm, Z.mod_add by lia. apply Z.mod_small. lia.
Qed.

(** The test [a.getFullYear() === year && a.getMonth() === month] at the
    year and month of the month index [k]. *)
Lemma same_month_index (a : Date) (k : Z) :
  (getFullYear a =? k / 12) && (getMonth a =? k mod 12)
  = (monthIndex a =? k).
Proof.
  apply eq_true_iff_eq. rewrite same_month_iff by (apply Z.mod_pos_bound; lia).
  rewrite year_month_index, Z.eqb_eq. reflexivity.
Qed.

(* ===================================================================== *)
(** ** Revenue recognition *)
(* ===================================================================== *)

Lemma sumZ_app (l1 l2 : list Z) : sumZ (l1 ++ l2) = sumZ l1 + sumZ l2.
Proof.
  induction l1 as [|x l1 IH]; simpl; [reflexivity|].
  unfold sumZ in *. simpl. rewrite IH. lia.
Qed.

Lemma sumZ_map_const {A : Type} (f : A -> Z) (c : Z) (l : list A) :
  (forall x, x ∈ l -> f x = c) ->
  sumZ (map f l) = Z.of_nat (length l) * c.
Proof.
  induction l as [|x l IH]; intros Hf; [reflexivity|].
  change (f x + sumZ (map f l) = Z.of_nat (S (length l)) * c).
  rewrite (Hf x) by (left). rewrite IH by (intros; apply Hf; right; auto).
  lia.
Qed.

Lemma getMonthlyRevenue_flowOnly (now : Date) (p : Project) (d : Date) :
  flowOnly p -> getMonthlyRevenue now p d = flowContribution now p d.
Proof.
  intros (_ & Hs & Ht).
  unfold getMonthlyRevenue, flowContribution, stockRevenueOf, timeChargeOf.
  rewrite Hs, Ht. simpl. destruct (timeChargePrices p); lia.
Qed.





(** What a negative amount, which no form produces, would give:
    [Math.floor] rounds down while [%] truncates toward zero, so that -7 over
    January and February 2025 posts [floor(-7/2) = -4] and
    [-4 + (-7 % 2) = -5]. *)
Example duration_of_negative_amount :
  map (fun k =>
         flowContribution sampleNow
           (sampleFlowProject Ordered (Some Duration) (-7)
              (Some (2025, 1, 10)) (Some (2025, 2, 20))
              (sampleBilling false None) [])
           (firstOfMonth k))
    (monthsFromTo (2025 * 12 + 0) (2025 * 12 + 1))
  = [-4; -5].
Proof. vm_compute. reflexivity. Qed.





(** The product is rounded before it is floored: 6,000,000 at 29% posts
    1,739,999 at the start and 4,260,001 at the end, one yen off the exact
    shares, and 6,000,000 in all. *)
Example milestone_split_rounding :
  let p := sampleFlowProject Ordered (Some Milestone) 6000000
             (Some (2025, 1, 1)) (Some (2025, 6, 30))
             (sampleBilling true (Some 29%Q)) [] in
  flowContribution sampleNow p (firstOfMonth (2025 * 12 + 0)) = 1739999
  /\ flowContribution sampleNow p (firstOfMonth (2025 * 12 + 5)) = 4260001
  /\ Qfloor (6000000 * 29 / 100)%Q = 1740000.
Proof. vm_compute. repeat split; reflexivity. Qed.

(* ===================================================================== *)
(** ** Labor cost *)
(* ===================================================================== *)

Lemma monthStart_calendarDay (year month : Z) :
  calendarDayOf (newDate year month 1) year month.
Proof.
  rewrite newDate_first. unfold calendarDayOf; simpl.
  pose proof (daysInMonthIndex_bounds (year * 12 + month)). lia.
Qed.

Lemma monthEnd_calendarDay (year month : Z) :
  calendarDayOf (newDate year (month + 1) 0) year month.
Proof.
  rewrite newDate_last. unfold calendarDayOf; simpl.
  pose proof (daysInMonthIndex_bounds (year * 12 + month)). lia.
Qed.

(** C6: cost gating.  For a project that uses Flow and has both flow dates,
    the planned monthly cost of a month lying strictly outside the range
    from the flow start to the flow end is 0, whatever its assignments. *)
Theorem planned_cost_gated (now : Date) (p : Project)
  (employees : list Employee) (year month : Z) (s e : DateStr) :
  useFlow p = true ->
  flowStartDate p = Some s ->
  flowEndDate p = Some e ->
  monthOutside year month (parseLocalDate now (Some s))
    (parseLocalDate now (Some e)) ->
  getProjectMonthlyCost now p employees year month = 0.
Proof.
  intros Hf Hs He Hout. unfold getProjectMonthlyCost.
  rewrite Hf, Hs, He. cbn [truthy andb]. unfold Date_gtb.
  destruct Hout as [Hbefore|Hafter].
  - rewrite (Hbefore _ (monthEnd_calendarDay year month)). reflexivity.
  - rewrite (Hafter _ (monthStart_calendarDay year month)).
    rewrite orb_true_r. reflexivity.
Qed.

(** For a range whose start is not after its end, a month is outside the
    range exactly when none of its days lies within it. *)
Lemma outside_iff_no_common_day (year month : Z) (s e : Date) :
  validDate s -> timeOfDay s = 0 ->
  Date_leb s e = true ->
  monthOutside year month s e
  <-> (forall d, calendarDayOf d year month ->
         ~ (Date_leb s d = true /\ Date_leb d e = true)).
Proof.
  intros [Hsd _] Hs0 Hse. unfold monthOutside, Date_leb in *.
  rewrite negb_true_iff in Hse.
  pose proof (daysInMonthIndex_bounds (year * 12 + month)) as Hb.
  split.
  - intros [H|H] d Hd [H1 H2]; rewrite (H d Hd) in *; discriminate.
  - intros Hno.
    destruct (Date_ltb (newDate year (month + 1) 0) s) eqn:Hend.
    + left. intros d (Hk & Hday & Ht).
      rewrite newDate_last in Hend.
      apply Date_ltb_lt in Hend; apply Date_ltb_lt; simpl in Hend. lia.
    + destruct (Date_ltb e (newDate year month 1)) eqn:Hstart.
      * right. intros d (Hk & Hday & Ht).
        rewrite newDate_first in Hstart.
        apply Date_ltb_lt in Hstart; apply Date_ltb_lt; simpl in Hstart.
        lia.
      * exfalso. rewrite newDate_last in Hend.
        rewrite newDate_first in Hstart.
        destruct (Date_ltb s (mkDate (year * 12 + month) 1 0)) eqn:Hs1.
        -- apply (Hno (mkDate (year * 12 + month) 1 0)).
           ++ unfold calendarDayOf; simpl; lia.
           ++ rewrite Hstart. split; [|reflexivity].
              rewrite negb_true_iff.
              destruct (Date_ltb (mkDate (year * 12 + month) 1 0) s) eqn:E;
                [|reflexivity].
              apply Date_ltb_lt in E. apply Date_ltb_lt in Hs1.
              simpl in *. lia.
        -- apply (Hno s).
           ++ unfold calendarDayOf.
              destruct (Date_ltb s (mkDate (year * 12 + month) 1 0)) eqn:E1;
                [discriminate|].
              assert (Hn1 : ~ (monthIndex s < year * 12 + month
                        \/ (monthIndex s = year * 12 + month
                            /\ (dayOfMonth s < 1
                                \/ (dayOfMonth s = 1 /\ timeOfDay s < 0))))).
              { intros C. apply (Date_ltb_lt s (mkDate _ 1 0)) in C.
                congruence. }
              assert (Hn2 : ~ (year * 12 + month < monthIndex s
                        \/ (year * 12 + month = monthIndex s
                            /\ (daysInMonthIndex (year * 12 + month)
                                  < dayOfMonth s
                                \/ (daysInMonthIndex (year * 12 + month)
                                      = dayOfMonth s /\ 0 < timeOfDay s))))).
              { intros C.
                apply (Date_ltb_lt (mkDate _ _ 0) s) in C. congruence. }
              lia.
           ++ rewrite Date_ltb_irrefl, Hse. split; reflexivity.
Qed.

(** May 2025 lies after a flow period from January to March 2025: the
    planned cost is 0 although an employee is assigned at 50%. *)
Lemma planned_cost_gated_witness :
  getProjectMonthlyCost sampleNow
    (sampleFlowProject Ordered (Some Duration) 3000000
       (Some (2025, 1, 10)) (Some (2025, 3, 20)) (sampleBilling false None)
       [ {| employeeId := "e1"; utilizationRate := 50 |} ])
    [sampleEmployee "e1" 800000] 2025 4 = 0.
Proof.
  apply (planned_cost_gated sampleNow _ _ 2025 4 (2025, 1, 10) (2025, 3, 20));
    [reflexivity|reflexivity|reflexivity|].
  right. intros d (Hk & _ & _). apply Date_ltb_lt. left.
  rewrite Hk. vm_compute. reflexivity.
Defined.

(** Inside the flow period the same assignment costs 400,000 a month. *)
Example planned_cost_inside_period :
  getProjectMonthlyCost sampleNow
    (sampleFlowProject Ordered (Some Duration) 3000000
       (Some (2025, 1, 10)) (Some (2025, 3, 20)) (sampleBilling false None)
       [ {| employeeId := "e1"; utilizationRate := 50 |} ])
    [sampleEmployee "e1" 800000] 2025 1 = 400000.
Proof. vm_compute. reflexivity. Qed.

Lemma findEmployee_unknown (employees : list Employee) (id : string) :
  knownEmployee employees id = false -> findEmployee employees id = None.
Proof.
  unfold knownEmployee, findEmployee.
  induction employees as [|e l IH]; simpl; [reflexivity|].
  destruct (String.eqb (emp_id e) id); simpl; [discriminate|exact IH].
Qed.

(** Dropping the elements on which the loop body does nothing leaves the
    result of a [forEach] accumulation unchanged. *)
Lemma fold_left_filter_skip {A B : Type} (f : A -> B -> A)
  (keep : B -> bool) (l : list B) :
  (forall acc x, keep x = false -> f acc x = acc) ->
  forall acc, fold_left f (List.filter keep l) acc = fold_left f l acc.
Proof.
  intros Hskip. induction l as [|x l IH]; intros acc; simpl; [reflexivity|].
  destruct (keep x) eqn:E; simpl.
  - apply IH.
  - rewrite (Hskip acc x E). apply IH.
Qed.

Lemma filter_filter_comm {A : Type} (f g : A -> bool) (l : list A) :
  List.filter f (List.filter g l) = List.filter g (List.filter f l).
Proof.
  induction l as [|x l IH]; simpl; [reflexivity|].
  destruct (f x) eqn:Ef, (g x) eqn:Eg; simpl; rewrite ?Ef, ?Eg, IH;
    reflexivity.
Qed.

(** C9: dangling employee references are skipped silently.  An assignment
    or a work log whose employee id matches no employee leaves the
    accumulated cost as it is, and removing all such assignments and work
    logs changes neither [getProjectMonthlyCost] nor
    [getProjectActualCost]; both are total functions. *)
Theorem dangling_employee_refs_skipped (now : Date) (p : Project)
  (employees : list Employee) (workLogs : list WorkLog) (year month : Z) :
  (forall cost a, knownEmployee employees (employeeId a) = false ->
     addAssignmentCost employees year month cost a = cost)
  /\ (forall cost l, knownEmployee employees (log_employeeId l) = false ->
        addLogCost employees year month cost l = cost)
  /\ getProjectMonthlyCost now (pruneAssignments employees p) employees
       year month
     = getProjectMonthlyCost now p employees year month
  /\ getProjectActualCost now (pruneAssignments employees p) employees
       (pruneWorkLogs employees workLogs) year month
     = getProjectActualCost now p employees workLogs year month.
Proof.
  assert (Ha : forall cost a, knownEmployee employees (employeeId a) = false ->
            addAssignmentCost employees year month cost a = cost).
  { intros cost a Hk. unfold addAssignmentCost.
    rewrite (findEmployee_unknown _ _ Hk). reflexivity. }
  assert (Hl : forall cost l,
            knownEmployee employees (log_employeeId l) = false ->
            addLogCost employees year month cost l = cost).
  { intros cost l Hk. unfold addLogCost.
    rewrite (findEmployee_unknown _ _ Hk). reflexivity. }
  split; [exact Ha|]. split; [exact Hl|]. split.
  - unfold getProjectMonthlyCost, pruneAssignments. cbn [withAssignments
      useFlow useStock useTimeCharge flowStartDate flowEndDate stockStartDate
      assignments].
    rewrite (fold_left_filter_skip (addAssignmentCost employees year month)
               (fun a => knownEmployee employees (employeeId a))
               (assignments p) Ha).
    reflexivity.
  - unfold getProjectActualCost, pruneWorkLogs.
    change (isTargetLog now (pruneAssignments employees p) year month)
      with (isTargetLog now p year month).
    rewrite filter_filter_comm.
    rewrite (fold_left_filter_skip (addLogCost employees year month)
               (fun l => knownEmployee employees (log_employeeId l)) _ Hl).
    reflexivity.
Qed.

(** An assignment and a work log of the unknown employee ["ghost"] next to
    those of the known employee ["e1"]: the costs are those of ["e1"]. *)
Example dangling_refs_example :
  let p := sampleFlowProject Ordered (Some Duration) 3000000
             (Some (2025, 1, 10)) (Some (2025, 3, 20))
             (sampleBilling false None)
             [ {| employeeId := "ghost"; utilizationRate := 100 |};
               {| employeeId := "e1"; utilizationRate := 50 |} ] in
  let logs :=
    [ {| log_id := "l1"; projectId := "p1"; taskId := None;
         log_employeeId := "ghost"; weekStartDate := Some (2025, 2, 3);
         actualHours := 40 |};
      {| log_id := "l2"; projectId := "p1"; taskId := None;
         log_employeeId := "e1"; weekStartDate := Some (2025, 2, 10);
         actualHours := 16 |} ] in
  getProjectMonthlyCost sampleNow p [sampleEmployee "e1" 800000] 2025 1
  = 400000
  /\ getProjectActualCost sampleNow p [sampleEmployee "e1" 800000] logs
       2025 1 = 80000.
Proof. vm_compute. split; reflexivity. Qed.

(* ===================================================================== *)
(** ** Payment dates *)
(* ===================================================================== *)

(** A day past the end of the month, by less than the length of the next
    month, carries into the next month once. *)
Lemma rollDays_carry_once (k d : Z) :
  daysInMonthIndex k < d <= daysInMonthIndex k + daysInMonthIndex (k + 1) ->
  rollDays (rollFuel d) k d = (k + 1, d - daysInMonthIndex k).
Proof.
  intros Hd. unfold rollFuel. simpl rollDays.
  pose proof (daysInMonthIndex_bounds k) as Hb.
  destruct (Z.ltb_spec d 1); [lia|].
  destruct (Z.ltb_spec (daysInMonthIndex k) d); [|lia].
  apply rollDays_valid_day. lia.
Qed.

(** C8: payment-date derivation.  [getPaymentDate] moves to the month
    [delay] months after the given one; pay day 99 yields the last calendar
    day of that month; any other pay day is set as the day of the month
    without clamping: a day within the month's length is that day of the
    shifted month, a larger one runs over into the following month. *)
Theorem payment_date_derivation (year month delay payDay : Z) :
  let shifted := year * 12 + month + delay in
  let len := daysInMonthIndex shifted in
  (payDay = 99 ->
     getPaymentDate year month delay payDay = mkDate shifted len 0)
  /\ (payDay <> 99 ->
        getPaymentDate year month delay payDay
        = setDate (firstOfMonth shifted) payDay
        /\ validDate (getPaymentDate year month delay payDay)
        /\ (1 <= payDay <= len ->
              getPaymentDate year month delay payDay
              = mkDate shifted payDay 0)
        /\ (len < payDay <= len + 28 ->
              getPaymentDate year month delay payDay
              = mkDate (shifted + 1) (payDay - len) 0)).
Proof.
  intros shifted len. unfold getPaymentDate.
  rewrite newDate_first.
  replace (year * 12 + (month + delay)) with shifted by (unfold shifted; lia).
  split.
  - intros ->. rewrite Z.eqb_refl, newDate_last.
    unfold getFullYear, getMonth. cbn [monthIndex].
    rewrite year_month_index. reflexivity.
  - intros Hne. destruct (Z.eqb_spec payDay 99) as [|_]; [contradiction|].
    split; [reflexivity|]. split; [|split].
    + unfold validDate, setDate. cbn [monthIndex dayOfMonth timeOfDay].
      split; [apply rollDays_normal|lia].
    + intros Hin. unfold setDate. cbn [monthIndex timeOfDay].
      rewrite rollDays_valid_day by exact Hin. reflexivity.
    + intros Hover. unfold setDate. cbn [monthIndex timeOfDay].
      pose proof (daysInMonthIndex_bounds (shifted + 1)).
      rewrite rollDays_carry_once by (fold len; lia). reflexivity.
Qed.

(** End of month, a day within the month, and day 31 set on February. *)
Lemma payment_date_derivation_witness :
  getPaymentDate 2025 0 1 99 = mkDate (2025 * 12 + 1) 28 0
  /\ getPaymentDate 2024 11 2 25 = mkDate (2025 * 12 + 1) 25 0
  /\ getPaymentDate 2025 0 1 31 = mkDate (2025 * 12 + 2) 3 0.
Proof.
  split; [|split].
  - exact (proj1 (payment_date_derivation 2025 0 1 99) eq_refl).
  - destruct (payment_date_derivation 2024 11 2 25) as [_ H].
    destruct H as (_ & _ & H & _); [lia|].
    apply H. vm_compute. split; discriminate.
  - destruct (payment_date_derivation 2025 0 1 31) as [_ H].
    destruct H as (_ & _ & _ & H); [lia|].
    apply H. vm_compute. split; [reflexivity|discriminate].
Defined.

(* ===================================================================== *)
(** ** The twelve-month projection *)
(* ===================================================================== *)

Section Projections.

Variable now : Date.
Variables (projects : list Project) (employees : list Employee).
Variables (workLogs : list WorkLog) (termStart : Date).
Variable settings : AppSettings.

Local Abbreviation loop :=
  (projectionLoop now projects employees workLogs termStart settings).
Local Abbreviation monthRecord :=
  (monthProjection now projects employees workLogs termStart settings).

Local Arguments monthProjection : simpl never.

Lemma monthRecord_balance (c i : Z) :
  cashBalance (monthRecord c i) = c + netCashChange (monthRecord c i).
Proof. reflexivity. Qed.

Lemma projectionLoop_length (idxs : list Z) (c : Z) :
  length (loop idxs c) = length idxs.
Proof.
  revert c. induction idxs as [|i idxs IH]; intros c; simpl;
    [reflexivity|]. rewrite IH. reflexivity.
Qed.

(** The record at position [n] is the one iteration [idxs !! n] pushes. *)
Lemma projectionLoop_lookup (idxs : list Z) : forall (c : Z) (n : nat)
  (r : Projection),
  loop idxs c !! n = Some r ->
  exists c' i, idxs !! n = Some i /\ r = monthRecord c' i.
Proof.
  induction idxs as [|i idxs IH]; intros c n r H; [discriminate|].
  destruct n as [|n]; cbn -[monthProjection] in H.
  - injection H as <-. exists c, i. split; reflexivity.
  - apply IH in H. exact H.
Qed.

(** The balance of the record at position [n] is the opening balance plus
    the net changes of the records up to and including it. *)
Lemma projectionLoop_balance (idxs : list Z) : forall (c : Z) (n : nat)
  (r : Projection),
  loop idxs c !! n = Some r ->
  cashBalance r = c + sumZ (map netCashChange (take (S n) (loop idxs c))).
Proof.
  induction idxs as [|i idxs IH]; intros c n r H; [discriminate|].
  destruct n as [|n]; cbn -[monthProjection] in H.
  - injection H as <-.
    change (take 1 (loop (i :: idxs) c)) with [monthRecord c i].
    cbn [map sumZ foldr]. rewrite monthRecord_balance. lia.
  - apply IH in H. rewrite H.
    change (take (S (S n)) (loop (i :: idxs) c))
      with (monthRecord c i
            :: take (S n) (loop idxs (cashBalance (monthRecord c i)))).
    rewrite monthRecord_balance. cbn [map]. unfold sumZ. cbn [foldr]. lia.
Qed.

Lemma generateProjections_length :
  length (generateProjections now projects employees workLogs termStart
            settings) = 12%nat.
Proof.
  unfold generateProjections. rewrite projectionLoop_length, length_seqZ.
  reflexivity.
Qed.

Lemma generateProjections_lookup (i : nat) :
  (i < 12)%nat ->
  exists c r,
    generateProjections now projects employees workLogs termStart settings
      !! i = Some r
    /\ r = monthRecord c (Z.of_nat i).
Proof.
  intros Hi.
  destruct (lookup_lt_is_Some_2
              (generateProjections now projects employees workLogs termStart
                 settings) i) as [r Hr].
  { rewrite generateProjections_length. exact Hi. }
  destruct (projectionLoop_lookup _ _ _ _ Hr) as (c & j & Hj & ->).
  apply lookup_seqZ in Hj as [-> _].
  exists c, (monthRecord c (0 + Z.of_nat i)). split; [exact Hr|].
  reflexivity.
Qed.

End Projections.

(** C5: balance continuity.  The output has twelve records, and the
    [cashBalance] of record [i] is [settings.initialCashBalance] plus the sum
    over the records [0..i] of [totalCashIn - totalCashOut], where
    [totalCashIn = cashIn + financialIn] and
    [totalCashOut = cost + sga + taxRepayment + investment] ([cost] being the
    labor paid). *)
Theorem balance_continuity (now : Date) (projects : list Project)
  (employees : list Employee) (workLogs : list WorkLog) (termStart : Date)
  (settings : AppSettings) (i : nat) :
  (i < 12)%nat ->
  exists r,
    generateProjections now projects employees workLogs termStart settings
      !! i = Some r
    /\ cashBalance r
       = initialCashBalance settings
         + sumZ (map (fun q => totalCashIn q - totalCashOut q)
                   (take (S i)
                      (generateProjections now projects employees workLogs
                         termStart settings)))
    /\ totalCashIn r = cashIn r + financialIn r
    /\ totalCashOut r = cost r + sga r + taxRepayment r + investment r.
Proof.
  intros Hi.
  destruct (generateProjections_lookup now projects employees workLogs
              termStart settings i Hi) as (c & r & Hr & Hrec).
  exists r. split; [exact Hr|]. split.
  - apply (projectionLoop_balance now projects employees workLogs termStart
             settings (seqZ 0 12) (initialCashBalance settings) i r Hr).
  - subst r. split; reflexivity.
Qed.

(** The balance after April 2025 (record 4) of the sample data set. *)
Lemma balance_continuity_witness :
  exists r,
    generateProjections sampleNow sampleProjects sampleEmployees
      sampleWorkLogs sampleTermStart sampleLedger !! 4%nat = Some r
    /\ cashBalance r
       = 1000000
         + sumZ (map (fun q => totalCashIn q - totalCashOut q)
                   (take 5
                      (generateProjections sampleNow sampleProjects
                         sampleEmployees sampleWorkLogs sampleTermStart
                         sampleLedger)))
    /\ totalCashIn r = cashIn r + financialIn r
    /\ totalCashOut r = cost r + sga r + taxRepayment r + investment r.
Proof.
  apply (balance_continuity sampleNow sampleProjects sampleEmployees
           sampleWorkLogs sampleTermStart sampleLedger 4). lia.
Defined.

Example sample_balances :
  map cashBalance
    (generateProjections sampleNow sampleProjects sampleEmployees
       sampleWorkLogs sampleTermStart sampleLedger)
  = [800000; 600000; 3700000; 3300000; 2700000; 2100000; 1500000;
     4200000; 4000000; 3800000; 3600000; 3400000].
Proof. vm_compute. reflexivity. Qed.

(* ===================================================================== *)
(** ** Labor paid in arrears *)
(* ===================================================================== *)

Lemma fold_left_add_sumZ {A : Type} (f : A -> Z) (l : list A) (acc : Z) :
  fold_left (fun c x => c + f x) l acc = acc + sumZ (map f l).
Proof.
  revert acc. induction l as [|x l IH]; intros acc; simpl.
  - unfold sumZ; simpl. lia.
  - rewrite IH. unfold sumZ; simpl. lia.
Qed.

(** The [cost] accumulator of the first [projects.forEach] only adds up the
    labor cost of each project. *)
Lemma profitLoss_cost (now : Date) (employees : list Employee)
  (workLogs : list WorkLog) (d : Date) (isPast : bool)
  (projects : list Project) (acc : ProfitLoss) :
  pl_cost (fold_left (profitLossStep now employees workLogs d isPast)
             projects acc)
  = fold_left
      (fun c p =>
         c + projectLaborCost now employees workLogs isPast
               (getFullYear d) (getMonth d) p)
      projects (pl_cost acc).
Proof.
  revert acc. induction projects as [|p ps IH]; intros acc; simpl;
    [reflexivity|]. rewrite IH. reflexivity.
Qed.

Lemma projectionDate_eq (termStart : Date) (i : Z) :
  projectionDate termStart i = firstOfMonth (monthIndex termStart + i).
Proof.
  unfold projectionDate, firstOfMonth. rewrite newDate_first.
  unfold getFullYear, getMonth.
  replace (monthIndex termStart / 12 * 12 + (monthIndex termStart mod 12 + i))
    with (monthIndex termStart + i)
    by (pose proof (year_month_index (monthIndex termStart)); lia).
  reflexivity.
Qed.

(** [prevMonth] of iteration [i] is the month start of iteration [i - 1]. *)
Lemma prevMonth_projectionDate (termStart : Date) (i : Z) :
  newDate (getFullYear (projectionDate termStart i))
    (getMonth (projectionDate termStart i) - 1) 1
  = projectionDate termStart (i - 1).
Proof.
  rewrite !projectionDate_eq, newDate_first. unfold firstOfMonth.
  unfold getFullYear, getMonth. cbn [monthIndex].
  pose proof (year_month_index (monthIndex termStart + i)).
  f_equal. lia.
Qed.

(** C4: cash arrears.  For every month index [i >= 1] of the output, the
    [cost] field of record [i] (the labor paid that month) is the labor cost
    that iteration [i - 1] computes for its own month: the sum over all
    projects of the actual cost when month [i - 1] starts before the first
    day of the current calendar month, of the planned cost otherwise. *)
Theorem cash_arrears (now : Date) (projects : list Project)
  (employees : list Employee) (workLogs : list WorkLog) (termStart : Date)
  (settings : AppSettings) (i : nat) :
  (1 <= i < 12)%nat ->
  exists r,
    generateProjections now projects employees workLogs termStart settings
      !! i = Some r
    /\ cost r
       = monthLaborCost now projects employees workLogs termStart
           (Z.of_nat i - 1)
    /\ let prev := projectionDate termStart (Z.of_nat i - 1) in
       cost r
       = sumZ (map (fun p =>
                      if Date_ltb prev (currentMonthStart now)
                      then getProjectActualCost now p employees workLogs
                             (getFullYear prev) (getMonth prev)
                      else getProjectMonthlyCost now p employees
                             (getFullYear prev) (getMonth prev))
                 projects).
Proof.
  intros [_ Hi].
  destruct (generateProjections_lookup now projects employees workLogs
              termStart settings i Hi) as (c & r & Hr & Hrec).
  exists r. split; [exact Hr|].
  assert (Hcost : cost r
            = sumZ (map (projectLaborCost now employees workLogs
                           (Date_ltb
                              (projectionDate termStart (Z.of_nat i - 1))
                              (currentMonthStart now))
                           (getFullYear
                              (projectionDate termStart (Z.of_nat i - 1)))
                           (getMonth
                              (projectionDate termStart (Z.of_nat i - 1))))
                      projects)).
  { subst r. cbn [cost monthProjection]. unfold monthPaidCost.
    rewrite prevMonth_projectionDate, fold_left_add_sumZ. lia. }
  split.
  - rewrite Hcost. unfold monthLaborCost, monthProfitLoss.
    rewrite profitLoss_cost, fold_left_add_sumZ. reflexivity.
  - exact Hcost.
Qed.

(** Record 3 (March 2025) of the sample data set pays the actual cost of
    February, record 4 (April) the planned cost of March. *)
Lemma cash_arrears_witness :
  exists r,
    generateProjections sampleNow sampleProjects sampleEmployees
      sampleWorkLogs sampleTermStart sampleLedger !! 4%nat = Some r
    /\ cost r
       = monthLaborCost sampleNow sampleProjects sampleEmployees
           sampleWorkLogs sampleTermStart 3.
Proof.
  destruct (cash_arrears sampleNow sampleProjects sampleEmployees
              sampleWorkLogs sampleTermStart sampleLedger 4 ltac:(lia))
    as (r & Hr & Hc & _).
  exists r. split; [exact Hr|exact Hc].
Defined.

Example sample_paid_costs :
  map cost
    (generateProjections sampleNow sampleProjects sampleEmployees
       sampleWorkLogs sampleTermStart sampleLedger)
  = [0; 0; 0; 200000; 400000; 400000; 400000; 400000; 0; 0; 0; 0]
  /\ map (monthLaborCost sampleNow sampleProjects sampleEmployees
            sampleWorkLogs sampleTermStart) (seqZ 0 12)
     = [0; 0; 200000; 400000; 400000; 400000; 400000; 0; 0; 0; 0; 0].
Proof. vm_compute. split; reflexivity. Qed.

(* ===================================================================== *)
(** ** The flow/stock split *)
(* ===================================================================== *)

(** The split of one project's revenue in the month of [d]. *)
Lemma stockShare_capped (now : Date) (p : Project) (d : Date) :
  splitSound now p d ->
  stockShare now p d <= getMonthlyRevenue now p d
  /\ 0 <= flowShare now p d.
Proof.
  intros Hsound. unfold flowShare, stockShare, stockPart.
  destruct (useStock p) eqn:Hs; cbn [andb].
  - destruct (useFlow p) eqn:Hf; cbn [negb].
    + destruct (Hsound Hs Hf) as [Hdate Hpos].
      unfold getMonthlyRevenue, stockRevenueOf.
      rewrite Hs. destruct (stockStartDate p) as [sd|]; [|congruence].
      cbn [truthy andb].
      destruct (Date_leb (parseLocalDate now (Some sd))
                  (newDate (getFullYear d) (getMonth d + 1) 0)); lia.
    + lia.
  - destruct (Z.ltb_spec (getMonthlyRevenue now p d) 0); lia.
Qed.

(** The accumulators of the first [projects.forEach]: the stock and flow
    buckets always add up to the revenue, and grow by the shares. *)
Lemma profitLoss_split (now : Date) (employees : list Employee)
  (workLogs : list WorkLog) (d : Date) (isPast : bool)
  (projects : list Project) : forall acc : ProfitLoss,
  let r := fold_left (profitLossStep now employees workLogs d isPast)
             projects acc in
  pl_revenue r = pl_revenue acc
                 + sumZ (map (fun p => getMonthlyRevenue now p d) projects)
  /\ pl_stockRevenue r
     = pl_stockRevenue acc + sumZ (map (fun p => stockShare now p d) projects)
  /\ pl_flowRevenue r
     = pl_flowRevenue acc + sumZ (map (fun p => flowShare now p d) projects).
Proof.
  induction projects as [|p ps IH]; intros acc; cbn [fold_left map].
  - unfold sumZ; cbn. lia.
  - specialize (IH (profitLossStep now employees workLogs d isPast acc p)).
    cbv zeta in IH. destruct IH as (H1 & H2 & H3).
    cbv zeta. rewrite H1, H2, H3.
    unfold sumZ; cbn [foldr]. unfold profitLossStep.
    cbn [pl_revenue pl_stockRevenue pl_flowRevenue].
    unfold flowShare, stockShare. repeat split; lia.
Qed.

Lemma sumZ_map_nonneg {A : Type} (f : A -> Z) (l : list A) :
  Forall (fun x => 0 <= f x) l -> 0 <= sumZ (map f l).
Proof.
  induction 1 as [|x l Hx _ IH]; unfold sumZ in *; cbn; lia.
Qed.

Lemma sumZ_map_le {A : Type} (f g : A -> Z) (l : list A) :
  Forall (fun x => f x <= g x) l -> sumZ (map f l) <= sumZ (map g l).
Proof.
  induction 1 as [|x l Hx _ IH]; unfold sumZ in *; cbn; lia.
Qed.

(** X29: the flow/stock split where it is sound.  Every monthly record
    satisfies [stockRevenue + flowRevenue = revenue].  For a project that
    does not combine Stock and Flow, and for one that combines them with a
    stock start date and a flow plus time-charge revenue that is not negative
    in the month, the stock share is at most the recognized revenue and the
    rest attributed to flow is not negative; when this holds of all projects,
    [stockRevenue <= revenue] and [flowRevenue >= 0]. *)
Theorem flow_stock_split_cap (now : Date) (projects : list Project)
  (employees : list Employee) (workLogs : list WorkLog) (termStart : Date)
  (settings : AppSettings) (i : nat) :
  (i < 12)%nat ->
  exists r,
    generateProjections now projects employees workLogs termStart settings
      !! i = Some r
    /\ stockRevenue r + flowRevenue r = revenue r
    /\ (forall p, splitSound now p (date r) ->
          stockShare now p (date r) <= getMonthlyRevenue now p (date r)
          /\ 0 <= flowShare now p (date r))
    /\ (Forall (fun p => splitSound now p (date r)) projects ->
          stockRevenue r <= revenue r /\ 0 <= flowRevenue r).
Proof.
  intros Hi.
  destruct (generateProjections_lookup now projects employees workLogs
              termStart settings i Hi) as (c & r & Hr & Hrec).
  exists r. split; [exact Hr|]. subst r.
  cbn [stockRevenue flowRevenue revenue date monthProjection].
  unfold monthProfitLoss.
  destruct (profitLoss_split now employees workLogs
              (projectionDate termStart (Z.of_nat i))
              (Date_ltb (projectionDate termStart (Z.of_nat i))
                 (currentMonthStart now))
              projects emptyProfitLoss) as (H1 & H2 & H3).
  cbv zeta in H1, H2, H3. rewrite H1, H2, H3.
  cbn [emptyProfitLoss pl_revenue pl_stockRevenue pl_flowRevenue].
  set (d := projectionDate termStart (Z.of_nat i)).
  assert (Hsum : sumZ (map (fun p => stockShare now p d) projects)
                 + sumZ (map (fun p => flowShare now p d) projects)
                 = sumZ (map (fun p => getMonthlyRevenue now p d) projects)).
  { clear. induction projects as [|p ps IH]; [reflexivity|].
    unfold sumZ in *. cbn [map foldr]. unfold flowShare at 1. lia. }
  split; [lia|]. split; [intros p; apply stockShare_capped|].
  intros Hall.
  assert (Hflow : 0 <= sumZ (map (fun p => flowShare now p d) projects)).
  { apply sumZ_map_nonneg. eapply Forall_impl; [exact Hall|].
    intros p Hp. apply (stockShare_capped now p d Hp). }
  lia.
Qed.

Lemma flowStartAmount_bounds (p : Project) :
  nonNegativeAmounts p -> 0 <= flowStartAmount p <= flowAmount p.
Proof.
  intros (Ha & _ & Hr & _). unfold flowStartAmount, Math_floor.
  destruct (percentage_share _ Hr) as [Hq _].
  destruct (fmul_share (flowAmount p) _ Ha Hq) as [H0 H1].
  split.
  - rewrite <- (Qfloor_Z 0). apply Qfloor_resp_le. exact H0.
  - rewrite <- (Qfloor_Z (flowAmount p)) at 2. apply Qfloor_resp_le.
    exact H1.
Qed.

Lemma flowRevenueOf_nonneg (now : Date) (p : Project) (year month : Z) :
  nonNegativeAmounts p -> 0 <= flowRevenueOf now p year month.
Proof.
  intros Hnn. pose proof (flowStartAmount_bounds p Hnn) as Hb.
  destruct Hnn as ([Ha _] & _).
  assert (Hdur : forall s e, 0 <= durationRevenue p s e year month).
  { intros s e. unfold durationRevenue.
    destruct (_ && _); [|lia].
    set (n := getFullYear e * 12 + getMonth e
              - (getFullYear s * 12 + getMonth s) + 1).
    destruct (Z.gtb_spec n 0); [|lia].
    pose proof (Z.div_pos (flowAmount p) n Ha ltac:(lia)).
    pose proof (Z.rem_nonneg (flowAmount p) n ltac:(lia) Ha).
    destruct (_ =? _); lia. }
  unfold flowRevenueOf. destruct (_ && _); [|lia].
  destruct (revenueMethod p) as [[|]|]; try apply Hdur.
  unfold milestoneRevenue.
  destruct (flowSplit (billingConfig p));
    repeat match goal with |- context [if ?b then _ else _] => destruct b end;
    lia.
Qed.

Lemma timeChargeOf_nonneg (p : Project) (year month : Z) :
  nonNegativeAmounts p -> 0 <= timeChargeOf p year month.
Proof.
  intros (_ & _ & _ & Ht). unfold timeChargeOf.
  destruct (timeChargePrices p) as [prices|] eqn:E; [|lia].
  destruct (useTimeCharge p); [|lia].
  destruct (prices !! monthKey year month) as [v|] eqn:Ev; [|lia].
  exact (Ht prices _ v eq_refl Ev).
Qed.

(** With amounts that are not negative and a stock start date, the split of
    a project combining Stock and Flow is sound in every month. *)
Lemma nonNegativeAmounts_splitSound (now : Date) (p : Project) (d : Date) :
  nonNegativeAmounts p -> stockStartDate p <> None -> splitSound now p d.
Proof.
  intros Hnn Hdate _ _. split; [exact Hdate|].
  pose proof (flowRevenueOf_nonneg now p (getFullYear d) (getMonth d) Hnn).
  pose proof (timeChargeOf_nonneg p (getFullYear d) (getMonth d) Hnn).
  lia.
Qed.

(** The hybrid project of the examples: flow of 600,000 from January to
    June 2025 (Milestone, no split), stock of 100,000 a month. *)
Lemma flow_stock_split_cap_witness :
  let projects :=
    [ sampleHybridProject Ordered (Some Milestone) 600000
        (Some (2025, 1, 1)) (Some (2025, 6, 30)) 100000
        (Some (2025, 7, 1)) (sampleBilling false None) ] in
  exists r,
    generateProjections sampleNow projects sampleEmployees sampleWorkLogs
      sampleTermStart sampleLedger !! 7%nat = Some r
    /\ stockRevenue r + flowRevenue r = revenue r
    /\ stockRevenue r <= revenue r /\ 0 <= flowRevenue r.
Proof.
  intros projects.
  destruct (flow_stock_split_cap sampleNow projects sampleEmployees
              sampleWorkLogs sampleTermStart sampleLedger 7 ltac:(lia))
    as (r & Hr & Hsum & _ & Hall).
  exists r. split; [exact Hr|]. split; [exact Hsum|].
  apply Hall. constructor; [|constructor].
  apply nonNegativeAmounts_splitSound; [|cbn; discriminate].
  split; [split; vm_compute; discriminate|].
  split; [vm_compute; discriminate|].
  split; [split; vm_compute; discriminate|].
  intros prices key v H. discriminate H.
Defined.

Example sample_hybrid_split :
  map (fun r => (revenue r, stockRevenue r, flowRevenue r))
    (generateProjections sampleNow
       [ sampleHybridProject Ordered (Some Milestone) 600000
           (Some (2025, 1, 1)) (Some (2025, 6, 30)) 100000
           (Some (2025, 7, 1)) (sampleBilling false None) ]
       sampleEmployees sampleWorkLogs sampleTermStart sampleLedger)
  = [(0, 0, 0); (0, 0, 0); (0, 0, 0); (0, 0, 0); (0, 0, 0); (0, 0, 0);
     (600000, 0, 600000); (100000, 100000, 0); (100000, 100000, 0);
     (100000, 100000, 0); (100000, 100000, 0); (100000, 100000, 0)].
Proof. vm_compute. reflexivity. Qed.

(** C7: the stock share is not capped when the stock start date is empty.
    For a project combining Stock and Flow, [parseLocalDate] of the empty
    date is the current instant, so that from the current month on the
    stock share is the whole [stockAmount], although [getMonthlyRevenue],
    which guards on the date, recognizes no stock revenue.  Seen on 15 March
    2025, a flow fee of 600,000 recognized in June 2025 with a stock amount
    of 100,000 and no stock start date gives, from March on, a stock revenue
    of 100,000 above the revenue of 0 and a flow revenue of -100,000 (in
    June 600,000, 100,000 and 500,000). *)
Theorem stock_share_exceeds_revenue :
  map (fun r => (revenue r, stockRevenue r, flowRevenue r))
    (generateProjections sampleNow
       [ sampleHybridProject Ordered (Some Milestone) 600000
           (Some (2025, 1, 1)) (Some (2025, 6, 30)) 100000 None
           (sampleBilling false None) ]
       [] [] sampleTermStart (sampleSettings 0 []))
  = [ (0, 0, 0); (0, 0, 0); (0, 0, 0);
      (0, 100000, -100000); (0, 100000, -100000); (0, 100000, -100000);
      (600000, 100000, 500000);
      (0, 100000, -100000); (0, 100000, -100000); (0, 100000, -100000);
      (0, 100000, -100000); (0, 100000, -100000) ].
Proof. vm_compute. reflexivity. Qed.

(* ===================================================================== *)
(** ** Lost and archived projects *)
(* ===================================================================== *)

(** What the revenue accumulator holds beyond the confirmed and potential
    ones is the revenue of the Lost projects. *)
Lemma profitLoss_lost (now : Date) (employees : list Employee)
  (workLogs : list WorkLog) (d : Date) (isPast : bool)
  (projects : list Project) : forall acc : ProfitLoss,
  let r := fold_left (profitLossStep now employees workLogs d isPast)
             projects acc in
  pl_revenue r - pl_confirmedRevenue r - pl_potentialRevenue r
  = pl_revenue acc - pl_confirmedRevenue acc - pl_potentialRevenue acc
    + lostRevenue now projects d.
Proof.
  induction projects as [|p ps IH]; intros acc; cbn [fold_left].
  - unfold lostRevenue, sumZ; cbn. lia.
  - specialize (IH (profitLossStep now employees workLogs d isPast acc p)).
    cbv zeta in IH. cbv zeta. rewrite IH. unfold lostRevenue.
    cbn [List.filter]. unfold isLost at 2, profitLossStep.
    cbn [pl_revenue pl_confirmedRevenue pl_potentialRevenue].
    destruct (status p); unfold sumZ; cbn [map foldr]; lia.
Qed.

Lemma sumZ_pos_iff (l : list Z) :
  Forall (fun x => 0 <= x) l ->
  0 <= sumZ l /\ (0 < sumZ l <-> Exists (fun x => x <> 0) l).
Proof.
  induction 1 as [|x l Hx _ [IH0 IH]]; unfold sumZ in *; cbn [foldr].
  - split; [lia|]. split; [lia|]. intros H; inversion H.
  - split; [lia|]. split.
    + intros Hpos. destruct (Z.eq_dec x 0) as [->|Hne].
      * right. apply IH. lia.
      * left. exact Hne.
    + intros Hex. inversion Hex as [? ? Hne|? ? Hl]; subst; [lia|].
      apply IH in Hl. lia.
Qed.

Lemma lostRevenue_pos_iff (now : Date) (projects : list Project) (d : Date) :
  Forall (fun p => status p = Lost -> 0 <= getMonthlyRevenue now p d)
    projects ->
  0 <= lostRevenue now projects d
  /\ (0 < lostRevenue now projects d
      <-> Exists (fun p => status p = Lost
                           /\ getMonthlyRevenue now p d <> 0) projects).
Proof.
  intros Hall. unfold lostRevenue.
  assert (Hnn : Forall (fun x => 0 <= x)
                  (map (fun p => getMonthlyRevenue now p d)
                     (List.filter isLost projects))).
  { induction Hall as [|p ps Hp _ IH]; cbn [List.filter map];
      [constructor|].
    unfold isLost at 1. destruct (status p) eqn:E; try exact IH.
    constructor; [apply Hp; reflexivity|exact IH]. }
  destruct (sumZ_pos_iff _ Hnn) as [H0 Hiff]. split; [exact H0|].
  rewrite Hiff. clear. induction projects as [|p ps IH]; cbn [List.filter map].
  - split; intros H; inversion H.
  - unfold isLost at 1. destruct (status p) eqn:E.
    1-3: rewrite IH; split;
      [ intros H; right; exact H
      | intros H; inversion H as [? ? [Hl _]|? ? Hl]; subst;
        [congruence|exact Hl] ].
    cbn [map]. split.
    + intros H. inversion H as [? ? Hne|? ? Hl]; subst.
      * left. split; [exact E|exact Hne].
      * right. apply IH. exact Hl.
    + intros H. inversion H as [? ? [_ Hne]|? ? Hl]; subst.
      * left. exact Hne.
      * right. apply IH. exact Hl.
Qed.





Example sample_lost_project :
  map (fun r => (revenue r, confirmedRevenue r, potentialRevenue r, cashIn r))
    (generateProjections sampleNow
       [ sampleFlowProject Lost (Some Milestone) 6000000
           (Some (2025, 1, 1)) (Some (2025, 6, 30))
           (sampleBilling true (Some 50%Q)) [] ]
       sampleEmployees sampleWorkLogs sampleTermStart sampleLedger)
  = [(0, 0, 0, 0); (3000000, 0, 0, 0); (0, 0, 0, 3300000); (0, 0, 0, 0);
     (0, 0, 0, 0); (0, 0, 0, 0); (3000000, 0, 0, 0); (0, 0, 0, 3300000);
     (0, 0, 0, 0); (0, 0, 0, 0); (0, 0, 0, 0); (0, 0, 0, 0)].
Proof. vm_compute. reflexivity. Qed.

(* ===================================================================== *)
(** ** The daily distribution *)
(* ===================================================================== *)

Lemma dailyLoop_total (dc : gmap Z Z) (days : list Z) : forall b : Z,
  dailyTotal (dailyLoop dc days b)
  = sumZ (map (fun d => default 0 (dc !! d)) days).
Proof.
  unfold dailyTotal.
  induction days as [|d days IH]; intros b; cbn [dailyLoop map];
    [reflexivity|].
  unfold sumZ in *. cbn [foldr change]. rewrite IH. reflexivity.
Qed.

Lemma changes_insert_other (dc : gmap Z Z) (k v : Z) (days : list Z) :
  k ∉ days ->
  sumZ (map (fun d => default 0 (<[k := v]> dc !! d)) days)
  = sumZ (map (fun d => default 0 (dc !! d)) days).
Proof.
  induction days as [|d days IH]; intros Hk; [reflexivity|].
  apply not_elem_of_cons in Hk as [Hne Hk].
  unfold sumZ in *. cbn [map foldr].
  rewrite lookup_insert_ne by exact Hne. rewrite IH by exact Hk.
  reflexivity.
Qed.

(** Adding an amount on a day raises the total over distinct days by that
    amount when the day is among them, and not at all otherwise. *)
Lemma changes_add (dc : gmap Z Z) (k amt : Z) (days : list Z) :
  NoDup days ->
  sumZ (map (fun d => default 0 (addDailyChange dc k amt !! d)) days)
  = sumZ (map (fun d => default 0 (dc !! d)) days)
    + (if bool_decide (k ∈ days) then amt else 0).
Proof.
  unfold addDailyChange.
  induction 1 as [|d days Hd Hnd IH].
  - rewrite bool_decide_eq_false_2 by apply not_elem_of_nil.
    unfold sumZ; cbn. lia.
  - unfold sumZ in *. cbn [map foldr].
    destruct (decide (k = d)) as [->|Hne].
    + rewrite lookup_insert_eq. cbn [default].
      pose proof (changes_insert_other dc d
                    (default 0 (dc !! d) + amt) days Hd) as Hrest.
      unfold sumZ in Hrest. rewrite Hrest.
      rewrite bool_decide_eq_true_2 by (left). unfold id. lia.
    + rewrite lookup_insert_ne by exact Hne. rewrite IH.
      destruct (bool_decide (k ∈ days)) eqn:E.
      * apply bool_decide_eq_true in E.
        rewrite bool_decide_eq_true_2 by (right; exact E). lia.
      * apply bool_decide_eq_false in E.
        rewrite bool_decide_eq_false_2
          by (intros [?|?]%elem_of_cons; [congruence|contradiction]).
        lia.
Qed.

Lemma changesTotal_add (dc : gmap Z Z) (k amt n : Z) :
  changesTotal (addDailyChange dc k amt) n
  = changesTotal dc n + (if (1 <=? k) && (k <=? n) then amt else 0).
Proof.
  unfold changesTotal. rewrite changes_add by apply NoDup_seqZ.
  f_equal.
  destruct (Z.leb_spec 1 k), (Z.leb_spec k n); cbn [andb].
  - rewrite bool_decide_eq_true_2; [reflexivity|]. apply elem_of_seqZ. lia.
  - rewrite bool_decide_eq_false_2; [reflexivity|].
    rewrite elem_of_seqZ. lia.
  - rewrite bool_decide_eq_false_2; [reflexivity|].
    rewrite elem_of_seqZ. lia.
  - rewrite bool_decide_eq_false_2; [reflexivity|].
    rewrite elem_of_seqZ. lia.
Qed.

Lemma changesTotal_empty (n : Z) : changesTotal ∅ n = 0.
Proof.
  unfold changesTotal.
  rewrite (sumZ_map_const _ 0); [lia|]. intros d _.
  rewrite lookup_empty. reflexivity.
Qed.

(** The ledger items in the monthly path. *)
Lemma ledgerStep_net (now : Date) (d : Date) (year month : Z)
  (items : list CashFlowItem) : forall acc : Ledger,
  ledgerNet (fold_left (ledgerStep now d year month) items acc)
  = ledgerNet acc
    + sumZ (map (fun item => if itemOccurs now item d year month
                             then signedAmount item else 0) items).
Proof.
  induction items as [|item items IH]; intros acc; cbn [fold_left map].
  - unfold sumZ; cbn. lia.
  - rewrite IH. unfold sumZ; cbn [foldr]. unfold ledgerStep, signedAmount.
    destruct (itemOccurs now item d year month); [|lia].
    destruct (category item); unfold ledgerNet; cbn; lia.
Qed.

(** The ledger items in the daily path. *)
Lemma dailyItemStep_total (now : Date) (year month n : Z)
  (items : list CashFlowItem) : forall dc : gmap Z Z,
  changesTotal (fold_left (dailyItemStep now year month n) items dc) n
  = changesTotal dc n
    + sumZ (map (fun item =>
                   match itemDay now item year month n with
                   | Some day => if (1 <=? day) && (day <=? n)
                                 then signedAmount item else 0
                   | None => 0
                   end) items).
Proof.
  induction items as [|item items IH]; intros dc; cbn [fold_left map].
  - unfold sumZ; cbn. lia.
  - rewrite IH. unfold sumZ; cbn [foldr]. unfold dailyItemStep.
    destruct (itemDay now item year month n) as [day|]; [|lia].
    rewrite changesTotal_add. unfold signedAmount. lia.
Qed.

Lemma itemPaymentDate_valid (now : Date) (item : CashFlowItem) (pd : Date) :
  itemPaymentDate now item = Some pd -> validDate pd.
Proof.
  unfold itemPaymentDate, parseYearMonth, parseLocalDate.
  destruct (paymentDate item) as [[[y m] d]|].
  - intros [= <-]. apply newDate_valid.
  - destruct (targetMonth item) as [[y m]|]; [|discriminate].
    intros [= <-]. apply newDate_valid.
Qed.

(** An item occurs in the monthly path exactly when the daily path gives it
    a day; with a pay day the daily path can place, the day is one of the
    month. *)
Lemma itemDay_agrees (now : Date) (item : CashFlowItem) (k : Z) :
  let year := k / 12 in
  let month := k mod 12 in
  let n := daysInMonthIndex k in
  payDayWithin n item ->
  match itemDay now item year month n with
  | Some day => if (1 <=? day) && (day <=? n) then signedAmount item else 0
  | None => 0
  end
  = if itemOccurs now item (firstOfMonth k) year month
    then signedAmount item else 0.
Proof.
  intros year month n Hpay. unfold itemDay, itemOccurs.
  pose proof (daysInMonthIndex_bounds k) as Hn. fold n in Hn.
  assert (Hfirst : newDate year month 1 = firstOfMonth k).
  { rewrite newDate_first. unfold year, month.
    rewrite year_month_index. reflexivity. }
  rewrite Hfirst.
  destruct (isRecurring item) eqn:Hrec.
  - destruct (periodStart item) as [ps|]; [|reflexivity].
    destruct (_ && _); [|reflexivity].
    destruct (Hpay Hrec) as [H99|Hin].
    + rewrite H99. cbn [is99]. rewrite Z.eqb_refl.
      destruct (Z.leb_spec 1 n); [|lia]. rewrite Z.leb_refl. reflexivity.
    + destruct (is99 (payDay item)).
      * destruct (Z.leb_spec 1 n); [|lia]. rewrite Z.leb_refl. reflexivity.
      * destruct (Z.leb_spec 1 (or_default (payDay item) 25)); [|lia].
        destruct (Z.leb_spec (or_default (payDay item) 25) n); [|lia].
        reflexivity.
  - destruct (itemPaymentDate now item) as [pd|] eqn:Hpd; [|reflexivity].
    unfold year, month. rewrite same_month_index.
    destruct (Z.eqb_spec (monthIndex pd) k) as [Hk|]; [|reflexivity].
    destruct (itemPaymentDate_valid now item pd Hpd) as [Hday _].
    rewrite Hk in Hday. fold n in Hday. unfold getDate.
    destruct (Z.leb_spec 1 (dayOfMonth pd)); [|lia].
    destruct (Z.leb_spec (dayOfMonth pd) n); [|lia]. reflexivity.
Qed.

Lemma Qgtb_inject_Z (z : Z) : Qgtb (inject_Z z) 0 = (z >? 0).
Proof.
  unfold Qgtb, Qle_bool. cbn. rewrite Z.mul_1_r, Z.gtb_ltb, Z.ltb_antisym.
  reflexivity.
Qed.

Ltac case_conditions :=
  cbv iota;
  repeat match goal with
    | |- context [if ?b then _ else _] =>
        lazymatch b with
        | context [Qgtb] => fail
        | _ => destruct b eqn:?
        end; cbn [andb orb app map fst snd fold_left]
    end.

(** The monthly path adds up the amounts of the payments. *)
Lemma cashInStep_payments (now : Date) (p : Project) (year month : Z)
  (acc : Q) :
  cashInStep now year month acc p
  = fold_left fadd (map snd (projectPayments now p year month)) acc.
Proof.
  unfold cashInStep, projectPayments. cbv zeta.
  case_conditions; reflexivity.
Qed.

(** The daily path books each payment on its day. *)
Lemma dailyProjectStep_payments (now : Date) (p : Project) (year month : Z)
  (dc : gmap Z Z) :
  dailyProjectStep now year month dc p
  = fold_left (dailyPaymentStep year month) (projectPayments now p year month)
      dc.
Proof.
  unfold dailyProjectStep, projectPayments. cbv zeta.
  destruct (flowSplit (billingConfig p));
    case_conditions; unfold dailyPaymentStep; cbn [fst snd];
    rewrite ?Qgtb_inject_Z;
    repeat match goal with
      | H : ?b = _ |- context [?b] => rewrite H
      end;
    rewrite ?andb_true_r, ?andb_false_r;
    change (Qgtb 0 0) with false; cbv iota;
    repeat match goal with
      | |- context [if Qgtb ?a ?b then _ else _] => destruct (Qgtb a b)
      end;
    reflexivity.
Qed.

Lemma getPaymentDate_valid (year month delay day : Z) :
  validDate (getPaymentDate year month delay day).
Proof.
  unfold getPaymentDate. destruct (day =? 99); [apply newDate_valid|].
  rewrite newDate_first. unfold validDate, setDate.
  cbn [monthIndex dayOfMonth timeOfDay]. split; [apply rollDays_normal|lia].
Qed.

Lemma projectPayments_valid (now : Date) (p : Project) (year month : Z) :
  Forall (fun payment => validDate (fst payment))
    (projectPayments now p year month).
Proof.
  unfold projectPayments. cbv zeta.
  case_conditions;
    repeat (first [apply Forall_nil_2 | apply Forall_cons_2]);
    apply getPaymentDate_valid.
Qed.

(** A payment within the month raises the daily total by its amount with
    tax, floored. *)
Lemma dailyPaymentStep_total (k : Z) (dc : gmap Z Z) (payment : Date * Q) :
  validDate (fst payment) ->
  paymentWithin (k / 12) (k mod 12) payment ->
  changesTotal (dailyPaymentStep (k / 12) (k mod 12) dc payment)
    (daysInMonthIndex k)
  = changesTotal dc (daysInMonthIndex k)
    + Math_floor (fmul (snd payment) (round64 (11 # 10))).
Proof.
  intros [Hday _] (Hk & Hpos). rewrite year_month_index in Hk.
  unfold dailyPaymentStep. rewrite same_month_index, Hk, Z.eqb_refl.
  rewrite andb_true_r. unfold Qgtb.
  destruct (Qle_bool (snd payment) 0) eqn:Hle; cbn [negb].
  - apply Qle_bool_iff in Hle.
    assert (Hz : (snd payment * round64 (11 # 10) == 0)%Q).
    { assert (Hs : (snd payment == 0)%Q) by lra. rewrite Hs. lra. }
    unfold fmul. rewrite (round64_zero _ Hz). unfold Math_floor.
    change (Qfloor 0) with 0. lia.
  - rewrite changesTotal_add. unfold getDate.
    rewrite Hk in Hday.
    destruct (Z.leb_spec 1 (dayOfMonth (fst payment))); [|lia].
    destruct (Z.leb_spec (dayOfMonth (fst payment)) (daysInMonthIndex k));
      [|lia].
    reflexivity.
Qed.

Lemma dailyPayments_total (k : Z) (payments : list (Date * Q)) :
  Forall (fun payment => validDate (fst payment)) payments ->
  Forall (paymentWithin (k / 12) (k mod 12)) payments ->
  forall dc : gmap Z Z,
  changesTotal (fold_left (dailyPaymentStep (k / 12) (k mod 12)) payments dc)
    (daysInMonthIndex k)
  = changesTotal dc (daysInMonthIndex k)
    + taxedOneByOne (map snd payments).
Proof.
  unfold taxedOneByOne.
  induction payments as [|e payments IH]; intros Hv Hx dc;
    cbn [fold_left map].
  - unfold sumZ; cbn. lia.
  - inversion Hv as [|? ? Hv1 Hv2]; inversion Hx as [|? ? Hx1 Hx2]; subst.
    rewrite (IH Hv2 Hx2), (dailyPaymentStep_total k dc e Hv1 Hx1).
    unfold sumZ; cbn [foldr]. lia.
Qed.

Lemma cashIn_projects (now : Date) (year month : Z)
  (projects : list Project) : forall acc : Q,
  fold_left (cashInStep now year month) projects acc
  = fold_left fadd (map snd (monthPayments now projects year month)) acc.
Proof.
  unfold monthPayments.
  induction projects as [|p ps IH]; intros acc; cbn [fold_left List.flat_map];
    [reflexivity|].
  rewrite IH, cashInStep_payments, map_app, fold_left_app. reflexivity.
Qed.

Lemma daily_projects (now : Date) (year month : Z)
  (projects : list Project) : forall dc : gmap Z Z,
  fold_left (dailyProjectStep now year month) projects dc
  = fold_left (dailyPaymentStep year month)
      (monthPayments now projects year month) dc.
Proof.
  unfold monthPayments.
  induction projects as [|p ps IH]; intros dc; cbn [fold_left List.flat_map];
    [reflexivity|].
  rewrite IH, dailyProjectStep_payments, fold_left_app. reflexivity.
Qed.

Lemma Forall_flat_map_payments {P : Date * Q -> Prop} (now : Date)
  (year month : Z) (projects : list Project) :
  Forall (fun p => Forall P (projectPayments now p year month)) projects ->
  Forall P (monthPayments now projects year month).
Proof.
  unfold monthPayments.
  induction 1 as [|p ps Hp _ IH]; cbn [List.flat_map]; [constructor|].
  apply Forall_app. split; assumption.
Qed.

(** With no payment, or a single one, the tax floored on the sum is the tax
    of the payment: the two ways of flooring can only differ in a month with
    several payments. *)
Lemma taxed_single (amt : Q) :
  taxedOneByOne [] = taxedTogether []
  /\ taxedOneByOne [round64 amt] = taxedTogether [round64 amt].
Proof.
  split; [reflexivity|].
  unfold taxedOneByOne, taxedTogether, sumZ. cbn [map foldr fold_left].
  rewrite fadd_0_l. lia.
Qed.

(** C3 (amended): monthly/daily consistency.  For every month of the term,
    the daily changes of [generateDailyCashFlow] add up to the month's net
    cash change of [generateProjections] without the labor payment (which
    the daily path does not have), that is to
    [totalCashIn - totalCashOut + cost], provided every project payment of
    the month falls in the month and is not negative, the tax floored
    payment by payment adds up to the tax floored on the sum of the
    payments, and every recurring ledger item has pay day 99 or, after the
    default of 25, a day of the month. *)
Theorem daily_matches_monthly_net_of_labor (now : Date)
  (projects : list Project) (employees : list Employee)
  (workLogs : list WorkLog) (termStart : Date) (settings : AppSettings)
  (initialBalance : Z) (i : nat) :
  (i < 12)%nat ->
  exists r,
    generateProjections now projects employees workLogs termStart settings
      !! i = Some r
    /\ let year := getFullYear (date r) in
       let month := getMonth (date r) in
       let amounts := map snd (monthPayments now projects year month) in
       (Forall (fun p => Forall (paymentWithin year month)
                           (projectPayments now p year month)) projects ->
        taxedOneByOne amounts = taxedTogether amounts ->
        Forall (payDayWithin (getTotalDays year month))
          (cashFlowItems settings) ->
        dailyTotal
          (generateDailyCashFlow now (date r) projects settings
             initialBalance)
        = totalCashIn r - totalCashOut r + cost r).
Proof.
  intros Hi.
  destruct (generateProjections_lookup now projects employees workLogs
              termStart settings i Hi) as (c & r & Hr & Hrec).
  exists r. split; [exact Hr|]. subst r.
  cbn [date totalCashIn totalCashOut cost monthProjection].
  rewrite projectionDate_eq.
  set (k := monthIndex termStart + Z.of_nat i).
  change (getFullYear (firstOfMonth k)) with (k / 12).
  change (getMonth (firstOfMonth k)) with (k mod 12).
  cbv zeta. rewrite getTotalDays_eq, year_month_index.
  intros Hpay Htax Hitems.
  (* the daily path *)
  unfold generateDailyCashFlow, dailyChangesOf.
  change (getFullYear (firstOfMonth k)) with (k / 12).
  change (getMonth (firstOfMonth k)) with (k mod 12).
  rewrite getTotalDays_eq, year_month_index.
  rewrite dailyLoop_total. fold (changesTotal
    (fold_left (dailyItemStep now (k / 12) (k mod 12) (daysInMonthIndex k))
       (cashFlowItems settings)
       (fold_left (dailyProjectStep now (k / 12) (k mod 12)) projects ∅))
    (daysInMonthIndex k)).
  rewrite dailyItemStep_total, daily_projects.
  rewrite dailyPayments_total, changesTotal_empty;
    [ | apply Forall_flat_map_payments;
        apply Forall_forall; intros p _; apply projectPayments_valid
      | apply Forall_flat_map_payments; exact Hpay ].
  (* the monthly path *)
  set (lg := fold_left (ledgerStep now (firstOfMonth k) (k / 12) (k mod 12))
               (cashFlowItems settings) emptyLedger).
  assert (Hlg : ledgerNet lg
            = sumZ (map (fun item =>
                           if itemOccurs now item (firstOfMonth k) (k / 12)
                                (k mod 12)
                           then signedAmount item else 0)
                      (cashFlowItems settings))).
  { unfold lg. rewrite ledgerStep_net.
    change (ledgerNet emptyLedger) with 0. lia. }
  assert (Hcash : monthCashIn now projects (k / 12) (k mod 12)
            = taxedTogether
                (map snd (monthPayments now projects (k / 12) (k mod 12)))).
  { unfold monthCashIn, taxedTogether. rewrite cashIn_projects.
    reflexivity. }
  assert (Hday : sumZ (map (fun item =>
                   match itemDay now item (k / 12) (k mod 12)
                           (daysInMonthIndex k) with
                   | Some day =>
                       if (1 <=? day) && (day <=? daysInMonthIndex k)
                       then signedAmount item else 0
                   | None => 0
                   end) (cashFlowItems settings))
                 = sumZ (map (fun item =>
                           if itemOccurs now item (firstOfMonth k) (k / 12)
                                (k mod 12)
                           then signedAmount item else 0)
                      (cashFlowItems settings))).
  { clear - Hitems. induction Hitems as [|item items Hitem _ IH];
      [reflexivity|].
    unfold sumZ in *. cbn [map foldr]. rewrite IH.
    rewrite (itemDay_agrees now item k Hitem). reflexivity. }
  rewrite Hday, <- Hlg, Hcash, Htax. unfold ledgerNet. lia.
Qed.

(** July 2025 of the sample data set: the end payment of 3,300,000 arrives
    on the 31st and the rent of 200,000 leaves on the 25th; the month also
    pays 400,000 of labor, which the daily rows do not show. *)
Lemma daily_matches_monthly_net_of_labor_witness :
  exists r,
    generateProjections sampleNow sampleProjects sampleEmployees
      sampleWorkLogs sampleTermStart sampleLedger !! 7%nat = Some r
    /\ dailyTotal
         (generateDailyCashFlow sampleNow (date r) sampleProjects
            sampleLedger 0)
       = totalCashIn r - totalCashOut r + cost r.
Proof.
  destruct (daily_matches_monthly_net_of_labor sampleNow sampleProjects
              sampleEmployees sampleWorkLogs sampleTermStart sampleLedger 0
              7 ltac:(lia)) as (r & Hr & Hnet).
  exists r. split; [exact Hr|].
  pose proof Hr as Hrec. vm_compute in Hrec. injection Hrec as <-.
  apply Hnet.
  - apply Forall_cons_2; [|apply Forall_nil_2].
    match goal with
    | |- Forall _ ?l =>
        let l' := eval vm_compute in l in change l with l'
    end.
    apply Forall_cons_2; [|apply Forall_nil_2].
    split; [vm_compute; reflexivity|vm_compute; discriminate].
  - vm_compute. reflexivity.
  - apply Forall_cons_2; [|apply Forall_nil_2].
    intros _. right. vm_compute. split; discriminate.
Defined.

Example sample_daily_july :
  filter (fun row => change row <> 0)
    (generateDailyCashFlow sampleNow (firstOfMonth (2025 * 12 + 6))
       sampleProjects sampleLedger 1500000)
  = [ {| day := 25; change := -200000; balance := 1300000 |};
      {| day := 31; change := 3300000; balance := 4600000 |} ].
Proof. vm_compute. reflexivity. Qed.

(** C3 as worded fails: in April 2025 the monthly path pays 400,000 of labor
    and 200,000 of rent, a net change of -600,000, while the daily rows only
    hold the rent, -200,000 in total. *)
Lemma daily_omits_labor_payment : ~ daily_matches_monthly_for_every_input.
Proof.
  intros H.
  destruct (generateProjections sampleNow sampleProjects sampleEmployees
              sampleWorkLogs sampleTermStart sampleLedger !! 4%nat)
    as [r|] eqn:E; [|vm_compute in E; discriminate].
  specialize (H _ _ _ _ _ _ 0 _ _ E).
  vm_compute in E. injection E as <-. vm_compute in H. discriminate H.
Qed.

(** Where the provisos fail the two paths differ as well.  Two end payments
    of 5 in one month are taxed together to [floor(10 * 1.1) = 11] by the
    monthly path and one by one to [5 + 5] by the daily path. *)
Example tax_floor_per_payment :
  let projects :=
    [ sampleFlowProject Ordered (Some Milestone) 5
        (Some (2025, 1, 1)) (Some (2025, 6, 30)) (sampleBilling false None) [];
      sampleFlowProject Ordered (Some Milestone) 5
        (Some (2025, 1, 1)) (Some (2025, 6, 30)) (sampleBilling false None)
        [] ] in
  let noLedger := sampleSettings 0 [] in
  map cashIn
    (generateProjections sampleNow projects [] [] sampleTermStart noLedger)
  = [0; 0; 0; 0; 0; 0; 0; 11; 0; 0; 0; 0]
  /\ dailyTotal
       (generateDailyCashFlow sampleNow (firstOfMonth (2025 * 12 + 6))
          projects noLedger 0) = 10.
Proof. vm_compute. split; reflexivity. Qed.

(** The rounding of the products shows as well: a fee of 10,000 split at 43%
    whose two payments fall on 28 February 2025.  The shares are 4,300 and
    5,699.999999999999; the monthly path taxes their sum, 10,000, to 11,000,
    the daily path taxes them to 4,730 and 6,269. *)
Example tax_rounding_per_payment :
  let projects :=
    [ sampleFlowProject Ordered (Some Milestone) 10000
        (Some (2025, 1, 10)) (Some (2025, 1, 20))
        (sampleBilling true (Some 43%Q)) [] ] in
  let noLedger := sampleSettings 0 [] in
  map cashIn
    (generateProjections sampleNow projects [] [] sampleTermStart noLedger)
  = [0; 0; 11000; 0; 0; 0; 0; 0; 0; 0; 0; 0]
  /\ filter (fun row => change row <> 0)
       (generateDailyCashFlow sampleNow (firstOfMonth (2025 * 12 + 1))
          projects noLedger 0)
     = [ {| day := 28; change := 10999; balance := 10999 |} ].
Proof. vm_compute. split; reflexivity. Qed.

(** A recurring item with pay day 31 is an outflow of every month in the
    monthly path; in April, which has 30 days, the daily rows do not show
    it. *)
Example pay_day_beyond_month :
  let ledger :=
    sampleSettings 0
      [sampleRecurring OperatingExpense 200000 (2024, 12) (Some 31)] in
  map sga (generateProjections sampleNow [] [] [] sampleTermStart ledger)
  = [200000; 200000; 200000; 200000; 200000; 200000; 200000; 200000;
     200000; 200000; 200000; 200000]
  /\ dailyTotal
       (generateDailyCashFlow sampleNow (firstOfMonth (2025 * 12 + 3)) []
          ledger 0) = 0
  /\ dailyTotal
       (generateDailyCashFlow sampleNow (firstOfMonth (2025 * 12 + 4)) []
          ledger 0) = -200000.
Proof. vm_compute. repeat split; reflexivity. Qed.

(* ===================================================================== *)
(** ** The end-to-end scenario of the specification *)
(* ===================================================================== *)

(** A flow-only project of 6,000,000 from 1 January to 30 June 2025,
    Milestone method, split 50/50, no delay, paid at the end of the month:
    3,000,000 of revenue in January and in June and none elsewhere, and
    3,300,000 of cash with tax in each of the two months. *)
Example end_to_end_scenario :
  let bc :=
    {| flowSplit := true; flowStartRatio := Some 50%Q;
       flowStartDelay := Some 0; flowStartPayDay := Some 99;
       flowEndDelay := Some 0; flowEndPayDay := Some 99;
       stockDelay := None; stockPayDay := None |} in
  let p := sampleFlowProject Ordered (Some Milestone) 6000000
             (Some (2025, 1, 1)) (Some (2025, 6, 30)) bc [] in
  map (fun r => (revenue r, cashIn r))
    (generateProjections sampleNow [p] [] [] sampleTermStart
       (sampleSettings 0 []))
  = [(0, 0); (3000000, 3300000); (0, 0); (0, 0); (0, 0); (0, 0);
     (3000000, 3300000); (0, 0); (0, 0); (0, 0); (0, 0); (0, 0)].
Proof. vm_compute. reflexivity. Qed.

(** Stock is not prorated: a stock start on the last day of a month still
    yields the full monthly amount for that month. *)
Example stock_no_proration :
  getMonthlyRevenue sampleNow
    (sampleHybridProject Ordered (Some Duration) 0 None None 100000
       (Some (2025, 4, 30)) (sampleBilling false None))
    (firstOfMonth (2025 * 12 + 3)) = 100000.
Proof. vm_compute. reflexivity. Qed.

(* ===================================================================== *)
(** ** Time stamps *)
(* ===================================================================== *)

Lemma leapDaysBefore_succ (y : Z) :
  leapDaysBefore (y + 1)
  = leapDaysBefore y + (if isLeapYear y then 1 else 0).
Proof.
  unfold leapDaysBefore, isLeapYear.
  destruct (Z.eqb_spec (y mod 4) 0), (Z.eqb_spec (y mod 100) 0),
    (Z.eqb_spec (y mod 400) 0); cbn [andb orb negb];
    Z.div_mod_to_equations; lia.
Qed.

(** The first day of the next month comes [daysInMonthIndex k] days after
    the first day of month [k]. *)
Lemma daysBeforeMonth_succ (k : Z) :
  daysBeforeMonth (k + 1) = daysBeforeMonth k + daysInMonthIndex k.
Proof.
  unfold daysBeforeMonth, daysInMonthIndex.
  pose proof (Z.mod_pos_bound k 12 ltac:(lia)) as Hm.
  pose proof (Z.div_mod k 12 ltac:(lia)) as Hk.
  set (y := k / 12) in *. set (m := k mod 12) in *.
  destruct (Z.eq_dec m 11) as [H11|H11].
  - assert ((k + 1) / 12 = y + 1) as -> by (Z.div_mod_to_equations; lia).
    assert ((k + 1) mod 12 = 0) as -> by (Z.div_mod_to_equations; lia).
    rewrite leapDaysBefore_succ, H11.
    destruct (isLeapYear (y + 1)), (isLeapYear y);
      cbn -[Z.mul Z.add Z.sub leapDaysBefore]; lia.
  - assert ((k + 1) / 12 = y) as -> by (Z.div_mod_to_equations; lia).
    assert ((k + 1) mod 12 = m + 1) as -> by (Z.div_mod_to_equations; lia).
    clearbody y m. remember (m + 1) as m1 eqn:Hm1.
    assert (m = 0 \/ m = 1 \/ m = 2 \/ m = 3 \/ m = 4 \/ m = 5 \/ m = 6
            \/ m = 7 \/ m = 8 \/ m = 9 \/ m = 10) as Hc by lia.
    destruct (isLeapYear y);
      decompose [or] Hc; subst m; vm_compute in Hm1; subst m1;
      cbn -[Z.mul Z.add Z.sub leapDaysBefore]; lia.
Qed.

(** The days of the months [k .. k + n - 1] lead from the first day of month
    [k] to the first day of month [k + n]. *)
Lemma daysBeforeMonth_add (k : Z) (n : nat) :
  daysBeforeMonth (k + Z.of_nat n)
  = daysBeforeMonth k + sumZ (map daysInMonthIndex (seqZ k (Z.of_nat n))).
Proof.
  induction n as [|n IH].
  - change (Z.of_nat 0) with 0. rewrite Z.add_0_r, seqZ_nil by lia.
    unfold sumZ; cbn [map foldr]. lia.
  - rewrite seqZ_S, map_app, sumZ_app, Nat2Z.inj_succ.
    replace (k + Z.succ (Z.of_nat n)) with (k + Z.of_nat n + 1) by lia.
    rewrite daysBeforeMonth_succ, IH. unfold sumZ; cbn [map foldr]. lia.
Qed.

Lemma daysBeforeMonth_lt (k1 k2 : Z) :
  k1 < k2 -> daysBeforeMonth k1 + daysInMonthIndex k1 <= daysBeforeMonth k2.
Proof.
  intros Hlt. rewrite <- daysBeforeMonth_succ.
  replace k2 with (k1 + 1 + Z.of_nat (Z.to_nat (k2 - k1 - 1))) by lia.
  rewrite daysBeforeMonth_add.
  assert (0 <= sumZ (map daysInMonthIndex
                       (seqZ (k1 + 1) (Z.of_nat (Z.to_nat (k2 - k1 - 1))))));
    [|lia].
  apply sumZ_map_nonneg. apply Forall_forall. intros k _.
  pose proof (daysInMonthIndex_bounds k). lia.
Qed.

(** On real calendar dates, comparing dates compares their time stamps. *)
Lemma localTime_lt_iff (a b : Date) :
  validDate a -> validDate b ->
  Date_ltb a b = true <-> localTime a < localTime b.
Proof.
  intros [Ha Hta] [Hb Htb]. rewrite Date_ltb_lt. unfold localTime, dayNumber.
  destruct (Z.lt_trichotomy (monthIndex a) (monthIndex b)) as [Hlt|[Heq|Hgt]].
  - pose proof (daysBeforeMonth_lt _ _ Hlt). split; [intros _; lia|].
    intros _. left. exact Hlt.
  - rewrite Heq in *. split; [lia|]. intros H. right. split; [reflexivity|].
    lia.
  - pose proof (daysBeforeMonth_lt _ _ Hgt). split; lia.
Qed.

Lemma localTime_le_iff (a b : Date) :
  validDate a -> validDate b ->
  Date_leb a b = true <-> localTime a <= localTime b.
Proof.
  intros Ha Hb. unfold Date_leb. rewrite negb_true_iff.
  pose proof (localTime_lt_iff b a Hb Ha) as H.
  destruct (Date_ltb b a) eqn:E.
  - split; [discriminate|]. intros Hle.
    assert (localTime b < localTime a) by (apply H; reflexivity). lia.
  - split; [intros _|reflexivity].
    destruct (Z_lt_le_dec (localTime b) (localTime a)) as [Hlt|]; [|lia].
    apply H in Hlt. discriminate.
Qed.

Lemma parseLocalDate_valid (now : Date) (s : DateStr) :
  validDate (parseLocalDate now (Some s))
  /\ timeOfDay (parseLocalDate now (Some s)) = 0.
Proof.
  destruct s as [[y m] d]. cbn [parseLocalDate].
  split; [apply newDate_valid|reflexivity].
Qed.

Lemma Qceiling_whole_days (n : Z) :
  Qceiling (inject_Z (n * 86400000) / 86400000)%Q = n.
Proof.
  rewrite <- (Qceiling_Z n) at 2. apply Qceiling_comp.
  rewrite inject_Z_mult. change (inject_Z 86400000) with 86400000%Q. field.
Qed.

(* ===================================================================== *)
(** ** Durations *)
(* ===================================================================== *)

(** Where the offset from UTC is the same at two local midnights, the
    [diffDays] between them is the number of calendar days from the first to
    the second. *)
Lemma diffDays_midnight (getTimezoneOffset : Date -> Z) (a b : Date) :
  getTimezoneOffset a = getTimezoneOffset b ->
  timeOfDay a = 0 -> timeOfDay b = 0 -> dayNumber a <= dayNumber b ->
  Math_ceil
    (inject_Z (Z.abs (getTime getTimezoneOffset b
                      - getTime getTimezoneOffset a)) / 86400000)%Q
  = dayNumber b - dayNumber a.
Proof.
  intros Htz Hta Htb Hle. unfold getTime, localTime. rewrite Htz, Hta, Htb.
  replace (Z.abs _) with ((dayNumber b - dayNumber a) * 86400000) by lia.
  apply Qceiling_whole_days.
Qed.

Lemma parsed_dayNumbers (now : Date) (s e : DateStr) :
  Date_leb (parseLocalDate now (Some s)) (parseLocalDate now (Some e)) = true ->
  dayNumber (parseLocalDate now (Some s))
  <= dayNumber (parseLocalDate now (Some e)).
Proof.
  intros Hle.
  destruct (parseLocalDate_valid now s) as [Hvs Hts].
  destruct (parseLocalDate_valid now e) as [Hve Hte].
  apply (localTime_le_iff _ _ Hvs Hve) in Hle. unfold localTime in Hle.
  rewrite Hts, Hte in Hle. lia.
Qed.

(** The rounding of a number of months: four roundings, of the quotient by
    30.44 (itself rounded), of its tenfold and of the tenth of the whole
    number of tenths, each within the relative error [u] and the absolute
    error [s] of a double, and [Math.round], within a half. *)
Lemma month_rounding_budget (d c m x k result u s : Q) :
  (0 <= d)%Q -> (30 <= c)%Q ->
  (Qabs (c - (3044 # 100)) <= 31 * u)%Q ->
  (0 <= s)%Q -> (3 * s <= u)%Q -> (u <= 1 # 100)%Q ->
  (0 <= m)%Q -> (0 <= x)%Q -> (0 <= k)%Q ->
  (Qabs (m - d / c) <= Qabs (d / c) * u + s)%Q ->
  (Qabs (x - m * 10) <= Qabs (m * 10) * u + s)%Q ->
  (x - (1 # 2) <= k <= x + (1 # 2))%Q ->
  (Qabs (result - k / 10) <= Qabs (k / 10) * u + s)%Q ->
  (Qabs (result - d / (3044 # 100))
   <= (1 # 20) + (d + 1) * (64 * u))%Q.
Proof.
  intros Hd Hc Ec Hs Hsu Hu Hm Hx Hk Em Ex Ek Er.
  assert (Hc0 : ~ (c == 0)%Q) by lra.
  set (y := (d / c)%Q) in *.
  assert (Hy : (y * c == d)%Q) by (unfold y; field; exact Hc0).
  set (w := (d / (3044 # 100))%Q).
  assert (Hw : (w * (3044 # 100) == d)%Q) by (unfold w; field).
  set (k10 := (k / 10)%Q) in *.
  assert (Hk10 : (k10 * 10 == k)%Q) by (unfold k10; field).
  clearbody y w k10.
  assert (Hy0 : (0 <= y)%Q) by nra.
  assert (Hyd : (y <= d)%Q) by nra.
  assert (Hw0 : (0 <= w)%Q) by nra.
  assert (Hwd : (w <= d)%Q) by nra.
  assert (Hk0 : (0 <= k10)%Q) by lra.
  rewrite (Qabs_pos y) in Em by assumption.
  rewrite (Qabs_pos (m * 10)) in Ex by lra.
  rewrite (Qabs_pos k10) in Er by assumption.
  apply Qabs_Qle_condition in Ec, Em, Ex, Er.
  apply Qabs_Qle_condition.
  assert (Hu0 : (0 <= u)%Q) by lra.
  (* the quotient by the rounded constant *)
  assert (Eyw : (- (d * u) <= y - w <= d * u)%Q).
  { assert (H1 : ((y - w) * c == w * ((3044 # 100) - c))%Q) by nra.
    assert (H2 : (- (w * (31 * u)) <= w * ((3044 # 100) - c)
                  <= w * (31 * u))%Q) by nra.
    assert (Hw30 : (30 * w <= d)%Q) by nra.
    assert (H3 : (30 * (w * (31 * u)) <= d * (31 * u))%Q) by nra.
    assert (H4 : (0 <= d * u)%Q) by nra.
    set (du := (d * u)%Q) in *.
    assert (H5 : (d * (31 * u) == 31 * du)%Q) by (unfold du; ring).
    rewrite H5 in H3. clear H5.
    set (t := (y - w)%Q) in *.
    set (r := (w * (31 * u))%Q) in *.
    set (q := (w * ((3044 # 100) - c))%Q) in *.
    clearbody t r q du.
    split.
    - destruct (Qlt_le_dec t (- du)) as [Hlt|Hge]; [|exact Hge].
      exfalso. assert (Ht : (0 <= - t)%Q) by lra.
      assert (Hc30 : (0 <= c - 30)%Q) by lra.
      pose proof (Qmult_le_0_compat _ _ Ht Hc30). lra.
    - destruct (Qlt_le_dec du t) as [Hlt|Hge]; [|exact Hge].
      exfalso. assert (Ht : (0 <= t)%Q) by lra.
      assert (Hc30 : (0 <= c - 30)%Q) by lra.
      pose proof (Qmult_le_0_compat _ _ Ht Hc30). lra. }
  assert (Hdu : (0 <= d * u)%Q) by nra.
  assert (Hyu : (y * u <= d * u)%Q) by nra.
  assert (Hm2 : (m <= 2 * d + 1)%Q) by nra.
  assert (Hmu : (m * u <= (2 * d + 1) * u)%Q) by nra.
  assert (Hmu0 : (0 <= m * u)%Q) by nra.
  assert (Hx2 : (x <= 40 * d + 21)%Q) by nra.
  assert (Hk2 : (k10 <= 4 * d + 3)%Q) by lra.
  assert (Hku : (k10 * u <= (4 * d + 3) * u)%Q) by nra.
  assert (Hku0 : (0 <= k10 * u)%Q) by nra.
  set (du := (d * u)%Q) in *.
  assert (E1 : ((2 * d + 1) * u == 2 * du + u)%Q) by (unfold du; ring).
  assert (E2 : ((4 * d + 3) * u == 4 * du + 3 * u)%Q) by (unfold du; ring).
  assert (E3 : ((d + 1) * (64 * u) == 64 * du + 64 * u)%Q)
    by (unfold du; ring).
  assert (E4 : (m * 10 * u == 10 * (m * u))%Q) by ring.
  rewrite E1 in Hmu. rewrite E2 in Hku. rewrite E3. rewrite E4 in Ex.
  set (mu := (m * u)%Q) in *. set (ku := (k10 * u)%Q) in *.
  set (yu := (y * u)%Q) in *.
  clearbody du mu ku yu.
  lra.
Qed.

(** X1: [calculateExactMonths] returns 0 when a date is missing or the start
    is after the end.  Otherwise, where the offset from UTC is the same on
    both dates (as all year in a zone without daylight saving time), it is
    computed from the number of calendar days from the start to the end:
    the days are divided by 30.44, the quotient times ten is rounded to a
    whole number that is not negative, and the result is that number divided
    by ten, a number with one decimal that is not negative and that lies
    within 0.05 of the days divided by 30.44, but for the rounding of the
    doubles, which is within one part in 2^47 of the days plus one. *)
Theorem calculateExactMonths_one_decimal (now : Date)
  (getTimezoneOffset : Date -> Z) (s e : DateStr) :
  let start := parseLocalDate now (Some s) in
  let end_ := parseLocalDate now (Some e) in
  let days := dayNumber end_ - dayNumber start in
  let tenths :=
    Math_round (fmul (fdiv (inject_Z days) (round64 (3044 # 100))) 10) in
  let result := calculateExactMonths now getTimezoneOffset (Some s) (Some e) in
  (forall x, calculateExactMonths now getTimezoneOffset None x = 0%Q)
  /\ (forall x, calculateExactMonths now getTimezoneOffset x None = 0%Q)
  /\ (Date_gtb start end_ = true -> result = 0%Q)
  /\ (Date_leb start end_ = true ->
      getTimezoneOffset start = getTimezoneOffset end_ ->
        0 <= days
        /\ 0 <= tenths
        /\ result = fdiv (inject_Z tenths) 10
        /\ (0 <= result)%Q
        /\ (Qabs (result - inject_Z days / (3044 # 100))
            <= (1 # 20) + (inject_Z days + 1) * (1 # 2 ^ 47))%Q).
Proof.
  intros start end_ days tenths result.
  split; [reflexivity|]. split; [intros [x|]; reflexivity|]. split.
  - intros Hgt. unfold result, calculateExactMonths. cbn [truthy negb orb].
    fold start end_. rewrite Hgt. reflexivity.
  - intros Hle Htz.
    pose proof (parsed_dayNumbers now s e Hle) as Hdays.
    fold start end_ in Hdays.
    destruct (parseLocalDate_valid now s) as [_ Hts].
    destruct (parseLocalDate_valid now e) as [_ Hte].
    fold start in Hts. fold end_ in Hte.
    assert (Hres : result = fdiv (inject_Z tenths) 10).
    { unfold result, calculateExactMonths. cbn [truthy negb orb].
      fold start end_. unfold Date_gtb.
      unfold Date_leb in Hle. apply negb_true_iff in Hle. rewrite Hle.
      cbv zeta.
      rewrite (diffDays_midnight getTimezoneOffset start end_ Htz Hts Hte
                 Hdays).
      reflexivity. }
    assert (Hd : (0 <= inject_Z days)%Q) by (apply inject_Z_nonneg; lia).
    set (months := fdiv (inject_Z days) (round64 (3044 # 100))) in *.
    assert (Hm : (0 <= months)%Q)
      by (apply fdiv_nonneg; [exact Hd|reflexivity]).
    assert (Hx : (0 <= fmul months 10)%Q)
      by (apply fmul_nonneg; [exact Hm|discriminate]).
    assert (Hten : 0 <= tenths).
    { unfold tenths, Math_round. rewrite <- (Qfloor_Z 0).
      apply Qfloor_resp_le. change (inject_Z 0) with 0%Q. lra. }
    split; [lia|]. split; [exact Hten|]. split; [exact Hres|].
    split.
    { rewrite Hres. apply fdiv_nonneg; [apply inject_Z_nonneg; exact Hten|].
      reflexivity. }
    apply (Qle_trans _ ((1 # 20)
                        + (inject_Z days + 1) * (64 * (1 # 2 ^ 53)))%Q);
      [|apply Qle_lteq; right; apply Qplus_comp; [reflexivity|];
        apply Qmult_comp; [reflexivity|vm_compute; reflexivity]].
    rewrite Hres.
    apply (month_rounding_budget (inject_Z days) (round64 (3044 # 100))
             months (fmul months 10) (inject_Z tenths)
             (fdiv (inject_Z tenths) 10) (1 # 2 ^ 53) (2 ^ (-1075))).
    + exact Hd.
    + vm_compute. discriminate.
    + vm_compute. discriminate.
    + vm_compute. discriminate.
    + vm_compute. discriminate.
    + vm_compute. discriminate.
    + exact Hm.
    + exact Hx.
    + apply inject_Z_nonneg. exact Hten.
    + apply round64_error.
    + apply round64_error.
    + unfold tenths, Math_round.
      pose proof (Qfloor_le (fmul months 10 + (1 # 2))) as H1.
      pose proof (Qlt_floor (fmul months 10 + (1 # 2))) as H2.
      rewrite inject_Z_plus in H2. change (inject_Z 1) with 1%Q in H2.
      set (k := inject_Z (Qfloor (fmul months 10 + (1 # 2)))) in *.
      clearbody k. split; lra.
    + apply round64_error.
Qed.

(** From 1 January to 30 June 2025 there are 180 days: 5.9 months, the
    double nearest to 59/10. *)
Lemma calculateExactMonths_one_decimal_witness :
  calculateExactMonths sampleNow japan (Some (2025, 1, 1))
    (Some (2025, 6, 30)) = fdiv 59 10
  /\ calculateExactMonths sampleNow japan (Some (2025, 6, 30))
       (Some (2025, 1, 1)) = 0%Q.
Proof.
  destruct (calculateExactMonths_one_decimal sampleNow japan (2025, 1, 1)
              (2025, 6, 30)) as (_ & _ & _ & Hle).
  destruct (calculateExactMonths_one_decimal sampleNow japan (2025, 6, 30)
              (2025, 1, 1)) as (_ & _ & Hgt & _).
  split.
  - destruct (Hle ltac:(vm_compute; reflexivity) eq_refl)
      as (_ & _ & Hres & _).
    exact (eq_trans Hres eq_refl).
  - apply Hgt. vm_compute. reflexivity.
Defined.

(** A calendar day at local midnight. *)
Lemma Date_ltb_dayNumber (a b : Date) :
  validDate a -> timeOfDay a = 0 -> validDate b -> timeOfDay b = 0 ->
  Date_ltb a b = (dayNumber a <? dayNumber b).
Proof.
  intros Ha Hta Hb Htb. apply eq_true_iff_eq.
  rewrite (localTime_lt_iff a b Ha Hb), Z.ltb_lt. unfold localTime.
  rewrite Hta, Htb. lia.
Qed.

(** The two ends of the overlap of a range with a month, as
    [getMonthOverlapDays] picks them, in day numbers. *)
Lemma overlap_ends (now : Date) (year month : Z) (s e : DateStr) :
  let S := parseLocalDate now (Some s) in
  let E := parseLocalDate now (Some e) in
  let k := year * 12 + month in
  let monthStart := newDate year month 1 in
  let monthEnd := newDate year (month + 1) 0 in
  let overlapStart := if Date_gtb S monthStart then S else monthStart in
  let overlapEnd := if Date_ltb E monthEnd then E else monthEnd in
  timeOfDay overlapStart = 0 /\ timeOfDay overlapEnd = 0
  /\ dayNumber overlapStart = Z.max (dayNumber S) (daysBeforeMonth k)
  /\ dayNumber overlapEnd
     = Z.min (dayNumber E) (daysBeforeMonth (k + 1) - 1)
  /\ Date_gtb overlapStart overlapEnd
     = (dayNumber overlapEnd <? dayNumber overlapStart).
Proof.
  intros S E k monthStart monthEnd overlapStart overlapEnd.
  destruct (parseLocalDate_valid now s) as [Hvs Hts].
  destruct (parseLocalDate_valid now e) as [Hve Hte].
  fold S in Hvs, Hts. fold E in Hve, Hte.
  pose proof (daysInMonthIndex_bounds k) as Hn.
  assert (HmS : monthStart = mkDate k 1 0) by apply newDate_first.
  assert (HmE : monthEnd = mkDate k (daysInMonthIndex k) 0)
    by apply newDate_last.
  assert (HvS : validDate monthStart)
    by (rewrite HmS; unfold validDate; cbn; lia).
  assert (HvE : validDate monthEnd)
    by (rewrite HmE; unfold validDate; cbn; lia).
  assert (HtS : timeOfDay monthStart = 0) by (rewrite HmS; reflexivity).
  assert (HtE : timeOfDay monthEnd = 0) by (rewrite HmE; reflexivity).
  assert (HdS : dayNumber monthStart = daysBeforeMonth k)
    by (rewrite HmS; unfold dayNumber; cbn; lia).
  assert (HdE : dayNumber monthEnd = daysBeforeMonth (k + 1) - 1)
    by (rewrite HmE, daysBeforeMonth_succ; unfold dayNumber; cbn; lia).
  assert (Hos : validDate overlapStart /\ timeOfDay overlapStart = 0
                /\ dayNumber overlapStart
                   = Z.max (dayNumber S) (daysBeforeMonth k)).
  { unfold overlapStart, Date_gtb.
    rewrite (Date_ltb_dayNumber monthStart S HvS HtS Hvs Hts).
    destruct (Z.ltb_spec (dayNumber monthStart) (dayNumber S));
      repeat split; try assumption; try apply Hvs; try apply HvS; lia. }
  assert (Hoe : validDate overlapEnd /\ timeOfDay overlapEnd = 0
                /\ dayNumber overlapEnd
                   = Z.min (dayNumber E) (daysBeforeMonth (k + 1) - 1)).
  { unfold overlapEnd.
    rewrite (Date_ltb_dayNumber E monthEnd Hve Hte HvE HtE).
    destruct (Z.ltb_spec (dayNumber E) (dayNumber monthEnd));
      repeat split; try assumption; try apply Hve; try apply HvE; lia. }
  destruct Hos as (Hv1 & Ht1 & Hd1). destruct Hoe as (Hv2 & Ht2 & Hd2).
  split; [exact Ht1|]. split; [exact Ht2|]. split; [exact Hd1|].
  split; [exact Hd2|].
  unfold Date_gtb. apply (Date_ltb_dayNumber _ _ Hv2 Ht2 Hv1 Ht1).
Qed.

(** [getMonthOverlapDays] counts no day exactly when the two ends of the
    overlap are out of order, whatever the time zone: days that are in
    order are at least one. *)
Lemma getMonthOverlapDays_zero (now : Date) (getTimezoneOffset : Date -> Z)
  (year month : Z) (s e : DateStr) :
  (getMonthOverlapDays now getTimezoneOffset year month (Some s) (Some e)
   =? 0)
  = (Z.min (dayNumber (parseLocalDate now (Some e)))
       (daysBeforeMonth (year * 12 + month + 1) - 1)
     <? Z.max (dayNumber (parseLocalDate now (Some s)))
          (daysBeforeMonth (year * 12 + month))).
Proof.
  destruct (overlap_ends now year month s e) as (_ & _ & Hd1 & Hd2 & Hgt).
  cbv zeta in Hd1, Hd2, Hgt. unfold getMonthOverlapDays. cbv zeta.
  rewrite Hgt, Hd1, Hd2. clear Hgt Hd1 Hd2.
  match goal with |- context [if ?c then 0 else _] => destruct c end;
    [reflexivity|].
  match goal with |- (Math_ceil ?q + 1 =? 0) = false =>
    assert (Hq : 0 <= Math_ceil q) end.
  { unfold Math_ceil. rewrite <- (Qceiling_Z 0). apply Qceiling_resp_le.
    change (inject_Z 0) with 0%Q. apply Qle_shift_div_l; [reflexivity|].
    rewrite Qmult_0_l. apply inject_Z_nonneg, Z.abs_nonneg. }
  apply Z.eqb_neq. lia.
Qed.

(** [getMonthOverlapDays] in day numbers, in a zone without daylight saving
    time: from the later of the range start and the first of the month to
    the earlier of the range end and the last of the month, both
    included. *)
Lemma getMonthOverlapDays_dayNumbers (now : Date)
  (getTimezoneOffset : Date -> Z) (year month : Z) (s e : DateStr) :
  fixedOffset getTimezoneOffset ->
  getMonthOverlapDays now getTimezoneOffset year month (Some s) (Some e)
  = Z.max 0
      (Z.min (dayNumber (parseLocalDate now (Some e)))
         (daysBeforeMonth (year * 12 + month + 1) - 1)
       - Z.max (dayNumber (parseLocalDate now (Some s)))
           (daysBeforeMonth (year * 12 + month))
       + 1).
Proof.
  intros Htz.
  destruct (overlap_ends now year month s e) as (Ht1 & Ht2 & Hd1 & Hd2 & Hgt).
  cbv zeta in Ht1, Ht2, Hd1, Hd2, Hgt. unfold getMonthOverlapDays. cbv zeta.
  rewrite Hgt.
  match goal with |- context [?a <? ?b] => destruct (Z.ltb_spec a b) end.
  - rewrite Hd1, Hd2 in *. lia.
  - rewrite diffDays_midnight by (try apply Htz; assumption).
    rewrite Hd1, Hd2 in *. lia.
Qed.

(** How many of the days [1..n] lie between [a] and [b]. *)
Lemma count_days_between (a b : Z) (n : nat) :
  Z.of_nat (length (List.filter (fun d => (a <=? d) && (d <=? b))
                      (seqZ 1 (Z.of_nat n))))
  = Z.max 0 (Z.min b (Z.of_nat n) - Z.max a 1 + 1).
Proof.
  induction n as [|n IH].
  - change (Z.of_nat 0) with 0. rewrite seqZ_nil by lia. cbn [List.filter length].
    lia.
  - rewrite seqZ_S, List.filter_app, length_app, Nat2Z.inj_add, IH.
    cbn [List.filter].
    destruct (Z.leb_spec a (1 + Z.of_nat n)), (Z.leb_spec (1 + Z.of_nat n) b);
      cbn [andb length]; lia.
Qed.

(** X2: in a zone without daylight saving time, [getMonthOverlapDays] counts
    the days of the target month that lie within the range, both ends
    included; it is 0 when the month and the range have no day in common and
    never exceeds the length of the month. *)
Theorem getMonthOverlapDays_counts (now : Date)
  (getTimezoneOffset : Date -> Z) (year month : Z) (s e : DateStr) :
  fixedOffset getTimezoneOffset ->
  getMonthOverlapDays now getTimezoneOffset year month (Some s) (Some e)
  = Z.of_nat
      (length
         (List.filter
            (dayInRange (parseLocalDate now (Some s))
               (parseLocalDate now (Some e)) (year * 12 + month))
            (seqZ 1 (getTotalDays year month))))
  /\ 0 <= getMonthOverlapDays now getTimezoneOffset year month (Some s)
            (Some e)
       <= getTotalDays year month.
Proof.
  intros Htz.
  rewrite (getMonthOverlapDays_dayNumbers _ _ _ _ _ _ Htz), getTotalDays_eq.
  destruct (parseLocalDate_valid now s) as [Hvs Hts].
  destruct (parseLocalDate_valid now e) as [Hve Hte].
  set (S := parseLocalDate now (Some s)) in *.
  set (E := parseLocalDate now (Some e)) in *.
  set (k := year * 12 + month).
  pose proof (daysInMonthIndex_bounds k) as Hn.
  rewrite daysBeforeMonth_succ.
  assert (Hfilter :
    List.filter (dayInRange S E k) (seqZ 1 (daysInMonthIndex k))
    = List.filter
        (fun d => (dayNumber S - daysBeforeMonth k + 1 <=? d)
                  && (d <=? dayNumber E - daysBeforeMonth k + 1))
        (seqZ 1 (daysInMonthIndex k))).
  { apply List.filter_ext_in. intros d Hd.
    apply list_elem_of_In, elem_of_seqZ in Hd. unfold dayInRange, Date_leb.
    assert (Hv : validDate (mkDate k d 0)) by (unfold validDate; cbn; lia).
    rewrite (Date_ltb_dayNumber _ S Hv eq_refl Hvs Hts).
    rewrite (Date_ltb_dayNumber E _ Hve Hte Hv eq_refl).
    unfold dayNumber at 1 4. cbn [monthIndex dayOfMonth].
    rewrite <- !Z.leb_antisym. f_equal; apply eq_true_iff_eq;
      rewrite !Z.leb_le; lia. }
  rewrite Hfilter.
  rewrite <- (Z2Nat.id (daysInMonthIndex k)) at 2 by lia.
  rewrite count_days_between, Z2Nat.id by lia. lia.
Qed.

(** In Japan, 21 days of April 2025 lie between 10 April and 20 June. *)
Lemma getMonthOverlapDays_counts_witness :
  getMonthOverlapDays sampleNow japan 2025 3 (Some (2025, 4, 10))
    (Some (2025, 6, 20)) = 21.
Proof.
  destruct (getMonthOverlapDays_counts sampleNow japan 2025 3 (2025, 4, 10)
              (2025, 6, 20)) as [Hcount _].
  - intros d d'. reflexivity.
  - exact (eq_trans Hcount eq_refl).
Defined.

Lemma sumZ_telescope (h : Z -> Z) (a : Z) (n : nat) :
  sumZ (map (fun k => h (k + 1) - h k) (seqZ a (Z.of_nat n)))
  = h (a + Z.of_nat n) - h a.
Proof.
  induction n as [|n IH].
  - change (Z.of_nat 0) with 0. rewrite seqZ_nil, Z.add_0_r by lia.
    unfold sumZ; cbn [map foldr]. lia.
  - rewrite seqZ_S, map_app, sumZ_app, IH, Nat2Z.inj_succ.
    unfold sumZ; cbn [map foldr].
    replace (a + Z.succ (Z.of_nat n)) with (a + Z.of_nat n + 1) by lia. lia.
Qed.

Lemma sumZ_map_ext_in {A : Type} (f g : A -> Z) (l : list A) :
  (forall x, x ∈ l -> f x = g x) -> sumZ (map f l) = sumZ (map g l).
Proof.
  induction l as [|x l IH]; intros H; [reflexivity|].
  unfold sumZ in *. cbn [map foldr].
  rewrite (H x) by (left). rewrite IH by (intros; apply H; right; auto).
  reflexivity.
Qed.

(** X3: in a zone without daylight saving time, the overlaps of a range
    with the months from its start month to its end month add up to the
    number of days of the range, both ends included. *)
Theorem getMonthOverlapDays_partition (now : Date)
  (getTimezoneOffset : Date -> Z) (s e : DateStr) :
  let start := parseLocalDate now (Some s) in
  let end_ := parseLocalDate now (Some e) in
  fixedOffset getTimezoneOffset ->
  Date_leb start end_ = true ->
  sumZ (map (fun k => getMonthOverlapDays now getTimezoneOffset (k / 12)
                        (k mod 12) (Some s) (Some e))
          (monthsFromTo (monthIndex start) (monthIndex end_)))
  = dayNumber end_ - dayNumber start + 1.
Proof.
  intros S E Htz Hle.
  destruct (parseLocalDate_valid now s) as [[Hds _] Hts].
  destruct (parseLocalDate_valid now e) as [[Hde _] Hte].
  fold S in Hds, Hts. fold E in Hde, Hte.
  pose proof (parsed_dayNumbers now s e Hle) as HSE. fold S E in HSE.
  assert (Hk : monthIndex S <= monthIndex E).
  { destruct (Z_lt_le_dec (monthIndex E) (monthIndex S)) as [Hlt|]; [|lia].
    pose proof (daysBeforeMonth_lt _ _ Hlt). unfold dayNumber in HSE. lia. }
  set (h := fun k => Z.min (dayNumber E + 1)
                       (Z.max (dayNumber S) (daysBeforeMonth k))).
  unfold monthsFromTo.
  rewrite (sumZ_map_ext_in _ (fun k => h (k + 1) - h k)).
  - replace (monthIndex E - monthIndex S + 1)
      with (Z.of_nat (Z.to_nat (monthIndex E - monthIndex S + 1))) by lia.
    rewrite sumZ_telescope, Z2Nat.id by lia. unfold h.
    replace (monthIndex S + (monthIndex E - monthIndex S + 1))
      with (monthIndex E + 1) by lia.
    rewrite daysBeforeMonth_succ. unfold dayNumber in *. lia.
  - intros k Hin. apply elem_of_seqZ in Hin.
    rewrite (getMonthOverlapDays_dayNumbers _ _ _ _ _ _ Htz),
      year_month_index.
    fold S E. unfold h. rewrite !daysBeforeMonth_succ.
    pose proof (daysInMonthIndex_bounds k) as Hn.
    assert (HkS : dayNumber S < daysBeforeMonth k + daysInMonthIndex k).
    { destruct (Z.eq_dec k (monthIndex S)) as [->|Hne].
      - unfold dayNumber. lia.
      - pose proof (daysBeforeMonth_lt (monthIndex S) k ltac:(lia)).
        unfold dayNumber. lia. }
    assert (HkE : daysBeforeMonth k <= dayNumber E).
    { destruct (Z.eq_dec k (monthIndex E)) as [->|Hne].
      - unfold dayNumber. lia.
      - pose proof (daysBeforeMonth_lt k (monthIndex E) ltac:(lia)).
        unfold dayNumber. lia. }
    lia.
Qed.

(** In Japan, from 20 January to 10 March 2025: 12 + 28 + 10 = 50 days. *)
Lemma getMonthOverlapDays_partition_witness :
  sumZ (map (fun k => getMonthOverlapDays sampleNow japan (k / 12) (k mod 12)
                        (Some (2025, 1, 20)) (Some (2025, 3, 10)))
          (monthsFromTo (2025 * 12 + 0) (2025 * 12 + 2)))
  = 50.
Proof.
  exact (getMonthOverlapDays_partition sampleNow japan (2025, 1, 20)
           (2025, 3, 10) (fun d d' => eq_refl) eq_refl).
Defined.

Example getMonthOverlapDays_examples :
  map (fun m => getMonthOverlapDays sampleNow japan 2025 m
                  (Some (2025, 1, 20)) (Some (2025, 3, 10)))
    [-1; 0; 1; 2; 3]
  = [0; 12; 28; 10; 0].
Proof. vm_compute. reflexivity. Qed.

(** Where daylight saving time ends within the range, the day count is one
    too many: in Central Europe the last day of October 2025 begins 30 days
    and 25 hours after the first, which [Math.ceil] takes for 31 days, and
    October is counted with 32 days; so is the whole year 2025 with 366. *)
Example daylight_saving_adds_a_day :
  getMonthOverlapDays sampleNow centralEurope2025 2025 9
    (Some (2025, 10, 1)) (Some (2025, 10, 31)) = 32
  /\ getTotalDays 2025 9 = 31
  /\ getMonthOverlapDays sampleNow japan 2025 9
       (Some (2025, 10, 1)) (Some (2025, 10, 31)) = 31
  /\ sumZ (map (fun k =>
                  getMonthOverlapDays sampleNow centralEurope2025 (k / 12)
                    (k mod 12) (Some (2025, 1, 1)) (Some (2025, 12, 31)))
             (monthsFromTo (2025 * 12 + 0) (2025 * 12 + 11)))
     = 366.
Proof. vm_compute. repeat split; reflexivity. Qed.

(* ===================================================================== *)
(** ** Further properties of the revenue *)
(* ===================================================================== *)

(** A parsed date is not after the last day of month [k] exactly when its
    month is not after [k]. *)
Lemma parsed_leb_monthEnd (now : Date) (sd : DateStr) (k : Z) :
  Date_leb (parseLocalDate now (Some sd))
    (newDate (k / 12) (k mod 12 + 1) 0)
  = (monthIndex (parseLocalDate now (Some sd)) <=? k).
Proof.
  destruct (parseLocalDate_valid now sd) as [[Hd _] Ht].
  rewrite newDate_last, year_month_index. apply eq_true_iff_eq.
  unfold Date_leb. rewrite negb_true_iff, Z.leb_le.
  destruct (Date_ltb _ _) eqn:E.
  - apply Date_ltb_lt in E. cbn [monthIndex dayOfMonth timeOfDay] in E.
    split; [discriminate|]. intros Hk.
    destruct E as [E|[E1 E2]]; [lia|]. rewrite E1 in E2. lia.
  - split; [intros _|reflexivity].
    destruct (Z_lt_le_dec k (monthIndex (parseLocalDate now (Some sd))))
      as [Hlt|]; [|lia].
    assert (Date_ltb (mkDate k (daysInMonthIndex k) 0)
              (parseLocalDate now (Some sd)) = true)
      by (apply Date_ltb_lt; cbn [monthIndex]; lia).
    congruence.
Qed.

(** The first day of month [k] is after a parsed date exactly when [k] is
    after the month of the date. *)
Lemma monthStart_gtb_parsed (now : Date) (sd : DateStr) (k : Z) :
  Date_gtb (newDate (k / 12) (k mod 12) 1) (parseLocalDate now (Some sd))
  = (monthIndex (parseLocalDate now (Some sd)) <? k).
Proof.
  destruct (parseLocalDate_valid now sd) as [[Hd _] Ht].
  rewrite newDate_first, year_month_index. apply eq_true_iff_eq.
  unfold Date_gtb. rewrite Date_ltb_lt, Z.ltb_lt.
  cbn [monthIndex dayOfMonth timeOfDay]. lia.
Qed.

(** X4: stock revenue is not prorated.  For a project with Stock enabled and
    a stock start date, the stock contribution to [getMonthlyRevenue] is the
    full [stockAmount] in the month of the start date, whatever the day, and
    in every later month, and nothing in the months before. *)
Theorem stock_revenue_from_start_month (now : Date) (p : Project)
  (sd : DateStr) (k : Z) :
  useStock p = true ->
  stockStartDate p = Some sd ->
  stockRevenueOf now p (k / 12) (k mod 12)
  = if monthIndex (parseLocalDate now (Some sd)) <=? k
    then stockAmount p else 0.
Proof.
  intros Hs Hd. unfold stockRevenueOf. rewrite Hs, Hd. cbn [truthy andb].
  rewrite parsed_leb_monthEnd. reflexivity.
Qed.

(** A stock of 100,000 starting on 30 April 2025 bills April in full. *)
Lemma stock_revenue_from_start_month_witness :
  stockRevenueOf sampleNow
    (sampleHybridProject Ordered (Some Duration) 0 None None 100000
       (Some (2025, 4, 30)) (sampleBilling false None))
    2025 3 = 100000.
Proof.
  exact (stock_revenue_from_start_month sampleNow
           (sampleHybridProject Ordered (Some Duration) 0 None None 100000
              (Some (2025, 4, 30)) (sampleBilling false None))
           (2025, 4, 30) (2025 * 12 + 3) eq_refl eq_refl).
Defined.

Lemma sumZ_map_add {A : Type} (f g : A -> Z) (l : list A) :
  sumZ (map (fun x => f x + g x) l) = sumZ (map f l) + sumZ (map g l).
Proof.
  induction l as [|x l IH]; [reflexivity|].
  unfold sumZ in *. cbn [map foldr]. rewrite IH. lia.
Qed.








Lemma getMonthlyRevenue_nonneg (now : Date) (p : Project) (d : Date) :
  nonNegativeAmounts p -> 0 <= getMonthlyRevenue now p d.
Proof.
  intros Hnn. unfold getMonthlyRevenue.
  pose proof (flowRevenueOf_nonneg now p (getFullYear d) (getMonth d) Hnn).
  pose proof (timeChargeOf_nonneg p (getFullYear d) (getMonth d) Hnn).
  destruct Hnn as (_ & Hstock & _).
  assert (0 <= stockRevenueOf now p (getFullYear d) (getMonth d)); [|lia].
  unfold stockRevenueOf.
  repeat match goal with |- context [if ?b then _ else _] => destruct b end;
    lia.
Qed.

Lemma profitLoss_nonneg (now : Date) (employees : list Employee)
  (workLogs : list WorkLog) (d : Date) (isPast : bool)
  (projects : list Project) :
  Forall (fun p => 0 <= getMonthlyRevenue now p d) projects ->
  forall acc : ProfitLoss,
  0 <= pl_confirmedRevenue acc -> 0 <= pl_potentialRevenue acc ->
  let r := fold_left (profitLossStep now employees workLogs d isPast)
             projects acc in
  0 <= pl_confirmedRevenue r /\ 0 <= pl_potentialRevenue r.
Proof.
  induction 1 as [|p ps Hp _ IH]; intros acc Hc Hq; cbn [fold_left];
    [split; assumption|].
  apply IH; unfold profitLossStep;
    cbn [pl_confirmedRevenue pl_potentialRevenue];
    destruct (status p); lia.
Qed.

Lemma projectPayments_nonneg (now : Date) (p : Project) (year month : Z) :
  nonNegativeAmounts p ->
  Forall (fun payment => (0 <= snd payment)%Q)
    (projectPayments now p year month).
Proof.
  intros ([Ha _] & _ & Hr & _).
  set (r := or_defaultQ (flowStartRatio (billingConfig p)) 0) in *.
  destruct (percentage_share r Hr) as [[Hs _] [He _]].
  pose proof (inject_Z_nonneg (flowAmount p) Ha) as Ha'.
  pose proof (fmul_nonneg _ _ Ha' Hs) as H1.
  pose proof (fmul_nonneg _ _ Ha' He) as H2.
  unfold projectPayments. cbv zeta. fold r.
  case_conditions;
    repeat (first [apply Forall_nil_2 | apply Forall_cons_2]);
    cbn [snd]; try assumption.
  all: apply inject_Z_nonneg;
    match goal with H : (_ >? 0) = true |- _ => apply Z.gtb_lt in H; lia end.
Qed.

Lemma fold_fadd_nonneg (l : list Q) :
  Forall (fun x => (0 <= x)%Q) l ->
  forall acc : Q, (0 <= acc)%Q -> (0 <= fold_left fadd l acc)%Q.
Proof.
  induction 1 as [|x l Hx _ IH]; intros acc Hacc; cbn [fold_left];
    [exact Hacc|]. apply IH. apply fadd_nonneg; assumption.
Qed.

(** X7: with amounts that are not negative, a flow fee that a double holds
    exactly (at most [Number.MAX_SAFE_INTEGER]) and a start ratio within
    [0,100], [getMonthlyRevenue] is never negative, and in every monthly
    record of [generateProjections] the revenue, the confirmed and the
    potential revenue and the cash received are not negative, the revenue
    being at least the confirmed plus the potential revenue. *)
Theorem revenue_never_negative (now : Date) (projects : list Project)
  (employees : list Employee) (workLogs : list WorkLog) (termStart : Date)
  (settings : AppSettings) (i : nat) :
  Forall nonNegativeAmounts projects ->
  (i < 12)%nat ->
  (forall p d, p ∈ projects -> 0 <= getMonthlyRevenue now p d)
  /\ exists r,
       generateProjections now projects employees workLogs termStart settings
         !! i = Some r
       /\ 0 <= confirmedRevenue r
       /\ 0 <= potentialRevenue r
       /\ confirmedRevenue r + potentialRevenue r <= revenue r
       /\ 0 <= cashIn r.
Proof.
  intros Hnn Hi.
  assert (Hrev : forall d, Forall (fun p => 0 <= getMonthlyRevenue now p d)
                             projects).
  { intros d. eapply Forall_impl; [exact Hnn|].
    intros p Hp. apply getMonthlyRevenue_nonneg. exact Hp. }
  split.
  { intros p d Hin. rewrite Forall_forall in Hnn.
    apply getMonthlyRevenue_nonneg. apply Hnn. exact Hin. }
  destruct (generateProjections_lookup now projects employees workLogs
              termStart settings i Hi) as (c & r & Hr & Hrec).
  exists r. split; [exact Hr|]. subst r.
  cbn [revenue confirmedRevenue potentialRevenue cashIn monthProjection].
  set (d := projectionDate termStart (Z.of_nat i)).
  unfold monthProfitLoss.
  destruct (profitLoss_nonneg now employees workLogs d
              (Date_ltb d (currentMonthStart now)) projects (Hrev d)
              emptyProfitLoss ltac:(cbn; lia) ltac:(cbn; lia)) as [Hc Hp].
  pose proof (profitLoss_lost now employees workLogs d
                (Date_ltb d (currentMonthStart now)) projects emptyProfitLoss)
    as Hlost.
  cbv zeta in Hc, Hp, Hlost.
  change (pl_revenue emptyProfitLoss) with 0 in Hlost.
  change (pl_confirmedRevenue emptyProfitLoss) with 0 in Hlost.
  change (pl_potentialRevenue emptyProfitLoss) with 0 in Hlost.
  destruct (lostRevenue_pos_iff now projects d) as [H0 _].
  { eapply Forall_impl; [exact (Hrev d)|]. intros p Hp0 _. exact Hp0. }
  split; [exact Hc|]. split; [exact Hp|]. split; [lia|].
  unfold monthCashIn, Math_floor. rewrite cashIn_projects.
  rewrite <- (Qfloor_Z 0). apply Qfloor_resp_le.
  change (inject_Z 0) with 0%Q.
  apply fmul_nonneg; [|discriminate].
  apply fold_fadd_nonneg; [|apply Qle_refl].
  apply Forall_map. apply Forall_flat_map_payments.
  eapply Forall_impl; [exact Hnn|].
  intros p Hpn. apply projectPayments_nonneg. exact Hpn.
Qed.

Lemma revenue_never_negative_witness :
  exists r,
    generateProjections sampleNow sampleProjects sampleEmployees
      sampleWorkLogs sampleTermStart sampleLedger !! 7%nat = Some r
    /\ 0 <= confirmedRevenue r
    /\ 0 <= potentialRevenue r
    /\ confirmedRevenue r + potentialRevenue r <= revenue r
    /\ 0 <= cashIn r.
Proof.
  apply (revenue_never_negative sampleNow sampleProjects sampleEmployees
           sampleWorkLogs sampleTermStart sampleLedger 7); [|lia].
  apply Forall_cons_2; [|apply Forall_nil_2].
  split; [split; vm_compute; discriminate|].
  split; [vm_compute; discriminate|].
  split; [split; vm_compute; discriminate|].
  intros prices key v H. discriminate H.
Defined.

(* ===================================================================== *)
(** ** What does not read the clock *)
(* ===================================================================== *)

Lemma parseLocalDate_Some_clock (now1 now2 : Date) (s : DateStr) :
  parseLocalDate now1 (Some s) = parseLocalDate now2 (Some s).
Proof. destruct s as [[y m] d]. reflexivity. Qed.

Lemma getMonthlyRevenue_clock (now1 now2 : Date) (p : Project) (d : Date) :
  getMonthlyRevenue now1 p d = getMonthlyRevenue now2 p d.
Proof.
  unfold getMonthlyRevenue, flowRevenueOf, stockRevenueOf.
  destruct (flowStartDate p) as [s|], (flowEndDate p) as [e|],
    (stockStartDate p) as [sd|]; cbn [truthy andb];
    rewrite ?andb_false_r;
    rewrite ?(parseLocalDate_Some_clock now1 now2); reflexivity.
Qed.

Lemma getProjectMonthlyCost_clock (now1 now2 : Date) (p : Project)
  (employees : list Employee) (year month : Z) :
  getProjectMonthlyCost now1 p employees year month
  = getProjectMonthlyCost now2 p employees year month.
Proof.
  unfold getProjectMonthlyCost.
  destruct (flowStartDate p) as [s|], (flowEndDate p) as [e|],
    (stockStartDate p) as [sd|]; cbn [truthy andb];
    rewrite ?andb_false_r;
    rewrite ?(parseLocalDate_Some_clock now1 now2); reflexivity.
Qed.

Lemma cashInStep_clock (now1 now2 : Date) (year month : Z) (acc : Q)
  (p : Project) :
  cashInStep now1 year month acc p = cashInStep now2 year month acc p.
Proof.
  unfold cashInStep.
  rewrite (getMonthlyRevenue_clock now1 now2).
  destruct (flowStartDate p) as [s|], (flowEndDate p) as [e|];
    cbn [truthy];
    rewrite ?(parseLocalDate_Some_clock now1 now2); reflexivity.
Qed.

Lemma itemOccurs_clock (now1 now2 : Date) (item : CashFlowItem) (d : Date)
  (year month : Z) :
  itemOccurs now1 item d year month = itemOccurs now2 item d year month.
Proof. reflexivity. Qed.

Lemma fold_left_ext {A B : Type} (f g : A -> B -> A) (l : list B) :
  (forall acc x, f acc x = g acc x) ->
  forall acc, fold_left f l acc = fold_left g l acc.
Proof.
  intros H. induction l as [|x l IH]; intros acc; cbn [fold_left];
    [reflexivity|]. rewrite H. apply IH.
Qed.

(** The confirmed and the potential revenue are the revenues of the
    projects of the matching statuses. *)
Lemma profitLoss_status (now : Date) (employees : list Employee)
  (workLogs : list WorkLog) (d : Date) (isPast : bool)
  (projects : list Project) : forall acc : ProfitLoss,
  let r := fold_left (profitLossStep now employees workLogs d isPast)
             projects acc in
  pl_confirmedRevenue r
  = pl_confirmedRevenue acc
    + sumZ (map (fun p => match status p with
                          | Ordered | Delivered => getMonthlyRevenue now p d
                          | _ => 0
                          end) projects)
  /\ pl_potentialRevenue r
     = pl_potentialRevenue acc
       + sumZ (map (fun p => match status p with
                             | PreOrder => getMonthlyRevenue now p d
                             | _ => 0
                             end) projects).
Proof.
  induction projects as [|p ps IH]; intros acc; cbn [fold_left map].
  - unfold sumZ; cbn. lia.
  - specialize (IH (profitLossStep now employees workLogs d isPast acc p)).
    cbv zeta in IH. destruct IH as [H1 H2]. cbv zeta. rewrite H1, H2.
    unfold sumZ; cbn [foldr]. unfold profitLossStep.
    cbn [pl_confirmedRevenue pl_potentialRevenue].
    destruct (status p); lia.
Qed.

(** X8: the recognized revenue, the planned cost and the cash receipts do
    not read the clock.  [getMonthlyRevenue], [getProjectMonthlyCost] and
    the cash received from a project are the same at any two instants, and
    so are, in every record of [generateProjections], the revenue with its
    confirmed and potential parts, the target, the cash received and the
    ledger buckets; only the paid labor cost, the flow/stock split and the
    balances that follow from them depend on the current date. *)
Theorem projections_ignore_clock (now1 now2 : Date)
  (projects : list Project) (employees : list Employee)
  (workLogs : list WorkLog) (termStart : Date) (settings : AppSettings)
  (i : nat) (r1 r2 : Projection) :
  generateProjections now1 projects employees workLogs termStart settings
    !! i = Some r1 ->
  generateProjections now2 projects employees workLogs termStart settings
    !! i = Some r2 ->
  (forall p d, getMonthlyRevenue now1 p d = getMonthlyRevenue now2 p d)
  /\ (forall p year month,
        getProjectMonthlyCost now1 p employees year month
        = getProjectMonthlyCost now2 p employees year month)
  /\ date r1 = date r2
  /\ revenue r1 = revenue r2
  /\ confirmedRevenue r1 = confirmedRevenue r2
  /\ potentialRevenue r1 = potentialRevenue r2
  /\ target r1 = target r2
  /\ cashIn r1 = cashIn r2
  /\ sga r1 = sga r2
  /\ taxRepayment r1 = taxRepayment r2
  /\ investment r1 = investment r2
  /\ financialIn r1 = financialIn r2.
Proof.
  intros H1 H2.
  split; [intros; apply getMonthlyRevenue_clock|].
  split; [intros; apply getProjectMonthlyCost_clock|].
  destruct (projectionLoop_lookup _ _ _ _ _ _ _ _ _ _ H1)
    as (c1 & j1 & Hj1 & ->).
  destruct (projectionLoop_lookup _ _ _ _ _ _ _ _ _ _ H2)
    as (c2 & j2 & Hj2 & ->).
  assert (j1 = j2) as -> by congruence.
  cbn [date revenue confirmedRevenue potentialRevenue target cashIn sga
       taxRepayment investment financialIn monthProjection].
  set (d := projectionDate termStart j2).
  unfold monthProfitLoss.
  destruct (profitLoss_split now1 employees workLogs d
              (Date_ltb d (currentMonthStart now1)) projects emptyProfitLoss)
    as (Ha1 & _).
  destruct (profitLoss_split now2 employees workLogs d
              (Date_ltb d (currentMonthStart now2)) projects emptyProfitLoss)
    as (Ha2 & _).
  destruct (profitLoss_status now1 employees workLogs d
              (Date_ltb d (currentMonthStart now1)) projects emptyProfitLoss)
    as (Hb1 & Hc1).
  destruct (profitLoss_status now2 employees workLogs d
              (Date_ltb d (currentMonthStart now2)) projects emptyProfitLoss)
    as (Hb2 & Hc2).
  cbv zeta in *. rewrite Ha1, Ha2, Hb1, Hb2, Hc1, Hc2.
  assert (Hcash : monthCashIn now1 projects (getFullYear d) (getMonth d)
                  = monthCashIn now2 projects (getFullYear d) (getMonth d)).
  { unfold monthCashIn. f_equal. f_equal.
    apply fold_left_ext. intros; apply cashInStep_clock. }
  repeat split; try reflexivity; try exact Hcash.
  - f_equal. apply sumZ_map_ext_in.
    intros; apply getMonthlyRevenue_clock.
  - f_equal. apply sumZ_map_ext_in. intros p _.
    rewrite (getMonthlyRevenue_clock now1 now2). reflexivity.
  - f_equal. apply sumZ_map_ext_in. intros p _.
    rewrite (getMonthlyRevenue_clock now1 now2). reflexivity.
Qed.

(** The sample data set seen on 15 March 2025 and on 15 August 2025: the
    revenue and cash received of July agree, the labor paid does not (a
    planned 400,000 against an actual 0). *)
Lemma projections_ignore_clock_witness :
  exists r1 r2,
    generateProjections sampleNow sampleProjects sampleEmployees
      sampleWorkLogs sampleTermStart sampleLedger !! 7%nat = Some r1
    /\ generateProjections (mkDate (2025 * 12 + 7) 15 0) sampleProjects
         sampleEmployees sampleWorkLogs sampleTermStart sampleLedger
         !! 7%nat = Some r2
    /\ revenue r1 = revenue r2 /\ cashIn r1 = cashIn r2
    /\ cost r1 = 400000 /\ cost r2 = 0.
Proof.
  destruct (generateProjections sampleNow sampleProjects sampleEmployees
              sampleWorkLogs sampleTermStart sampleLedger !! 7%nat)
    as [r1|] eqn:E1; [|vm_compute in E1; discriminate].
  destruct (generateProjections (mkDate (2025 * 12 + 7) 15 0) sampleProjects
              sampleEmployees sampleWorkLogs sampleTermStart sampleLedger
              !! 7%nat) as [r2|] eqn:E2; [|vm_compute in E2; discriminate].
  exists r1, r2. split; [reflexivity|]. split; [reflexivity|].
  destruct (projections_ignore_clock _ _ _ _ _ _ _ _ _ _ E1 E2)
    as (_ & _ & _ & Hrev & _ & _ & _ & Hcash & _).
  split; [exact Hrev|]. split; [exact Hcash|].
  vm_compute in E1. injection E1 as <-.
  vm_compute in E2. injection E2 as <-.
  split; reflexivity.
Defined.

(* ===================================================================== *)
(** ** Further properties of the labor cost *)
(* ===================================================================== *)

(** X9: the gate of the planned cost agrees with the overlap day count.  For
    a project that uses Flow and whose flow start is not after its flow end,
    [getProjectMonthlyCost] is 0 exactly in the months in which
    [getMonthOverlapDays] counts no day of the flow range, and is the floored
    sum over the assignments in every other month. *)
Theorem planned_cost_follows_overlap (now : Date)
  (getTimezoneOffset : Date -> Z) (p : Project)
  (employees : list Employee) (year month : Z) (s e : DateStr) :
  useFlow p = true ->
  flowStartDate p = Some s ->
  flowEndDate p = Some e ->
  Date_leb (parseLocalDate now (Some s)) (parseLocalDate now (Some e))
  = true ->
  getProjectMonthlyCost now p employees year month
  = if getMonthOverlapDays now getTimezoneOffset year month (Some s)
         (Some e) =? 0
    then 0
    else Math_floor
           (fold_left (addAssignmentCost employees year month)
              (assignments p) 0%Q).
Proof.
  intros Hf Hs He Hle.
  rewrite getMonthOverlapDays_zero.
  unfold getProjectMonthlyCost. rewrite Hf, Hs, He. cbn [truthy andb].
  destruct (parseLocalDate_valid now s) as [Hvs Hts].
  destruct (parseLocalDate_valid now e) as [Hve Hte].
  set (S := parseLocalDate now (Some s)) in *.
  set (E := parseLocalDate now (Some e)) in *.
  rewrite newDate_first, newDate_last.
  pose proof (daysInMonthIndex_bounds (year * 12 + month)) as Hb.
  assert (Hv1 : validDate (mkDate (year * 12 + month) 1 0))
    by (unfold validDate; cbn [monthIndex dayOfMonth timeOfDay]; lia).
  assert (Hv2 : validDate (mkDate (year * 12 + month)
                             (daysInMonthIndex (year * 12 + month)) 0))
    by (unfold validDate; cbn [monthIndex dayOfMonth timeOfDay]; lia).
  unfold Date_gtb.
  rewrite (Date_ltb_dayNumber _ S Hv2 eq_refl Hvs Hts).
  rewrite (Date_ltb_dayNumber E _ Hve Hte Hv1 eq_refl).
  apply localTime_le_iff in Hle; [|assumption..]. unfold localTime in Hle.
  rewrite Hts, Hte in Hle.
  rewrite daysBeforeMonth_succ.
  set (k := year * 12 + month) in *.
  change (dayNumber (mkDate k (daysInMonthIndex k) 0))
    with (daysBeforeMonth k + daysInMonthIndex k - 1).
  change (dayNumber (mkDate k 1 0)) with (daysBeforeMonth k + 1 - 1).
  destruct (Z.ltb_spec (daysBeforeMonth k + daysInMonthIndex k - 1)
              (dayNumber S)),
    (Z.ltb_spec (dayNumber E) (daysBeforeMonth k + 1 - 1));
    cbn [orb];
    match goal with |- _ = if ?a <? ?b then _ else _ =>
      destruct (Z.ltb_spec a b) end; try reflexivity; lia.
Qed.

(** A flow contract from 10 April to 20 June 2025 with one assignment at
    half time of an employee costing 400,000 a month: 21 days of April lie
    in the range and 200,000 is planned for the month. *)
Lemma planned_cost_follows_overlap_witness :
  let p := sampleFlowProject Ordered (Some Duration) 3000000
             (Some (2025, 4, 10)) (Some (2025, 6, 20))
             (sampleBilling false None)
             [{| employeeId := "e1"; utilizationRate := 50 |}] in
  getMonthOverlapDays sampleNow japan 2025 3 (Some (2025, 4, 10))
    (Some (2025, 6, 20)) = 21
  /\ getProjectMonthlyCost sampleNow p [sampleEmployee "e1" 400000] 2025 3
     = 200000.
Proof.
  cbv zeta. split; [reflexivity|].
  etrans;
    [apply (planned_cost_follows_overlap _ japan _ _ _ _ (2025, 4, 10)
              (2025, 6, 20)); reflexivity
    |reflexivity].
Defined.

(* ===================================================================== *)
(** ** The ledger items of a month *)
(* ===================================================================== *)

Lemma parseYearMonth_eq (now : Date) (ym : YearMonthStr) :
  parseYearMonth now ym = firstOfMonth (ymIndex ym).
Proof.
  destruct ym as [y m]. unfold parseYearMonth, parseLocalDate, ymIndex.
  cbn [fst snd]. rewrite newDate_first. unfold firstOfMonth. f_equal. lia.
Qed.

Lemma firstOfMonth_leb (a b : Z) :
  Date_leb (firstOfMonth a) (firstOfMonth b) = (a <=? b).
Proof.
  apply eq_true_iff_eq. unfold Date_leb. rewrite negb_true_iff, Z.leb_le.
  destruct (Date_ltb _ _) eqn:E.
  - apply Date_ltb_lt in E. unfold firstOfMonth in E.
    cbn [monthIndex dayOfMonth timeOfDay] in E. split; [discriminate|lia].
  - split; [intros _|reflexivity].
    destruct (Z_lt_le_dec b a) as [Hlt|]; [|assumption].
    assert (Date_ltb (firstOfMonth b) (firstOfMonth a) = true)
      by (apply Date_ltb_lt; unfold firstOfMonth;
          cbn [monthIndex dayOfMonth timeOfDay]; lia).
    congruence.
Qed.

(** In the month that starts at the first of month [k], the occurrence test
    of the ledger loop is the month arithmetic of [occursInMonth]. *)
Lemma itemOccurs_months (now : Date) (item : CashFlowItem) (k : Z) :
  itemOccurs now item (firstOfMonth k) (k / 12) (k mod 12)
  = occursInMonth item k.
Proof.
  unfold itemOccurs, occursInMonth, itemPaymentDate.
  destruct (isRecurring item).
  - destruct (periodStart item) as [ps|]; [|reflexivity].
    unfold Date_geb. fold (Date_leb (parseYearMonth now ps) (firstOfMonth k)).
    rewrite parseYearMonth_eq, firstOfMonth_leb. f_equal.
    destruct (periodEnd item) as [pe|].
    + rewrite parseYearMonth_eq. apply firstOfMonth_leb.
    + apply eq_true_iff_eq. unfold Date_leb.
      rewrite negb_true_iff, Z.leb_le.
      destruct (Date_ltb _ _) eqn:E.
      * apply Date_ltb_lt in E. rewrite (newDate_in_month 9999 11 31) in E
          by (vm_compute; split; discriminate).
        unfold firstOfMonth in E.
        cbn [monthIndex dayOfMonth timeOfDay] in E.
        split; [discriminate|lia].
      * split; [intros _|reflexivity].
        destruct (Z_lt_le_dec (9999 * 12 + 11) k) as [Hlt|]; [|assumption].
        assert (Date_ltb (newDate 9999 11 31) (firstOfMonth k) = true).
        { rewrite (newDate_in_month 9999 11 31)
            by (vm_compute; split; discriminate).
          apply Date_ltb_lt. unfold firstOfMonth.
          cbn [monthIndex dayOfMonth timeOfDay]. lia. }
        congruence.
  - destruct (paymentDate item) as [[[y m] d]|].
    + cbn [parseLocalDate]. apply same_month_index.
    + destruct (targetMonth item) as [tm|]; [|reflexivity].
      rewrite parseYearMonth_eq, same_month_index. reflexivity.
Qed.

Lemma ledger_buckets (now : Date) (k : Z) (items : list CashFlowItem) :
  forall acc : Ledger,
  let lg := fold_left (ledgerStep now (firstOfMonth k) (k / 12) (k mod 12))
              items acc in
  lg_sga lg = lg_sga acc + bucketTotal BucketSga items k
  /\ lg_taxRepayment lg
     = lg_taxRepayment acc + bucketTotal BucketTaxRepayment items k
  /\ lg_investment lg
     = lg_investment acc + bucketTotal BucketInvestment items k
  /\ lg_financialIn lg
     = lg_financialIn acc + bucketTotal BucketFinancialIn items k.
Proof.
  induction items as [|item items IH]; intros acc; cbn [fold_left].
  - unfold bucketTotal, sumZ; cbn. lia.
  - specialize (IH (ledgerStep now (firstOfMonth k) (k / 12) (k mod 12)
                      acc item)).
    cbv zeta in IH. destruct IH as (H1 & H2 & H3 & H4).
    cbv zeta. rewrite H1, H2, H3, H4.
    unfold bucketTotal, sumZ; cbn [map foldr]. unfold ledgerStep.
    rewrite itemOccurs_months.
    destruct (occursInMonth item k); cbn [andb];
      [destruct (category item); cbn; lia | cbn; lia].
Qed.

(** X10: every ledger item lands in one bucket of the months in which it
    falls.  In the record of month index [i] of [generateProjections] the
    fields [sga], [taxRepayment], [investment] and [financialIn] are the sums
    of the amounts of the items that fall in that month (a recurring item
    from the month of its period start to the month of its period end, both
    included; a one-time item in the month of its payment date, else of its
    target month) with category, in turn, operating expense or other; tax or
    loan repayment; investment; loan received. *)
Theorem ledger_buckets_by_month (now : Date) (projects : list Project)
  (employees : list Employee) (workLogs : list WorkLog) (termStart : Date)
  (settings : AppSettings) (i : nat) (r : Projection) :
  generateProjections now projects employees workLogs termStart settings
    !! i = Some r ->
  let k := monthIndex termStart + Z.of_nat i in
  let items := cashFlowItems settings in
  sga r = bucketTotal BucketSga items k
  /\ taxRepayment r = bucketTotal BucketTaxRepayment items k
  /\ investment r = bucketTotal BucketInvestment items k
  /\ financialIn r = bucketTotal BucketFinancialIn items k.
Proof.
  intros H k items.
  destruct (projectionLoop_lookup _ _ _ _ _ _ _ _ _ _ H)
    as (c & j & Hj & ->).
  apply lookup_seqZ in Hj as [-> _].
  cbn [sga taxRepayment investment financialIn monthProjection].
  rewrite projectionDate_eq. replace (monthIndex termStart + (0 + Z.of_nat i))
    with k by (unfold k; lia).
  change (getFullYear (firstOfMonth k)) with (k / 12).
  change (getMonth (firstOfMonth k)) with (k mod 12).
  destruct (ledger_buckets now k items emptyLedger) as (H1 & H2 & H3 & H4).
  cbv zeta in H1, H2, H3, H4. fold items.
  rewrite H1, H2, H3, H4. cbn [emptyLedger lg_sga lg_taxRepayment
    lg_investment lg_financialIn]. repeat split; lia.
Qed.

(** The sample rent of 200,000 a month from December 2024 is the whole [sga]
    of the record of July 2025. *)
Lemma ledger_buckets_by_month_witness :
  exists r,
    generateProjections sampleNow sampleProjects sampleEmployees
      sampleWorkLogs sampleTermStart sampleLedger !! 7%nat = Some r
    /\ sga r = 200000 /\ taxRepayment r = 0.
Proof.
  destruct (generateProjections sampleNow sampleProjects sampleEmployees
              sampleWorkLogs sampleTermStart sampleLedger !! 7%nat)
    as [r|] eqn:E; [|vm_compute in E; discriminate].
  exists r. split; [reflexivity|].
  destruct (ledger_buckets_by_month _ _ _ _ _ _ _ _ E) as (H1 & H2 & _).
  rewrite H1, H2. split; reflexivity.
Defined.

(* ===================================================================== *)
(** ** The rows of the daily cash flow *)
(* ===================================================================== *)

Lemma dailyLoop_length (dc : gmap Z Z) (days : list Z) (b : Z) :
  length (dailyLoop dc days b) = length days.
Proof.
  revert b. induction days as [|d days IH]; intros b; cbn [dailyLoop length];
    [reflexivity|]. rewrite IH. reflexivity.
Qed.

Lemma dailyLoop_lookup (dc : gmap Z Z) (days : list Z) : forall (b : Z)
  (n : nat) (d : Z),
  days !! n = Some d ->
  exists row,
    dailyLoop dc days b !! n = Some row
    /\ day row = d
    /\ change row = default 0 (dc !! d)
    /\ balance row = b + dailyTotal (take (S n) (dailyLoop dc days b)).
Proof.
  induction days as [|d0 days IH]; intros b n d H; [discriminate|].
  destruct n as [|n]; cbn [dailyLoop].
  - injection H as ->. eexists. split; [reflexivity|].
    cbn [day change balance]. repeat split.
    unfold dailyTotal, sumZ. cbn [take map foldr change].
    rewrite ?take_0. cbn [map foldr]. lia.
  - destruct (IH (b + default 0 (dc !! d0)) n d H)
      as (row & Hrow & Hd & Hc & Hb).
    exists row. split; [exact Hrow|]. split; [exact Hd|].
    split; [exact Hc|]. rewrite Hb.
    unfold dailyTotal, sumZ. cbn [take map foldr change].
    rewrite ?take_0. cbn [map foldr]. lia.
Qed.

(** X11: the daily rows.  [generateDailyCashFlow] returns one row for each
    day of the month of [date], between 28 and 31 of them and in order; the
    row of day [d] holds the change recorded for that day (0 when nothing
    falls on it) and, as balance, the opening balance plus the changes of the
    days up to and including [d]. *)
Theorem daily_rows_running_balance (now : Date) (date : Date)
  (projects : list Project) (settings : AppSettings) (initialBalance d : Z) :
  let n := getTotalDays (getFullYear date) (getMonth date) in
  let rows := generateDailyCashFlow now date projects settings
                initialBalance in
  1 <= d <= n ->
  28 <= n <= 31
  /\ length rows = Z.to_nat n
  /\ exists row,
       rows !! Z.to_nat (d - 1) = Some row
       /\ day row = d
       /\ change row
          = default 0 (dailyChangesOf now date projects settings !! d)
       /\ balance row
          = initialBalance + dailyTotal (take (Z.to_nat d) rows).
Proof.
  intros n rows Hd.
  assert (Hn : 28 <= n <= 31).
  { unfold n. rewrite getTotalDays_eq. apply daysInMonthIndex_bounds. }
  split; [exact Hn|]. split.
  { unfold rows, generateDailyCashFlow. rewrite dailyLoop_length.
    apply length_seqZ. }
  assert (Hday : seqZ 1 n !! Z.to_nat (d - 1) = Some d).
  { apply lookup_seqZ. split; lia. }
  destruct (dailyLoop_lookup (dailyChangesOf now date projects settings)
              (seqZ 1 n) initialBalance _ _ Hday)
    as (row & Hrow & H1 & H2 & H3).
  exists row. split; [exact Hrow|]. split; [exact H1|]. split; [exact H2|].
  rewrite H3. replace (S (Z.to_nat (d - 1))) with (Z.to_nat d) by lia.
  reflexivity.
Qed.

(** The row of 25 July 2025 of the sample data set: the rent leaves that
    day, and the balance is the opening 1,500,000 less the rent. *)
Lemma daily_rows_running_balance_witness :
  exists row,
    generateDailyCashFlow sampleNow (firstOfMonth (2025 * 12 + 6))
      sampleProjects sampleLedger 1500000 !! 24%nat = Some row
    /\ day row = 25 /\ change row = -200000 /\ balance row = 1300000.
Proof.
  destruct (daily_rows_running_balance sampleNow
              (firstOfMonth (2025 * 12 + 6)) sampleProjects sampleLedger
              1500000 25) as (_ & _ & row & Hrow & H1 & H2 & H3).
  { vm_compute. split; discriminate. }
  exists row. split; [exact Hrow|]. split; [exact H1|].
  split; [rewrite H2; reflexivity|]. rewrite H3. reflexivity.
Defined.

(* ===================================================================== *)
(** ** The months of a fiscal term *)
(* ===================================================================== *)

(** X12: the projection of a fiscal term covers the term, month by month.
    Started at the start of [getTermDateRange termYear], record [i] of
    [generateProjections] is dated the first day of the [i]-th month from
    December of the year before: December of [termYear - 1] for [i = 0],
    then January to November of [termYear]; every date lies between the
    start and the end of the term, and the label is the month number
    followed by the month sign. *)
Theorem projections_cover_term (now : Date) (projects : list Project)
  (employees : list Employee) (workLogs : list WorkLog)
  (settings : AppSettings) (termYear : Z) (i : nat) (r : Projection) :
  let termStart := fst (getTermDateRange termYear) in
  let termEnd := snd (getTermDateRange termYear) in
  generateProjections now projects employees workLogs termStart settings
    !! i = Some r ->
  date r = firstOfMonth ((termYear - 1) * 12 + 11 + Z.of_nat i)
  /\ getFullYear (date r) = (if (i =? 0)%nat then termYear - 1 else termYear)
  /\ getMonth (date r) = (11 + Z.of_nat i) mod 12
  /\ Date_leb termStart (date r) = true
  /\ Date_leb (date r) termEnd = true
  /\ month r = pretty (getMonth (date r) + 1) +:+ "月".
Proof.
  intros termStart termEnd H.
  destruct (projectionLoop_lookup _ _ _ _ _ _ _ _ _ _ H)
    as (c & j & Hj & ->).
  apply lookup_seqZ in Hj as [-> Hi].
  cbn [date month monthProjection].
  rewrite projectionDate_eq.
  assert (Hs : termStart = firstOfMonth ((termYear - 1) * 12 + 11)).
  { unfold termStart, getTermDateRange. cbn [fst]. apply newDate_first. }
  assert (He : termEnd = mkDate (termYear * 12 + 10) 30 0).
  { unfold termEnd, getTermDateRange. cbn [snd]. apply newDate_in_month.
    unfold daysInMonthIndex.
    replace ((termYear * 12 + 10) mod 12) with 10
      by (Z.div_mod_to_equations; lia).
    cbn. lia. }
  rewrite Hs, He. unfold firstOfMonth at 1 2 3 4 5. cbn [monthIndex].
  replace ((termYear - 1) * 12 + 11 + (0 + Z.of_nat i))
    with ((termYear - 1) * 12 + 11 + Z.of_nat i) by lia.
  set (k := (termYear - 1) * 12 + 11 + Z.of_nat i).
  split; [reflexivity|].
  unfold getFullYear, getMonth, firstOfMonth. cbn [monthIndex].
  split.
  { destruct i as [|i]; cbn [Nat.eqb]; unfold k;
      Z.div_mod_to_equations; lia. }
  split; [unfold k; Z.div_mod_to_equations; lia|].
  split.
  { unfold Date_leb. rewrite negb_true_iff.
    destruct (Date_ltb _ _) eqn:E; [|reflexivity].
    apply Date_ltb_lt in E. cbn [monthIndex dayOfMonth timeOfDay] in E.
    unfold k in E. lia. }
  split; [|reflexivity].
  unfold Date_leb. rewrite negb_true_iff.
  destruct (Date_ltb _ _) eqn:E; [|reflexivity].
  apply Date_ltb_lt in E. cbn [monthIndex dayOfMonth timeOfDay] in E.
  unfold k in E. lia.
Qed.

(** Record 7 of the term of 2025 is that of July 2025. *)
Lemma projections_cover_term_witness :
  exists r,
    generateProjections sampleNow sampleProjects sampleEmployees
      sampleWorkLogs (fst (getTermDateRange 2025)) sampleLedger !! 7%nat
    = Some r
    /\ getFullYear (date r) = 2025 /\ getMonth (date r) = 6
    /\ month r = "7月".
Proof.
  destruct (generateProjections sampleNow sampleProjects sampleEmployees
              sampleWorkLogs (fst (getTermDateRange 2025)) sampleLedger
              !! 7%nat) as [r|] eqn:E; [|vm_compute in E; discriminate].
  exists r. split; [reflexivity|].
  destruct (projections_cover_term _ _ _ _ _ _ _ _ E)
    as (_ & H2 & H3 & _ & _ & H6).
  split; [exact H2|]. split; [exact H3|]. rewrite H6, H3. reflexivity.
Defined.

(* ===================================================================== *)
(** ** Monthly overrides of an employee *)
(* ===================================================================== *)

Lemma String_length_app (a b : string) :
  String.length (a +:+ b) = (String.length a + String.length b)%nat.
Proof.
  induction a as [|c a IH]; simpl; [reflexivity|].
  rewrite IH. reflexivity.
Qed.

(** Two concatenations with suffixes of the same length agree part by
    part. *)
Lemma String_app_inj_suffix (a b x y : string) :
  String.length x = String.length y ->
  a +:+ x = b +:+ y -> a = b /\ x = y.
Proof.
  intros Hlen. revert b.
  induction a as [|c a IH]; intros [|c' b] H; simpl in H.
  - split; [reflexivity|exact H].
  - exfalso. apply (f_equal String.length) in H.
    rewrite ?String_length_app in H. simpl in H.
    rewrite ?String_length_app in H. lia.
  - exfalso. apply (f_equal String.length) in H.
    rewrite ?String_length_app in H. simpl in H.
    rewrite ?String_length_app in H. lia.
  - injection H as -> H. destruct (IH b H) as [-> ->].
    split; reflexivity.
Qed.

Lemma padStart2_month_length (month : Z) :
  0 <= month < 12 -> String.length (padStart2 (pretty (month + 1))) = 2%nat.
Proof.
  intros H.
  assert (Hc : month = 0 \/ month = 1 \/ month = 2 \/ month = 3 \/ month = 4
               \/ month = 5 \/ month = 6 \/ month = 7 \/ month = 8
               \/ month = 9 \/ month = 10 \/ month = 11) by lia.
  decompose [or] Hc; subst month; vm_compute; reflexivity.
Qed.

Lemma padStart2_month_inj (m1 m2 : Z) :
  0 <= m1 < 12 -> 0 <= m2 < 12 ->
  padStart2 (pretty (m1 + 1)) = padStart2 (pretty (m2 + 1)) -> m1 = m2.
Proof.
  intros H1 H2.
  assert (Hc1 : m1 = 0 \/ m1 = 1 \/ m1 = 2 \/ m1 = 3 \/ m1 = 4 \/ m1 = 5
                \/ m1 = 6 \/ m1 = 7 \/ m1 = 8 \/ m1 = 9 \/ m1 = 10
                \/ m1 = 11) by lia.
  assert (Hc2 : m2 = 0 \/ m2 = 1 \/ m2 = 2 \/ m2 = 3 \/ m2 = 4 \/ m2 = 5
                \/ m2 = 6 \/ m2 = 7 \/ m2 = 8 \/ m2 = 9 \/ m2 = 10
                \/ m2 = 11) by lia.
  clear H1 H2.
  decompose [or] Hc1; subst m1; decompose [or] Hc2; subst m2;
    intros H; try reflexivity; vm_compute in H; discriminate H.
Qed.

(** The month keys of two months are equal only for the same month. *)
Lemma monthKey_inj (y1 m1 y2 m2 : Z) :
  0 <= m1 < 12 -> 0 <= m2 < 12 ->
  monthKey y1 m1 = monthKey y2 m2 -> y1 = y2 /\ m1 = m2.
Proof.
  intros H1 H2 H. unfold monthKey in H.
  apply String_app_inj_suffix in H as [Hy Hm].
  - split; [apply (inj pretty); exact Hy|].
    simpl in Hm. injection Hm as Hm.
    apply padStart2_month_inj; assumption.
  - rewrite !String_length_app, !padStart2_month_length by assumption.
    reflexivity.
Qed.

(** X13: a monthly override is read back, touches no other month, and
    freezes the other column.  After the cost cell of a month is edited to
    [val], [getEmployeeMonthlyData] returns [val] as the cost of that month
    and the hours it returned before; the data of every other month are
    unchanged; and the hours of the edited month no longer follow the base
    monthly hours, whatever value these are set to afterwards. *)
Theorem monthly_override_round_trip (emp : Employee) (year month : Z)
  (val : Z) (year' month' : Z) (hours : Q) :
  0 <= month < 12 ->
  0 <= month' < 12 ->
  let edited := overrideMonthlyCost emp year month val in
  getEmployeeMonthlyData edited year month
  = {| md_cost := val;
       md_monthlyHours :=
         md_monthlyHours (getEmployeeMonthlyData emp year month) |}
  /\ ((year', month') <> (year, month) ->
      getEmployeeMonthlyData edited year' month'
      = getEmployeeMonthlyData emp year' month')
  /\ getEmployeeMonthlyData (setDefaultMonthlyHours edited hours) year month
     = getEmployeeMonthlyData edited year month.
Proof.
  intros Hm Hm' edited. unfold edited, getEmployeeMonthlyData,
    overrideMonthlyCost, setDefaultMonthlyHours.
  cbn [monthlyData defaultMonthlyCost defaultMonthlyHours].
  rewrite lookup_insert_eq. cbn [md_cost md_monthlyHours].
  split; [|split].
  - destruct (monthlyData emp !! monthKey year month); reflexivity.
  - intros Hne. rewrite lookup_insert_ne; [reflexivity|].
    intros Hk. apply monthKey_inj in Hk; [|assumption..].
    destruct Hk as [-> ->]. apply Hne. reflexivity.
  - reflexivity.
Qed.

(** An employee costing 400,000 a month with 160 hours: after the cost of
    March 2025 is set to 450,000 and the base hours to 120, March keeps 160
    hours at 450,000 and April follows the base values. *)
Lemma monthly_override_round_trip_witness :
  let edited :=
    setDefaultMonthlyHours
      (overrideMonthlyCost (sampleEmployee "e1" 400000) 2025 2 450000) 120 in
  getEmployeeMonthlyData edited 2025 2
  = {| md_cost := 450000; md_monthlyHours := 160 |}
  /\ getEmployeeMonthlyData edited 2025 3
     = {| md_cost := 400000; md_monthlyHours := 120 |}.
Proof.
  cbv zeta.
  destruct (monthly_override_round_trip (sampleEmployee "e1" 400000) 2025 2
              450000 2025 3 120 ltac:(lia) ltac:(lia)) as (H1 & _ & H3).
  split; [|vm_compute; reflexivity].
  rewrite H3, H1. reflexivity.
Defined.

(* ===================================================================== *)
(** ** The periods of the dashboard *)
(* ===================================================================== *)

Lemma slice_within {A : Type} (l : list A) (s e : Z) :
  0 <= s <= e -> e <= Z.of_nat (length l) ->
  slice l s e = take (Z.to_nat (e - s)) (drop (Z.to_nat s) l).
Proof.
  intros Hs He. unfold slice, sliceIndex.
  destruct (Z.ltb_spec s 0), (Z.ltb_spec e 0); try lia.
  rewrite !Z.min_l by lia. reflexivity.
Qed.

Lemma slice_lookup {A : Type} (l : list A) (s e : Z) (j : nat) :
  0 <= s <= e -> e <= Z.of_nat (length l) ->
  (Z.of_nat j < e - s) ->
  slice l s e !! j = l !! (Z.to_nat s + j)%nat.
Proof.
  intros Hs He Hj. rewrite slice_within by assumption.
  rewrite lookup_take_lt by lia. apply lookup_drop.
Qed.

Lemma slice_length {A : Type} (l : list A) (s e : Z) :
  0 <= s <= e -> e <= Z.of_nat (length l) ->
  length (slice l s e) = Z.to_nat (e - s).
Proof.
  intros Hs He. rewrite slice_within by assumption.
  rewrite length_take, length_drop. lia.
Qed.

(** X14: the periods of the dashboard.  The index of today's month is
    clamped to the twelve records; the half-year, the four-month period and
    the quarter chosen from it each contain it, lie within the twelve
    records and have 6, 4 and 3 records, record [j] of a period being record
    [start + j] of the projection; the quarter lies within the half-year. *)
Theorem dashboard_periods (now : Date) (projects : list Project)
  (employees : list Employee) (workLogs : list WorkLog)
  (settings : AppSettings) (currentTerm : Z) :
  let c := Dashboard.currentMonthIndex now currentTerm in
  let data := Dashboard.data now projects employees workLogs settings
                currentTerm in
  let hStart := Dashboard.hStart now currentTerm in
  let tStart := Dashboard.tStart now currentTerm in
  let qStart := Dashboard.qStart now currentTerm in
  let hData := Dashboard.hData now projects employees workLogs settings
                 currentTerm in
  let tData := Dashboard.tData now projects employees workLogs settings
                 currentTerm in
  let qData := Dashboard.qData now projects employees workLogs settings
                 currentTerm in
  0 <= c <= 11
  /\ (0 <= hStart <= c /\ c < hStart + 6 <= 12)
  /\ (0 <= tStart <= c /\ c < tStart + 4 <= 12)
  /\ (0 <= qStart <= c /\ c < qStart + 3 <= 12)
  /\ (hStart <= qStart /\ qStart + 3 <= hStart + 6)
  /\ (length hData = 6 /\ length tData = 4 /\ length qData = 3)%nat
  /\ (forall j, (j < 6)%nat -> hData !! j = data !! (Z.to_nat hStart + j)%nat)
  /\ (forall j, (j < 4)%nat -> tData !! j = data !! (Z.to_nat tStart + j)%nat)
  /\ (forall j, (j < 3)%nat -> qData !! j = data !! (Z.to_nat qStart + j)%nat).
Proof.
  intros c data hStart tStart qStart hData tData qData.
  assert (Hc : 0 <= c <= 11).
  { unfold c, Dashboard.currentMonthIndex.
    repeat match goal with |- context [if ?b then _ else _] =>
      let E := fresh in destruct b eqn:E end; lia. }
  assert (Hh : hStart = c / 6 * 6).
  { unfold hStart, Dashboard.hStart, Dashboard.hIndex. fold c.
    unfold Math_floor, fdiv.
    change (Qfloor (round64 (inject_Z c / inject_Z 6)) * 6 = c / 6 * 6).
    rewrite floor_fdiv_exact by lia. reflexivity. }
  assert (Ht : tStart = c / 4 * 4).
  { unfold tStart, Dashboard.tStart, Dashboard.tIndex. fold c.
    unfold Math_floor, fdiv.
    change (Qfloor (round64 (inject_Z c / inject_Z 4)) * 4 = c / 4 * 4).
    rewrite floor_fdiv_exact by lia. reflexivity. }
  assert (Hq : qStart = c / 3 * 3).
  { unfold qStart, Dashboard.qStart, Dashboard.qIndex. fold c.
    unfold Math_floor, fdiv.
    change (Qfloor (round64 (inject_Z c / inject_Z 3)) * 3 = c / 3 * 3).
    rewrite floor_fdiv_exact by lia. reflexivity. }
  assert (Hlen : length data = 12%nat)
    by apply generateProjections_length.
  assert (H6 : 0 <= hStart <= c /\ c < hStart + 6 <= 12)
    by (rewrite Hh; Z.div_mod_to_equations; lia).
  assert (H4 : 0 <= tStart <= c /\ c < tStart + 4 <= 12)
    by (rewrite Ht; Z.div_mod_to_equations; lia).
  assert (H3 : 0 <= qStart <= c /\ c < qStart + 3 <= 12)
    by (rewrite Hq; Z.div_mod_to_equations; lia).
  split; [exact Hc|]. split; [exact H6|]. split; [exact H4|].
  split; [exact H3|].
  split; [rewrite Hh, Hq; Z.div_mod_to_equations; lia|].
  split.
  { unfold hData, tData, qData, Dashboard.hData, Dashboard.tData,
      Dashboard.qData, Dashboard.hEnd, Dashboard.tEnd, Dashboard.qEnd.
    fold data hStart tStart qStart.
    rewrite !slice_length by lia. repeat split; lia. }
  unfold hData, tData, qData, Dashboard.hData, Dashboard.tData,
    Dashboard.qData, Dashboard.hEnd, Dashboard.tEnd, Dashboard.qEnd.
  fold data hStart tStart qStart.
  repeat split; intros j Hj; apply slice_lookup; lia.
Qed.

(** On 15 March 2025, in the term of 2025 (December 2024 to November 2025),
    today's month is record 3: first half-year, first four-month period,
    second quarter. *)
Example dashboard_periods_march :
  Dashboard.currentMonthIndex sampleNow 2025 = 3
  /\ Dashboard.hStart sampleNow 2025 = 0
  /\ Dashboard.tStart sampleNow 2025 = 0
  /\ Dashboard.qStart sampleNow 2025 = 3.
Proof. vm_compute. repeat split. Qed.

(* ===================================================================== *)
(** ** Sorting and sums *)
(* ===================================================================== *)

Lemma sumZ_Permutation (l l' : list Z) : l ≡ₚ l' -> sumZ l = sumZ l'.
Proof.
  induction 1 as [|x l l' _ IH|x y l|l l' l'' _ IH1 _ IH2];
    unfold sumZ in *; cbn [foldr]; lia.
Qed.

Lemma insertWith_Permutation {A : Type} (after : A -> A -> bool) (x : A)
  (l : list A) : insertWith after x l ≡ₚ x :: l.
Proof.
  induction l as [|y l IH]; cbn [insertWith]; [reflexivity|].
  destruct (after x y); [|reflexivity].
  rewrite IH. apply Permutation_swap.
Qed.

Lemma sortWith_Permutation {A : Type} (after : A -> A -> bool) (l : list A) :
  sortWith after l ≡ₚ l.
Proof.
  induction l as [|x l IH]; [reflexivity|].
  unfold sortWith in *. cbn [foldr]. rewrite insertWith_Permutation, IH.
  reflexivity.
Qed.

Lemma sortBy_Permutation {A : Type} (cmp : A -> A -> Z) (l : list A) :
  sortBy cmp l ≡ₚ l.
Proof. apply sortWith_Permutation. Qed.

(** Sorting puts the elements in an order [R] when [R] is transitive and
    holds, one way or the other, as the comparator tells. *)
Lemma sortWith_sorted {A : Type} (after : A -> A -> bool)
  (R : A -> A -> Prop) (l : list A) :
  (forall x y z, R x y -> R y z -> R x z) ->
  (forall x y, after x y = true -> R y x) ->
  (forall x y, after x y = false -> R x y) ->
  StronglySorted R (sortWith after l).
Proof.
  intros Htrans Hafter Hbefore.
  induction l as [|x l IH]; [constructor|].
  unfold sortWith in *. cbn [foldr].
  set (s := foldr (insertWith after) [] l) in *.
  clearbody s. clear l.
  induction s as [|y s IHs]; cbn [insertWith].
  - constructor; constructor.
  - inversion IH as [|? ? Hs Hall]; subst.
    destruct (after x y) eqn:E.
    + constructor; [apply IHs; exact Hs|].
      rewrite insertWith_Permutation.
      constructor; [apply Hafter; exact E|exact Hall].
    + constructor; [exact IH|].
      constructor; [apply Hbefore; exact E|].
      eapply Forall_impl; [exact Hall|]. cbv beta. intros z Hz.
      apply (Htrans x y z); [apply Hbefore; exact E|exact Hz].
Qed.

(** Sorting with the comparator [key b - key a] puts the keys in decreasing
    order. *)
Lemma sortBy_decreasing {A : Type} (key : A -> Z) (l : list A) :
  StronglySorted (fun a b => key b <= key a)
    (sortBy (fun a b => key b - key a) l).
Proof.
  apply sortWith_sorted.
  - intros x y z. lia.
  - intros x y H. lia.
  - intros x y H. lia.
Qed.

Lemma sumZ_swap {A B : Type} (g : A -> B -> Z) (la : list A) (lb : list B) :
  sumZ (map (fun a => sumZ (map (g a) lb)) la)
  = sumZ (map (fun b => sumZ (map (fun a => g a b) la)) lb).
Proof.
  induction la as [|a la IH].
  - cbn [map]. rewrite (sumZ_map_const _ 0) by reflexivity.
    unfold sumZ; cbn. lia.
  - cbn [map]. change (sumZ (map (g a) lb)
                       + sumZ (map (fun a => sumZ (map (g a) lb)) la)
                       = sumZ (map (fun b => g a b
                                       + sumZ (map (fun a => g a b) la)) lb)).
    rewrite sumZ_map_add, IH. reflexivity.
Qed.

(** Leaving out the entries that are not positive does not change the sum
    of a list without negative entries. *)
Lemma sumZ_filter_pos {A : Type} (f : A -> Z) (l : list A) :
  Forall (fun x => 0 <= f x) l ->
  sumZ (map f (List.filter (fun x => f x >? 0) l)) = sumZ (map f l).
Proof.
  induction 1 as [|x l Hx _ IH]; [reflexivity|].
  cbn [List.filter map]. destruct (Z.gtb_spec (f x) 0);
    unfold sumZ in *; cbn [map foldr]; lia.
Qed.

(* ===================================================================== *)
(** ** The dashboard and the project analysis against the projection *)
(* ===================================================================== *)

(** The revenue of each record is the revenue of its month over all the
    projects. *)
Lemma projectionLoop_revenue (now : Date) (projects : list Project)
  (employees : list Employee) (workLogs : list WorkLog) (termStart : Date)
  (settings : AppSettings) (idxs : list Z) : forall c : Z,
  map revenue
    (projectionLoop now projects employees workLogs termStart settings idxs c)
  = map (fun i => sumZ (map (fun p => termMonthRevenue now termStart p i)
                          projects)) idxs.
Proof.
  induction idxs as [|i idxs IH]; intros c; [reflexivity|].
  cbn [projectionLoop map]. rewrite IH. f_equal.
  cbn [revenue monthProjection]. unfold monthProfitLoss.
  destruct (profitLoss_split now employees workLogs
              (projectionDate termStart i)
              (Date_ltb (projectionDate termStart i) (currentMonthStart now))
              projects emptyProfitLoss) as (H & _).
  cbv zeta in H. rewrite H. cbn [emptyProfitLoss pl_revenue].
  unfold termMonthRevenue. lia.
Qed.

(** The revenue of the records [s .. s + n - 1] of the projection. *)
Lemma slice_revenue (now : Date) (projects : list Project)
  (employees : list Employee) (workLogs : list WorkLog) (termStart : Date)
  (settings : AppSettings) (s e : Z) :
  0 <= s <= e -> e <= 12 ->
  sumZ (map revenue
          (slice (generateProjections now projects employees workLogs
                    termStart settings) s e))
  = sumZ (map (fun p => sumZ (map (termMonthRevenue now termStart p)
                                (seqZ s (e - s)))) projects).
Proof.
  intros Hs He.
  rewrite slice_within
    by (rewrite ?generateProjections_length; lia).
  rewrite <- firstn_map, <- skipn_map.
  unfold generateProjections. rewrite projectionLoop_revenue.
  replace 12 with (s + ((e - s) + (12 - e))) by lia.
  rewrite seqZ_app, seqZ_app by lia. rewrite !map_app.
  rewrite drop_app_length'
    by (rewrite length_map, length_seqZ; lia).
  rewrite take_app_length'
    by (rewrite length_map, length_seqZ; lia).
  replace (0 + s) with s by lia.
  symmetry. apply sumZ_swap.
Qed.

(** X15: the total of the breakdown against the period it breaks down.  With
    amounts that are not negative (and flow fees that a double holds
    exactly, at most [Number.MAX_SAFE_INTEGER]) and start ratios within
    [0,100], the sum that the breakdown of the records
    [startIdx .. endIdx - 1] shows under its rows is the revenue of these
    records of the projection (for the half-year, [hRevenue]); the rows are
    the projects with a positive revenue in the period, by decreasing
    revenue. *)
Theorem breakdown_total_is_period_revenue (now : Date)
  (projects : list Project) (employees : list Employee)
  (workLogs : list WorkLog) (settings : AppSettings) (currentTerm : Z)
  (startIdx endIdx : Z) :
  Forall nonNegativeAmounts projects ->
  0 <= startIdx < endIdx ->
  endIdx <= 12 ->
  let rows := Dashboard.getBreakdownData now projects currentTerm startIdx
                endIdx in
  Dashboard.breakdownTotal now projects currentTerm startIdx endIdx
  = fold_left (fun acc c => acc + revenue c)
      (slice (Dashboard.data now projects employees workLogs settings
                currentTerm) startIdx endIdx) 0
  /\ Forall (fun row => 0 < periodRevenue row) rows
  /\ StronglySorted (fun a b => periodRevenue b <= periodRevenue a) rows.
Proof.
  intros Hnn Hs He rows.
  split; [|split].
  - unfold Dashboard.breakdownTotal, Dashboard.getBreakdownData.
    rewrite !fold_left_add_sumZ, !Z.add_0_l.
    rewrite (sumZ_Permutation _ _
               (Permutation_map _ (sortBy_Permutation _ _))).
    destruct (Z.leb_spec endIdx startIdx) as [|_]; [lia|].
    unfold Dashboard.data. rewrite slice_revenue by lia.
    rewrite sumZ_filter_pos.
    + rewrite map_map. apply sumZ_map_ext_in. intros p _.
      cbn [periodRevenue]. rewrite fold_left_add_sumZ. reflexivity.
    + apply Forall_map. eapply Forall_impl; [exact Hnn|].
      intros p Hp. cbn [periodRevenue].
      rewrite fold_left_add_sumZ, Z.add_0_l.
      apply sumZ_map_nonneg. apply Forall_forall. intros i _.
      apply getMonthlyRevenue_nonneg. exact Hp.
  - unfold rows, Dashboard.getBreakdownData.
    rewrite sortBy_Permutation.
    match goal with |- Forall _ (List.filter _ ?l0) =>
      generalize l0; intros l end.
    induction l as [|x l IH]; cbn [List.filter]; [constructor|].
    destruct (Z.gtb_spec (periodRevenue x) 0); [|exact IH].
    constructor; [lia|exact IH].
  - apply (sortBy_decreasing periodRevenue).
Qed.

(** The sample project in the first half of the term of 2025: one row of
    3,000,000, the start payment recognized in January. *)
Lemma breakdown_total_is_period_revenue_witness :
  Dashboard.breakdownTotal sampleNow sampleProjects 2025 0 6
  = Dashboard.hRevenue sampleNow sampleProjects sampleEmployees
      sampleWorkLogs sampleLedger 2025
  /\ map periodRevenue (Dashboard.getBreakdownData sampleNow sampleProjects
                          2025 0 6) = [3000000].
Proof.
  split; [|vm_compute; reflexivity].
  apply (breakdown_total_is_period_revenue sampleNow sampleProjects
           sampleEmployees sampleWorkLogs sampleLedger 2025 0 6);
    [|lia|lia].
  repeat constructor; vm_compute; try discriminate; intros ? ? ?; discriminate.
Defined.

Lemma termStart_eq (currentTerm : Z) :
  Dashboard.start currentTerm = firstOfMonth ((currentTerm - 1) * 12 + 11).
Proof.
  unfold Dashboard.start, getTermDateRange. cbn [fst]. apply newDate_first.
Qed.

(** The months of the project analysis are those of the projection. *)
Lemma analytics_month (currentTerm i : Z) :
  newDate (currentTerm - 1) (11 + i) 1
  = projectionDate (Dashboard.start currentTerm) i.
Proof.
  rewrite projectionDate_eq, termStart_eq, newDate_first.
  unfold firstOfMonth. cbn [monthIndex]. f_equal. lia.
Qed.

Lemma metricStep_fold (now : Date) (employees : list Employee)
  (workLogs : list WorkLog) (currentTerm : Z) (p : Project)
  (idxs : list Z) : forall acc : Z * Z,
  fold_left (Analytics.metricStep now employees workLogs p (currentTerm - 1))
    idxs acc
  = (fst acc
     + sumZ (map (termMonthRevenue now (Dashboard.start currentTerm) p) idxs),
     snd acc
     + sumZ (map (fun i =>
                    let d := projectionDate (Dashboard.start currentTerm) i in
                    projectLaborCost now employees workLogs
                      (Date_ltb d (currentMonthStart now))
                      (getFullYear d) (getMonth d) p) idxs)).
Proof.
  induction idxs as [|i idxs IH]; intros [r c]; cbn [fold_left map fst snd].
  - unfold sumZ; cbn [foldr]. f_equal; lia.
  - rewrite IH. unfold Analytics.metricStep. rewrite analytics_month.
    unfold termMonthRevenue, projectLaborCost, sumZ.
    cbn [fst snd foldr]. cbv zeta.
    destruct (Date_ltb _ _); f_equal; lia.
Qed.

Lemma monthLaborCost_sum (now : Date) (projects : list Project)
  (employees : list Employee) (workLogs : list WorkLog) (termStart : Date)
  (j : Z) :
  monthLaborCost now projects employees workLogs termStart j
  = sumZ (map (fun p =>
                 let d := projectionDate termStart j in
                 projectLaborCost now employees workLogs
                   (Date_ltb d (currentMonthStart now))
                   (getFullYear d) (getMonth d) p) projects).
Proof.
  unfold monthLaborCost, monthProfitLoss. rewrite profitLoss_cost.
  rewrite fold_left_add_sumZ. cbn [emptyProfitLoss pl_cost].
  rewrite Z.add_0_l. reflexivity.
Qed.

(** X16: the project analysis adds up to the projection.  Over the projects,
    the [totalRevenue] of [projectMetrics] sums to the annual revenue of the
    dashboard, and the [totalCost] to the labor cost that the twelve
    iterations of [generateProjections] compute for their own months; each
    project has one row, and the rows are by decreasing revenue. *)
Theorem analytics_adds_up_to_projection (now : Date)
  (projects : list Project) (employees : list Employee)
  (workLogs : list WorkLog) (settings : AppSettings) (currentTerm : Z) :
  let metrics := Analytics.projectMetrics now projects employees workLogs
                   currentTerm in
  sumZ (map totalRevenue metrics)
  = Dashboard.annualRevenue now projects employees workLogs settings
      currentTerm
  /\ sumZ (map totalCost metrics)
     = sumZ (map (monthLaborCost now projects employees workLogs
                    (Dashboard.start currentTerm)) (seqZ 0 12))
  /\ map pm_project metrics ≡ₚ projects
  /\ StronglySorted (fun a b => totalRevenue b <= totalRevenue a) metrics.
Proof.
  intros metrics.
  assert (Hperm : metrics
                  ≡ₚ map (Analytics.projectMetric now employees workLogs
                            currentTerm) projects)
    by apply sortBy_Permutation.
  assert (Hmetric : forall p,
    Analytics.projectMetric now employees workLogs currentTerm p
    = Analytics.projectMetric now employees workLogs currentTerm p
    /\ totalRevenue (Analytics.projectMetric now employees workLogs
                       currentTerm p)
       = sumZ (map (termMonthRevenue now (Dashboard.start currentTerm) p)
                 (seqZ 0 12))
    /\ totalCost (Analytics.projectMetric now employees workLogs
                    currentTerm p)
       = sumZ (map (fun i =>
                      let d := projectionDate (Dashboard.start currentTerm) i
                      in
                      projectLaborCost now employees workLogs
                        (Date_ltb d (currentMonthStart now))
                        (getFullYear d) (getMonth d) p) (seqZ 0 12))
    /\ pm_project (Analytics.projectMetric now employees workLogs
                     currentTerm p) = p).
  { intros p. unfold Analytics.projectMetric. cbv zeta.
    rewrite metricStep_fold. cbn [fst snd totalRevenue totalCost pm_project].
    repeat split; lia. }
  split; [|split; [|split]].
  - rewrite (sumZ_Permutation _ _ (Permutation_map _ Hperm)), map_map.
    unfold Dashboard.annualRevenue, Dashboard.data, generateProjections.
    rewrite fold_left_add_sumZ, projectionLoop_revenue, Z.add_0_l.
    rewrite <- sumZ_swap. apply sumZ_map_ext_in. intros p _.
    apply (Hmetric p).
  - rewrite (sumZ_Permutation _ _ (Permutation_map _ Hperm)), map_map.
    rewrite (sumZ_map_ext_in _ _ _
               (fun j _ => monthLaborCost_sum now projects employees workLogs
                             (Dashboard.start currentTerm) j)).
    rewrite <- (sumZ_swap
                  (fun p i =>
                     let d := projectionDate (Dashboard.start currentTerm) i
                     in
                     projectLaborCost now employees workLogs
                       (Date_ltb d (currentMonthStart now))
                       (getFullYear d) (getMonth d) p)).
    apply sumZ_map_ext_in. intros p _. apply (Hmetric p).
  - rewrite (Permutation_map pm_project Hperm), map_map.
    erewrite map_ext; [rewrite map_id; reflexivity|].
    intros p. apply (Hmetric p).
  - apply (sortBy_decreasing totalRevenue).
Qed.

(** The sample project in the term of 2025, seen on 15 March: 6,000,000 of
    revenue against 1,800,000 of labor, the 40 hours logged in February
    (200,000; nothing was logged in January) and the planned 400,000 of each
    month from March to June. *)
Example analytics_sample :
  map (fun m => (totalRevenue m, totalCost m, profit m))
    (Analytics.projectMetrics sampleNow sampleProjects sampleEmployees
       sampleWorkLogs 2025)
  = [(6000000, 1800000, 4200000)].
Proof. vm_compute. reflexivity. Qed.

(* ===================================================================== *)
(** ** Margins and labor shares of the project analysis *)
(* ===================================================================== *)

Lemma Qgtb_true_iff (a b : Q) : Qgtb a b = true <-> (b < a)%Q.
Proof.
  unfold Qgtb. rewrite negb_true_iff. split.
  - intros H. apply Qnot_le_lt. intros Hle.
    apply Qle_bool_iff in Hle. congruence.
  - intros H. destruct (Qle_bool a b) eqn:E; [|reflexivity].
    apply Qle_bool_iff in E. exfalso. apply (Qlt_not_le _ _ H E).
Qed.

Lemma Qgtb_false_iff (a b : Q) : Qgtb a b = false <-> (a <= b)%Q.
Proof.
  unfold Qgtb. rewrite negb_false_iff. apply Qle_bool_iff.
Qed.

(** The fields of a metric. *)
Lemma projectMetric_fields (now : Date) (employees : list Employee)
  (workLogs : list WorkLog) (currentTerm : Z) (p : Project) :
  let m := Analytics.projectMetric now employees workLogs currentTerm p in
  profit m = totalRevenue m - totalCost m
  /\ (0 < totalRevenue m ->
      profitMargin m
      = fmul (fdiv (inject_Z (profit m)) (inject_Z (totalRevenue m))) 100
      /\ laborShare m
         = fmul (fdiv (inject_Z (totalCost m)) (inject_Z (totalRevenue m)))
             100)
  /\ (totalRevenue m <= 0 -> profitMargin m = 0%Q /\ laborShare m = 0%Q).
Proof.
  unfold Analytics.projectMetric. cbv zeta.
  destruct (fold_left _ _ _) as [r c].
  cbn [profit totalRevenue totalCost profitMargin laborShare].
  split; [reflexivity|]. split.
  - intros Hr. destruct (Z.gtb_spec r 0); [|lia]. split; reflexivity.
  - intros Hr. destruct (Z.gtb_spec r 0); [lia|]. split; reflexivity.
Qed.

Lemma inject_Z_nonpos (n : Z) : n <= 0 -> (inject_Z n <= 0)%Q.
Proof. intros H. change 0%Q with (inject_Z 0). rewrite <- Zle_Qle. exact H. Qed.

Lemma inject_Z_pos (n : Z) : 0 < n -> (0 < inject_Z n)%Q.
Proof. intros H. change 0%Q with (inject_Z 0). rewrite <- Zlt_Qlt. exact H. Qed.

(** X17: margin and labor share of a project.  For every metric of the
    project analysis the profit is revenue less cost.  With a positive
    revenue the profit margin is the percentage of the profit in the
    revenue and the labor share that of the cost, each a quotient and a
    product of doubles; without, both are 0.  The margin is never of the
    sign opposite to the profit, and the labor share of a cost that is not
    negative is not negative.  When the lower target of the margin is
    positive, every project falls under exactly one of the two predicates
    that fill the list of projects in deficit or with a low margin and the
    list of high-profit projects. *)
Theorem margin_and_labor_share (now : Date) (employees : list Employee)
  (workLogs : list WorkLog) (currentTerm : Z) (settings : AppSettings)
  (p : Project) :
  (0 < Analytics.targetMarginMin settings)%Q ->
  let m := Analytics.projectMetric now employees workLogs currentTerm p in
  profit m = totalRevenue m - totalCost m
  /\ (0 < totalRevenue m ->
      profitMargin m
      = fmul (fdiv (inject_Z (profit m)) (inject_Z (totalRevenue m))) 100
      /\ laborShare m
         = fmul (fdiv (inject_Z (totalCost m)) (inject_Z (totalRevenue m)))
             100)
  /\ (totalRevenue m <= 0 -> profitMargin m = 0%Q /\ laborShare m = 0%Q)
  /\ (0 <= profit m -> (0 <= profitMargin m)%Q)
  /\ (profit m <= 0 -> (profitMargin m <= 0)%Q)
  /\ (0 <= totalCost m -> (0 <= laborShare m)%Q)
  /\ Analytics.isProblemProject settings m
     = negb (Analytics.isHighProfitProject settings m).
Proof.
  intros Hmin.
  generalize (projectMetric_fields now employees workLogs currentTerm p).
  cbv zeta.
  generalize (Analytics.projectMetric now employees workLogs currentTerm p).
  intros m (Hp & Hpos & Hzero).
  assert (Hup : 0 <= profit m -> (0 <= profitMargin m)%Q).
  { intros Hprofit. destruct (Z_lt_le_dec 0 (totalRevenue m)) as [Hr|Hr].
    - destruct (Hpos Hr) as [-> _].
      apply fmul_nonneg; [|discriminate].
      apply fdiv_nonneg; [apply inject_Z_nonneg; exact Hprofit|].
      apply inject_Z_pos; exact Hr.
    - destruct (Hzero Hr) as [-> _]. apply Qle_refl. }
  assert (Hdown : profit m <= 0 -> (profitMargin m <= 0)%Q).
  { intros Hprofit. destruct (Z_lt_le_dec 0 (totalRevenue m)) as [Hr|Hr].
    - destruct (Hpos Hr) as [-> _].
      apply fmul_nonpos; [|discriminate].
      apply fdiv_nonpos; [apply inject_Z_nonpos; exact Hprofit|].
      apply inject_Z_pos; exact Hr.
    - destruct (Hzero Hr) as [-> _]. apply Qle_refl. }
  split; [exact Hp|]. split; [exact Hpos|]. split; [exact Hzero|].
  split; [exact Hup|]. split; [exact Hdown|]. split.
  - intros Hcost. destruct (Z_lt_le_dec 0 (totalRevenue m)) as [Hr|Hr].
    + destruct (Hpos Hr) as [_ ->].
      apply fmul_nonneg; [|discriminate].
      apply fdiv_nonneg; [apply inject_Z_nonneg; exact Hcost|].
      apply inject_Z_pos; exact Hr.
    + destruct (Hzero Hr) as [_ ->]. apply Qle_refl.
  - unfold Analytics.isProblemProject, Analytics.isHighProfitProject.
    rewrite negb_andb, negb_involutive.
    destruct (Qgtb (Analytics.targetMarginMin settings) (profitMargin m))
      eqn:Eg; [rewrite !orb_true_r; reflexivity|].
    rewrite !orb_false_r.
    apply Qgtb_false_iff in Eg.
    assert (Hmargin : (0 < profitMargin m)%Q)
      by (eapply Qlt_le_trans; [exact Hmin|exact Eg]).
    assert (Hprofit : 0 < profit m).
    { destruct (Z_lt_le_dec 0 (profit m)) as [|Hle]; [assumption|].
      exfalso. apply (Qlt_not_le _ _ Hmargin). apply Hdown. exact Hle. }
    destruct (Z.ltb_spec (profit m) 0), (Z.gtb_spec (profit m) 0);
      try reflexivity; lia.
Qed.

(** The sample project: a margin of 70% and a labor share of 30%; the
    sample targets of 30% to 50% of labor put the lower target of the
    margin at 50%, and it is a high-profit project. *)
Lemma margin_and_labor_share_witness :
  let m := Analytics.projectMetric sampleNow sampleEmployees sampleWorkLogs
             2025 (sampleFlowProject Ordered (Some Milestone) 6000000
                     (Some (2025, 1, 1)) (Some (2025, 6, 30))
                     (sampleBilling true (Some 50%Q))
                     [ {| employeeId := "e1"; utilizationRate := 50 |} ]) in
  profit m = 4200000
  /\ Analytics.isProblemProject sampleLedger m = false.
Proof.
  cbv zeta.
  destruct (margin_and_labor_share sampleNow sampleEmployees sampleWorkLogs
              2025 sampleLedger
              (sampleFlowProject Ordered (Some Milestone) 6000000
                 (Some (2025, 1, 1)) (Some (2025, 6, 30))
                 (sampleBilling true (Some 50%Q))
                 [ {| employeeId := "e1"; utilizationRate := 50 |} ]))
    as (Hp & _ & _ & _ & _ & _ & Hlists).
  { vm_compute. reflexivity. }
  split; [rewrite Hp; vm_compute; reflexivity|].
  rewrite Hlists. vm_compute. reflexivity.
Defined.

(** The sample margins are whole numbers; those of a revenue of 6,368,887
    against a cost of 1,761,228 are not, and add up to a little more than
    100. *)
Example margin_and_share_rounding :
  fmul (fdiv 4200000 6000000) 100 = 70%Q
  /\ fmul (fdiv 1800000 6000000) 100 = 30%Q
  /\ (100 < fadd (fmul (fdiv (inject_Z (6368887 - 1761228)) 6368887) 100)
              (fmul (fdiv 1761228 6368887) 100))%Q
  /\ fadd (fmul (fdiv (inject_Z (6368887 - 1761228)) 6368887) 100)
       (fmul (fdiv 1761228 6368887) 100)
     = fadd 100 (1 # 2 ^ 46).
Proof. vm_compute. repeat split; reflexivity. Qed.

(* ===================================================================== *)
(** ** Deleting an employee *)
(* ===================================================================== *)

Lemma knownEmployee_filter (employees : list Employee) (id id' : string) :
  knownEmployee
    (List.filter (fun e => negb (String.eqb (emp_id e) id)) employees) id'
  = knownEmployee employees id' && negb (String.eqb id' id).
Proof.
  unfold knownEmployee.
  induction employees as [|e l IH]; cbn [List.filter existsb];
    [reflexivity|].
  destruct (String.eqb_spec (emp_id e) id) as [He|He]; cbn [negb existsb].
  - rewrite IH. destruct (String.eqb_spec (emp_id e) id') as [He'|He'];
      cbn [orb]; [|reflexivity].
    rewrite <- He', He, String.eqb_refl. cbn [negb].
    rewrite !andb_false_r. reflexivity.
  - rewrite IH. destruct (String.eqb_spec (emp_id e) id') as [He'|He'];
      cbn [orb]; [|reflexivity].
    rewrite <- He'. destruct (String.eqb_spec (emp_id e) id); [contradiction|].
    reflexivity.
Qed.

Lemma findEmployee_filter (employees : list Employee) (id id' : string) :
  id' <> id ->
  findEmployee
    (List.filter (fun e => negb (String.eqb (emp_id e) id)) employees) id'
  = findEmployee employees id'.
Proof.
  intros Hne. unfold findEmployee.
  induction employees as [|e l IH]; cbn [List.filter List.find];
    [reflexivity|].
  destruct (String.eqb_spec (emp_id e) id) as [He|He]; cbn [negb List.find].
  - destruct (String.eqb_spec (emp_id e) id') as [He'|He']; [congruence|].
    exact IH.
  - destruct (String.eqb (emp_id e) id'); [reflexivity|exact IH].
Qed.

(** X18: deleting an employee.  After [deleteEmployee id] no employee and
    no assignment carries the id; the projects are the same, in the same
    order, each without its assignments to the deleted employee; if every
    assignment named a known employee before, every assignment still does;
    and the planned cost of each project is the one its remaining
    assignments had before the deletion. *)
Theorem deleteEmployee_cascade (now : Date) (employees : list Employee)
  (projects : list Project) (id : string) :
  let employees' := fst (AppContext.deleteEmployee employees projects id) in
  let projects' := snd (AppContext.deleteEmployee employees projects id) in
  knownEmployee employees' id = false
  /\ Forall (fun p => Forall (fun a => employeeId a <> id) (assignments p))
       projects'
  /\ map proj_id projects' = map proj_id projects
  /\ (assignmentsResolved employees projects ->
      assignmentsResolved employees' projects')
  /\ (forall p' year month, p' ∈ projects' ->
        getProjectMonthlyCost now p' employees' year month
        = getProjectMonthlyCost now p' employees year month).
Proof.
  intros employees' projects'.
  unfold employees', projects', AppContext.deleteEmployee. cbn [fst snd].
  assert (Hgone : forall p : Project,
            Forall (fun a => employeeId a <> id)
              (List.filter (fun a => negb (String.eqb (employeeId a) id))
                 (assignments p))).
  { intros p. induction (assignments p) as [|a l IH]; cbn [List.filter];
      [constructor|].
    destruct (String.eqb_spec (employeeId a) id); cbn [negb];
      [exact IH|constructor; assumption]. }
  split; [|split; [|split; [|split]]].
  - rewrite knownEmployee_filter, String.eqb_refl. apply andb_false_r.
  - apply Forall_map. apply Forall_forall. intros p _. apply Hgone.
  - rewrite map_map. reflexivity.
  - unfold assignmentsResolved. intros Hres. apply Forall_map.
    eapply Forall_impl; [exact Hres|]. intros p Hp.
    cbn [assignments withAssignments].
    induction Hp as [|a l Ha _ IH]; cbn [List.filter]; [constructor|].
    destruct (String.eqb_spec (employeeId a) id) as [He|He]; cbn [negb];
      [exact IH|]. constructor; [|exact IH].
    rewrite knownEmployee_filter, Ha.
    destruct (String.eqb_spec (employeeId a) id); [contradiction|reflexivity].
  - intros p' year month Hin.
    apply list_elem_of_fmap in Hin as (p & -> & _).
    unfold getProjectMonthlyCost.
    cbn [assignments withAssignments useFlow useStock useTimeCharge
         flowStartDate flowEndDate stockStartDate].
    assert (Hfold : forall (l : list Assignment) (acc : Q),
              Forall (fun a => employeeId a <> id) l ->
              fold_left
                (addAssignmentCost
                   (List.filter (fun e => negb (String.eqb (emp_id e) id))
                      employees) year month) l acc
              = fold_left (addAssignmentCost employees year month) l acc).
    { intros l. induction l as [|a l IH]; intros acc Hl; [reflexivity|].
      inversion Hl as [|? ? Ha Hl']; subst. cbn [fold_left].
      rewrite IH by exact Hl'. f_equal. unfold addAssignmentCost.
      rewrite findEmployee_filter by exact Ha. reflexivity. }
    rewrite Hfold by apply Hgone. reflexivity.
Qed.

(** The sample project loses its only assignment, and with it its planned
    cost, when the employee it names is deleted. *)
Example deleteEmployee_sample :
  let projects' :=
    snd (AppContext.deleteEmployee sampleEmployees sampleProjects "e1") in
  map assignments projects' = [[]]
  /\ map (fun p => getProjectMonthlyCost sampleNow p sampleEmployees 2025 3)
       sampleProjects = [400000]
  /\ map (fun p => getProjectMonthlyCost sampleNow p sampleEmployees 2025 3)
       projects' = [0].
Proof. vm_compute. repeat split. Qed.

(* ===================================================================== *)
(** ** Recording hours *)
(* ===================================================================== *)

Lemma findIndex_ge {A : Type} (f : A -> bool) (l : list A) :
  -1 <= findIndex f l.
Proof.
  induction l as [|x l IH]; cbn [findIndex]; [lia|].
  destruct (f x); [lia|]. destruct (Z.ltb_spec (findIndex f l) 0); lia.
Qed.

Lemma sameLog_key (log l : WorkLog) :
  AppContext.sameLog log l = true <-> logKey l = logKey log.
Proof.
  unfold AppContext.sameLog, logKey.
  rewrite !andb_true_iff, !String.eqb_eq, !bool_decide_eq_true.
  split.
  - intros [[[-> ->] ->] ->]. reflexivity.
  - intros [= -> -> -> ->]. repeat split.
Qed.

(** [updateWorkLog], entry by entry: the first entry of the same key takes
    the new hours; without one, the log is appended under a new id. *)
Lemma updateWorkLog_cons (x : WorkLog) (workLogs : list WorkLog)
  (log : WorkLog) (newId : string) :
  AppContext.updateWorkLog (x :: workLogs) log newId
  = if AppContext.sameLog log x
    then withActualHours x (actualHours log) :: workLogs
    else x :: AppContext.updateWorkLog workLogs log newId.
Proof.
  unfold AppContext.updateWorkLog. cbn [findIndex].
  destruct (AppContext.sameLog log x); [reflexivity|].
  pose proof (findIndex_ge (AppContext.sameLog log) workLogs) as Hge.
  destruct (Z.ltb_spec (findIndex (AppContext.sameLog log) workLogs) 0)
    as [Hlt|Hle].
  - destruct (Z.geb_spec (findIndex (AppContext.sameLog log) workLogs) 0);
      [lia|]. reflexivity.
  - destruct (Z.geb_spec (findIndex (AppContext.sameLog log) workLogs) 0);
      [|lia].
    destruct (Z.geb_spec (findIndex (AppContext.sameLog log) workLogs + 1) 0);
      [|lia].
    rewrite Z2Nat.inj_add by lia.
    rewrite Nat.add_comm. reflexivity.
Qed.

Lemma updateWorkLog_nil (log : WorkLog) (newId : string) :
  AppContext.updateWorkLog [] log newId = [withLogId log newId].
Proof. reflexivity. Qed.

(** X19: recording hours is an update or an insertion.  When no two work
    logs share project, task, employee and week, [updateWorkLog] keeps it
    so; afterwards a log of the given key exists and every log of that key
    carries the given hours; the logs of the other keys are untouched, in
    their order; and the number of logs grows by one exactly when no log of
    the key existed. *)
Theorem updateWorkLog_upsert (workLogs : list WorkLog) (log : WorkLog)
  (newId : string) :
  NoDup (map logKey workLogs) ->
  let logs' := AppContext.updateWorkLog workLogs log newId in
  NoDup (map logKey logs')
  /\ (exists l, l ∈ logs' /\ logKey l = logKey log)
  /\ (forall l, l ∈ logs' -> logKey l = logKey log ->
        actualHours l = actualHours log)
  /\ List.filter (fun l => negb (AppContext.sameLog log l)) logs'
     = List.filter (fun l => negb (AppContext.sameLog log l)) workLogs
  /\ length logs'
     = (if existsb (AppContext.sameLog log) workLogs
        then length workLogs else S (length workLogs)).
Proof.
  intros Hnd logs'. unfold logs'. clear logs'.
  assert (Hkeys : map logKey (AppContext.updateWorkLog workLogs log newId)
                  = map logKey workLogs
                  \/ (map logKey (AppContext.updateWorkLog workLogs log newId)
                      = map logKey workLogs ++ [logKey log]
                      /\ logKey log ∉ map logKey workLogs)).
  { clear Hnd. induction workLogs as [|x l IH].
    - right. split; [reflexivity|]. apply not_elem_of_nil.
    - rewrite updateWorkLog_cons.
      destruct (AppContext.sameLog log x) eqn:E; [left; reflexivity|].
      cbn [map]. destruct IH as [->|[-> Hnot]]; [left; reflexivity|].
      right. split; [reflexivity|].
      intros Hin. apply elem_of_cons in Hin as [Hx|Hin]; [|auto].
      symmetry in Hx. apply sameLog_key in Hx. congruence. }
  split; [|split; [|split; [|split]]].
  - destruct Hkeys as [->|[-> Hnot]]; [exact Hnd|].
    apply NoDup_app. split; [exact Hnd|]. split.
    + intros k Hk Hk'. apply list_elem_of_singleton in Hk'. subst k. auto.
    + apply NoDup_singleton.
  - clear Hnd Hkeys. induction workLogs as [|x l IH].
    + exists (withLogId log newId). split; [left|reflexivity].
    + rewrite updateWorkLog_cons.
      destruct (AppContext.sameLog log x) eqn:E.
      * exists (withActualHours x (actualHours log)). split; [left|].
        apply sameLog_key in E. exact E.
      * destruct IH as (l0 & Hin & Hk). exists l0. split; [right|]; assumption.
  - clear Hkeys. induction workLogs as [|x l IH]; intros l0 Hin Hk.
    + apply list_elem_of_singleton in Hin. subst l0. reflexivity.
    + rewrite updateWorkLog_cons in Hin. cbn [map] in Hnd.
      apply NoDup_cons in Hnd as [Hx Hnd].
      destruct (AppContext.sameLog log x) eqn:E.
      * apply elem_of_cons in Hin as [->|Hin]; [reflexivity|].
        exfalso. apply Hx. apply sameLog_key in E.
        change (logKey x) with (logKey x). rewrite E, <- Hk.
        apply list_elem_of_fmap_2. exact Hin.
      * apply elem_of_cons in Hin as [->|Hin].
        -- apply sameLog_key in Hk. congruence.
        -- apply (IH Hnd l0 Hin Hk).
  - clear Hnd Hkeys. induction workLogs as [|x l IH].
    + cbn [AppContext.updateWorkLog List.filter].
      rewrite updateWorkLog_nil. cbn [List.filter].
      assert (E : AppContext.sameLog log (withLogId log newId) = true)
        by (apply sameLog_key; reflexivity).
      rewrite E. reflexivity.
    + rewrite updateWorkLog_cons.
      destruct (AppContext.sameLog log x) eqn:E.
      * cbn [List.filter]. rewrite E.
        assert (E' : AppContext.sameLog log
                       (withActualHours x (actualHours log)) = true)
          by (apply sameLog_key; apply sameLog_key in E; exact E).
        rewrite E'. reflexivity.
      * cbn [List.filter]. rewrite E, IH. reflexivity.
  - clear Hnd Hkeys. induction workLogs as [|x l IH]; [reflexivity|].
    rewrite updateWorkLog_cons. cbn [existsb].
    destruct (AppContext.sameLog log x); cbn [orb length]; [reflexivity|].
    rewrite IH. destruct (existsb _ l); reflexivity.
Qed.

(** Over the sample log of 40 hours in the week of 3 February 2025, 32 hours
    recorded for the same week replace the 40; recorded for the week after,
    they are added as a second log. *)
Lemma updateWorkLog_upsert_witness :
  map actualHours
    (AppContext.updateWorkLog sampleWorkLogs
       {| log_id := ""; projectId := "p1"; taskId := None;
          log_employeeId := "e1"; weekStartDate := Some (2025, 2, 3);
          actualHours := 32 |} "l2") = [32%Q]
  /\ map actualHours
       (AppContext.updateWorkLog sampleWorkLogs
          {| log_id := ""; projectId := "p1"; taskId := None;
             log_employeeId := "e1"; weekStartDate := Some (2025, 2, 10);
             actualHours := 32 |} "l2") = [40%Q; 32%Q]
  /\ NoDup (map logKey
              (AppContext.updateWorkLog sampleWorkLogs
                 {| log_id := ""; projectId := "p1"; taskId := None;
                    log_employeeId := "e1";
                    weekStartDate := Some (2025, 2, 10);
                    actualHours := 32 |} "l2")).
Proof.
  split; [vm_compute; reflexivity|]. split; [vm_compute; reflexivity|].
  apply (updateWorkLog_upsert sampleWorkLogs _ "l2").
  apply NoDup_cons. split; [apply not_elem_of_nil|apply NoDup_nil_2].
Defined.

(* ===================================================================== *)
(** ** The cash received for a flow fee *)
(* ===================================================================== *)

(** The cash received from a project with a flow fee only, month by
    month. *)
Lemma projectCashIn_flow (now : Date) (p : Project) (s e : DateStr) (k : Z) :
  useFlow p = true ->
  flowStartDate p = Some s ->
  flowEndDate p = Some e ->
  (useStock p && truthy (stockStartDate p)) || useTimeCharge p = false ->
  let fee := inject_Z (flowAmount p) in
  let r := or_defaultQ (flowStartRatio (billingConfig p)) 0 in
  let received :=
    if (monthIndex (flowStartPayDate now p) =? k)
       && flowSplit (billingConfig p)
    then fadd 0 (fmul fee (fdiv r 100)) else 0%Q in
  projectCashIn now p k
  = if monthIndex (flowEndPayDate now p) =? k
    then fadd received
           (if flowSplit (billingConfig p)
            then fmul fee (fdiv (fsub 100 r) 100) else fee)
    else received.
Proof.
  intros Hf Hs He Hflow.
  unfold projectCashIn, cashInStep, flowStartPayDate, flowEndPayDate.
  rewrite Hf, Hflow. cbv zeta. rewrite Hs, He. cbn [truthy].
  rewrite !same_month_index.
  destruct (_ =? k), (_ =? k), (flowSplit (billingConfig p)); reflexivity.
Qed.

(** The rounding of the two parts of a split fee: five roundings, of the
    two ratios, of the difference from 100 and of the two products, each
    within the relative error [u] and the absolute error [s] of a
    double. *)
Lemma split_rounding_budget (F r q1 d q2 P1 P2 u s : Q) :
  (0 <= F)%Q -> (0 <= r <= 100)%Q ->
  (0 <= s)%Q -> (3 * s <= u)%Q ->
  (0 <= q1 <= 1)%Q -> (0 <= d <= 100)%Q -> (0 <= q2 <= 1)%Q ->
  (Qabs (q1 - r / 100) <= Qabs (r / 100) * u + s)%Q ->
  (Qabs (P1 - F * q1) <= Qabs (F * q1) * u + s)%Q ->
  (Qabs (d - (100 - r)) <= Qabs (100 - r) * u + s)%Q ->
  (Qabs (q2 - d / 100) <= Qabs (d / 100) * u + s)%Q ->
  (Qabs (P2 - F * q2) <= Qabs (F * q2) * u + s)%Q ->
  (Qabs (P1 + P2 - F) <= (F + 1) * (6 * u))%Q.
Proof.
  intros HF [Hr0 Hr1] Hs Hsu [Hq10 Hq11] [Hd0 Hd1] [Hq20 Hq21]
    E3 E1 E5 E4 E2.
  assert (Hd100 : (d / 100 == d * (1 # 100))%Q) by (unfold Qdiv; reflexivity).
  assert (Hr100 : (r / 100 == r * (1 # 100))%Q) by (unfold Qdiv; reflexivity).
  assert (Hfq1 : (0 <= F * q1)%Q) by (apply Qmult_le_0_compat; assumption).
  assert (Hfq2 : (0 <= F * q2)%Q) by (apply Qmult_le_0_compat; assumption).
  rewrite (Qabs_pos (r / 100)) in E3 by (rewrite Hr100; lra).
  rewrite (Qabs_pos (F * q1)) in E1 by assumption.
  rewrite (Qabs_pos (F * q2)) in E2 by assumption.
  rewrite (Qabs_pos (100 - r)) in E5 by lra.
  rewrite (Qabs_pos (d / 100)) in E4 by (rewrite Hd100; lra).
  rewrite Hd100 in E4. rewrite Hr100 in E3.
  apply Qabs_Qle_condition in E1, E2, E3, E4, E5.
  apply Qabs_Qle_condition.
  set (a := (r * (1 # 100))%Q) in *.
  assert (Ha : (a == r * (1 # 100))%Q) by reflexivity. clearbody a.
  set (dd := (d * (1 # 100))%Q) in *.
  assert (Hdd : (dd == d * (1 # 100))%Q) by reflexivity. clearbody dd.
  assert (Hu : (0 <= u)%Q) by lra.
  set (x1 := (F * q1)%Q) in *. set (x2 := (F * q2)%Q) in *.
  assert (Hx1 : (x1 <= F)%Q) by (unfold x1; nra).
  assert (Hx2 : (x2 <= F)%Q) by (unfold x2; nra).
  assert (Hx1u : (x1 * u <= F * u)%Q) by nra.
  assert (Hx2u : (x2 * u <= F * u)%Q) by nra.
  set (e3 := (q1 - a)%Q) in *. set (e4 := (q2 - dd)%Q) in *.
  set (e5 := (dd - (1 - a))%Q).
  assert (He3 : (- (u + s) <= e3 <= u + s)%Q) by (unfold e3 in *; nra).
  assert (He4 : (- (u + s) <= e4 <= u + s)%Q) by (unfold e4 in *; nra).
  assert (He5 : (- (u + s) <= e5 <= u + s)%Q) by (unfold e5; nra).
  assert (Hsum : (x1 + x2 == F + F * e3 + F * e4 + F * e5)%Q)
    by (unfold x1, x2, e3, e4, e5; ring).
  assert (Fe3 : (- (F * (u + s)) <= F * e3 <= F * (u + s))%Q) by nra.
  assert (Fe4 : (- (F * (u + s)) <= F * e4 <= F * (u + s))%Q) by nra.
  assert (Fe5 : (- (F * (u + s)) <= F * e5 <= F * (u + s))%Q) by nra.
  set (y3 := (F * e3)%Q) in *. set (y4 := (F * e4)%Q) in *.
  set (y5 := (F * e5)%Q) in *.
  set (fu := (F * u)%Q) in *.
  assert (Hfs : (0 <= F * s)%Q) by (apply Qmult_le_0_compat; assumption).
  assert (Hfus : (F * (u + s) == fu + F * s)%Q) by (unfold fu; ring).
  rewrite Hfus in Fe3, Fe4, Fe5.
  assert (Hfs3 : (3 * (F * s) <= fu)%Q) by (unfold fu; nra).
  assert (Hgoal : ((F + 1) * (6 * u) == 6 * fu + 6 * u)%Q)
    by (unfold fu; ring).
  rewrite Hgoal.
  set (fs := (F * s)%Q) in *.
  clearbody x1 x2 y3 y4 y5 fu fs e3 e4.
  lra.
Qed.

(** X20: the flow fee is received once.  For a project with a flow fee
    only, both flow dates, a fee that is not negative and that a double
    holds exactly and a start ratio within [0,100], whatever the revenue
    method: the cash that [generateProjections] adds for it before tax in a
    month is nothing outside the months of its two payment dates; without
    split billing it is the fee, in the month of the end payment date; under
    split billing it is the start part in the month of the start payment
    date and the end part in that of the end payment date (their sum as
    doubles when the two months are one).  Each part is rounded as a double
    and lies between 0 and the fee, and the two parts add up to the fee but
    for the rounding, which is within six parts in 2^53 of the fee plus
    one. *)
Theorem flow_fee_received_once (now : Date) (p : Project) (s e : DateStr)
  (k : Z) :
  useFlow p = true ->
  flowStartDate p = Some s ->
  flowEndDate p = Some e ->
  (useStock p && truthy (stockStartDate p)) || useTimeCharge p = false ->
  0 <= flowAmount p <= Number_MAX_SAFE_INTEGER ->
  (0 <= or_defaultQ (flowStartRatio (billingConfig p)) 0 <= 100)%Q ->
  let fee := inject_Z (flowAmount p) in
  let r := or_defaultQ (flowStartRatio (billingConfig p)) 0 in
  let startPart := fmul fee (fdiv r 100) in
  let endPart := fmul fee (fdiv (fsub 100 r) 100) in
  let startMonth := monthIndex (flowStartPayDate now p) in
  let endMonth := monthIndex (flowEndPayDate now p) in
  (k <> startMonth -> k <> endMonth -> projectCashIn now p k = 0%Q)
  /\ (flowSplit (billingConfig p) = false ->
      projectCashIn now p k = if endMonth =? k then fee else 0%Q)
  /\ (flowSplit (billingConfig p) = true ->
      projectCashIn now p k
      = if startMonth =? k
        then (if endMonth =? k then fadd startPart endPart else startPart)
        else (if endMonth =? k then endPart else 0%Q))
  /\ (0 <= startPart <= fee)%Q
  /\ (0 <= endPart <= fee)%Q
  /\ (Qabs (startPart + endPart - fee) <= (fee + 1) * (6 # 2 ^ 53))%Q.
Proof.
  intros Hf Hs He Hflow Hfee Hr fee r startPart endPart startMonth endMonth.
  pose proof (projectCashIn_flow now p s e k Hf Hs He Hflow) as Hk.
  cbv zeta in Hk. fold fee r startPart endPart startMonth endMonth in Hk.
  assert (Hstart : fadd 0 startPart = startPart) by apply fadd_0_l.
  assert (Hend : fadd 0 endPart = endPart) by apply fadd_0_l.
  assert (Hwhole : fadd 0 fee = fee).
  { unfold fee. rewrite <- (round64_Z (flowAmount p)) at 1
      by (unfold Number_MAX_SAFE_INTEGER in Hfee; lia).
    rewrite fadd_0_l. apply round64_Z.
    unfold Number_MAX_SAFE_INTEGER in Hfee. lia. }
  destruct (percentage_share r Hr) as [Hq1 Hq2].
  fold r in Hr.
  split; [|split; [|split; [|split; [|split]]]].
  - intros H1 H2. rewrite Hk.
    destruct (Z.eqb_spec startMonth k); [congruence|].
    destruct (Z.eqb_spec endMonth k); [congruence|]. reflexivity.
  - intros Hsplit. rewrite Hk, Hsplit, andb_false_r.
    destruct (endMonth =? k); [exact Hwhole|reflexivity].
  - intros Hsplit. rewrite Hk, Hsplit, andb_true_r.
    destruct (startMonth =? k), (endMonth =? k); rewrite ?Hstart;
      try reflexivity. exact Hend.
  - apply fmul_share; assumption.
  - apply fmul_share; assumption.
  - apply (Qle_trans _ ((fee + 1) * (6 * (1 # 2 ^ 53)))%Q);
      [|apply Qle_lteq; right; apply Qmult_comp;
        [reflexivity|vm_compute; reflexivity]].
    apply (split_rounding_budget fee r (fdiv r 100) (fsub 100 r)
             (fdiv (fsub 100 r) 100) startPart endPart (1 # 2 ^ 53)
             (2 ^ (-1075))).
    + apply inject_Z_nonneg. lia.
    + exact Hr.
    + vm_compute. discriminate.
    + vm_compute. discriminate.
    + exact Hq1.
    + split; [apply round64_nonneg; lra|].
      apply (round64_le_Z _ 100); [vm_compute; split; [discriminate|reflexivity]|].
      change (inject_Z 100) with 100%Q. lra.
    + exact Hq2.
    + apply round64_error.
    + apply round64_error.
    + apply round64_error.
    + apply round64_error.
    + apply round64_error.
Qed.

(** 1,000,001 split at 33.5%, from January to June 2025 and paid at the end
    of the following months: the doubles nearest to 335,000.335 and to
    665,000.665 are received in February and in July, nothing in March. *)
Lemma flow_fee_received_once_witness :
  let p := sampleFlowProject Ordered (Some Duration) 1000001
             (Some (2025, 1, 1)) (Some (2025, 6, 30))
             (sampleBilling true (Some (67 # 2))) [] in
  projectCashIn sampleNow p (2025 * 12 + 1) = round64 (335000335 # 1000)
  /\ projectCashIn sampleNow p (2025 * 12 + 6) = round64 (665000665 # 1000)
  /\ projectCashIn sampleNow p (2025 * 12 + 2) = 0%Q.
Proof.
  intros p.
  split; [vm_compute; reflexivity|]. split; [vm_compute; reflexivity|].
  destruct (flow_fee_received_once sampleNow p (2025, 1, 1) (2025, 6, 30)
              (2025 * 12 + 2) eq_refl eq_refl eq_refl eq_refl)
    as (H & _).
  - vm_compute. split; discriminate.
  - vm_compute. split; discriminate.
  - apply H; vm_compute; discriminate.
Defined.

(** 123,456 split at 3%: the two parts, 3,703.68 and 119,752.32 as doubles,
    add up to the double just below 123,456. *)
Example flow_fee_split_rounding :
  let startPart := fmul 123456 (fdiv 3 100) in
  let endPart := fmul 123456 (fdiv (fsub 100 3) 100) in
  startPart = round64 (370368 # 100)
  /\ fadd startPart endPart = (123456 - (1 # 2 ^ 36))%Q
  /\ Math_floor (fmul (fadd startPart endPart) (round64 (11 # 10))) = 135801.
Proof. vm_compute. repeat split; reflexivity. Qed.

(* ===================================================================== *)
(** ** Time-charge amounts *)
(* ===================================================================== *)

(** X21: a time-charge amount is the revenue of its month.  After the
    amount of a month is entered in the grid of a project that uses time
    charge, the time-charge part of [getMonthlyRevenue] for that month is
    the amount entered (nothing for an amount of 0, which removes the
    entry); the part of every other month and the flow and stock parts of
    every month are as before. *)
Theorem time_charge_round_trip (now : Date) (form : Project)
  (year month val year' month' : Z) :
  useTimeCharge form = true ->
  0 <= month < 12 ->
  0 <= month' < 12 ->
  let edited := setTimeChargePrice form year month val in
  timeChargeOf edited year month = val
  /\ ((year', month') <> (year, month) ->
      timeChargeOf edited year' month' = timeChargeOf form year' month')
  /\ flowRevenueOf now edited year' month'
     = flowRevenueOf now form year' month'
  /\ stockRevenueOf now edited year' month'
     = stockRevenueOf now form year' month'
  /\ getMonthlyRevenue now edited (firstOfMonth (year * 12 + month))
     = getMonthlyRevenue now form (firstOfMonth (year * 12 + month))
       - timeChargeOf form year month + val.
Proof.
  intros Htc Hm Hm' edited.
  assert (H1 : timeChargeOf edited year month = val).
  { unfold edited, timeChargeOf, setTimeChargePrice, withTimeChargePrices.
    cbn [timeChargePrices useTimeCharge]. rewrite Htc.
    destruct (Z.eqb_spec val 0) as [->|Hv].
    - rewrite lookup_delete_eq. reflexivity.
    - rewrite lookup_insert_eq. reflexivity. }
  assert (H3 : forall y m, flowRevenueOf now edited y m
                           = flowRevenueOf now form y m) by reflexivity.
  assert (H4 : forall y m, stockRevenueOf now edited y m
                           = stockRevenueOf now form y m) by reflexivity.
  split; [exact H1|]. split; [|split; [apply H3|split; [apply H4|]]].
  - intros Hne.
    assert (Hk : monthKey year month <> monthKey year' month').
    { intros Hk. apply monthKey_inj in Hk; [|assumption..].
      destruct Hk as [-> ->]. apply Hne. reflexivity. }
    unfold edited, timeChargeOf, setTimeChargePrice, withTimeChargePrices.
    cbn [timeChargePrices useTimeCharge]. rewrite Htc.
    destruct (Z.eqb_spec val 0) as [->|Hv].
    + rewrite lookup_delete_ne by exact Hk.
      destruct (timeChargePrices form); [reflexivity|].
      cbn [default]. rewrite lookup_empty. reflexivity.
    + rewrite lookup_insert_ne by exact Hk.
      destruct (timeChargePrices form); [reflexivity|].
      cbn [default]. rewrite lookup_empty. reflexivity.
  - unfold getMonthlyRevenue.
    assert (Hy : getFullYear (firstOfMonth (year * 12 + month)) = year)
      by (unfold getFullYear, firstOfMonth; cbn [monthIndex];
          Z.div_mod_to_equations; lia).
    assert (Hmo : getMonth (firstOfMonth (year * 12 + month)) = month)
      by (unfold getMonth, firstOfMonth; cbn [monthIndex];
          Z.div_mod_to_equations; lia).
    rewrite Hy, Hmo, H1, H3, H4. lia.
Qed.

(** A time-charge project with 300,000 entered for March 2025 and then
    120,000 for April: March keeps its 300,000. *)
Lemma time_charge_round_trip_witness :
  let form :=
    {| proj_id := "p3"; clientName := "client"; projectName := "hours";
       projectType := Consulting; status := Ordered;
       leadSourceCategory := None; leadSourceDetail := None;
       useFlow := false; useStock := false; useTimeCharge := true;
       revenueMethod := None; flowAmount := 0; flowStartDate := None;
       flowEndDate := None; stockAmount := 0; stockStartDate := None;
       timeChargePrices := None; projectTasks := [];
       billingConfig := sampleBilling false None; assignments := [];
       isArchived := false |} in
  let edited :=
    setTimeChargePrice (setTimeChargePrice form 2025 2 300000) 2025 3 120000
  in
  getMonthlyRevenue sampleNow edited (firstOfMonth (2025 * 12 + 3)) = 120000
  /\ timeChargeOf edited 2025 2 = 300000.
Proof.
  intros form edited.
  destruct (time_charge_round_trip sampleNow
              (setTimeChargePrice form 2025 2 300000) 2025 3 120000 2025 2
              eq_refl ltac:(lia) ltac:(lia)) as (_ & H2 & _ & _ & H5).
  split.
  - unfold edited. rewrite H5. vm_compute. reflexivity.
  - unfold edited. rewrite H2; [vm_compute; reflexivity|].
    intros H. discriminate H.
Defined.

(* ===================================================================== *)
(** ** The sign of the labor cost *)
(* ===================================================================== *)

Lemma findEmployee_elem (employees : list Employee) (id : string)
  (e : Employee) :
  findEmployee employees id = Some e -> e ∈ employees.
Proof.
  unfold findEmployee.
  induction employees as [|x l IH]; cbn [List.find]; [discriminate|].
  destruct (String.eqb (emp_id x) id).
  - intros [= ->]. left.
  - intros H. right. apply IH. exact H.
Qed.

Lemma getEmployeeMonthlyData_cost_nonneg (e : Employee) (year month : Z) :
  nonNegativeEmployee e ->
  0 <= md_cost (getEmployeeMonthlyData e year month).
Proof.
  intros [Hd Ho]. unfold getEmployeeMonthlyData. cbn [md_cost].
  destruct (monthlyData e !! monthKey year month) as [d|] eqn:E;
    [apply (Ho _ _ E)|exact Hd].
Qed.

Lemma Math_floor_nonneg (x : Q) : (0 <= x)%Q -> 0 <= Math_floor x.
Proof.
  intros H. unfold Math_floor. rewrite <- (Qfloor_Z 0).
  apply Qfloor_resp_le. exact H.
Qed.

Lemma addAssignmentCost_nonneg (employees : list Employee) (year month : Z)
  (l : list Assignment) :
  Forall nonNegativeEmployee employees ->
  Forall (fun a => (0 <= utilizationRate a)%Q) l ->
  forall acc : Q, (0 <= acc)%Q ->
  (0 <= fold_left (addAssignmentCost employees year month) l acc)%Q.
Proof.
  intros He. induction 1 as [|a l Ha _ IH]; intros acc Hacc;
    cbn [fold_left]; [exact Hacc|].
  apply IH. unfold addAssignmentCost.
  destruct (findEmployee employees (employeeId a)) as [emp|] eqn:E;
    [|exact Hacc].
  apply findEmployee_elem in E. rewrite Forall_forall in He.
  pose proof (getEmployeeMonthlyData_cost_nonneg emp year month (He _ E))
    as Hc.
  cbv zeta. apply fadd_nonneg; [exact Hacc|].
  apply fmul_nonneg; [apply inject_Z_nonneg; exact Hc|].
  apply fdiv_nonneg; [exact Ha|reflexivity].
Qed.

Lemma addLogCost_nonneg (employees : list Employee) (year month : Z)
  (l : list WorkLog) :
  Forall nonNegativeEmployee employees ->
  Forall (fun log => (0 <= actualHours log)%Q) l ->
  forall acc : Q, (0 <= acc)%Q ->
  (0 <= fold_left (addLogCost employees year month) l acc)%Q.
Proof.
  intros He. induction 1 as [|log l Hl _ IH]; intros acc Hacc;
    cbn [fold_left]; [exact Hacc|].
  apply IH. unfold addLogCost.
  destruct (findEmployee employees (log_employeeId log)) as [emp|] eqn:E;
    [|exact Hacc].
  apply findEmployee_elem in E. rewrite Forall_forall in He.
  pose proof (getEmployeeMonthlyData_cost_nonneg emp year month (He _ E))
    as Hc.
  cbv zeta.
  set (md := getEmployeeMonthlyData emp year month) in *.
  apply fadd_nonneg; [exact Hacc|]. apply fmul_nonneg; [exact Hl|].
  destruct (Qgtb (md_monthlyHours md) 0) eqn:Eh; [|apply Qle_refl].
  apply Qgtb_true_iff in Eh.
  apply fdiv_nonneg; [apply inject_Z_nonneg; exact Hc|exact Eh].
Qed.

Lemma Forall_filter_list {A : Type} (P : A -> Prop) (f : A -> bool)
  (l : list A) : Forall P l -> Forall P (List.filter f l).
Proof.
  induction 1 as [|x l Hx _ IH]; cbn [List.filter]; [constructor|].
  destruct (f x); [constructor; assumption|exact IH].
Qed.

(** X22: the labor cost is never negative.  With monthly costs, utilization
    rates and logged hours that are not negative, the planned and the actual
    cost of a project are not negative in any month (the hours of an
    employee whose monthly hours are not positive are costed at 0, not
    divided by them), and neither is the labor paid in any record of
    [generateProjections]. *)
Theorem labor_cost_never_negative (now : Date) (projects : list Project)
  (employees : list Employee) (workLogs : list WorkLog) (termStart : Date)
  (settings : AppSettings) (i : nat) (r : Projection) :
  nonNegativeLabor employees projects workLogs ->
  generateProjections now projects employees workLogs termStart settings
    !! i = Some r ->
  (forall p year month, p ∈ projects ->
     0 <= getProjectMonthlyCost now p employees year month
     /\ 0 <= getProjectActualCost now p employees workLogs year month)
  /\ 0 <= cost r.
Proof.
  intros (He & Ha & Hl) H.
  assert (Hcosts : forall p year month, p ∈ projects ->
            0 <= getProjectMonthlyCost now p employees year month
            /\ 0 <= getProjectActualCost now p employees workLogs year month).
  { intros p year month Hp. rewrite Forall_forall in Ha. split.
    - assert (0 <= Math_floor
                     (fold_left (addAssignmentCost employees year month)
                        (assignments p) 0%Q)).
      { apply Math_floor_nonneg.
        apply addAssignmentCost_nonneg;
          [exact He|apply Ha; exact Hp|apply Qle_refl]. }
      unfold getProjectMonthlyCost. cbv zeta.
      repeat match goal with |- context [if ?b then _ else _] =>
        destruct b end; lia.
    - unfold getProjectActualCost. cbv zeta. apply Math_floor_nonneg.
      apply addLogCost_nonneg;
        [exact He|apply Forall_filter_list; exact Hl|apply Qle_refl]. }
  split; [exact Hcosts|].
  destruct (projectionLoop_lookup _ _ _ _ _ _ _ _ _ _ H)
    as (c & j & _ & ->).
  cbn [cost monthProjection]. unfold monthPaidCost. cbv zeta.
  rewrite fold_left_add_sumZ, Z.add_0_l.
  apply sumZ_map_nonneg. apply Forall_forall. intros p Hp.
  unfold projectLaborCost.
  destruct (Date_ltb _ _); apply Hcosts; exact Hp.
Qed.

(** The labor paid in July 2025 in the sample data set, the planned cost of
    June. *)
Lemma labor_cost_never_negative_witness :
  exists r,
    generateProjections sampleNow sampleProjects sampleEmployees
      sampleWorkLogs sampleTermStart sampleLedger !! 7%nat = Some r
    /\ 0 <= cost r /\ cost r = 400000.
Proof.
  destruct (generateProjections sampleNow sampleProjects sampleEmployees
              sampleWorkLogs sampleTermStart sampleLedger !! 7%nat)
    as [r|] eqn:E; [|vm_compute in E; discriminate].
  exists r. split; [reflexivity|]. split.
  - apply (labor_cost_never_negative sampleNow sampleProjects
             sampleEmployees sampleWorkLogs sampleTermStart sampleLedger 7 r);
      [|exact E].
    split; [|split].
    + repeat constructor; vm_compute; discriminate.
    + repeat constructor; vm_compute; discriminate.
    + repeat constructor; vm_compute; discriminate.
  - vm_compute in E. injection E as <-. reflexivity.
Defined.

(** The products are rounded before the sum is floored: an employee who
    costs 400,000 a month is planned at 231,999 for 58% of the time, and 168
    hours of an employee who costs 800,000 for 168 hours a month are costed
    at 799,999. *)
Example labor_cost_rounding :
  Math_floor
    (addAssignmentCost [sampleEmployee "e1" 400000] 2025 3 0%Q
       {| employeeId := "e1"; utilizationRate := 58 |}) = 231999
  /\ Math_floor
       (addLogCost
          [ {| emp_id := "e2"; emp_name := "employee";
               contractType := FullTime; defaultMonthlyCost := 800000;
               defaultMonthlyHours := 168; monthlyData := ∅ |} ]
          2025 1 0%Q
          {| log_id := "l3"; projectId := "p1"; taskId := None;
             log_employeeId := "e2"; weekStartDate := Some (2025, 2, 3);
             actualHours := 168 |}) = 799999.
Proof. vm_compute. split; reflexivity. Qed.

(* ===================================================================== *)
(** ** The number input *)
(* ===================================================================== *)

Lemma filter_isDigit_digits (l : list CodeUnit) :
  Forall (fun c => isDigit c = true) (List.filter isDigit l).
Proof.
  induction l as [|c l IH]; cbn [List.filter]; [constructor|].
  destruct (isDigit c) eqn:E; [constructor; assumption|exact IH].
Qed.

(** Taking the commas out of the formatted string gives back the digits. *)
Lemma filter_isDigit_addCommas (l : list CodeUnit) :
  Forall (fun c => isDigit c = true) l ->
  List.filter isDigit (addCommas l) = l.
Proof.
  induction 1 as [|c l Hc _ IH]; cbn [addCommas]; [reflexivity|].
  cbv zeta. destruct (_ && _); cbn [List.filter]; rewrite Hc;
    [change (isDigit comma) with false; cbv iota|]; rewrite IH; reflexivity.
Qed.

Lemma addCommas_units (l : list CodeUnit) :
  Forall (fun c => isDigit c = true) l ->
  Forall (fun c => isDigit c = true \/ c = comma) (addCommas l).
Proof.
  induction 1 as [|c l Hc _ IH]; cbn [addCommas]; [constructor|].
  cbv zeta. destruct (_ && _).
  - constructor; [left; exact Hc|]. constructor; [right; reflexivity|].
    exact IH.
  - constructor; [left; exact Hc|exact IH].
Qed.

(** A string of [n > 0] digits is formatted with [(n - 1) / 3] commas. *)
Lemma addCommas_length (l : list CodeUnit) :
  let n := Z.of_nat (length l) in
  Z.of_nat (length (addCommas l)) = if n =? 0 then 0 else n + (n - 1) / 3.
Proof.
  induction l as [|c l IH]; [reflexivity|].
  cbv zeta in *. cbn [addCommas]. cbv zeta.
  set (m := Z.of_nat (length l)) in *.
  assert (Hm : 0 <= m) by (unfold m; lia).
  replace (Z.of_nat (length (c :: l))) with (m + 1)
    by (cbn [length]; unfold m; lia).
  destruct (Z.eqb_spec (m + 1) 0); [lia|].
  destruct (Z.ltb_spec 0 m), (Z.eqb_spec (m mod 3) 0); cbn [andb length];
    rewrite ?Nat2Z.inj_succ, IH;
    destruct (Z.eqb_spec m 0); try lia;
    Z.div_mod_to_equations; lia.
Qed.

Lemma decimalValue_nonneg (l : list CodeUnit) :
  Forall (fun c => isDigit c = true) l -> 0 <= decimalValue l.
Proof.
  intros H. unfold decimalValue.
  assert (Hacc : forall acc, 0 <= acc ->
            0 <= fold_left (fun acc c => acc * 10 + (c - 48)) l acc);
    [|apply Hacc; lia].
  induction H as [|c l Hc _ IH]; intros acc Hacc; cbn [fold_left];
    [exact Hacc|].
  apply IH. unfold isDigit in Hc.
  apply andb_true_iff in Hc as [H1 H2]. lia.
Qed.

Lemma Number_of_digits_nonneg (l : list CodeUnit) :
  Forall (fun c => isDigit c = true) l -> 0 <= Number_of_digits l.
Proof.
  intros H. unfold Number_of_digits. rewrite <- (Qfloor_Z 0).
  apply Qfloor_resp_le. change (inject_Z 0) with 0%Q.
  apply round64_nonneg, inject_Z_nonneg, decimalValue_nonneg. exact H.
Qed.

(** Up to [Number.MAX_SAFE_INTEGER] the number is the decimal value. *)
Lemma Number_of_digits_safe (l : list CodeUnit) :
  0 <= decimalValue l <= Number_MAX_SAFE_INTEGER ->
  Number_of_digits l = decimalValue l.
Proof.
  intros H. unfold Number_of_digits.
  rewrite round64_Z by (unfold Number_MAX_SAFE_INTEGER in H; lia).
  apply Qfloor_Z.
Qed.

(** X23: the number input keeps the digits and nothing else.  Whatever is
    typed or pasted, the text that [processInput] shows holds the digits of
    the input, in order, and commas only; [n > 0] digits are shown with
    [(n - 1) / 3] commas; for an input of at most 308 digits (more can make
    [Infinity]), the number passed to [onChange], when it differs from the
    current value, is what [Number] makes of the digits: never negative, the
    double nearest to their decimal value, and that value itself when it is
    at most [Number.MAX_SAFE_INTEGER]; and processing the text shown again
    changes nothing. *)
Theorem number_input_keeps_digits (value : Z) (rawVal : list CodeUnit)
  (selectionStart selectionStart' : option Z) :
  let out := processInput value rawVal selectionStart in
  let n := countDigits rawVal in
  List.filter isDigit (localVal out) = List.filter isDigit rawVal
  /\ Forall (fun c => isDigit c = true \/ c = comma) (localVal out)
  /\ Z.of_nat (length (localVal out))
     = (if n =? 0 then 0 else n + (n - 1) / 3)
  /\ (forall numVal, n <= 308 -> changed out = Some numVal ->
        0 <= numVal /\ numVal <> value
        /\ numVal = Number_of_digits (List.filter isDigit rawVal)
        /\ (decimalValue (List.filter isDigit rawVal)
            <= Number_MAX_SAFE_INTEGER ->
            numVal = decimalValue (List.filter isDigit rawVal)))
  /\ localVal (processInput value (localVal out) selectionStart')
     = localVal out
  /\ changed (processInput value (localVal out) selectionStart')
     = changed out.
Proof.
  intros out n.
  pose proof (filter_isDigit_digits rawVal) as Hd.
  assert (Hval : localVal out = addCommas (List.filter isDigit rawVal)).
  { unfold out, processInput. cbv zeta.
    destruct (scanCursor _ _ _ _). reflexivity. }
  assert (Hch : forall v raw sel,
            changed (processInput v raw sel)
            = (if match List.filter isDigit raw with
                  | [] => 0
                  | _ => Number_of_digits (List.filter isDigit raw)
                  end =? v
               then None
               else Some match List.filter isDigit raw with
                         | [] => 0
                         | _ => Number_of_digits (List.filter isDigit raw)
                         end)).
  { intros v raw sel. unfold processInput. cbv zeta.
    destruct (scanCursor _ _ _ _). reflexivity. }
  assert (Hval' : forall v raw sel,
            localVal (processInput v raw sel)
            = addCommas (List.filter isDigit raw)).
  { intros v raw sel. unfold processInput. cbv zeta.
    destruct (scanCursor _ _ _ _). reflexivity. }
  assert (Hfilter : List.filter isDigit (localVal out)
                    = List.filter isDigit rawVal)
    by (rewrite Hval; apply filter_isDigit_addCommas; exact Hd).
  split; [exact Hfilter|]. split.
  { rewrite Hval. apply addCommas_units. exact Hd. }
  split.
  { rewrite Hval. apply (addCommas_length (List.filter isDigit rawVal)). }
  split.
  { intros numVal _. unfold out. rewrite Hch.
    assert (Hnum : match List.filter isDigit rawVal with
                   | [] => 0
                   | _ => Number_of_digits (List.filter isDigit rawVal)
                   end = Number_of_digits (List.filter isDigit rawVal))
      by (destruct (List.filter isDigit rawVal); reflexivity).
    rewrite Hnum.
    destruct (Z.eqb_spec (Number_of_digits (List.filter isDigit rawVal))
                value) as [|Hne]; [discriminate|].
    intros [= <-]. split; [|split; [exact Hne|split; [reflexivity|]]].
    - apply Number_of_digits_nonneg. exact Hd.
    - intros Hsafe. apply Number_of_digits_safe.
      split; [apply decimalValue_nonneg; exact Hd|exact Hsafe]. }
  split.
  { rewrite Hval', Hfilter, Hval. reflexivity. }
  unfold out at 2. rewrite !Hch, Hfilter. reflexivity.
Qed.

(** Typing a full-width yen sign, a minus sign and the digits 1234567 while
    the value is 0 shows 1,234,567 and passes 1234567 on. *)
Example number_input_sample :
  processInput 0 [65509; 45; 49; 50; 51; 52; 53; 54; 55] (Some 9)
  = {| localVal := [49; comma; 50; 51; 52; comma; 53; 54; 55];
       cursor := 9; changed := Some 1234567 |}.
Proof. vm_compute. reflexivity. Qed.

(** Beyond [Number.MAX_SAFE_INTEGER] the digits shown and the number passed
    on part: 9007199254740993 is passed on as 9007199254740992. *)
Example number_input_beyond_safe :
  let digits := [57; 48; 48; 55; 49; 57; 57; 50; 53; 52; 55; 52; 48; 57; 57;
                 51] in
  decimalValue digits = 9007199254740993
  /\ changed (processInput 0 digits (Some 16)) = Some 9007199254740992.
Proof. vm_compute. split; reflexivity. Qed.

Lemma digitsBeforeCursor_fold (rawVal : list CodeUnit) (k : nat) :
  fold_left (fun n i => if digitAt rawVal i then n + 1 else n)
    (seqZ 0 (Z.of_nat k)) 0
  = digitsBefore rawVal (Z.of_nat k).
Proof.
  unfold digitsBefore, countDigits. rewrite Nat2Z.id.
  induction k as [|k IH].
  - reflexivity.
  - rewrite seqZ_S, fold_left_app, IH. cbn [fold_left].
    unfold digitAt. rewrite Z.add_0_l, Nat2Z.id.
    destruct (rawVal !! k) as [c|] eqn:E.
    + rewrite (take_S_r _ _ _ E), List.filter_app, length_app.
      cbn [List.filter]. destruct (isDigit c); cbn [length]; lia.
    + apply lookup_ge_None in E.
      rewrite !take_ge by lia. reflexivity.
Qed.

Lemma countDigits_take_le (l : list CodeUnit) (k : nat) :
  countDigits (take k l) <= countDigits l.
Proof.
  unfold countDigits. rewrite <- (take_drop k l) at 2.
  rewrite List.filter_app, length_app. lia.
Qed.

Lemma scanCursor_seen (formatted : list CodeUnit) :
  forall i seen d, seen <= snd (scanCursor formatted i seen d).
Proof.
  induction formatted as [|c l IH]; intros i seen d; cbn [scanCursor snd];
    [lia|].
  cbv zeta. destruct (isDigit c).
  - destruct (Z.eqb_spec (seen + 1) d); cbn [snd]; [lia|].
    specialize (IH (i + 1) (seen + 1) d). lia.
  - destruct (Z.eqb_spec seen d); cbn [snd]; [lia|]. apply IH.
Qed.

(** The scan stops right after the digit that brings the count to the
    target. *)
Lemma scanCursor_spec (formatted : list CodeUnit) :
  forall i seen d,
  seen < d -> d <= seen + countDigits formatted ->
  exists p : nat,
    (0 < p <= length formatted)%nat
    /\ scanCursor formatted i seen d = (i + Z.of_nat p, d)
    /\ countDigits (take p formatted) = d - seen
    /\ exists c, formatted !! (p - 1)%nat = Some c /\ isDigit c = true.
Proof.
  induction formatted as [|c l IH]; intros i seen d Hlt Hle.
  - unfold countDigits in Hle. cbn in Hle. lia.
  - cbn [scanCursor]. cbv zeta.
    assert (Hcount : countDigits (c :: l)
                     = (if isDigit c then 1 else 0) + countDigits l).
    { unfold countDigits. cbn [List.filter].
      destruct (isDigit c); cbn [length]; lia. }
    destruct (isDigit c) eqn:Ec.
    + destruct (Z.eqb_spec (seen + 1) d) as [Heq|Hne].
      * exists 1%nat. split; [cbn [length]; lia|].
        split; [f_equal; lia|]. split.
        -- unfold countDigits. cbn [take List.filter]. rewrite Ec.
           rewrite take_0. cbn [List.filter length]. lia.
        -- exists c. split; [reflexivity|exact Ec].
      * destruct (IH (i + 1) (seen + 1) d) as (p & Hp & Hs & Hc & c' & Hl & Hd);
          [lia|lia|].
        exists (S p). split; [cbn [length]; lia|].
        split; [rewrite Hs; f_equal; lia|]. split.
        -- unfold countDigits in *. cbn [take List.filter]. rewrite Ec.
           cbn [length]. lia.
        -- exists c'. split; [|exact Hd].
           replace (S p - 1)%nat with (S (p - 1)) by lia. exact Hl.
    + destruct (Z.eqb_spec seen d) as [Heq|Hne]; [lia|].
      destruct (IH (i + 1) seen d) as (p & Hp & Hs & Hc & c' & Hl & Hd);
        [lia|lia|].
      exists (S p). split; [cbn [length]; lia|].
      split; [rewrite Hs; f_equal; lia|]. split.
      * unfold countDigits in *. cbn [take List.filter]. rewrite Ec.
        exact Hc.
      * exists c'. split; [|exact Hd].
        replace (S p - 1)%nat with (S (p - 1)) by lia. exact Hl.
Qed.

(** X24: the cursor follows the digits.  After [processInput] the cursor
    lies within the text shown with as many digits before it as the cursor
    had before it in the input; when there is such a digit, the cursor sits
    right after it, before any comma. *)
Theorem cursor_follows_digits (value : Z) (rawVal : list CodeUnit)
  (selectionStart : option Z) :
  let out := processInput value rawVal selectionStart in
  let digitsBeforeCursor :=
    digitsBefore rawVal (or_default selectionStart 0) in
  0 <= cursor out <= Z.of_nat (length (localVal out))
  /\ digitsBefore (localVal out) (cursor out) = digitsBeforeCursor
  /\ (0 < digitsBeforeCursor ->
      exists c, localVal out !! Z.to_nat (cursor out - 1) = Some c
                /\ isDigit c = true).
Proof.
  intros out d.
  set (ess := or_default selectionStart 0) in *.
  set (formatted := addCommas (List.filter isDigit rawVal)).
  assert (Hd : fold_left (fun n i => if digitAt rawVal i then n + 1 else n)
                 (seqZ 0 ess) 0 = d).
  { unfold d. destruct (Z_lt_le_dec ess 0) as [Hneg|Hpos].
    - rewrite seqZ_nil by lia. unfold digitsBefore.
      rewrite Z2Nat.nonpos by lia. reflexivity.
    - rewrite <- (Z2Nat.id ess) by lia. apply digitsBeforeCursor_fold. }
  assert (Hd0 : 0 <= d) by (unfold d, digitsBefore, countDigits; lia).
  assert (Hdn : d <= countDigits formatted).
  { assert (Hn : countDigits formatted = countDigits rawVal).
    { unfold formatted, countDigits.
      rewrite filter_isDigit_addCommas by apply filter_isDigit_digits.
      reflexivity. }
    rewrite Hn. apply countDigits_take_le. }
  assert (Hout : out
                 = let '(newCursorPos, digitsSeen) := scanCursor formatted 0 0 d
                   in
                   {| localVal := formatted;
                      cursor :=
                        (if digitsSeen <? d then Z.of_nat (length formatted)
                         else if d =? 0 then 0 else newCursorPos);
                      changed := changed out |}).
  { unfold out, processInput. cbv zeta. fold ess. rewrite Hd.
    fold formatted. destruct (scanCursor formatted 0 0 d). reflexivity. }
  rewrite Hout. clear Hout.
  destruct (Z.eq_dec d 0) as [Hz|Hnz].
  - pose proof (scanCursor_seen formatted 0 0 d) as Hseen.
    destruct (scanCursor formatted 0 0 d) as [pos seen]. cbn [snd] in Hseen.
    cbn [localVal cursor].
    destruct (Z.ltb_spec seen d); [lia|].
    destruct (Z.eqb_spec d 0); [|lia].
    split; [lia|]. split; [rewrite Hz; reflexivity|]. lia.
  - destruct (scanCursor_spec formatted 0 0 d) as (p & Hp & Hs & Hc & c & Hl & Hdig);
      [lia|lia|].
    rewrite Hs. cbn [localVal cursor].
    destruct (Z.ltb_spec d d); [lia|].
    destruct (Z.eqb_spec d 0); [lia|].
    split; [lia|]. split.
    + unfold digitsBefore. rewrite Z.add_0_l, Nat2Z.id, Hc. lia.
    + intros _. exists c. split; [|exact Hdig].
      replace (Z.to_nat (0 + Z.of_nat p - 1)) with (p - 1)%nat by lia.
      exact Hl.
Qed.

(* ===================================================================== *)
(** ** Days and weeks *)
(* ===================================================================== *)

(** Day overflow moves to another month, not to another day. *)
Lemma rollDays_dayNumber (fuel : nat) : forall k d,
  daysBeforeMonth (fst (rollDays fuel k d)) + snd (rollDays fuel k d)
  = daysBeforeMonth k + d.
Proof.
  induction fuel as [|fuel IH]; intros k d; cbn [rollDays fst snd];
    [reflexivity|].
  destruct (d <? 1).
  - rewrite IH. pose proof (daysBeforeMonth_succ (k - 1)) as H.
    replace (k - 1 + 1) with k in H by lia. lia.
  - destruct (daysInMonthIndex k <? d); [|reflexivity].
    rewrite IH. pose proof (daysBeforeMonth_succ k). lia.
Qed.

Lemma setDate_dayNumber (d : Date) (day : Z) :
  dayNumber (setDate d day) = daysBeforeMonth (monthIndex d) + day - 1.
Proof.
  unfold setDate, dayNumber. cbn [monthIndex dayOfMonth].
  pose proof (rollDays_dayNumber (rollFuel day) (monthIndex d) day). lia.
Qed.

Lemma setDate_valid (d : Date) (day : Z) :
  0 <= timeOfDay d < 86400000 -> validDate (setDate d day).
Proof.
  intros Ht. unfold validDate, setDate. cbn [monthIndex dayOfMonth timeOfDay].
  split; [apply rollDays_normal|exact Ht].
Qed.

(** [d.setDate(d.getDate() + n)] is the day [n] days later. *)
Lemma setDate_shift (d : Date) (n : Z) :
  dayNumber (setDate d (getDate d + n)) = dayNumber d + n.
Proof. rewrite setDate_dayNumber. unfold dayNumber, getDate. lia. Qed.

(** A date is its day number and its time of day. *)
Lemma date_eq_dayNumber (a b : Date) :
  validDate a -> validDate b ->
  dayNumber a = dayNumber b -> timeOfDay a = timeOfDay b -> a = b.
Proof.
  intros Ha Hb Hn Ht.
  assert (H1 : Date_ltb a b = false).
  { destruct (Date_ltb a b) eqn:E; [|reflexivity].
    apply (localTime_lt_iff a b Ha Hb) in E. unfold localTime in E. lia. }
  assert (H2 : Date_ltb b a = false).
  { destruct (Date_ltb b a) eqn:E; [|reflexivity].
    apply (localTime_lt_iff b a Hb Ha) in E. unfold localTime in E. lia. }
  destruct a as [ka da ta], b as [kb db tb].
  cbn [timeOfDay] in Ht. subst tb.
  assert (Hk : ka = kb).
  { destruct (Z.lt_trichotomy ka kb) as [Hlt|[Heq|Hgt]]; [|exact Heq|].
    - assert (Date_ltb (mkDate ka da ta) (mkDate kb db ta) = true)
        by (apply Date_ltb_lt; cbn [monthIndex]; lia). congruence.
    - assert (Date_ltb (mkDate kb db ta) (mkDate ka da ta) = true)
        by (apply Date_ltb_lt; cbn [monthIndex]; lia). congruence. }
  subst kb. unfold dayNumber in Hn. cbn [monthIndex dayOfMonth] in Hn.
  f_equal. lia.
Qed.

Lemma dateOfDay_spec (n : Z) :
  validDate (dateOfDay n) /\ dayNumber (dateOfDay n) = n
  /\ timeOfDay (dateOfDay n) = 0.
Proof.
  unfold dateOfDay. split; [apply setDate_valid; cbn; lia|].
  split; [|reflexivity].
  rewrite setDate_dayNumber. cbn [monthIndex].
  change (daysBeforeMonth (1970 * 12)) with 0. lia.
Qed.

(** A date at local midnight is the day of its day number. *)
Lemma dateOfDay_dayNumber (d : Date) :
  validDate d -> timeOfDay d = 0 -> d = dateOfDay (dayNumber d).
Proof.
  intros Hv Ht. destruct (dateOfDay_spec (dayNumber d)) as (Hv' & Hn & Ht').
  apply date_eq_dayNumber; [assumption| assumption|lia|lia].
Qed.

Lemma setDate_dateOfDay (n m : Z) :
  setDate (dateOfDay n) (getDate (dateOfDay n) + m) = dateOfDay (n + m).
Proof.
  destruct (dateOfDay_spec n) as (Hv & Hn & Ht).
  destruct (dateOfDay_spec (n + m)) as (Hv' & Hn' & Ht').
  apply date_eq_dayNumber.
  - apply setDate_valid. rewrite Ht. lia.
  - exact Hv'.
  - rewrite setDate_shift. lia.
  - cbn [setDate timeOfDay]. lia.
Qed.

(** Dates at local midnight compare as their day numbers. *)
Lemma dateOfDay_leb (n m : Z) :
  Date_leb (dateOfDay n) (dateOfDay m) = (n <=? m).
Proof.
  destruct (dateOfDay_spec n) as (Hv & Hn & Ht).
  destruct (dateOfDay_spec m) as (Hv' & Hn' & Ht').
  apply eq_true_iff_eq. rewrite (localTime_le_iff _ _ Hv Hv'), Z.leb_le.
  unfold localTime. rewrite Ht, Ht', Hn, Hn'. lia.
Qed.

Lemma dateOfDay_ltb (n m : Z) :
  Date_ltb (dateOfDay n) (dateOfDay m) = (n <? m).
Proof.
  destruct (dateOfDay_spec n) as (Hv & Hn & Ht).
  destruct (dateOfDay_spec m) as (Hv' & Hn' & Ht').
  apply eq_true_iff_eq. rewrite (localTime_lt_iff _ _ Hv Hv'), Z.ltb_lt.
  unfold localTime. rewrite Ht, Ht', Hn, Hn'. lia.
Qed.

(** The loop starts from the Monday on or before the start of the term. *)
Lemma firstMonday_spec (start : Date) :
  validDate start -> timeOfDay start = 0 ->
  firstMonday start
  = dateOfDay (dayNumber start - (getDay start + 6) mod 7)
  /\ getDay (firstMonday start) = 1.
Proof.
  intros Hv Ht.
  assert (Hn : dayNumber (firstMonday start)
               = dayNumber start - (getDay start + 6) mod 7).
  { unfold firstMonday. cbv zeta. rewrite setDate_dayNumber.
    unfold getDay, getDate.
    set (n := dayNumber start).
    assert (Hn : n = daysBeforeMonth (monthIndex start) + dayOfMonth start - 1)
      by reflexivity.
    clearbody n.
    destruct (Z.eqb_spec ((n + 4) mod 7) 0);
      Z.div_mod_to_equations; lia. }
  split.
  - rewrite <- Hn. apply dateOfDay_dayNumber.
    + apply setDate_valid. rewrite Ht. lia.
    + unfold firstMonday. cbn [setDate timeOfDay]. exact Ht.
  - unfold getDay at 1. rewrite Hn. unfold getDay.
    Z.div_mod_to_equations; lia.
Qed.

(** The second loop visits the days seven apart up to the end, and ends. *)
Lemma weekStarts_spec (fuel : nat) : forall n e : Z,
  let count := if n <=? e then (e - n) / 7 + 1 else 0 in
  (Z.to_nat count < fuel)%nat ->
  weekStarts fuel (dateOfDay n) (dateOfDay e)
  = Some (map (fun j => dateOfDay (n + 7 * j)) (seqZ 0 count)).
Proof.
  induction fuel as [|fuel IH]; intros n e count Hf; [lia|].
  cbn [weekStarts]. rewrite dateOfDay_leb. revert Hf. unfold count.
  destruct (Z.leb_spec n e) as [Hle|Hgt]; intros Hf; [|reflexivity].
  rewrite setDate_dateOfDay.
  specialize (IH (n + 7) e). cbv zeta in IH.
  assert (Hc : (if n + 7 <=? e then (e - (n + 7)) / 7 + 1 else 0)
               = (e - n) / 7)
    by (destruct (Z.leb_spec (n + 7) e); Z.div_mod_to_equations; lia).
  rewrite Hc in IH. clear Hc. clear count.
  assert (Hq : 0 <= (e - n) / 7) by (Z.div_mod_to_equations; lia).
  rewrite IH by lia.
  f_equal. rewrite (seqZ_cons 0 ((e - n) / 7 + 1)) by lia.
  cbn [map]. rewrite Z.mul_0_r, Z.add_0_r. f_equal.
  replace (Z.pred ((e - n) / 7 + 1)) with ((e - n) / 7) by lia.
  rewrite <- (fmap_add_seqZ 1 0), <- list_fmap_compose.
  apply map_ext. intros j. cbn. f_equal. lia.
Qed.

Lemma setMonth_next (k : Z) :
  setMonth (firstOfMonth k) (getMonth (firstOfMonth k) + 1)
  = firstOfMonth (k + 1).
Proof.
  unfold setMonth, firstOfMonth, getFullYear, getMonth.
  cbn [monthIndex dayOfMonth timeOfDay].
  replace (k / 12 * 12 + (k mod 12 + 1)) with (k + 1)
    by (pose proof (year_month_index k); lia).
  rewrite rollDays_valid_day
    by (pose proof (daysInMonthIndex_bounds (k + 1)); lia).
  reflexivity.
Qed.

(** The first loop visits the months up to that of the end, and ends. *)
Lemma monthsLoop_spec (fuel : nat) : forall (k ke de : Z),
  1 <= de ->
  let count := Z.max 0 (ke - k + 1) in
  (Z.to_nat count < fuel)%nat ->
  monthsLoop fuel (firstOfMonth k) (mkDate ke de 0)
  = Some (map (fun i =>
                 {| dateObj := firstOfMonth (k + i);
                    tm_label := pretty ((k + i) mod 12 + 1) +:+ "月";
                    yearMonth := monthKey ((k + i) / 12) ((k + i) mod 12);
                    weeks := [] |}) (seqZ 0 count)).
Proof.
  induction fuel as [|fuel IH]; intros k ke de Hde count Hf; [lia|].
  cbn [monthsLoop].
  assert (Hleb : Date_leb (firstOfMonth k) (mkDate ke de 0) = (k <=? ke)).
  { apply eq_true_iff_eq. unfold Date_leb.
    rewrite negb_true_iff, Z.leb_le.
    destruct (Date_ltb _ _) eqn:E.
    - apply Date_ltb_lt in E. unfold firstOfMonth in E.
      cbn [monthIndex dayOfMonth timeOfDay] in E. split; [discriminate|lia].
    - split; [intros _|reflexivity].
      destruct (Z_lt_le_dec ke k) as [Hlt|]; [|assumption].
      assert (Date_ltb (mkDate ke de 0) (firstOfMonth k) = true)
        by (apply Date_ltb_lt; unfold firstOfMonth;
            cbn [monthIndex dayOfMonth timeOfDay]; lia).
      congruence. }
  rewrite Hleb. unfold count in *.
  destruct (Z.leb_spec k ke) as [Hle|Hgt].
  - rewrite setMonth_next.
    rewrite (IH (k + 1) ke de Hde) by lia.
    f_equal. rewrite (seqZ_cons 0 (Z.max 0 (ke - k + 1))) by lia.
    cbn [map]. unfold getFullYear, getMonth, firstOfMonth.
    cbn [monthIndex]. rewrite Z.add_0_r. f_equal.
    replace (Z.pred (Z.max 0 (ke - k + 1))) with (Z.max 0 (ke - (k + 1) + 1))
      by lia.
    rewrite <- (fmap_add_seqZ 1 0), <- list_fmap_compose.
    apply map_ext. intros i. cbn [compose].
    replace (k + 1 + i) with (k + (1 + i)) by lia. reflexivity.
  - rewrite Z.max_l by lia. reflexivity.
Qed.

Lemma monthKey_index (k k' : Z) :
  String.eqb (monthKey (k / 12) (k mod 12)) (monthKey (k' / 12) (k' mod 12))
  = (k =? k').
Proof.
  apply eq_true_iff_eq. rewrite String.eqb_eq, Z.eqb_eq. split.
  - intros H. apply monthKey_inj in H; [|apply Z.mod_pos_bound; lia..].
    pose proof (year_month_index k). pose proof (year_month_index k'). lia.
  - intros ->. reflexivity.
Qed.

(** The month of a key is found at its place among the months of the
    term. *)
Lemma findIndex_termMonths (tz : Z) (start : Date) (starts : list Date)
  (k : Z) (n : nat) : forall a : Z,
  findIndex
    (fun m => String.eqb (yearMonth m) (monthKey (k / 12) (k mod 12)))
    (map (termMonth tz start starts) (seqZ a (Z.of_nat n)))
  = if (monthIndex start + a <=? k) && (k <? monthIndex start + a + Z.of_nat n)
    then k - monthIndex start - a else -1.
Proof.
  induction n as [|n IH]; intros a.
  - change (Z.of_nat 0) with 0. rewrite seqZ_nil by lia. cbn [map findIndex].
    destruct (Z.leb_spec (monthIndex start + a) k),
      (Z.ltb_spec k (monthIndex start + a + 0)); cbn [andb];
      try reflexivity; lia.
  - rewrite seqZ_cons by lia. cbn [map findIndex].
    unfold termMonth at 1. cbn [yearMonth]. rewrite monthKey_index.
    replace (Z.pred (Z.of_nat (S n))) with (Z.of_nat n) by lia.
    rewrite IH.
    destruct (Z.eqb_spec (monthIndex start + a) k),
      (Z.leb_spec (monthIndex start + a) k),
      (Z.ltb_spec k (monthIndex start + a + Z.of_nat (S n))),
      (Z.leb_spec (monthIndex start + Z.succ a) k),
      (Z.ltb_spec k (monthIndex start + Z.succ a + Z.of_nat n));
      cbn [andb]; try lia;
      try (destruct (Z.ltb_spec (k - monthIndex start - Z.succ a) 0); lia);
      try reflexivity.
Qed.

(** Filing one more week. *)
Lemma fileWeek_step (tz : Z) (s : Z) (starts : list Date) (w : Date) :
  monthIndex w <= s + 11 ->
  fileWeek tz (firstOfMonth s)
    (map (termMonth tz (firstOfMonth s) starts) (seqZ 0 12)) w
  = map (termMonth tz (firstOfMonth s) (starts ++ [w])) (seqZ 0 12).
Proof.
  intros Hw. set (start := firstOfMonth s).
  assert (Hnew : forall i,
            termMonth tz start (starts ++ [w]) i
            = if filedUnder start i w
              then pushWeek tz w (setDate w (getDate w + 4))
                     (termMonth tz start starts i)
              else termMonth tz start starts i).
  { intros i. unfold termMonth, pushWeek. cbn [weeks dateObj tm_label yearMonth].
    rewrite List.filter_app. cbn [List.filter].
    destruct (filedUnder start i w); [|rewrite app_nil_r; reflexivity].
    unfold numberWeeks. rewrite imap_app, length_imap. cbn [imap].
    rewrite Nat.add_0_r. reflexivity. }
  unfold fileWeek. cbv zeta.
  destruct (Date_geb (setDate w (getDate w + 4)) start) eqn:Egeb.
  - unfold targetMonthIndex. cbv zeta.
    pose proof (findIndex_termMonths tz start starts (monthIndex w) 12 0)
      as Hfind.
    change (getFullYear w) with (monthIndex w / 12).
    change (getMonth w) with (monthIndex w mod 12).
    change (Z.of_nat 12) with 12 in Hfind. rewrite Hfind. clear Hfind.
    change (monthIndex start) with s.
    assert (Htarget : exists j : nat,
              (j < 12)%nat
              /\ (if monthIndex w <? s then Z.of_nat j = 0
                  else monthIndex w = s + Z.of_nat j)
              /\ (if (if (s + 0 <=? monthIndex w)
                         && (monthIndex w <? s + 0 + 12)
                      then monthIndex w - s - 0 else -1) >=? 0
                  then Some (Z.to_nat
                               (if (s + 0 <=? monthIndex w)
                                   && (monthIndex w <? s + 0 + 12)
                                then monthIndex w - s - 0 else -1))
                  else if Date_ltb w start
                       then match map (termMonth tz start starts) (seqZ 0 12)
                            with [] => None | _ => Some 0%nat end
                       else None) = Some j).
    { destruct (Z.leb_spec (s + 0) (monthIndex w)) as [Hge|Hlt].
      - destruct (Z.ltb_spec (monthIndex w) (s + 0 + 12)); [|lia].
        cbn [andb]. destruct (Z.geb_spec (monthIndex w - s - 0) 0); [|lia].
        exists (Z.to_nat (monthIndex w - s)).
        destruct (Z.ltb_spec (monthIndex w) s); [lia|].
        split; [lia|]. split; [lia|]. f_equal. lia.
      - cbn [andb]. destruct (Z.geb_spec (-1) 0); [lia|].
        assert (Date_ltb w start = true) as ->
          by (apply Date_ltb_lt; left; unfold start, firstOfMonth;
              cbn [monthIndex]; lia).
        exists 0%nat. destruct (Z.ltb_spec (monthIndex w) s); [|lia].
        split; [lia|]. split; [lia|]. reflexivity. }
    destruct Htarget as (j & Hj & Hfiled & ->).
    apply list_eq. intros i.
    rewrite list_lookup_alter, !list_lookup_fmap.
    destruct (decide (j = i)) as [->|Hne];
      (destruct (seqZ 0 12 !! i) as [x|] eqn:Ei; [|reflexivity]);
      apply lookup_seqZ in Ei as [-> Hi];
      cbn [fmap option_fmap option_map];
      rewrite Hnew; unfold filedUnder at 1; rewrite Egeb; cbn [andb];
      change (monthIndex start) with s.
    + destruct (Z.ltb_spec (monthIndex w) s).
      * destruct (Z.eqb_spec (0 + Z.of_nat i) 0); [reflexivity|lia].
      * destruct (Z.eqb_spec (monthIndex w) (s + (0 + Z.of_nat i)));
          [reflexivity|lia].
    + destruct (Z.ltb_spec (monthIndex w) s).
      * destruct (Z.eqb_spec (0 + Z.of_nat i) 0); [lia|reflexivity].
      * destruct (Z.eqb_spec (monthIndex w) (s + (0 + Z.of_nat i)));
          [lia|reflexivity].
  - apply map_ext. intros i. rewrite Hnew. unfold filedUnder.
    rewrite Egeb. reflexivity.
Qed.

Lemma fileWeek_fold (tz : Z) (s : Z) (l : list Date) :
  forall starts : list Date,
  Forall (fun w => monthIndex w <= s + 11) l ->
  fold_left (fileWeek tz (firstOfMonth s)) l
    (map (termMonth tz (firstOfMonth s) starts) (seqZ 0 12))
  = map (termMonth tz (firstOfMonth s) (starts ++ l)) (seqZ 0 12).
Proof.
  induction l as [|w l IH]; intros starts Hl; cbn [fold_left].
  - rewrite app_nil_r. reflexivity.
  - inversion Hl as [|? ? Hw Hl']; subst.
    rewrite fileWeek_step by exact Hw. rewrite IH by exact Hl'.
    rewrite <- app_assoc. reflexivity.
Qed.

Lemma monthIndex_mono (a b : Date) :
  validDate a -> validDate b -> dayNumber a <= dayNumber b ->
  monthIndex a <= monthIndex b.
Proof.
  intros [Ha _] [Hb _] Hle.
  destruct (Z_lt_le_dec (monthIndex b) (monthIndex a)) as [Hlt|]; [|assumption].
  pose proof (daysBeforeMonth_lt _ _ Hlt). unfold dayNumber in Hle. lia.
Qed.

Lemma termRange_eq (termYear : Z) :
  let s := (termYear - 1) * 12 + 11 in
  getTermDateRange termYear = (firstOfMonth s, mkDate (s + 11) 30 0)
  /\ 0 <= dayNumber (mkDate (s + 11) 30 0) - dayNumber (firstOfMonth s)
     <= 370.
Proof.
  intros s. split.
  - unfold getTermDateRange. f_equal; [apply newDate_first|].
    rewrite newDate_in_month.
    + f_equal. unfold s. lia.
    + replace (termYear * 12 + 10) with (s + 11) by (unfold s; lia).
      unfold daysInMonthIndex.
      replace ((s + 11) mod 12) with 10
        by (unfold s; Z.div_mod_to_equations; lia).
      cbn. lia.
  - unfold dayNumber, firstOfMonth. cbn [monthIndex dayOfMonth].
    replace (s + 11) with (s + Z.of_nat 11) by lia.
    rewrite daysBeforeMonth_add.
    assert (Hsum : forall l : list Z,
              28 * Z.of_nat (length l) <= sumZ (map daysInMonthIndex l)
              <= 31 * Z.of_nat (length l)).
    { induction l as [|k l IH]; unfold sumZ in *; cbn [map foldr length];
        [lia|]. pose proof (daysInMonthIndex_bounds k). lia. }
    pose proof (Hsum (seqZ s (Z.of_nat 11))) as Hb.
    rewrite length_seqZ in Hb. lia.
Qed.

(** The Mondays that the second loop visits. *)
Lemma termMondays_spec (termYear : Z) :
  let s := (termYear - 1) * 12 + 11 in
  let mondays := termMondays termYear in
  Forall (fun w => getDay w = 1 /\ validDate w /\ timeOfDay w = 0
                   /\ monthIndex w <= s + 11) mondays
  /\ (1 <= length mondays <= 54)%nat.
Proof.
  intros s mondays.
  destruct (termRange_eq termYear) as [Hrange Hlen]. fold s in Hrange, Hlen.
  unfold mondays, termMondays. rewrite Hrange. cbn [fst snd].
  set (n0 := dayNumber (firstOfMonth s)) in *.
  set (ne := dayNumber (mkDate (s + 11) 30 0)) in *.
  set (g := getDay (firstOfMonth s)).
  assert (Hg : g = (n0 + 4) mod 7) by reflexivity.
  clearbody g.
  set (first := n0 - (g + 6) mod 7).
  assert (Hfirst : n0 - 6 <= first <= n0 /\ (first + 4) mod 7 = 1)
    by (unfold first; subst g; Z.div_mod_to_equations; lia).
  split.
  - apply Forall_map, Forall_forall. intros j Hj.
    apply elem_of_seqZ in Hj.
    destruct (dateOfDay_spec (first + 7 * j)) as (Hv & Hn & Ht).
    split; [unfold getDay; rewrite Hn; Z.div_mod_to_equations; lia|].
    split; [exact Hv|]. split; [exact Ht|].
    assert (Hve : validDate (mkDate (s + 11) 30 0)).
    { unfold validDate. cbn [monthIndex dayOfMonth timeOfDay].
      unfold daysInMonthIndex.
      replace ((s + 11) mod 12) with 10
        by (unfold s; Z.div_mod_to_equations; lia).
      cbn. lia. }
    apply (monthIndex_mono _ (mkDate (s + 11) 30 0) Hv Hve).
    rewrite Hn. fold ne. Z.div_mod_to_equations; lia.
  - rewrite length_map, length_seqZ. Z.div_mod_to_equations; lia.
Qed.

(** The array that [getTermMonthsWithWeeks] returns, month by month. *)
Lemma getTermMonthsWithWeeks_closed (timezoneOffset termYear : Z)
  (fuel : nat) :
  (60 <= fuel)%nat ->
  getTermMonthsWithWeeks timezoneOffset fuel termYear
  = Some (map (termMonth timezoneOffset (fst (getTermDateRange termYear))
                 (termMondays termYear)) (seqZ 0 12)).
Proof.
  intros Hfuel.
  destruct (termMondays_spec termYear) as [Hmondays Hcount].
  cbv zeta in Hmondays, Hcount.
  unfold getTermMonthsWithWeeks, termMondays in *.
  destruct (termRange_eq termYear) as [Hrange Hlen].
  set (s := (termYear - 1) * 12 + 11) in *.
  rewrite Hrange in *. cbn [fst snd] in *.
  rewrite (monthsLoop_spec fuel s (s + 11) 30) by lia.
  replace (Z.max 0 (s + 11 - s + 1)) with 12 by lia.
  assert (Hvs : validDate (firstOfMonth s)).
  { unfold validDate, firstOfMonth. cbn [monthIndex dayOfMonth timeOfDay].
    pose proof (daysInMonthIndex_bounds s). lia. }
  assert (Hve : validDate (mkDate (s + 11) 30 0)).
  { unfold validDate. cbn [monthIndex dayOfMonth timeOfDay].
    unfold daysInMonthIndex.
    replace ((s + 11) mod 12) with 10
      by (unfold s; Z.div_mod_to_equations; lia).
    cbn. lia. }
  destruct (firstMonday_spec (firstOfMonth s) Hvs eq_refl) as [-> _].
  rewrite (dateOfDay_dayNumber (mkDate (s + 11) 30 0) Hve eq_refl) at 1.
  set (n0 := dayNumber (firstOfMonth s)) in *.
  set (ne := dayNumber (mkDate (s + 11) 30 0)) in *.
  set (g := getDay (firstOfMonth s)) in *.
  assert (Hg : 0 <= (g + 6) mod 7 < 7) by (apply Z.mod_pos_bound; lia).
  set (first := n0 - (g + 6) mod 7) in *.
  pose proof (weekStarts_spec fuel first ne) as Hweeks. cbv zeta in Hweeks.
  destruct (Z.leb_spec first ne) as [_|Hgt]; [|lia].
  rewrite length_map, length_seqZ in Hcount.
  rewrite Hweeks by lia. clear Hweeks.
  f_equal.
  match goal with |- fold_left _ ?l _ = _ =>
    transitivity
      (fold_left (fileWeek timezoneOffset (firstOfMonth s)) l
         (map (termMonth timezoneOffset (firstOfMonth s) []) (seqZ 0 12)))
  end; [reflexivity|].
  rewrite fileWeek_fold; [reflexivity|].
  eapply Forall_impl; [exact Hmondays|]. cbv beta.
  intros w (_ & _ & _ & Hw). exact Hw.
Qed.

(** X25: the months and weeks of a term.  With enough fuel the loops of
    [getTermMonthsWithWeeks] end and return the twelve months of the term,
    from December of the year before, each with its date, label and month
    key; under a month are filed, numbered from 1 in their order, the weeks
    that start on a Monday of that month, and under the first month also the
    week that starts before the term when its Friday lies in it; every week
    starts on a Monday. *)
Theorem term_months_and_weeks (timezoneOffset termYear : Z) (fuel : nat)
  (i : nat) :
  (60 <= fuel)%nat ->
  (i < 12)%nat ->
  let start := fst (getTermDateRange termYear) in
  let k := (termYear - 1) * 12 + 11 + Z.of_nat i in
  exists months m,
    getTermMonthsWithWeeks timezoneOffset fuel termYear = Some months
    /\ length months = 12%nat
    /\ months !! i = Some m
    /\ dateObj m = firstOfMonth k
    /\ tm_label m = pretty (k mod 12 + 1) +:+ "月"
    /\ yearMonth m = monthKey (k / 12) (k mod 12)
    /\ (forall j week, weeks m !! j = Some week ->
          exists w,
            week = weekOf timezoneOffset w (Z.of_nat j + 1)
            /\ getDay w = 1 /\ validDate w /\ timeOfDay w = 0
            /\ Date_geb (setDate w (getDate w + 4)) start = true
            /\ (monthIndex w = k
                \/ (i = 0%nat /\ monthIndex w < k))).
Proof.
  intros Hfuel Hi start k.
  rewrite (getTermMonthsWithWeeks_closed timezoneOffset termYear fuel Hfuel).
  fold start.
  exists (map (termMonth timezoneOffset start (termMondays termYear))
            (seqZ 0 12)),
    (termMonth timezoneOffset start (termMondays termYear) (Z.of_nat i)).
  destruct (termRange_eq termYear) as [Hrange _]. cbv zeta in Hrange.
  assert (Hs : monthIndex start = (termYear - 1) * 12 + 11)
    by (unfold start; rewrite Hrange; reflexivity).
  split; [reflexivity|].
  split; [rewrite length_map, length_seqZ; reflexivity|].
  split.
  { rewrite list_lookup_fmap, lookup_seqZ_lt by lia. reflexivity. }
  unfold termMonth. cbn [dateObj tm_label yearMonth weeks]. rewrite Hs.
  fold k. split; [reflexivity|]. split; [reflexivity|].
  split; [reflexivity|].
  intros j week Hweek. unfold numberWeeks in Hweek.
  rewrite list_lookup_imap in Hweek.
  destruct (List.filter _ _ !! j) as [w|] eqn:Ew; [|discriminate].
  cbn in Hweek. injection Hweek as <-.
  exists w. split; [reflexivity|].
  apply list_elem_of_lookup_2 in Ew.
  apply list_elem_of_In, filter_In in Ew as [Hin Hfiled].
  apply list_elem_of_In in Hin.
  destruct (termMondays_spec termYear) as [Hmondays _]. cbv zeta in Hmondays.
  rewrite Forall_forall in Hmondays.
  destruct (Hmondays w Hin) as (Hmon & Hv & Ht & _).
  split; [exact Hmon|]. split; [exact Hv|]. split; [exact Ht|].
  unfold filedUnder in Hfiled. apply andb_true_iff in Hfiled as [Hgeb Hidx].
  split; [exact Hgeb|]. rewrite Hs in Hidx.
  destruct (Z.ltb_spec (monthIndex w) ((termYear - 1) * 12 + 11)).
  - right. apply Z.eqb_eq in Hidx. unfold k. lia.
  - left. apply Z.eqb_eq in Hidx. exact Hidx.
Qed.

(** The first weeks of the term of 2025 in Japan: Monday 2 December 2024
    opens December, the week of Monday 25 November is left out. *)
Lemma term_months_and_weeks_witness :
  exists months m,
    getTermMonthsWithWeeks (-540) 60 2025 = Some months
    /\ months !! 0%nat = Some m
    /\ yearMonth m = "2024-12"
    /\ map wk_label (weeks m)
       = ["12/2~6"; "12/9~13"; "12/16~20"; "12/23~27"; "12/30~3"].
Proof.
  destruct (term_months_and_weeks (-540) 2025 60 0 ltac:(lia) ltac:(lia))
    as (months & m & Hm & _ & H0 & _ & _ & Hkey & _).
  exists months, m. split; [exact Hm|]. split; [exact H0|].
  split; [rewrite Hkey; vm_compute; reflexivity|].
  vm_compute in Hm. injection Hm as <-.
  vm_compute in H0. injection H0 as <-. reflexivity.
Defined.

(* ===================================================================== *)
(** ** The start date of a week *)
(* ===================================================================== *)

(** Parsing the ISO date of a local midnight gives the local midnight of
    the UTC day. *)
Lemma parse_toISODate (now : Date) (timezoneOffset : Z) (w : Date) :
  validDate w -> timeOfDay w = 0 ->
  -1440 <= timezoneOffset < 1440 ->
  parseLocalDate now (Some (toISODate timezoneOffset w))
  = setDate w (dayOfMonth w + (if timezoneOffset <? 0 then -1 else 0)).
Proof.
  intros Hv Ht Htz. unfold toISODate. cbv zeta. rewrite Ht.
  assert (Hshift : (0 + timezoneOffset * 60000) / 86400000
                   = if timezoneOffset <? 0 then -1 else 0)
    by (destruct (Z.ltb_spec timezoneOffset 0); Z.div_mod_to_equations; lia).
  rewrite Hshift.
  set (utc := setDate w (dayOfMonth w + (if timezoneOffset <? 0 then -1 else 0))).
  assert (Hvu : validDate utc) by (apply setDate_valid; rewrite Ht; lia).
  cbn [parseLocalDate]. unfold getFullYear, getMonth, getDate.
  replace (monthIndex utc mod 12 + 1 - 1) with (monthIndex utc mod 12) by lia.
  rewrite newDate_in_month
    by (rewrite year_month_index; destruct Hvu as [Hd _]; exact Hd).
  rewrite year_month_index. destruct utc as [ku du tu] eqn:Eu.
  assert (Htu : timeOfDay utc = 0) by (unfold utc; cbn [setDate timeOfDay]; exact Ht).
  rewrite Eu in Htu. cbn [timeOfDay monthIndex dayOfMonth] in *. subst tu.
  reflexivity.
Qed.

(** X26: the start date of a week is its Monday in UTC.  The [startDate]
    under which hours are logged is cut from [toISOString], so that it is
    the Monday on which the week starts where local time is not ahead of
    UTC, and the Sunday before where it is, as in Japan.  There a work log
    of a week whose Monday is the first of a month carries a date of the
    month before, and [getProjectActualCost] counts it in that month and not
    in the month under which the week is filed. *)
Theorem week_start_date_follows_utc (now : Date) (timezoneOffset : Z)
  (w : Date) (p : Project) (log : WorkLog) :
  validDate w -> timeOfDay w = 0 ->
  -1440 <= timezoneOffset < 1440 ->
  weekStartDate log = Some (toISODate timezoneOffset w) ->
  projectId log = proj_id p ->
  let logged := parseLocalDate now (weekStartDate log) in
  validDate logged
  /\ timeOfDay logged = 0
  /\ dayNumber logged
     = dayNumber w - (if timezoneOffset <? 0 then 1 else 0)
  /\ isTargetLog now p (getFullYear w) (getMonth w) log
     = (0 <=? timezoneOffset) || (1 <? dayOfMonth w)
  /\ isTargetLog now p ((monthIndex w - 1) / 12) ((monthIndex w - 1) mod 12)
       log
     = (timezoneOffset <? 0) && (dayOfMonth w =? 1).
Proof.
  intros Hv Ht Htz Hlog Hp logged.
  assert (Hlogged : logged
                    = setDate w (dayOfMonth w
                                 + (if timezoneOffset <? 0 then -1 else 0)))
    by (unfold logged; rewrite Hlog; apply parse_toISODate; assumption).
  assert (Hmonth : monthIndex logged
                   = if (timezoneOffset <? 0) && (dayOfMonth w =? 1)
                     then monthIndex w - 1 else monthIndex w).
  { rewrite Hlogged. destruct Hv as [Hd _].
    destruct (Z.ltb_spec timezoneOffset 0); cbn [andb].
    - destruct (Z.eqb_spec (dayOfMonth w) 1) as [H1|H1].
      + rewrite H1. reflexivity.
      + unfold setDate. rewrite rollDays_valid_day by lia. reflexivity.
    - unfold setDate. rewrite rollDays_valid_day by lia. reflexivity. }
  split; [rewrite Hlogged; apply setDate_valid; rewrite Ht; lia|].
  split; [rewrite Hlogged; cbn [setDate timeOfDay]; exact Ht|].
  split.
  { rewrite Hlogged. rewrite setDate_dayNumber. unfold dayNumber.
    destruct (timezoneOffset <? 0); lia. }
  assert (Htarget : forall k,
            isTargetLog now p (k / 12) (k mod 12) log
            = (monthIndex logged =? k)).
  { intros k. unfold isTargetLog. rewrite Hp, String.eqb_refl. cbn [negb].
    fold logged. apply same_month_index. }
  destruct Hv as [Hd _].
  split.
  - change (getFullYear w) with (monthIndex w / 12).
    change (getMonth w) with (monthIndex w mod 12).
    rewrite Htarget, Hmonth.
    destruct (Z.ltb_spec timezoneOffset 0), (Z.leb_spec 0 timezoneOffset),
      (Z.eqb_spec (dayOfMonth w) 1), (Z.ltb_spec 1 (dayOfMonth w));
      cbn [andb orb]; try lia;
      match goal with |- (?a =? ?b) = _ => destruct (Z.eqb_spec a b) end;
      try reflexivity; lia.
  - rewrite Htarget, Hmonth.
    destruct ((timezoneOffset <? 0) && (dayOfMonth w =? 1));
      match goal with |- (?a =? ?b) = _ => destruct (Z.eqb_spec a b) end;
      try reflexivity; lia.
Qed.

(** Monday 1 September 2025 in Japan: the hours of the week are logged under
    31 August and counted in August. *)
Lemma week_start_date_follows_utc_witness :
  let w := mkDate (2025 * 12 + 8) 1 0 in
  let log := {| log_id := "l1"; projectId := "p1"; taskId := None;
                log_employeeId := "e1";
                weekStartDate := Some (toISODate (-540) w);
                actualHours := 40 |} in
  let p := sampleFlowProject Ordered (Some Milestone) 6000000
             (Some (2025, 1, 1)) (Some (2025, 6, 30))
             (sampleBilling true (Some 50%Q))
             [ {| employeeId := "e1"; utilizationRate := 50 |} ] in
  getDay w = 1
  /\ weekStartDate log = Some (2025, 8, 31)
  /\ isTargetLog sampleNow p 2025 8 log = false
  /\ isTargetLog sampleNow p 2025 7 log = true.
Proof.
  intros w log p. split; [reflexivity|]. split; [reflexivity|].
  assert (Hv : validDate w) by (vm_compute; repeat split; discriminate).
  destruct (week_start_date_follows_utc sampleNow (-540) w p log Hv eq_refl
              ltac:(lia) eq_refl eq_refl) as (_ & _ & _ & H4 & H5).
  split; [exact (eq_trans H4 eq_refl)|exact (eq_trans H5 eq_refl)].
Defined.

(* ===================================================================== *)
(** ** No week is lost *)
(* ===================================================================== *)

Lemma flat_map_nil_all {A B : Type} (f : A -> list B) (l : list A) :
  (forall x, x ∈ l -> f x = []) -> List.flat_map f l = [].
Proof.
  induction l as [|x l IH]; intros H; cbn [List.flat_map]; [reflexivity|].
  rewrite (H x) by (left). rewrite IH by (intros; apply H; right; auto).
  reflexivity.
Qed.

Lemma flat_map_ext_elem {A B : Type} (f g : A -> list B) (l : list A) :
  (forall x, x ∈ l -> f x = g x) -> List.flat_map f l = List.flat_map g l.
Proof.
  induction l as [|x l IH]; intros H; cbn [List.flat_map]; [reflexivity|].
  rewrite (H x) by (left). rewrite IH by (intros; apply H; right; auto).
  reflexivity.
Qed.

(** A list whose elements come by increasing bucket is the concatenation of
    its buckets. *)
Lemma flat_map_buckets {A : Type} (b : A -> Z) (n : Z) (l : list A) :
  (forall x, x ∈ l -> 0 <= b x < n) ->
  (forall l1 l2 x y, l = l1 ++ x :: l2 -> y ∈ l1 -> b y <= b x) ->
  List.flat_map (fun i => List.filter (fun x => b x =? i) l) (seqZ 0 n) = l.
Proof.
  induction l as [|x l IH] using rev_ind; intros Hrange Hsorted.
  - apply flat_map_nil_all. reflexivity.
  - assert (Hx : 0 <= b x < n)
      by (apply Hrange, elem_of_app; right; left).
    assert (Hle : forall y, y ∈ l -> b y <= b x)
      by (intros y Hy; apply (Hsorted l [] x y); [reflexivity|exact Hy]).
    assert (IH' : List.flat_map
                    (fun i => List.filter (fun x => b x =? i) l) (seqZ 0 n)
                  = l).
    { apply IH.
      - intros y Hy. apply Hrange, elem_of_app. left. exact Hy.
      - intros l1 l2 z y Hl Hy. apply (Hsorted l1 (l2 ++ [x]) z y); [|exact Hy].
        rewrite Hl, <- app_assoc. reflexivity. }
    replace n with (b x + (1 + (n - b x - 1))) in * by lia.
    rewrite seqZ_app, seqZ_app in * by lia.
    rewrite !flat_map_app in *.
    change (seqZ (0 + b x) 1) with [0 + b x] in *.
    cbn [List.flat_map] in *. rewrite !app_nil_r in *.
    assert (Hlow : List.flat_map
                     (fun i => List.filter (fun x0 => b x0 =? i) (l ++ [x]))
                     (seqZ 0 (b x))
                   = List.flat_map
                       (fun i => List.filter (fun x0 => b x0 =? i) l)
                       (seqZ 0 (b x))).
    { apply flat_map_ext_elem. intros i Hi.
      apply elem_of_seqZ in Hi.
      rewrite List.filter_app. cbn [List.filter].
      destruct (Z.eqb_spec (b x) i); [lia|]. apply app_nil_r. }
    assert (Hhigh : forall l',
              (forall y, y ∈ l' -> b y <= b x) ->
              List.flat_map
                (fun i => List.filter (fun x0 => b x0 =? i) l')
                (seqZ (0 + b x + 1) (n - b x - 1)) = []).
    { intros l' Hl'. apply flat_map_nil_all. intros i Hi.
      apply elem_of_seqZ in Hi.
      induction l' as [|y l' IHl']; [reflexivity|]. cbn [List.filter].
      assert (b y <= b x) by (apply Hl'; left).
      destruct (Z.eqb_spec (b y) i); [lia|].
      apply IHl'. intros z Hz. apply Hl'. right. exact Hz. }
    rewrite Hlow, (Hhigh (l ++ [x])).
    + rewrite (Hhigh l Hle) in IH'. rewrite app_nil_r in *.
      rewrite List.filter_app. cbn [List.filter].
      rewrite Z.add_0_l, Z.eqb_refl, app_assoc.
      rewrite Z.add_0_l in IH'. rewrite IH'. reflexivity.
    + intros y Hy. apply elem_of_app in Hy as [Hy|Hy]; [apply Hle; exact Hy|].
      apply list_elem_of_singleton in Hy. subst y. lia.
Qed.

Lemma map_startDate_numberWeeks (tz : Z) (l : list Date) :
  map startDate (numberWeeks tz l) = map (toISODate tz) l.
Proof.
  unfold numberWeeks. apply list_eq. intros i.
  rewrite !list_lookup_fmap, list_lookup_imap.
  destruct (l !! i); reflexivity.
Qed.

Lemma filter_andb {A : Type} (f g : A -> bool) (l : list A) :
  List.filter (fun x => f x && g x) l = List.filter g (List.filter f l).
Proof.
  induction l as [|x l IH]; cbn [List.filter]; [reflexivity|].
  destruct (f x); cbn [andb List.filter]; [|exact IH].
  destruct (g x); rewrite IH; reflexivity.
Qed.

(** X27: no week is lost or filed twice.  Read month after month, the start
    dates of the weeks of [getTermMonthsWithWeeks] are those of the Mondays
    from the one on or before the first day of the term to the last one not
    after its end, seven days apart and in order, without the first when its
    Friday is before the term. *)
Theorem term_weeks_in_order (timezoneOffset termYear : Z) (fuel : nat) :
  (60 <= fuel)%nat ->
  let start := fst (getTermDateRange termYear) in
  exists months,
    getTermMonthsWithWeeks timezoneOffset fuel termYear = Some months
    /\ List.flat_map (fun m => map startDate (weeks m)) months
       = map (toISODate timezoneOffset)
           (List.filter (fridayInTerm start) (termMondays termYear))
    /\ Forall (fun w => getDay w = 1) (termMondays termYear)
    /\ (forall j a b, termMondays termYear !! j = Some a ->
          termMondays termYear !! S j = Some b ->
          dayNumber b = dayNumber a + 7).
Proof.
  intros Hfuel start.
  rewrite (getTermMonthsWithWeeks_closed timezoneOffset termYear fuel Hfuel).
  fold start. eexists. split; [reflexivity|].
  destruct (termMondays_spec termYear) as [Hmondays _]. cbv zeta in Hmondays.
  destruct (termRange_eq termYear) as [Hrange _]. cbv zeta in Hrange.
  set (s := (termYear - 1) * 12 + 11) in *.
  assert (Hs : monthIndex start = s)
    by (unfold start; rewrite Hrange; reflexivity).
  assert (Hstep : forall j a b, termMondays termYear !! j = Some a ->
            termMondays termYear !! S j = Some b ->
            dayNumber b = dayNumber a + 7).
  { unfold termMondays. intros j a b Ha Hb.
    rewrite list_lookup_fmap in Ha, Hb.
    destruct (seqZ _ _ !! j) as [x|] eqn:Ex; [|discriminate].
    destruct (seqZ _ _ !! S j) as [y|] eqn:Ey; [|discriminate].
    apply lookup_seqZ in Ex as [-> _]. apply lookup_seqZ in Ey as [-> _].
    cbn in Ha, Hb. injection Ha as <-. injection Hb as <-.
    pose proof (fun n => proj1 (proj2 (dateOfDay_spec n))) as Hdn.
    rewrite !Hdn. lia. }
  split; [|split; [|exact Hstep]].
  2:{ eapply Forall_impl; [exact Hmondays|]. cbv beta. intros w Hw.
      apply Hw. }
  rewrite flat_map_concat_map, map_map, <- flat_map_concat_map.
  set (bucket := fun w : Date =>
                   if monthIndex w <? s then 0 else monthIndex w - s).
  rewrite (flat_map_ext_elem _
             (fun i => map (toISODate timezoneOffset)
                         (List.filter (fun w => bucket w =? i)
                            (List.filter (fridayInTerm start)
                               (termMondays termYear))))).
  - set (filed := List.filter (fridayInTerm start) (termMondays termYear)).
    transitivity
      (map (toISODate timezoneOffset)
         (List.flat_map
            (fun i => List.filter (fun w => bucket w =? i) filed)
            (seqZ 0 12))).
    { generalize (seqZ 0 12). intros idxs.
      induction idxs as [|i idxs IH]; cbn [List.flat_map map];
        [reflexivity|]. rewrite map_app, IH. reflexivity. }
    f_equal. unfold filed. apply flat_map_buckets.
    + intros w Hw. apply list_elem_of_In, filter_In in Hw as [Hw _].
      apply list_elem_of_In in Hw. rewrite Forall_forall in Hmondays.
      destruct (Hmondays w Hw) as (_ & _ & _ & Hk). unfold bucket.
      destruct (Z.ltb_spec (monthIndex w) s); lia.
    + intros l1 l2 x y Hl Hy.
      assert (Hsorted : forall l1 l2 x y,
                termMondays termYear = l1 ++ x :: l2 -> y ∈ l1 ->
                dayNumber y <= dayNumber x).
      { clear - Hstep. intros l1. induction l1 as [|z l1 IHl1] using rev_ind;
          intros l2 x y Hl Hy; [inversion Hy|].
        apply elem_of_app in Hy as [Hy|Hy].
        - assert (dayNumber z <= dayNumber x).
          { rewrite (Hstep (length l1) z x); [lia| |].
            - rewrite Hl, <- app_assoc. apply list_lookup_middle. reflexivity.
            - rewrite Hl. replace (S (length l1)) with (length (l1 ++ [z]))
                by (rewrite length_app; cbn; lia).
              apply list_lookup_middle. reflexivity. }
          assert (dayNumber y <= dayNumber z); [|lia].
          apply (IHl1 ([x] ++ l2) z y); [|exact Hy].
          rewrite Hl, <- !app_assoc. reflexivity.
        - apply list_elem_of_singleton in Hy. subst y.
          rewrite (Hstep (length l1) z x); [lia| |].
          + rewrite Hl, <- app_assoc. apply list_lookup_middle. reflexivity.
          + rewrite Hl. replace (S (length l1)) with (length (l1 ++ [z]))
              by (rewrite length_app; cbn; lia).
            apply list_lookup_middle. reflexivity. }
      assert (Hsub : exists m1 m2,
                termMondays termYear = m1 ++ x :: m2
                /\ forall z, z ∈ l1 -> z ∈ m1).
      { clear - Hl. revert l1 l2 x Hl.
        induction (termMondays termYear) as [|w ws IH]; intros l1 l2 x Hl.
        - cbn in Hl. destruct l1; discriminate.
        - cbn [List.filter] in Hl.
          destruct (fridayInTerm start w).
          + destruct l1 as [|z l1]; cbn in Hl.
            * injection Hl as -> _. exists [], ws. split; [reflexivity|].
              intros z Hz. inversion Hz.
            * injection Hl as -> Hl.
              destruct (IH l1 l2 x Hl) as (m1 & m2 & -> & Hin).
              exists (z :: m1), m2. split; [reflexivity|].
              intros y Hy. apply elem_of_cons in Hy as [->|Hy];
                [left|right; apply Hin; exact Hy].
          + destruct (IH l1 l2 x Hl) as (m1 & m2 & -> & Hin).
            exists (w :: m1), m2. split; [reflexivity|].
            intros y Hy. right. apply Hin. exact Hy. }
      destruct Hsub as (m1 & m2 & Hm & Hin).
      pose proof (Hsorted m1 m2 x y Hm (Hin y Hy)) as Hdn.
      rewrite Forall_forall in Hmondays.
      assert (Hx : x ∈ termMondays termYear)
        by (rewrite Hm; apply elem_of_app; right; left).
      assert (Hy' : y ∈ termMondays termYear)
        by (rewrite Hm; apply elem_of_app; left; apply Hin; exact Hy).
      destruct (Hmondays x Hx) as (_ & Hvx & _ & _).
      destruct (Hmondays y Hy') as (_ & Hvy & _ & _).
      pose proof (monthIndex_mono y x Hvy Hvx Hdn). unfold bucket.
      destruct (Z.ltb_spec (monthIndex y) s), (Z.ltb_spec (monthIndex x) s);
        lia.
  - intros i _. unfold termMonth. cbn [weeks].
    rewrite map_startDate_numberWeeks. f_equal.
    rewrite <- filter_andb. apply filter_ext. intros w.
    unfold filedUnder, fridayInTerm, bucket. rewrite Hs. f_equal.
    destruct (Z.ltb_spec (monthIndex w) s).
    + apply eq_true_iff_eq. rewrite !Z.eqb_eq. lia.
    + apply eq_true_iff_eq. rewrite !Z.eqb_eq. lia.
Qed.

(** The term of 2025 in a zone behind UTC: 52 weeks, from Monday 2 December
    2024 (the week of 25 November is left out) to Monday 24 November
    2025. *)
Lemma term_weeks_in_order_witness :
  exists months,
    getTermMonthsWithWeeks 300 60 2025 = Some months
    /\ length (List.flat_map (fun m => map startDate (weeks m)) months)
       = 52%nat
    /\ head (List.flat_map (fun m => map startDate (weeks m)) months)
       = Some (2024, 12, 2)
    /\ last (List.flat_map (fun m => map startDate (weeks m)) months)
       = Some (2025, 11, 24).
Proof.
  destruct (term_weeks_in_order 300 2025 60 ltac:(lia))
    as (months & Hm & _).
  exists months. split; [exact Hm|].
  vm_compute in Hm. injection Hm as <-.
  split; [reflexivity|]. split; reflexivity.
Defined.

(* ===================================================================== *)
(** ** The monthly sales targets *)
(* ===================================================================== *)

Lemma projectionLoop_date (now : Date) (projects : list Project)
  (employees : list Employee) (workLogs : list WorkLog) (termStart : Date)
  (settings : AppSettings) (idxs : list Z) : forall c : Z,
  map date
    (projectionLoop now projects employees workLogs termStart settings idxs c)
  = map (projectionDate termStart) idxs.
Proof.
  induction idxs as [|i idxs IH]; intros c; [reflexivity|].
  cbn [projectionLoop map]. rewrite IH. reflexivity.
Qed.

(** A table filled key by key from the keys alone holds, for each key met,
    the value of that key. *)
Lemma fold_insert_lookup {A : Type} (f : A -> string) (G : string -> Z)
  (l : list A) (k : string) : forall m0 : gmap string Z,
  fold_left (fun m x => <[f x := G (f x)]> m) l m0 !! k
  = if existsb (fun x => String.eqb (f x) k) l then Some (G k) else m0 !! k.
Proof.
  induction l as [|x l IH]; intros m0; cbn [fold_left existsb];
    [reflexivity|].
  rewrite IH. destruct (existsb _ l); cbn [orb].
  - rewrite orb_true_r. reflexivity.
  - rewrite orb_false_r. destruct (String.eqb_spec (f x) k) as [->|Hne].
    + rewrite lookup_insert_eq. reflexivity.
    + rewrite lookup_insert_ne by exact Hne. reflexivity.
Qed.

(** X28: saving the monthly sales targets.  After the modal of the monthly
    targets is opened, the target of one month of the term set to [val] and
    the targets saved, the projection computed from the new settings shows
    [val] as the target of that month when [val] is not 0; a target of 0 is
    not kept: the month falls back to the flat monthly target of the
    settings.  The targets of the other months are as before. *)
Theorem sales_target_round_trip (now : Date) (projects : list Project)
  (employees : list Employee) (workLogs : list WorkLog)
  (settings : AppSettings) (currentTerm : Z) (j : nat) (val : Z) (i : nat)
  (r r' : Projection) :
  (j < 12)%nat ->
  let k := (currentTerm - 1) * 12 + 11 + Z.of_nat j in
  let settings' :=
    Dashboard.handleSaveTargets settings
      (Dashboard.setMonthlyTarget
         (Dashboard.initModal now projects employees workLogs settings
            currentTerm)
         (monthKey (k / 12) (k mod 12)) val) in
  Dashboard.data now projects employees workLogs settings currentTerm !! i
  = Some r ->
  Dashboard.data now projects employees workLogs settings' currentTerm !! i
  = Some r' ->
  target r'
  = if (i =? j)%nat
    then (if val =? 0 then or_default (monthlySalesTarget settings) 0
          else val)
    else target r.
Proof.
  intros Hj k settings' Hr Hr'.
  unfold Dashboard.data in Hr, Hr'.
  destruct (projectionLoop_lookup _ _ _ _ _ _ _ _ _ _ Hr)
    as (c & x & Hx & ->).
  destruct (projectionLoop_lookup _ _ _ _ _ _ _ _ _ _ Hr')
    as (c' & x' & Hx' & ->).
  assert (x' = x) as -> by congruence.
  apply lookup_seqZ in Hx as [-> Hi]. clear Hx' Hr Hr'.
  cbn [target monthProjection].
  rewrite projectionDate_eq, termStart_eq. unfold firstOfMonth at 1 2 3 4.
  cbn [monthIndex getFullYear getMonth].
  set (ki := (currentTerm - 1) * 12 + 11 + (0 + Z.of_nat i)).
  change (getFullYear (firstOfMonth ki)) with (ki / 12).
  change (getMonth (firstOfMonth ki)) with (ki mod 12).
  cbn [monthlySalesTarget salesTargets settings' Dashboard.handleSaveTargets
       withSalesTargets].
  unfold settings', Dashboard.handleSaveTargets, withSalesTargets.
  cbn [monthlySalesTarget salesTargets].
  set (fb := or_default (monthlySalesTarget settings) 0).
  set (old := salesTargets settings).
  assert (Hinit : Dashboard.initModal now projects employees workLogs settings
                    currentTerm !! monthKey (ki / 12) (ki mod 12)
                  = Some (or_default (old !! monthKey (ki / 12) (ki mod 12)) 0)).
  { unfold Dashboard.initModal.
    rewrite (fold_insert_lookup
               (fun d => monthKey (getFullYear (date d)) (getMonth (date d)))
               (fun key => or_default (old !! key) 0)).
    rewrite lookup_empty.
    assert (Hex : existsb
                    (fun d => String.eqb
                                (monthKey (getFullYear (date d))
                                   (getMonth (date d)))
                                (monthKey (ki / 12) (ki mod 12)))
                    (Dashboard.data now projects employees workLogs settings
                       currentTerm) = true).
    { apply existsb_exists.
      destruct (lookup_lt_is_Some_2
                  (Dashboard.data now projects employees workLogs settings
                     currentTerm) i) as [d Hd].
      { unfold Dashboard.data. rewrite generateProjections_length. lia. }
      exists d. split; [apply list_elem_of_In, (list_elem_of_lookup_2 _ i); exact Hd|].
      unfold Dashboard.data in Hd.
      destruct (projectionLoop_lookup _ _ _ _ _ _ _ _ _ _ Hd)
        as (c0 & x0 & Hx0 & ->).
      apply lookup_seqZ in Hx0 as [-> _].
      cbn [date monthProjection]. rewrite projectionDate_eq, termStart_eq.
      unfold firstOfMonth at 1. cbn [monthIndex].
      apply String.eqb_eq. reflexivity. }
    rewrite Hex. reflexivity. }
  unfold Dashboard.setMonthlyTarget.
  destruct (Nat.eqb_spec i j) as [->|Hne].
  - replace ki with k by (unfold ki, k; lia).
    rewrite (lookup_union_Some_l _ _ _ val) by apply lookup_insert_eq.
    unfold or_default at 1. reflexivity.
  - assert (Hkey : monthKey (k / 12) (k mod 12)
                   <> monthKey (ki / 12) (ki mod 12)).
    { intros Hk. apply String.eqb_eq in Hk. rewrite monthKey_index in Hk.
      apply Z.eqb_eq in Hk. unfold k, ki in Hk. lia. }
    rewrite (lookup_union_Some_l _ _ _
               (or_default (old !! monthKey (ki / 12) (ki mod 12)) 0))
      by (rewrite lookup_insert_ne by exact Hkey; exact Hinit).
    change (monthIndex (firstOfMonth ((currentTerm - 1) * 12 + 11))
            + (0 + Z.of_nat i)) with ki.
    change (getFullYear (firstOfMonth ki)) with (ki / 12).
    change (getMonth (firstOfMonth ki)) with (ki mod 12).
    destruct (old !! monthKey (ki / 12) (ki mod 12)) as [v|];
      [|reflexivity].
    unfold or_default. destruct (Z.eqb_spec v 0) as [->|Hv];
      [reflexivity|].
    destruct (Z.eqb_spec v 0); [contradiction|reflexivity].
Qed.

(** With a flat monthly target of 1,000,000, setting the target of March
    2025 to 2,500,000 shows 2,500,000; setting it to 0 shows the flat
    1,000,000. *)
Lemma sales_target_round_trip_witness :
  let saved val :=
    Dashboard.handleSaveTargets sampleLedger
      (Dashboard.setMonthlyTarget
         (Dashboard.initModal sampleNow sampleProjects sampleEmployees
            sampleWorkLogs sampleLedger 2025) "2025-03" val) in
  map target
    (Dashboard.data sampleNow sampleProjects sampleEmployees sampleWorkLogs
       (saved 2500000) 2025) !! 3%nat = Some 2500000
  /\ map target
       (Dashboard.data sampleNow sampleProjects sampleEmployees
          sampleWorkLogs (saved 0) 2025) !! 3%nat = Some 1000000.
Proof.
  intros saved.
  assert (H : forall val,
            map target
              (Dashboard.data sampleNow sampleProjects sampleEmployees
                 sampleWorkLogs (saved val) 2025) !! 3%nat
            = Some (if val =? 0 then 1000000 else val)).
  { intros val. rewrite list_lookup_fmap.
    destruct (Dashboard.data sampleNow sampleProjects sampleEmployees
                sampleWorkLogs (saved val) 2025 !! 3%nat) as [r'|] eqn:E'.
    - destruct (Dashboard.data sampleNow sampleProjects sampleEmployees
                  sampleWorkLogs sampleLedger 2025 !! 3%nat) as [r|] eqn:E;
        [|vm_compute in E; discriminate].
      cbn [fmap option_fmap option_map]. f_equal.
      apply (sales_target_round_trip sampleNow sampleProjects sampleEmployees
               sampleWorkLogs sampleLedger 2025 3 val 3 r r' ltac:(lia) E E').
    - apply lookup_ge_None in E'. unfold Dashboard.data in E'.
      rewrite generateProjections_length in E'. lia. }
  split; [apply (H 2500000)|apply (H 0)].
Defined.
